(** * UIDAI biometric-update analysis toolkit: a shallow embedding

    The toolkit is a set of Python functions over pandas tables
    ([scripts/data_loader.py], [scripts/data_cleaner.py],
    [scripts/analyzer.py], [scripts/statistical_tests.py]).  This file
    embeds the functions the specification talks about and proves (or
    refutes) the specification's statements about them.

    Conventions of the embedding.
    - Where a statement does not turn on a rounding, a float is an exact
      rational and [None] stands for NaN; every comparison with NaN is
      false, as in IEEE arithmetic.  Where it does (a z-score against its
      threshold, the effect size of the analysis of variance), module
      [Doubles] embeds the function over binary64 numbers, with the
      summation algorithms of pandas.
    - A Python exception is a value of [exn]; a function that can raise
      returns a [result].
    - Console output ([print]) is modelled where a statement is about
      it: module [Stdout] holds what the functions that check for a
      column print.
    - pandas, numpy and scipy are outside the repository; the few library
      calls the functions make ([pd.cut], [round], [groupby.agg],
      [merge], [dropna], ...) are written out after the library's
      documented behaviour. *)

From Stdlib Require Import QArith Qround Qabs ZArith List String Ascii Bool.
From Stdlib Require Import Lia Lqa Permutation.
From Stdlib Require Import Reals Qreals Lra Psatz.
From Stdlib Require Import Sorted.
From Stdlib Require Floats.
From stdpp Require Import gmap strings.
Import ListNotations.

Local Open Scope Q_scope.
Local Open Scope string_scope.

(** ** Python results and exceptions *)

Inductive exn : Type :=
| KeyError (key : string)
| ValueError (msg : string)
| TypeError (msg : string)
| IndexError (msg : string)
| ReferenceError (msg : string).

Inductive result (A : Type) : Type :=
| Ok (a : A)
| Raise (e : exn).

Arguments Ok {A} a.
Arguments Raise {A} e.

Definition rbind {A B} (r : result A) (k : A -> result B) : result B :=
  match r with
  | Ok a => k a
  | Raise e => Raise e
  end.

Declare Scope result_scope.
Delimit Scope result_scope with result.
Notation "'let?' x ':=' r 'in' k" := (rbind r (fun x => k))
  (at level 10, x pattern, r at level 100, k at level 200) : result_scope.

Definition raises {A} (r : result A) : bool :=
  match r with
  | Ok _ => false
  | Raise _ => true
  end.

(** Python's [ZeroDivisionError] is raised by the arithmetic on plain
    integers only ([len(a) / len(b)]); numpy's division gives an
    infinity or NaN instead.  The functions that can raise it return an
    [outcome]. *)
Inductive outcome (A : Type) : Type :=
| Returns (a : A)
| Raises (e : exn)
| RaisesZeroDivisionError (msg : string).

Arguments Returns {A} a.
Arguments Raises {A} e.
Arguments RaisesZeroDivisionError {A} msg.

(** ** Numbers

    A numeric cell is [option Q]; [None] is NaN. *)

Definition float : Type := option Q.

Definition Qlt_bool (x y : Q) : bool := negb (Qle_bool y x).

Definition fmap2 (f : Q -> Q -> Q) (x y : float) : float :=
  match x, y with
  | Some a, Some b => Some (f a b)
  | _, _ => None
  end.

Definition fadd : float -> float -> float := fmap2 Qplus.
Definition fsub : float -> float -> float := fmap2 Qminus.
Definition fmul : float -> float -> float := fmap2 Qmult.

(** [x > y] on floats: false as soon as one side is NaN. *)
Definition fgt (x y : float) : bool :=
  match x, y with
  | Some a, Some b => Qlt_bool b a
  | _, _ => false
  end.

(** [x < y] on floats. *)
Definition flt (x y : float) : bool := fgt y x.

(** [x / y]; a zero divisor gives no rational. *)
Definition fdiv (x y : float) : float :=
  match x, y with
  | Some a, Some b => if Qeq_bool b 0 then None else Some (a / b)
  | _, _ => None
  end.

(** Round to the nearest integer, ties to the even one ([numpy.rint]). *)
Definition rint (x : Q) : Z :=
  let f := Qfloor x in
  let r := x - inject_Z f in
  match Qcompare r (1 # 2) with
  | Lt => f
  | Gt => (f + 1)%Z
  | Eq => if Z.even f then f else (f + 1)%Z
  end.

(** [numpy.round(x, 2)]: scale by 100, round, scale back. *)
Definition round2 (x : Q) : Q := inject_Z (rint (x * 100)) / 100.

Definition fround2 (x : float) : float := option_map round2 x.

(** A standard deviation is a square root and a z-score a quotient by
    one: such a float is [c * sqrt r] for rationals [c] and [r >= 0], kept
    exact by keeping [c] and [r].  A division by zero gives an infinity,
    or NaN for 0/0. *)
Inductive rfloat : Type :=
| RNaN
| RInf (positive : bool)
| RSqrt (c r : Q).

(** [sqrt(x)] *)
Definition rsqrt (x : float) : rfloat :=
  match x with
  | Some v => if Qlt_bool v 0 then RNaN else RSqrt 1 v
  | None => RNaN
  end.

(** [x / y] for a rational [x]:
    [x / (c * sqrt r) = (x / (c * r)) * sqrt r]. *)
Definition rdiv (x : float) (y : rfloat) : rfloat :=
  match x, y with
  | None, _ => RNaN
  | _, RNaN => RNaN
  | Some a, RInf _ => RSqrt 0 0
  | Some a, RSqrt c r =>
      if Qeq_bool (c * r) 0
      then (if Qeq_bool a 0 then RNaN else RInf (Qlt_bool 0 a))
      else RSqrt (a / (c * r)) r
  end.

(** [np.abs(x)] *)
Definition rabs (x : rfloat) : rfloat :=
  match x with
  | RNaN => RNaN
  | RInf _ => RInf true
  | RSqrt c r => RSqrt (Qabs c) r
  end.

(** [-x] *)
Definition ropp (x : rfloat) : rfloat :=
  match x with
  | RNaN => RNaN
  | RInf b => RInf (negb b)
  | RSqrt c r => RSqrt (- c) r
  end.

(** [x > t] for a rational [t], by the signs and the squares:
    [(c * sqrt r)^2 = c^2 * r]. *)
Definition rgt (x : rfloat) (t : Q) : bool :=
  match x with
  | RNaN => false
  | RInf b => b
  | RSqrt c r =>
      let sq := c * c * r in
      if Qle_bool 0 c || Qeq_bool r 0
      then (* x >= 0 *) Qlt_bool t 0 || Qlt_bool (t * t) sq
      else (* x < 0 *) Qlt_bool t 0 && Qlt_bool sq (t * t)
  end.

(** [x < t] *)
Definition rlt (x : rfloat) (t : Q) : bool := rgt (ropp x) (- t).

(** ** Tables

    A pandas column carries a dtype; the dtypes the toolkit meets are
    float64/int64 (numbers), object (strings), category (the output of
    [pd.cut]) and bool.  A missing entry is [None].  A float64 column
    of standard deviations or z-scores is a [Float64R]. *)

Inductive Series : Type :=
| Float64 (v : list float)
| Object (v : list (option string))
| Category (categories : list string) (v : list (option string))
| Boolean (v : list bool)
| Float64R (v : list rfloat).

(** [len(s)] *)
Definition series_len (s : Series) : nat :=
  match s with
  | Float64 v => length v
  | Object v => length v
  | Category _ v => length v
  | Boolean v => length v
  | Float64R v => length v
  end.

(** [s.isnull()] *)
Definition is_none {A} (o : option A) : bool :=
  match o with
  | None => true
  | Some _ => false
  end.

Definition isnull (s : Series) : list bool :=
  match s with
  | Float64 v => map is_none v
  | Object v => map is_none v
  | Category _ v => map is_none v
  | Boolean v => map (fun _ => false) v
  | Float64R v => map (fun x => match x with RNaN => true | _ => false end) v
  end.

(** A table: its number of rows (the length of the index) and its
    columns, in order. *)
Record DataFrame : Type := mkDataFrame {
  nrows : nat;
  columns : list (string * Series)
}.

(** [df.columns] *)
Definition column_names (df : DataFrame) : list string := map fst (columns df).

(** [name in df.columns] *)
Definition has_column (df : DataFrame) (name : string) : bool :=
  existsb (String.eqb name) (column_names df).

Fixpoint assoc (name : string) (cols : list (string * Series)) : option Series :=
  match cols with
  | [] => None
  | (n, s) :: rest => if String.eqb name n then Some s else assoc name rest
  end.

(** [df[name]]: raises [KeyError] when there is no such column. *)
Definition getitem (df : DataFrame) (name : string) : result Series :=
  match assoc name (columns df) with
  | Some s => Ok s
  | None => Raise (KeyError name)
  end.

Fixpoint assign (name : string) (s : Series) (cols : list (string * Series))
  : list (string * Series) :=
  match cols with
  | [] => [(name, s)]
  | (n, old) :: rest =>
      if String.eqb name n then (n, s) :: rest else (n, old) :: assign name s rest
  end.

(** [df[name] = s]: replaces the column in place, or appends it. *)
Definition setitem (df : DataFrame) (name : string) (s : Series) : DataFrame :=
  mkDataFrame (nrows df) (assign name s (columns df)).

(** Every column is as long as the index. *)
Definition well_formed (df : DataFrame) : Prop :=
  Forall (fun c => series_len (snd c) = nrows df) (columns df).


(** ** Objects and references

    A Python variable holds a reference to a table; [df.copy()] makes a
    new object, an in-place update changes the object every alias sees.
    The store maps references to tables, and a computation threads the
    store and may raise. *)

Definition ref : Type := nat.

Definition M (A : Type) : Type := gmap ref DataFrame -> result A * gmap ref DataFrame.

Definition ret {A} (a : A) : M A := fun h => (Ok a, h).

Definition throw {A} (e : exn) : M A := fun h => (Raise e, h).

Definition bind {A B} (m : M A) (k : A -> M B) : M B :=
  fun h =>
    match m h with
    | (Ok a, h') => k a h'
    | (Raise e, h') => (Raise e, h')
    end.

Declare Scope heap_scope.
Delimit Scope heap_scope with heap.
Notation "x <- m ;; k" := (bind m (fun x => k))
  (at level 100, m at next level, right associativity) : heap_scope.
Notation "m ;;; k" := (bind m (fun _ => k))
  (at level 100, right associativity) : heap_scope.

(** Read the table a reference points to. *)
Definition deref (r : ref) : M DataFrame :=
  fun h =>
    match h !! r with
    | Some df => (Ok df, h)
    | None => (Raise (ReferenceError "no such object"), h)
    end.

(** A new object holding [df]. *)
Definition new (df : DataFrame) : M ref :=
  fun h => let r := fresh (dom h) in (Ok r, <[r := df]> h).

(** Overwrite the object behind [r] (an in-place update). *)
Definition update (r : ref) (df : DataFrame) : M unit :=
  fun h => (Ok tt, <[r := df]> h).

(** [df.copy()] *)
Definition copy (r : ref) : M ref :=
  (df <- deref r ;; new df)%heap.

Definition lift {A} (r : result A) : M A := fun h => (r, h).

Fixpoint for_each {A} (l : list A) (body : A -> M unit) : M unit :=
  match l with
  | [] => ret tt
  | a :: rest => (body a ;;; for_each rest body)%heap
  end.

(** ** The pandas and numpy calls the toolkit makes *)

Local Open Scope result_scope.

(** [bins.searchsorted(x, side)] on increasing [bins]: the insertion
    point that keeps the order, after the equal entries for
    [side='right'], before them for [side='left'].  NaN sorts after every
    number. *)
Fixpoint insertion_point (after_equal : bool) (bins : list Q) (x : Q) : nat :=
  match bins with
  | [] => 0%nat
  | b :: rest =>
      if (if after_equal then Qle_bool b x else Qlt_bool b x)
      then S (insertion_point after_equal rest x)
      else 0%nat
  end.

Definition searchsorted (bins : list Q) (x : float) (after_equal : bool) : nat :=
  match x with
  | None => length bins
  | Some v => insertion_point after_equal bins v
  end.

(** [bins.is_monotonic_increasing] (not strict). *)
Fixpoint is_monotonic_increasing (bins : list Q) : bool :=
  match bins with
  | a :: (b :: _) as rest => Qle_bool a b && is_monotonic_increasing rest
  | _ => true
  end.

Fixpoint unique_Q (l : list Q) : list Q :=
  match l with
  | [] => []
  | a :: rest => a :: List.filter (fun b => negb (Qeq_bool a b)) (unique_Q rest)
  end.

Fixpoint unique_strings (l : list string) : list string :=
  match l with
  | [] => []
  | a :: rest => a :: List.filter (fun b => negb (String.eqb a b)) (unique_strings rest)
  end.

(** The numbers of a column: a bool column counts as 0/1, a column of
    strings makes the numeric operation raise. *)
Definition numeric_values (s : Series) : result (list float) :=
  match s with
  | Float64 v => Ok v
  | Boolean v => Ok (map (fun b : bool => Some (if b then 1 else 0)) v)
  | Float64R _ =>
      Raise (TypeError "unsupported operand")
  | Object _ | Category _ _ =>
      Raise (TypeError "unsupported operand type(s) for 'float' and 'str'")
  end.

(** The bin index of one value: [ids] of [_bins_to_cuts], with 0 for the
    entries of [na_mask]. *)
Definition bin_id (bins : list Q) (include_lowest right : bool) (x : float) : nat :=
  let side_right := negb right in
  let ids := searchsorted bins x side_right in
  let ids :=
    if include_lowest
    then match x, bins with
         | Some v, b0 :: _ => if Qeq_bool v b0 then 1%nat else ids
         | _, _ => ids
         end
    else ids in
  if is_none x || Nat.eqb ids (length bins) || Nat.eqb ids 0 then 0%nat else ids.

(** [labels.take(ids - 1)]: the label of the bin, nothing for id 0. *)
Definition take_label (labels : list string) (id : nat) : option string :=
  match id with
  | O => None
  | S i => nth_error labels i
  end.

(** [pd.cut(x, bins=bins, labels=labels, include_lowest=..., right=...)]
    for a list of bin edges and a list of labels. *)
Definition cut (x : Series) (bins : list Q) (labels : list string)
    (include_lowest right : bool) : result Series :=
  let? v := numeric_values x in
  if negb (is_monotonic_increasing bins)
  then Raise (ValueError "bins must increase monotonically.")
  else if Nat.ltb (length (unique_Q bins)) (length bins)
          && negb (Nat.eqb (length bins) 2)
  then Raise (ValueError "Bin edges must be unique")
  else if Nat.eqb (length bins) 0 && include_lowest
  then Raise (IndexError "index 0 is out of bounds for axis 0 with size 0")
  else if negb (Nat.eqb (length (unique_strings labels)) (length labels))
  then Raise (ValueError "labels must be unique if ordered=True; pass ordered=False for duplicate labels")
  else if negb (Nat.eqb (length labels) (length bins - 1))
  then Raise (ValueError "Bin labels must be one fewer than the number of bin edges")
  else Ok (Category labels
             (map (fun c => take_label labels (bin_id bins include_lowest right c)) v)).

Definition count_true (l : list bool) : nat :=
  length (List.filter (fun b : bool => b) l).

(** [count / len(df) * 100]; with no rows the quotient is 0/0. *)
Definition percent_of (count len : nat) : float :=
  match len with
  | O => None
  | S _ => Some (inject_Z (Z.of_nat count) / inject_Z (Z.of_nat len) * 100)
  end.

Definition select {A} (mask : list bool) (l : list A) : list A :=
  map snd (List.filter (fun p : bool * A => fst p) (combine mask l)).

Definition series_select (mask : list bool) (s : Series) : Series :=
  match s with
  | Float64 v => Float64 (select mask v)
  | Object v => Object (select mask v)
  | Category c v => Category c (select mask v)
  | Boolean v => Boolean (select mask v)
  | Float64R v => Float64R (select mask v)
  end.

(** [df[mask]] for a row mask. *)
Definition select_rows (mask : list bool) (df : DataFrame) : DataFrame :=
  mkDataFrame (count_true mask)
    (map (fun c : string * Series => (fst c, series_select mask (snd c))) (columns df)).

(** Row [i] has no missing entry. *)
Definition row_complete (df : DataFrame) (i : nat) : bool :=
  forallb (fun c : string * Series => negb (nth i (isnull (snd c)) false)) (columns df).

(** [df.dropna()] *)
Definition dropna (df : DataFrame) : DataFrame :=
  select_rows (map (row_complete df) (seq 0 (nrows df))) df.

(** [df.drop(columns=names)] for names that are columns of [df]. *)
Definition drop_columns (names : list string) (df : DataFrame) : DataFrame :=
  mkDataFrame (nrows df)
    (List.filter (fun c : string * Series => negb (existsb (String.eqb (fst c)) names))
            (columns df)).

Fixpoint somes {A} (l : list (option A)) : list A :=
  match l with
  | [] => []
  | Some a :: rest => a :: somes rest
  | None :: rest => somes rest
  end.

Definition count_string (x : string) (l : list string) : nat :=
  length (List.filter (String.eqb x) l).

(** The most frequent of [present], the first of [candidates] among
    equally frequent ones. *)
Fixpoint most_frequent (candidates present : list string) (best : option string)
  : option string :=
  match candidates with
  | [] => best
  | c :: rest =>
      let n := count_string c present in
      let better :=
        match best with
        | None => Nat.ltb 0 n
        | Some b => Nat.ltb (count_string b present) n
        end in
      most_frequent rest present (if better then Some c else best)
  end.

Fixpoint insert_string (x : string) (l : list string) : list string :=
  match l with
  | [] => [x]
  | y :: rest => if String.leb x y then x :: l else y :: insert_string x rest
  end.

Definition sort_strings (l : list string) : list string :=
  fold_right insert_string [] l.

Definition fill {A} (x : A) (l : list (option A)) : list (option A) :=
  map (fun c => match c with None => Some x | Some _ => c end) l.

(** [s.fillna(value)] with a string on a text column; a categorical
    column refuses a value that is not one of its categories (the
    message of pandas names the value as well). *)
Definition fillna_text (value : string) (s : Series) : result Series :=
  match s with
  | Object v => Ok (Object (fill value v))
  | Category cats v =>
      if existsb (String.eqb value) cats
      then Ok (Category cats (fill value v))
      else Raise (TypeError "Cannot setitem on a Categorical with a new category, set the categories first")
  | _ => Ok s
  end.

Fixpoint insert_Q (x : Q) (l : list Q) : list Q :=
  match l with
  | [] => [x]
  | y :: rest => if Qle_bool x y then x :: l else y :: insert_Q x rest
  end.

Definition sort_Q (l : list Q) : list Q := fold_right insert_Q [] l.

(** [s.median()]: NaN is skipped; NaN when nothing is left. *)
Definition median (v : list float) : float :=
  let xs := sort_Q (somes v) in
  let n := length xs in
  match n with
  | O => None
  | _ =>
      if Nat.even n
      then Some ((nth (n / 2 - 1) xs 0 + nth (n / 2) xs 0) / 2)
      else Some (nth (n / 2) xs 0)
  end.

(** [s.fillna(value)] with a number on a numeric column; filling with
    NaN changes nothing. *)
Definition fillna_number (value : float) (s : Series) : Series :=
  match s, value with
  | Float64 v, Some x => Float64 (fill x v)
  | _, _ => s
  end.


(** *** Grouping *)

(** A group key or an index label. *)
Inductive scalar : Type :=
| Num (q : Q)
| Str (s : string)
| Bool (b : bool).

Definition scalar_eqb (a b : scalar) : bool :=
  match a, b with
  | Num x, Num y => Qeq_bool x y
  | Str x, Str y => String.eqb x y
  | Bool x, Bool y => Bool.eqb x y
  | _, _ => false
  end.

(** The order keys are sorted in; a column has keys of one kind. *)
Definition scalar_leb (a b : scalar) : bool :=
  match a, b with
  | Num x, Num y => Qle_bool x y
  | Str x, Str y => String.leb x y
  | Bool x, Bool y => implb x y
  | Bool _, _ => true
  | Num _, Str _ => true
  | _, _ => false
  end.

(** The entries of a column as keys; a missing entry is no key.  A
    column of roots is not used as a key. *)
Definition series_keys (s : Series) : list (option scalar) :=
  match s with
  | Float64 v => map (option_map Num) v
  | Object v => map (option_map Str) v
  | Category _ v => map (option_map Str) v
  | Boolean v => map (fun b => Some (Bool b)) v
  | Float64R v => map (fun _ => None) v
  end.

Fixpoint unique_scalars (l : list scalar) : list scalar :=
  match l with
  | [] => []
  | a :: rest => a :: List.filter (fun b => negb (scalar_eqb a b)) (unique_scalars rest)
  end.

Fixpoint insert_scalar (x : scalar) (l : list scalar) : list scalar :=
  match l with
  | [] => [x]
  | y :: rest => if scalar_leb x y then x :: l else y :: insert_scalar x rest
  end.

Definition sort_scalars (l : list scalar) : list scalar :=
  fold_right insert_scalar [] l.

(** The keys of [df.groupby(column)]: the values that occur, sorted;
    rows without a key belong to no group.  (For a categorical column
    these are the observed categories.) *)
Definition group_keys (keys : list (option scalar)) : list scalar :=
  sort_scalars (unique_scalars (somes keys)).

Definition has_key (k : scalar) (key : option scalar) : bool :=
  match key with
  | Some k' => scalar_eqb k k'
  | None => false
  end.

(** The entries of [values] in the rows of group [k]. *)
Definition group_values {A} (k : scalar) (keys : list (option scalar))
    (values : list A) : list A :=
  select (map (has_key k) keys) values.

Definition Qsum (l : list Q) : Q := fold_right Qplus 0 l.

(** [s.mean()]: NaN is skipped; NaN when nothing is left. *)
Definition mean (v : list float) : float :=
  let xs := somes v in
  match xs with
  | [] => None
  | _ => Some (Qsum xs / inject_Z (Z.of_nat (length xs)))
  end.

(** [s.var()], one degree of freedom taken off: NaN is skipped; NaN
    with fewer than two values. *)
Definition var (v : list float) : float :=
  let xs := somes v in
  match xs with
  | [] | [_] => None
  | _ =>
      let m := Qsum xs / inject_Z (Z.of_nat (length xs)) in
      Some (Qsum (map (fun x => (x - m) * (x - m)) xs)
            / inject_Z (Z.of_nat (length xs - 1)))
  end.

(** [s.std()] *)
Definition std (v : list float) : rfloat := rsqrt (var v).

(** [s.value_counts().sort_index()]: the labels in index order and their
    counts; a categorical column lists every category, the others the
    values that occur. *)
Definition value_counts (s : Series) : list (scalar * nat) :=
  let keys := series_keys s in
  let labels :=
    match s with
    | Category cats _ => map Str cats
    | _ => group_keys keys
    end in
  map (fun k => (k, count_true (map (has_key k) keys))) labels.

(** A column holding the labels [ks], of the dtype of [like]. *)
Definition series_of_labels (like : Series) (ks : list scalar) : Series :=
  match like with
  | Float64 _ | Float64R _ =>
      Float64 (map (fun k => match k with Num q => Some q | _ => None end) ks)
  | Object _ =>
      Object (map (fun k => match k with Str x => Some x | _ => None end) ks)
  | Category cats _ =>
      Category cats (map (fun k => match k with Str x => Some x | _ => None end) ks)
  | Boolean _ =>
      Boolean (map (fun k => match k with Bool b => b | _ => false end) ks)
  end.

(** *** Duplicated records *)

(** The sign of [c * sqrt r], for [r >= 0]. *)
Definition root_sign (c r : Q) : comparison :=
  if Qeq_bool r 0 then Eq else Qcompare c 0.

(** [x == y] on roots, by the signs and the squares; two NaN count as
    equal, as missing entries do in [duplicated]. *)
Definition rfloat_eqb (x y : rfloat) : bool :=
  match x, y with
  | RNaN, RNaN => true
  | RInf b, RInf b' => Bool.eqb b b'
  | RSqrt c r, RSqrt c' r' =>
      match root_sign c r, root_sign c' r' with
      | Eq, Eq | Lt, Lt | Gt, Gt => Qeq_bool (c * c * r) (c' * c' * r')
      | _, _ => false
      end
  | _, _ => false
  end.

(** An entry of a table, as [duplicated] compares entries: missing
    entries are equal to each other. *)
Inductive cell : Type :=
| Missing
| Value (s : scalar)
| Root (z : rfloat).

Definition cell_eqb (a b : cell) : bool :=
  match a, b with
  | Missing, Missing => true
  | Value x, Value y => scalar_eqb x y
  | Root x, Root y => rfloat_eqb x y
  | _, _ => false
  end.

(** The entries of a column. *)
Definition cells (s : Series) : list cell :=
  match s with
  | Float64R v => map (fun z => match z with RNaN => Missing | _ => Root z end) v
  | _ => map (fun k => match k with Some x => Value x | None => Missing end)
             (series_keys s)
  end.

(** The records of [n] rows over the columns [cols]: each record lists
    its entries in the order of the columns. *)
Definition records (cols : list (list cell)) (n : nat) : list (list cell) :=
  fold_right (fun col acc => map (fun p => fst p :: snd p) (combine col acc))
             (repeat [] n) cols.

Fixpoint record_eqb (a b : list cell) : bool :=
  match a, b with
  | [], [] => true
  | x :: a', y :: b' => cell_eqb x y && record_eqb a' b'
  | _, _ => false
  end.

(** [keep='first']: a record is a duplicate when an equal one came
    before it. *)
Fixpoint duplicated_first (seen : list (list cell)) (l : list (list cell)) : list bool :=
  match l with
  | [] => []
  | k :: rest => existsb (record_eqb k) seen :: duplicated_first (k :: seen) rest
  end.

(** [keep='last']: a record is a duplicate when an equal one comes
    after it. *)
Definition duplicated_last (l : list (list cell)) : list bool :=
  rev (duplicated_first [] (rev l)).

(** [keep=False]: a record is a duplicate when another one equals it. *)
Definition duplicated_all (l : list (list cell)) : list bool :=
  map (fun k => Nat.ltb 1 (length (List.filter (record_eqb k) l))) l.

(** The [keep] argument: a string, or [False]. *)
Inductive keep_arg : Type :=
| keep_str (s : string)
| keep_False.

Definition double_quote : string := String (Ascii.ascii_of_nat 34) EmptyString.

(** [df.duplicated(subset=subset, keep=keep)] for a list of column
    names (or [None]).  A table without rows or without columns has no
    duplicates, whatever the arguments; a name of [subset] that is no
    column raises [KeyError], an empty [subset] [ValueError], and so
    does a [keep] that is none of the three. *)
Definition duplicated (df : DataFrame) (subset : option (list string)) (keep : keep_arg)
  : result (list bool) :=
  if Nat.eqb (nrows df) 0 || Nat.eqb (length (columns df)) 0 then Ok []
  else
    let subset :=
      match subset with
      | Some names => names
      | None => column_names df
      end in
    match List.filter (fun name => negb (has_column df name)) subset with
    | name :: _ => Raise (KeyError name)
    | [] =>
        match subset with
        | [] => Raise (ValueError "not enough values to unpack (expected 2, got 0)")
        | _ :: _ =>
            let vals :=
              map (fun c => cells (snd c))
                  (List.filter (fun c : string * Series =>
                                  existsb (String.eqb (fst c)) subset) (columns df)) in
            let ids := records vals (nrows df) in
            match keep with
            | keep_False => Ok (duplicated_all ids)
            | keep_str s =>
                if String.eqb s "first" then Ok (duplicated_first [] ids)
                else if String.eqb s "last" then Ok (duplicated_last ids)
                else Raise (ValueError ("keep must be either " +:+ double_quote +:+ "first"
                                        +:+ double_quote +:+ ", " +:+ double_quote +:+ "last"
                                        +:+ double_quote +:+ " or False"))
            end
        end
    end.


(** *** Strings

    The methods of [str] on the ASCII characters; a byte that is not
    ASCII (a part of an encoded character) is left as it is, so the
    functions are the ones of Python on ASCII strings only. *)

(** [c.isspace()] *)
Definition is_space (c : ascii) : bool :=
  let n := nat_of_ascii c in
  (Nat.leb 9 n && Nat.leb n 13) || (Nat.leb 28 n && Nat.leb n 32).

(** [c.isupper()], [c.islower()] *)
Definition is_upper (c : ascii) : bool :=
  let n := nat_of_ascii c in Nat.leb 65 n && Nat.leb n 90.

Definition is_lower (c : ascii) : bool :=
  let n := nat_of_ascii c in Nat.leb 97 n && Nat.leb n 122.

Definition to_upper (c : ascii) : ascii :=
  if is_lower c then ascii_of_nat (nat_of_ascii c - 32) else c.

Definition to_lower (c : ascii) : ascii :=
  if is_upper c then ascii_of_nat (nat_of_ascii c + 32) else c.

(** [s.lstrip()] *)
Fixpoint lstrip (s : string) : string :=
  match s with
  | EmptyString => EmptyString
  | String c rest => if is_space c then lstrip rest else s
  end.

(** [s.rstrip()] *)
Fixpoint rstrip (s : string) : string :=
  match s with
  | EmptyString => EmptyString
  | String c rest =>
      match rstrip rest with
      | EmptyString => if is_space c then EmptyString else String c EmptyString
      | String _ _ as rest' => String c rest'
      end
  end.

(** [s.strip()] *)
Definition strip (s : string) : string := rstrip (lstrip s).

(** [s.upper()], [s.lower()] *)
Fixpoint upper (s : string) : string :=
  match s with
  | EmptyString => EmptyString
  | String c rest => String (to_upper c) (upper rest)
  end.

Fixpoint str_lower (s : string) : string :=
  match s with
  | EmptyString => EmptyString
  | String c rest => String (to_lower c) (str_lower rest)
  end.

(** [s.title()]: a letter that follows a letter is put in lower case,
    any other letter in upper case.  [previous_is_cased] tells whether
    the character before [s] is a letter. *)
Fixpoint title_from (previous_is_cased : bool) (s : string) : string :=
  match s with
  | EmptyString => EmptyString
  | String c rest =>
      let c' :=
        if is_lower c then (if previous_is_cased then c else to_upper c)
        else if is_upper c then (if previous_is_cased then to_lower c else c)
        else c in
      String c' (title_from (is_lower c || is_upper c) rest)
  end.

Definition title (s : string) : string := title_from false s.

(** [series.str.f()] on a column of strings: a missing entry stays
    missing. *)
Definition str_map (f : string -> string) (v : list (option string))
  : list (option string) :=
  map (option_map f) v.


(** ** scripts/data_cleaner.py *)

Module DataCleaner.

Local Open Scope result_scope.

Definition default_age_bins : list Q := [0; 6; 19; 41; 61; 120].

Definition default_age_labels : list string :=
  ["0-5 (Child)"; "6-18 (Youth)"; "19-40 (Young Adult)";
   "41-60 (Middle Age)"; "60+ (Elderly)"].

(** [create_age_groups(df, age_column, bins, labels, new_column_name)];
    an optional argument left out is [None].  The function never updates
    a table in place beyond its own copy, so the table is passed by value
    and [df.copy()] is the table itself. *)
Definition create_age_groups (df : DataFrame) (age_column : string)
    (bins : option (list Q)) (labels : option (list string))
    (new_column_name : string) : result DataFrame :=
  let df := df (* df.copy() *) in
  let bins := match bins with None => default_age_bins | Some b => b end in
  let labels := match labels with None => default_age_labels | Some l => l end in
  if negb (has_column df age_column)
  then Ok df
  else
    let? ages := getitem df age_column in
    let? groups := cut ages bins labels true false in
    Ok (setitem df new_column_name groups).

Definition quality_bins : list Q := [0; 41; 61; 81; 101].

Definition quality_labels : list string :=
  ["Poor (0-40)"; "Fair (41-60)"; "Good (61-80)"; "Excellent (81-100)"].

(** [create_biometric_quality_categories(df, quality_column, new_column_name)] *)
Definition create_biometric_quality_categories (df : DataFrame)
    (quality_column new_column_name : string) : result DataFrame :=
  let df := df (* df.copy() *) in
  if negb (has_column df quality_column)
  then Ok df
  else
    let? scores := getitem df quality_column in
    let? cats := cut scores quality_bins quality_labels true false in
    Ok (setitem df new_column_name cats).

(** *** Missing values *)

(** One row of the [missing_stats] table. *)
Record missing_row : Type := mkMissingRow {
  Column : string;
  Missing_Count : nat;
  Missing_Percent : float
}.

(** NaN goes last, whatever the direction. *)
Definition percent_geb (a b : missing_row) : bool :=
  match Missing_Percent a, Missing_Percent b with
  | Some x, Some y => Qle_bool y x
  | Some _, None => true
  | None, Some _ => false
  | None, None => true
  end.

Fixpoint insert_desc (r : missing_row) (l : list missing_row) : list missing_row :=
  match l with
  | [] => [r]
  | x :: rest => if percent_geb r x then r :: l else x :: insert_desc r rest
  end.

(** [sort_values('Missing_Percent', ascending=False)]; pandas leaves the
    order of equal keys open, here they keep their order. *)
Definition sort_desc (l : list missing_row) : list missing_row :=
  fold_right insert_desc [] l.

(** The table [missing_stats] of [handle_missing_values]. *)
Definition missing_stats (df : DataFrame) : list missing_row :=
  let all :=
    map (fun c : string * Series =>
           let n := count_true (isnull (snd c)) in
           mkMissingRow (fst c) n (fround2 (percent_of n (nrows df))))
        (columns df) in
  sort_desc (List.filter (fun r => Nat.ltb 0 (Missing_Count r)) all).

Definition is_text (s : Series) : bool :=
  match s with
  | Object _ | Category _ _ => true
  | _ => false
  end.

Definition is_number (s : Series) : bool :=
  match s with
  | Float64 _ | Float64R _ => true
  | _ => false
  end.

(** [df.select_dtypes(include=...).columns] *)
Definition select_dtypes (keep : Series -> bool) (df : DataFrame) : list string :=
  map fst (List.filter (fun c : string * Series => keep (snd c)) (columns df)).

(** [s.mode()[0] if len(s.mode()) > 0 else 'Unknown'] on a text column:
    the modes come sorted (by value for object, by category for
    category), the first one is taken. *)
Definition mode_or_unknown (s : Series) : string :=
  let m :=
    match s with
    | Object v => most_frequent (sort_strings (somes v)) (somes v) None
    | Category cats v => most_frequent cats (somes v) None
    | _ => None
    end in
  match m with
  | Some x => x
  | None => "Unknown"
  end.

Local Open Scope heap_scope.

(** [handle_missing_values(df, strategy, threshold)].  [df] is the
    caller's reference; the result is the reference the function
    returns.  [df[col].fillna(value, inplace=True)] writes through to the
    table bound to the local [df] (pandas without copy-on-write).  The
    median of a column of roots has no exact form: such a column, which
    only the statistical tests produce, keeps its missing entries. *)
Definition handle_missing_values (df : ref) (strategy : string) (threshold : Q)
  : M ref :=
  df <- copy df ;;
  d <- deref df ;;
  let stats := missing_stats d in
  if Nat.eqb (length stats) 0 then ret df
  else if String.eqb strategy "report" then ret df
  else if String.eqb strategy "drop_rows" then
    new (dropna d)
  else if String.eqb strategy "drop_cols" then
    let cols_to_drop :=
      map Column
        (List.filter (fun r => fgt (Missing_Percent r) (Some (threshold * 100))) stats) in
    match cols_to_drop with
    | _ :: _ => new (drop_columns cols_to_drop d)
    | [] => ret df
    end
  else if String.eqb strategy "fill_mode" then
    for_each (select_dtypes is_text d) (fun col =>
      cur <- deref df ;;
      s <- lift (getitem cur col) ;;
      if Nat.ltb 0 (count_true (isnull s)) then
        let mode_value := mode_or_unknown s in
        s' <- lift (fillna_text mode_value s) ;;
        update df (setitem cur col s')
      else ret tt) ;;;
    ret df
  else if String.eqb strategy "fill_median" then
    for_each (select_dtypes is_number d) (fun col =>
      cur <- deref df ;;
      s <- lift (getitem cur col) ;;
      if Nat.ltb 0 (count_true (isnull s)) then
        let median_value :=
          match s with Float64 v => median v | _ => None end in
        update df (setitem cur col (fillna_number median_value s))
      else ret tt) ;;;
    ret df
  else ret df.

(** *** The summary of a cleaning *)

(** The [summary] dictionary of [get_cleaning_summary]; the differences
    are Python integers and can be negative. *)
Record cleaning_summary : Type := mkCleaningSummary {
  original_records : nat;
  cleaned_records : nat;
  records_removed : Z;
  removal_percentage : Q;
  original_columns : nat;
  cleaned_columns : nat;
  columns_removed : Z
}.

(** [get_cleaning_summary(df_original, df_cleaned)]: the quotient
    [(len(df_original) - len(df_cleaned)) / len(df_original)] is one of
    plain integers. *)
Definition get_cleaning_summary (df_original df_cleaned : DataFrame)
  : outcome cleaning_summary :=
  let removed := (Z.of_nat (nrows df_original) - Z.of_nat (nrows df_cleaned))%Z in
  if Nat.eqb (nrows df_original) 0
  then RaisesZeroDivisionError "division by zero"
  else
    Returns
      (mkCleaningSummary
         (nrows df_original)
         (nrows df_cleaned)
         removed
         (inject_Z removed / inject_Z (Z.of_nat (nrows df_original)) * 100)
         (length (columns df_original))
         (length (columns df_cleaned))
         (Z.of_nat (length (columns df_original))
          - Z.of_nat (length (columns df_cleaned)))%Z).

(** *** Duplicates *)

(** [remove_duplicates(df, subset, keep)]: the copy itself when it has
    no duplicate, the records that are no duplicates otherwise. *)
Definition remove_duplicates (df : DataFrame) (subset : option (list string))
    (keep : keep_arg) : result DataFrame :=
  let? dup := duplicated df subset keep in
  let duplicate_count := count_true dup in
  if Nat.eqb duplicate_count 0 then Ok df
  else
    let? dup' := duplicated df subset keep in
    Ok (select_rows (map negb dup') df).

(** *** Text columns *)

(** What [standardize_categorical_columns] does to the entries of a
    text column: [strip], then the method named by [case], if it names
    one. *)
Definition standardize_text (case : string) (s : string) : string :=
  let s := strip s in
  if String.eqb case "title" then title s
  else if String.eqb case "upper" then upper s
  else if String.eqb case "lower" then str_lower s
  else s.

(** One turn of the loop of [standardize_categorical_columns]. *)
Definition standardize_column (case : string) (df : DataFrame) (col : string)
  : DataFrame :=
  if negb (has_column df col) then df
  else
    match getitem df col with
    | Ok (Object v) => setitem df col (Object (str_map (standardize_text case) v))
    | _ => df
    end.

(** [standardize_categorical_columns(df, columns, case)] *)
Definition standardize_categorical_columns (df : DataFrame) (columns : list string)
    (case : string) : DataFrame :=
  fold_left (standardize_column case) columns df.

(** *** Date ranges *)

(** [if d:] on an optional string: [None] and the empty string do not
    count. *)
Definition truthy (d : option string) : bool :=
  match d with
  | Some s => negb (String.eqb s "")
  | None => false
  end.

Section Dates.

(** [s >= pd.to_datetime(d)] and [s <= pd.to_datetime(d)]: the parsing
    of the date and the comparison of the column with it are the
    library's, and either may raise. *)
Variable ge_datetime : Series -> string -> result (list bool).
Variable le_datetime : Series -> string -> result (list bool).

(** [df = df[df[date_column] <op> pd.to_datetime(d)]], done when [d]
    counts. *)
Definition filter_step (compare : Series -> string -> result (list bool))
    (date_column : string) (d : option string) (df : DataFrame) : result DataFrame :=
  match d with
  | Some s =>
      if negb (String.eqb s "")
      then
        let? col := getitem df date_column in
        let? mask := compare col s in
        Ok (select_rows mask df)
      else Ok df
  | None => Ok df
  end.

(** [filter_by_date_range(df, date_column, start_date, end_date)]; the
    share of the records removed is printed, and is a quotient of plain
    integers. *)
Definition filter_by_date_range (df : DataFrame) (date_column : string)
    (start_date end_date : option string) : outcome DataFrame :=
  if negb (has_column df date_column) then Returns df
  else
    let original_len := nrows df in
    match filter_step ge_datetime date_column start_date df with
    | Raise e => Raises e
    | Ok df1 =>
        match filter_step le_datetime date_column end_date df1 with
        | Raise e => Raises e
        | Ok df2 =>
            if Nat.eqb original_len 0
            then RaisesZeroDivisionError "division by zero"
            else Returns df2
        end
    end.

End Dates.

End DataCleaner.

(** ** scripts/data_loader.py *)

Module DataLoader.

(** [str.lower] on the ASCII letters; the other bytes stay. *)
Definition lower_ascii (c : ascii) : ascii :=
  let n := nat_of_ascii c in
  if Nat.leb 65 n && Nat.leb n 90 then ascii_of_nat (n + 32) else c.

Fixpoint lower (s : string) : string :=
  match s with
  | EmptyString => EmptyString
  | String c rest => String (lower_ascii c) (lower rest)
  end.

(** The pieces of [s] between the occurrences of [sep]. *)
Fixpoint split (sep : ascii) (s : string) : list string :=
  match s with
  | EmptyString => [EmptyString]
  | String c rest =>
      if Ascii.eqb c sep
      then EmptyString :: split sep rest
      else match split sep rest with
           | [] => [String c EmptyString]
           | w :: ws => String c w :: ws
           end
  end.

(** [pathlib.PurePosixPath(s)]: whether it is anchored at the root, and
    its components; empty components and [.] are dropped. *)
Record Path : Type := mkPath {
  absolute : bool;
  parts : list string
}.

Definition parse_path (s : string) : Path :=
  mkPath (match s with String "/" _ => true | _ => false end)
         (List.filter (fun w => negb (String.eqb w "" || String.eqb w "."))
                      (split "/" s)).

(** [path.name]: the last component. *)
Definition name (p : Path) : string := List.last (parts p) "".

(** [name.rfind('.')]; [i] is the index of the first character of [s]. *)
Fixpoint rfind_dot (s : string) (i : nat) : option nat :=
  match s with
  | EmptyString => None
  | String c rest =>
      match rfind_dot rest (S i) with
      | Some j => Some j
      | None => if Ascii.eqb c "." then Some i else None
      end
  end.

(** [path.suffix]: the last dot of the name and what follows, unless the
    dot starts or ends the name. *)
Definition suffix (p : Path) : string :=
  let n := name p in
  match rfind_dot n 0 with
  | Some i =>
      if Nat.ltb 0 i && Nat.ltb i (String.length n - 1)
      then substring i (String.length n - i) n
      else ""
  | None => ""
  end.

Section Readers.

(** [pd.read_csv] and [pd.read_excel] with the caller's keyword
    arguments: they read the file system, so they are parameters. *)
Variable read_csv : Path -> result DataFrame.
Variable read_excel : Path -> result DataFrame.

(** [load_enrolment_data(file_path, **kwargs)] *)
Definition load_enrolment_data (file_path : string) : result DataFrame :=
  let file_path := parse_path file_path in
  let? df :=
    if String.eqb (lower (suffix file_path)) ".csv"
    then read_csv file_path
    else if existsb (String.eqb (lower (suffix file_path))) [".xlsx"; ".xls"]
    then read_excel file_path
    else Raise (ValueError ("Unsupported file format: " +:+ suffix file_path)) in
  Ok df.

(** [load_update_data(file_path, **kwargs)] *)
Definition load_update_data (file_path : string) : result DataFrame :=
  let file_path := parse_path file_path in
  let? df :=
    if String.eqb (lower (suffix file_path)) ".csv"
    then read_csv file_path
    else if existsb (String.eqb (lower (suffix file_path))) [".xlsx"; ".xls"]
    then read_excel file_path
    else Raise (ValueError ("Unsupported file format: " +:+ suffix file_path)) in
  Ok df.

End Readers.

(** *** Saving *)

(** [s.endswith(suffix)] *)
Definition endswith (s suffix : string) : bool :=
  let n := String.length s in
  let k := String.length suffix in
  Nat.leb k n && String.eqb (substring (n - k) k s) suffix.

(** [path / s]: an anchored [s] replaces the path, any other is
    appended to it. *)
Definition joinpath (p : Path) (s : string) : Path :=
  let q := parse_path s in
  if absolute q then q
  else mkPath (absolute p) (parts p ++ parts q).

(** The [output_path] of [save_processed_data]. *)
Definition output_path (file_name output_dir : string) : Path :=
  let output_dir := parse_path output_dir in
  let file_name :=
    if negb (endswith file_name ".csv") then file_name +:+ ".csv" else file_name in
  joinpath output_dir file_name.

Section Writers.

(** [Path.mkdir(parents=True, exist_ok=True)] and [df.to_csv(path,
    index=False)] write to the file system, so they are parameters. *)
Variable mkdir : Path -> result unit.
Variable to_csv : DataFrame -> Path -> result unit.

(** [save_processed_data(df, file_name, output_dir)] *)
Definition save_processed_data (df : DataFrame) (file_name output_dir : string)
  : result unit :=
  let? _ := mkdir (parse_path output_dir) in
  let? _ := to_csv df (output_path file_name output_dir) in
  Ok tt.

End Writers.

(** *** Overview *)

(** The [info] dictionary of [get_data_info]. *)
Record data_info : Type := mkDataInfo {
  total_records : nat;
  total_columns : nat;
  memory_usage_mb : Q;
  missing_values : nat;
  duplicate_rows : nat
}.

Section Memory.

(** [df.memory_usage(deep=True).sum()], in bytes: it depends on how the
    table is stored, so it is a parameter. *)
Variable memory_usage : DataFrame -> nat.

(** [get_data_info(df, dataset_name)] *)
Definition get_data_info (df : DataFrame) (dataset_name : string) : result data_info :=
  let? dup := duplicated df None (keep_str "first") in
  Ok (mkDataInfo
        (nrows df)
        (length (columns df))
        (inject_Z (Z.of_nat (memory_usage df)) / (1024 * 1024))
        (fold_right Nat.add 0%nat
           (map (fun c : string * Series => count_true (isnull (snd c))) (columns df)))
        (count_true dup)).

End Memory.

(** *** Dates *)

Section Converter.

(** [pd.to_datetime(s, format=f, errors='coerce')], without [format]
    for [None]: the converted column, or the text [str(e)] of the
    exception [e] it raises.  A column of dates has no kind of its own
    among the columns of the model: the converted column is the column
    that stands for it. *)
Variable to_datetime : Series -> option string -> Series + string.

(** One turn of the loop of [convert_date_columns]; whatever the
    conversion raises is caught and the column left as it is. *)
Definition convert_column (date_format : option string) (df : DataFrame) (col : string)
  : DataFrame :=
  if has_column df col then
    match getitem df col with
    | Ok s =>
        let format := if DataCleaner.truthy date_format then date_format else None in
        match to_datetime s format with
        | inl converted => setitem df col converted
        | inr _ => df
        end
    | Raise _ => df
    end
  else df.

(** [convert_date_columns(df, date_columns, date_format)] *)
Definition convert_date_columns (df : DataFrame) (date_columns : list string)
    (date_format : option string) : DataFrame :=
  let df := df (* df.copy() *) in
  fold_left (convert_column date_format) date_columns df.

End Converter.

End DataLoader.


(** ** scripts/analyzer.py *)

Module Analyzer.

Local Open Scope result_scope.

(** [analyze_age_distribution(df, age_group_column)]: the table of the
    groups, their counts and their percentages.  [idxmax] and [idxmin]
    raise on a table without rows. *)
Definition analyze_age_distribution (df : DataFrame) (age_group_column : string)
  : result DataFrame :=
  let? col := getitem df age_group_column in
  let age_dist := value_counts col in
  let age_pct := map (fun kc => fround2 (percent_of (snd kc) (nrows df))) age_dist in
  let summary :=
    mkDataFrame (length age_dist)
      [("Age_Group", series_of_labels col (map fst age_dist));
       ("Count", Float64 (map (fun kc => Some (inject_Z (Z.of_nat (snd kc)))) age_dist));
       ("Percentage", Float64 age_pct)] in
  match age_dist with
  | [] => Raise (ValueError "attempt to get argmax of an empty sequence")
  | _ :: _ => Ok summary
  end.

(** *** Outliers *)

(** [s.quantile(q)] for [0 <= q <= 1], with linear interpolation: NaN
    is skipped; NaN when nothing is left. *)
Definition quantile (v : list float) (q : Q) : float :=
  let xs := sort_Q (somes v) in
  match xs with
  | [] => None
  | _ :: _ =>
      let pos := inject_Z (Z.of_nat (length xs - 1)) * q in
      let lo := Z.to_nat (Qfloor pos) in
      let frac := pos - inject_Z (Qfloor pos) in
      Some (nth lo xs 0 + frac * (nth (S lo) xs 0 - nth lo xs 0))
  end.

(** The [stats] dictionary of [identify_outliers]: empty, or the one of
    either method. *)
Inductive outlier_stats : Type :=
| no_stats
| iqr_stats (Q1 Q3 IQR lower_bound upper_bound : float)
    (outlier_count : nat) (outlier_percentage : Q)
| zscore_stats (mean : float) (std : rfloat) (threshold : Q)
    (outlier_count : nat) (outlier_percentage : Q).

(** [len(outliers) / len(df) * 100], a quotient of plain integers. *)
Definition outlier_percentage_of (outliers df : DataFrame) : outcome Q :=
  if Nat.eqb (nrows df) 0
  then RaisesZeroDivisionError "division by zero"
  else Returns (inject_Z (Z.of_nat (nrows outliers)) / inject_Z (Z.of_nat (nrows df)) * 100).

(** [identify_outliers(df, column, method)].  Any [method] other than
    ['iqr'] is the z-score method.  The quantiles of a column of text
    raise [TypeError]; the model has no exact form for the quantiles and
    the deviation of a column of roots, nor a settled answer for the
    quantiles of a categorical column or of a column of booleans: there
    it gives no result ([None]). *)
Definition identify_outliers (df : DataFrame) (column method : string)
  : option (outcome (DataFrame * outlier_stats)) :=
  if negb (has_column df column)
  then Some (Returns (mkDataFrame 0 [], no_stats))
  else
    match getitem df column with
    | Raise e => Some (Raises e)
    | Ok s =>
        if String.eqb method "iqr" then
          match s with
          | Float64 v =>
              let Q1 := quantile v (1 # 4) in
              let Q3 := quantile v (3 # 4) in
              let IQR := fsub Q3 Q1 in
              let lower_bound := fsub Q1 (fmul (Some (3 # 2)) IQR) in
              let upper_bound := fadd Q3 (fmul (Some (3 # 2)) IQR) in
              let outliers :=
                select_rows (map (fun x => flt x lower_bound || fgt x upper_bound) v) df in
              match outlier_percentage_of outliers df with
              | Returns pct =>
                  Some (Returns (outliers,
                                 iqr_stats Q1 Q3 IQR lower_bound upper_bound
                                   (nrows outliers) pct))
              | Raises e => Some (Raises e)
              | RaisesZeroDivisionError msg => Some (RaisesZeroDivisionError msg)
              end
          | Object _ =>
              Some (Raises (TypeError "unsupported operand type(s) for -: 'str' and 'str'"))
          | Category _ _ | Boolean _ | Float64R _ => None
          end
        else
          match s with
          | Float64R _ => None
          | _ =>
              match numeric_values s with
              | Raise e => Some (Raises e)
              | Ok v =>
                  let mean := mean v in
                  let std := std v in
                  let z_scores := map (fun x => rabs (rdiv (fsub x mean) std)) v in
                  let outliers := select_rows (map (fun z => rgt z 3) z_scores) df in
                  match outlier_percentage_of outliers df with
                  | Returns pct =>
                      Some (Returns (outliers,
                                     zscore_stats mean std 3 (nrows outliers) pct))
                  | Raises e => Some (Raises e)
                  | RaisesZeroDivisionError msg => Some (RaisesZeroDivisionError msg)
                  end
              end
          end
    end.

(** *** Correlations and summaries *)

(** [s.dtype in [np.int64, np.float64]] *)
Definition is_number_dtype (s : Series) : bool :=
  match s with
  | Float64 _ | Float64R _ => true
  | Object _ | Category _ _ | Boolean _ => false
  end.

(** [col in df.columns and df[col].dtype in [np.int64, np.float64]] *)
Definition is_number_column (df : DataFrame) (col : string) : bool :=
  has_column df col
  && match getitem df col with
     | Ok s => is_number_dtype s
     | Raise _ => false
     end.

Section Summaries.

(** [df[cols].corr().round(3)] *)
Variable corr : DataFrame -> list string -> result DataFrame.

(** [df.groupby(by)[cols].agg(['count', 'mean', 'median', 'std', 'min',
    'max']).round(2)] *)
Variable groupby_agg : DataFrame -> string -> list string -> result DataFrame.

(** [calculate_correlation_matrix(df, columns)]; [pd.DataFrame()] is the
    table without columns and records. *)
Definition calculate_correlation_matrix (df : DataFrame) (columns : list string)
  : result DataFrame :=
  let available_cols := List.filter (is_number_column df) columns in
  if Nat.ltb (length available_cols) 2
  then Ok (mkDataFrame 0 [])
  else corr df available_cols.

(** [generate_summary_statistics(df, group_by_column, numeric_columns)] *)
Definition generate_summary_statistics (df : DataFrame) (group_by_column : string)
    (numeric_columns : list string) : result DataFrame :=
  let available_cols := List.filter (has_column df) numeric_columns in
  match available_cols with
  | [] => Ok (mkDataFrame 0 [])
  | _ :: _ => groupby_agg df group_by_column available_cols
  end.

End Summaries.

End Analyzer.


(** ** scripts/statistical_tests.py *)

Module StatisticalTests.

Local Open Scope result_scope.

(** The [stats] dictionary of [detect_age_quality_anomalies]. *)
Record anomaly_stats : Type := mkAnomalyStats {
  total_records : nat;
  n_anomalies : nat;
  anomaly_rate : float;
  n_unusually_high : nat;
  n_unusually_low : nat;
  threshold_std_used : Q
}.

(** One row of [group_stats]. *)
Record group_stat : Type := mkGroupStat {
  group_key : scalar;
  group_mean : float;
  group_std : rfloat
}.

(** [df.groupby(key)[quality].agg(['mean', 'std']).reset_index()] *)
Definition group_stats (keys : list (option scalar)) (quality : list float)
  : list group_stat :=
  map (fun k =>
         let g := group_values k keys quality in
         mkGroupStat k (mean g) (std g))
      (group_keys keys).

(** The row of [stats] with key [key], as the merge finds it. *)
Definition find_group (stats : list group_stat) (key : option scalar)
  : option group_stat :=
  List.find (fun g => has_key (group_key g) key) stats.

(** [(quality - group_mean) / group_std] *)
Definition z_score (x : float) (g : group_stat) : rfloat :=
  rdiv (fsub x (group_mean g)) (group_std g).

(** [np.abs(z) > threshold_std] *)
Definition is_anomaly (z : rfloat) (threshold_std : Q) : bool :=
  rgt (rabs z) threshold_std.

(** The label after the three assignments to [anomaly_type]. *)
Definition anomaly_type (z : rfloat) (threshold_std : Q) : string :=
  let t := "Normal" in
  let t := if rgt z threshold_std then "Unusually High Quality" else t in
  let t := if rlt z (- threshold_std) then "Unusually Low Quality" else t in
  t.

(** [df.merge(group_stats, on=age_group_column)] is an inner join: it
    keeps the rows of [df] that have a group, in their order, each with
    the statistics of its group.  Here: the quality entry of each such
    row and the row of [group_stats] joined to it. *)
Definition merged (stats : list group_stat) (keys : list (option scalar))
    (quality : list float) : list (float * group_stat) :=
  somes (map (fun kx : option scalar * float =>
                option_map (fun g => (snd kx, g)) (find_group stats (fst kx)))
             (combine keys quality)).

(** The column [z_score] of the merged table. *)
Definition z_scores (keys : list (option scalar)) (quality : list float)
  : list rfloat :=
  map (fun r => z_score (fst r) (snd r)) (merged (group_stats keys quality) keys quality).

(** [detect_age_quality_anomalies(df, age_group_column, quality_column,
    threshold_std)].  Were a column of [df] called [group_mean] or
    [group_std] already, the merge would rename both and the next lookup
    would fail. *)
Definition detect_age_quality_anomalies (df : DataFrame)
    (age_group_column quality_column : string) (threshold_std : Q)
  : result (DataFrame * anomaly_stats) :=
  let? key_col := getitem df age_group_column in
  let? quality_col := getitem df quality_column in
  let? quality := numeric_values quality_col in
  let keys := series_keys key_col in
  let stats := group_stats keys quality in
  let matched := map (fun k => negb (is_none (find_group stats k))) keys in
  let df_merged := select_rows matched df in
  let rows := merged stats keys quality in
  if has_column df "group_mean" then Raise (KeyError "group_mean")
  else if has_column df "group_std" then Raise (KeyError "group_std")
  else
    let df_merged :=
      setitem df_merged "group_mean"
        (Float64 (map (fun r => group_mean (snd r)) rows)) in
    let df_merged :=
      setitem df_merged "group_std"
        (Float64R (map (fun r => group_std (snd r)) rows)) in
    let z := z_scores keys quality in
    let df_merged := setitem df_merged "z_score" (Float64R z) in
    let flags := map (fun x => is_anomaly x threshold_std) z in
    let df_merged := setitem df_merged "is_anomaly" (Boolean flags) in
    let types := map (fun x => anomaly_type x threshold_std) z in
    let df_merged := setitem df_merged "anomaly_type" (Object (map Some types)) in
    let n_anomalies := count_true flags in
    let n_high := count_true (map (String.eqb "Unusually High Quality") types) in
    let n_low := count_true (map (String.eqb "Unusually Low Quality") types) in
    Ok (df_merged,
        mkAnomalyStats (nrows df_merged) n_anomalies
          (percent_of n_anomalies (nrows df_merged)) n_high n_low threshold_std).

(** *** Isolation forest *)

(** The [stats] dictionary of [isolation_forest_anomaly_detection]:
    empty, or with its six entries. *)
Inductive forest_stats : Type :=
| no_forest_stats
| forest_stats_of (total_records records_analyzed n_anomalies : nat)
    (anomaly_rate contamination : float) (features_used : list string).

Section Forest.

(** The function from [X = df[available_features].copy()] on: the
    encoding, scikit-learn's scaler and forest, and the table and the
    dictionary made of their answers. *)
Variable fit_forest :
  DataFrame -> list string -> float -> Z -> result (DataFrame * forest_stats).

(** [isolation_forest_anomaly_detection(df, features, contamination,
    random_state)] *)
Definition isolation_forest_anomaly_detection (df : DataFrame) (features : list string)
    (contamination : float) (random_state : Z) : result (DataFrame * forest_stats) :=
  let available_features := List.filter (has_column df) features in
  if Nat.eqb (length available_features) 0
  then Ok (df, no_forest_stats)
  else fit_forest df available_features contamination random_state.

End Forest.

End StatisticalTests.

(** ** Double precision

    Where the rounding of the arithmetic decides what a function
    returns (a z-score against a threshold, a sum of squares against
    zero), a number is a binary64 float of the kernel, whose
    operations are those of IEEE 754, as numpy's are.  What pandas,
    numpy and Python compute by algorithms of their own (the mean and
    the standard deviation of a group, a power, a sum) is a parameter
    of the functions; [group_mean] and [group_std] below are the
    algorithms of pandas 2, for the examples. *)

Module Doubles.

Import PrimFloat.
Local Open Scope float_scope.

Definition double : Type := PrimFloat.float.

(** A Python or numpy integer as a double. *)
Definition of_nat (n : nat) : double := of_uint63 (Uint63.of_Z (Z.of_nat n)).

(** *** Tables

    A column of dtype float64 holds doubles, NaN for a missing entry;
    an int64 column is held as the doubles of its integers. *)

Inductive Column : Type :=
| Doubles (v : list double)
| Strings (v : list (option string))
| Categorical (categories : list string) (v : list (option string))
| Bools (v : list bool).

Definition column_len (c : Column) : nat :=
  match c with
  | Doubles v => length v
  | Strings v => length v
  | Categorical _ v => length v
  | Bools v => length v
  end.

Record Frame : Type := mkFrame {
  nrows : nat;
  columns : list (string * Column)
}.

Definition column_names (df : Frame) : list string := map fst (columns df).

(** [name in df.columns] *)
Definition has_column (df : Frame) (name : string) : bool :=
  existsb (String.eqb name) (column_names df).

Fixpoint assoc (name : string) (cols : list (string * Column)) : option Column :=
  match cols with
  | [] => None
  | (n, c) :: rest => if String.eqb name n then Some c else assoc name rest
  end.

(** [df[name]] *)
Definition getitem (df : Frame) (name : string) : result Column :=
  match assoc name (columns df) with
  | Some c => Ok c
  | None => Raise (KeyError name)
  end.

Fixpoint assign (name : string) (c : Column) (cols : list (string * Column))
  : list (string * Column) :=
  match cols with
  | [] => [(name, c)]
  | (n, old) :: rest =>
      if String.eqb name n then (n, c) :: rest else (n, old) :: assign name c rest
  end.

(** [df[name] = c] *)
Definition setitem (df : Frame) (name : string) (c : Column) : Frame :=
  mkFrame (nrows df) (assign name c (columns df)).

Definition well_formed (df : Frame) : Prop :=
  Forall (fun c => column_len (snd c) = nrows df) (columns df).

Definition column_select (mask : list bool) (c : Column) : Column :=
  match c with
  | Doubles v => Doubles (select mask v)
  | Strings v => Strings (select mask v)
  | Categorical cats v => Categorical cats (select mask v)
  | Bools v => Bools (select mask v)
  end.

(** The rows of [df] that [mask] keeps. *)
Definition select_rows (mask : list bool) (df : Frame) : Frame :=
  mkFrame (count_true mask)
    (map (fun c : string * Column => (fst c, column_select mask (snd c))) (columns df)).

(** The numbers of a column: a bool counts as 0 or 1, a column of
    strings makes the numeric operation raise. *)
Definition numeric_values (c : Column) : result (list double) :=
  match c with
  | Doubles v => Ok v
  | Bools v => Ok (map (fun b : bool => if b then 1 else 0) v)
  | Strings _ | Categorical _ _ =>
      Raise (TypeError "unsupported operand type(s) for 'float' and 'str'")
  end.

(** *** Grouping *)

Inductive key : Type :=
| KNum (d : double)
| KStr (s : string)
| KBool (b : bool).

Definition key_eqb (a b : key) : bool :=
  match a, b with
  | KNum x, KNum y => x =? y
  | KStr x, KStr y => String.eqb x y
  | KBool x, KBool y => Bool.eqb x y
  | _, _ => false
  end.

Definition key_leb (a b : key) : bool :=
  match a, b with
  | KNum x, KNum y => x <=? y
  | KStr x, KStr y => String.leb x y
  | KBool x, KBool y => implb x y
  | KBool _, _ => true
  | KNum _, KStr _ => true
  | _, _ => false
  end.

(** The entries of a column as keys; a missing entry (NaN, for a
    double) is no key. *)
Definition column_keys (c : Column) : list (option key) :=
  match c with
  | Doubles v => map (fun d => if is_nan d then None else Some (KNum d)) v
  | Strings v => map (option_map KStr) v
  | Categorical _ v => map (option_map KStr) v
  | Bools v => map (fun b => Some (KBool b)) v
  end.

Definition has_key (k : key) (entry : option key) : bool :=
  match entry with
  | Some k' => key_eqb k k'
  | None => false
  end.

Fixpoint unique_keys (l : list key) : list key :=
  match l with
  | [] => []
  | a :: rest => a :: List.filter (fun b => negb (key_eqb a b)) (unique_keys rest)
  end.

Fixpoint insert_key (x : key) (l : list key) : list key :=
  match l with
  | [] => [x]
  | y :: rest => if key_leb x y then x :: l else y :: insert_key x rest
  end.

Definition sort_keys (l : list key) : list key := fold_right insert_key [] l.

(** The keys of [df.groupby(column)], in the order of the groups: the
    values that occur, sorted.  A categorical column gives its
    categories, in their order: all of them when [observed] is false
    (the default of pandas 2), those that occur when it is true (the
    default of pandas 3). *)
Definition group_keys (observed : bool) (c : Column) : list key :=
  match c with
  | Categorical categories _ =>
      if observed
      then List.filter (fun k => existsb (has_key k) (column_keys c)) (map KStr categories)
      else map KStr categories
  | _ => sort_keys (unique_keys (somes (column_keys c)))
  end.

(** The entries of [values] in the rows of group [k]. *)
Definition group_values {A} (k : key) (keys : list (option key)) (values : list A)
  : list A :=
  select (map (has_key k) keys) values.

(** *** The algorithms of pandas 2 *)

(** One step of the compensated sum of [group_mean]: the sum, the
    compensation and the number of entries so far; NaN is skipped. *)
Definition kahan_step (state : double * double * nat) (val : double)
  : double * double * nat :=
  let '(sumx, compensation, nobs) := state in
  if is_nan val then state
  else
    let y := val - compensation in
    let t := sumx + y in
    let compensation := t - sumx - y in
    let compensation := if is_nan compensation then 0 else compensation in
    (t, compensation, S nobs).

(** [groupby(...).mean()] of one group *)
Definition group_mean (values : list double) : double :=
  let '(sumx, _, nobs) := fold_left kahan_step values (0, 0, O) in
  match nobs with
  | O => nan
  | S _ => sumx / of_nat nobs
  end.

(** One step of the running variance of [group_var]: the mean, the sum
    of squared deviations and the number of entries so far. *)
Definition welford_step (state : double * double * nat) (val : double)
  : double * double * nat :=
  let '(mean, out, nobs) := state in
  if is_nan val then state
  else
    let nobs := S nobs in
    let oldmean := mean in
    let mean := mean + (val - oldmean) / of_nat nobs in
    (mean, out + (val - mean) * (val - oldmean), nobs).

(** [groupby(...).std()] of one group, one degree of freedom taken off *)
Definition group_std (values : list double) : double :=
  let '(_, out, nobs) := fold_left welford_step values (0, 0, O) in
  if Nat.leb nobs 1 then nan else sqrt (out / of_nat (nobs - 1)).



(** *** scripts/statistical_tests.py, in doubles *)

(** The [stats] dictionary of [detect_age_quality_anomalies]. *)
Record anomaly_stats : Type := mkAnomalyStats {
  total_records : nat;
  n_anomalies : nat;
  anomaly_rate : double;
  n_unusually_high : nat;
  n_unusually_low : nat;
  threshold_std_used : double
}.

(** One row of [group_stats]. *)
Record group_stat : Type := mkGroupStat {
  stat_key : key;
  stat_mean : double;
  stat_std : double
}.

(** The row of [stats] with key [entry], as the merge finds it. *)
Definition find_group (stats : list group_stat) (entry : option key)
  : option group_stat :=
  List.find (fun g => has_key (stat_key g) entry) stats.

(** [(quality - group_mean) / group_std] *)
Definition z_score (x : double) (g : group_stat) : double :=
  (x - stat_mean g) / stat_std g.

(** [np.abs(z) > threshold_std] *)
Definition is_anomaly (z threshold_std : double) : bool :=
  threshold_std <? abs z.

(** The label after the three assignments to [anomaly_type]. *)
Definition anomaly_type (z threshold_std : double) : string :=
  let t := "Normal" in
  let t := if threshold_std <? z then "Unusually High Quality" else t in
  let t := if z <? - threshold_std then "Unusually Low Quality" else t in
  t.

(** The quality entry of each row that the inner join keeps, with the
    row of [group_stats] joined to it, in the order of the rows. *)
Definition merged (stats : list group_stat) (keys : list (option key))
    (quality : list double) : list (double * group_stat) :=
  somes (map (fun kx : option key * double =>
                option_map (fun g => (snd kx, g)) (find_group stats (fst kx)))
             (combine keys quality)).

Section Pandas.

(** The default of [observed] in [groupby]. *)
Variable observed : bool.

(** [mean] and [std] of [groupby(...).agg], on the entries of a group. *)
Variable groupby_mean groupby_std : list double -> double.

(** [df.groupby(key)[quality].agg(['mean', 'std']).reset_index()] *)
Definition group_stats (key_col : Column) (quality : list double)
  : list group_stat :=
  map (fun k =>
         let g := group_values k (column_keys key_col) quality in
         mkGroupStat k (groupby_mean g) (groupby_std g))
      (group_keys observed key_col).

(** [detect_age_quality_anomalies(df, age_group_column, quality_column,
    threshold_std)].  Were a column of [df] called [group_mean] or
    [group_std] already, the merge would rename both and the next lookup
    would fail. *)
Definition detect_age_quality_anomalies (df : Frame)
    (age_group_column quality_column : string) (threshold_std : double)
  : result (Frame * anomaly_stats) :=
  let? key_col := getitem df age_group_column in
  let? quality_col := getitem df quality_column in
  let? quality := numeric_values quality_col in
  let keys := column_keys key_col in
  let stats := group_stats key_col quality in
  let matched := map (fun k => negb (is_none (find_group stats k))) keys in
  let df_merged := select_rows matched df in
  let rows := merged stats keys quality in
  if has_column df "group_mean" then Raise (KeyError "group_mean")
  else if has_column df "group_std" then Raise (KeyError "group_std")
  else
    let df_merged :=
      setitem df_merged "group_mean" (Doubles (map (fun r => stat_mean (snd r)) rows)) in
    let df_merged :=
      setitem df_merged "group_std" (Doubles (map (fun r => stat_std (snd r)) rows)) in
    let z := map (fun r => z_score (fst r) (snd r)) rows in
    let df_merged := setitem df_merged "z_score" (Doubles z) in
    let flags := map (fun x => is_anomaly x threshold_std) z in
    let df_merged := setitem df_merged "is_anomaly" (Bools flags) in
    let types := map (fun x => anomaly_type x threshold_std) z in
    let df_merged := setitem df_merged "anomaly_type" (Strings (map Some types)) in
    let n_anomalies := count_true flags in
    let n_high := count_true (map (String.eqb "Unusually High Quality") types) in
    let n_low := count_true (map (String.eqb "Unusually Low Quality") types) in
    Ok (df_merged,
        mkAnomalyStats (nrows df_merged) n_anomalies
          (of_nat n_anomalies / of_nat (nrows df_merged) * 100)
          n_high n_low threshold_std).


(** [s.mean()] of a column or of the entries of a group. *)
Variable series_mean : list double -> double.

(** [x ** y] of numpy. *)
Variable power : double -> double -> double.

(** Python's [sum] of doubles. *)
Variable python_sum : list double -> double.

(** [scipy.stats.f_oneway]: the statistic and the p-value of the
    samples, or an exception. *)
Variable f_oneway : list (list double) -> result (double * double).

(** [s.dropna()] *)
Definition dropna (values : list double) : list double :=
  List.filter (fun x => negb (is_nan x)) values.





End Pandas.

End Doubles.


(** ** Tables of doubles for the examples *)

Module DoubleExamples.

Import PrimFloat.
Local Open Scope float_scope.

(** A group of nineteen records, the first of them 65, whose mean is
    50 and whose standard deviation is 5 as pandas computes them, and a
    group of one record. *)
Definition outlier : Doubles.Frame :=
  Doubles.mkFrame 20
    [("Age_Group",
      Doubles.Strings
        [Some "A"; Some "A"; Some "A"; Some "A"; Some "A"; Some "A"; Some "A";
         Some "A"; Some "A"; Some "A"; Some "A"; Some "A"; Some "A"; Some "A";
         Some "A"; Some "A"; Some "A"; Some "A"; Some "A"; Some "B"]);
     ("Biometric_Quality_Score",
      Doubles.Doubles
        [65; 35; 50; 50; 50; 50; 50; 50; 50; 50; 50; 50; 50; 50; 50; 50; 50; 50; 50; 70])].

(** One group of two records, 40 and 60: its mean is 50. *)
Definition pair : Doubles.Frame :=
  Doubles.mkFrame 2
    [("Age_Group", Doubles.Strings [Some "A"; Some "A"]);
     ("Biometric_Quality_Score", Doubles.Doubles [40; 60])].





(** What double precision does to six scores whose mean is 54 and whose
    standard deviation is 6: pandas finds a deviation just below 6, so
    the z-score of 66 is just above 2. *)
Definition rounded : Doubles.Frame :=
  Doubles.mkFrame 6
    [("Age_Group",
      Doubles.Strings [Some "A"; Some "A"; Some "A"; Some "A"; Some "A"; Some "A"]);
     ("Biometric_Quality_Score", Doubles.Doubles [51; 51; 50; 53; 53; 66])].

End DoubleExamples.


(** ** What the functions print

    The standard output of a call: the strings it hands to [print], in
    order.  The checks for a column print what they find; the text that
    [str.format] and pandas make of numbers and tables is a parameter.
    A character outside ASCII is the bytes of its UTF-8 form. *)

Module Stdout.

(** A line feed. *)
Definition nl : string := String (ascii_of_nat 10) "".

(** ['=' * n] *)
Fixpoint rule (n : nat) : string :=
  match n with
  | O => ""
  | S n' => String "="%char (rule n')
  end.

Section Formatting.

(** [f"{n:,}"] *)
Variable format_count : nat -> string.

(** [f"{removed/original_len*100:.2f}"] *)
Variable format_share : nat -> nat -> string.

(** What [print] writes for [s.value_counts().sort_index()]. *)
Variable repr_counts : list (scalar * nat) -> string.

(** The lines of [identify_outliers] about the method and its results,
    which depend on the [stats] dictionary only. *)
Variable describe_stats : Analyzer.outlier_stats -> list string.

(** [create_age_groups]: nothing more is printed once [pd.cut] raises. *)
Definition create_age_groups (df : DataFrame) (age_column : string)
    (bins : option (list Q)) (labels : option (list string))
    (new_column_name : string) : list string :=
  let bins := match bins with None => DataCleaner.default_age_bins | Some b => b end in
  let labels :=
    match labels with None => DataCleaner.default_age_labels | Some l => l end in
  let start := ["Creating age groups from column: " +:+ age_column] in
  if negb (has_column df age_column)
  then (start ++ ["  ✗ Error: Column '" +:+ age_column +:+ "' not found in dataset"])%list
  else
    match getitem df age_column with
    | Raise _ => start
    | Ok ages =>
        let missing_count := count_true (isnull ages) in
        let warning :=
          if Nat.ltb 0 missing_count
          then ["  ⚠ Warning: " +:+ format_count missing_count +:+ " missing values in "
                +:+ age_column]
          else [] in
        match cut ages bins labels true false with
        | Raise _ => (start ++ warning)%list
        | Ok groups =>
            (start ++ warning
             ++ ["  ✓ Created " +:+ new_column_name +:+ " column";
                 nl +:+ "Age Group Distribution:";
                 repr_counts (value_counts groups)])%list
        end
    end.

(** [create_biometric_quality_categories] *)
Definition create_biometric_quality_categories (df : DataFrame)
    (quality_column new_column_name : string) : list string :=
  if negb (has_column df quality_column)
  then ["✗ Error: Column '" +:+ quality_column +:+ "' not found"]
  else
    match
      (let? scores := getitem df quality_column in
       cut scores DataCleaner.quality_bins DataCleaner.quality_labels true false)
    with
    | Raise _ => []
    | Ok cats =>
        ["✓ Created " +:+ new_column_name +:+ " from " +:+ quality_column;
         nl +:+ "Quality Distribution:";
         repr_counts (value_counts cats)]
    end.

(** The line of one turn of the loop of
    [standardize_categorical_columns]. *)
Definition standardize_line (case : string) (df : DataFrame) (col : string) : string :=
  if negb (has_column df col)
  then "  ⚠ Column '" +:+ col +:+ "' not found, skipping"
  else
    match getitem df col with
    | Ok (Object _) => "  ✓ Standardized " +:+ col +:+ " (" +:+ case +:+ " case)"
    | _ => "  ⚠ " +:+ col +:+ " is not a text column, skipping"
    end.

(** [standardize_categorical_columns]; a turn of the loop changes
    neither the names nor the dtypes of the columns. *)
Definition standardize_categorical_columns (df : DataFrame) (columns : list string)
    (case : string) : list string :=
  (nl +:+ "Standardizing categorical columns...") :: map (standardize_line case df) columns.

Section Dates.

Variable ge_datetime : Series -> string -> result (list bool).
Variable le_datetime : Series -> string -> result (list bool).

(** [filter_by_date_range]: an exception ends the output. *)
Definition filter_by_date_range (df : DataFrame) (date_column : string)
    (start_date end_date : option string) : list string :=
  if negb (has_column df date_column)
  then ["✗ Error: Column '" +:+ date_column +:+ "' not found"]
  else
    let original_len := nrows df in
    let text d := match d with Some s => s | None => "" end in
    match DataCleaner.filter_step ge_datetime date_column start_date df with
    | Raise _ => []
    | Ok df1 =>
        let after :=
          if DataCleaner.truthy start_date
          then ["Filtered records after " +:+ text start_date +:+ ": "
                +:+ format_count (nrows df1)]
          else [] in
        match DataCleaner.filter_step le_datetime date_column end_date df1 with
        | Raise _ => after
        | Ok df2 =>
            let before :=
              if DataCleaner.truthy end_date
              then ["Filtered records before " +:+ text end_date +:+ ": "
                    +:+ format_count (nrows df2)]
              else [] in
            let removed := (original_len - nrows df2)%nat in
            if Nat.eqb original_len 0
            then (after ++ before)%list
            else
              (after ++ before
               ++ ["Total records removed: " +:+ format_count removed +:+ " ("
                   +:+ format_share removed original_len +:+ "%)"])%list
        end
    end.

End Dates.

Section Converter.

Variable to_datetime : Series -> option string -> Series + string.

(** The lines of one turn of the loop of [convert_date_columns]. *)
Definition convert_lines (date_format : option string) (df : DataFrame) (col : string)
  : list string :=
  if has_column df col then
    ("Converting " +:+ col +:+ " to datetime...")
    :: match getitem df col with
       | Ok s =>
           let format := if DataCleaner.truthy date_format then date_format else None in
           match to_datetime s format with
           | inl _ => ["  ✓ Converted " +:+ col]
           | inr message => ["  ✗ Error converting " +:+ col +:+ ": " +:+ message]
           end
       | Raise _ => []
       end
  else ["  ⚠ Column " +:+ col +:+ " not found in dataset"].

(** [convert_date_columns]: each turn prints for the table the turns
    before it have made. *)
Fixpoint convert_date_columns (df : DataFrame) (date_columns : list string)
    (date_format : option string) : list string :=
  match date_columns with
  | [] => []
  | col :: rest =>
      (convert_lines date_format df col
       ++ convert_date_columns
            (DataLoader.convert_column to_datetime date_format df col) rest date_format)%list
  end.

End Converter.

Section Summaries.

(** [s.upper()] *)
Variable str_upper : string -> string.

(** What [calculate_correlation_matrix] prints from
    [df[available_cols].corr()] on, and [generate_summary_statistics]
    from [df.groupby(group_by_column)] on. *)
Variable correlation_lines : DataFrame -> list string -> list string.
Variable summary_lines : DataFrame -> string -> list string -> list string.

(** [calculate_correlation_matrix] *)
Definition calculate_correlation_matrix (df : DataFrame) (columns : list string)
  : list string :=
  let start := [nl +:+ rule 70; "CORRELATION ANALYSIS"; rule 70] in
  let available_cols := List.filter (Analyzer.is_number_column df) columns in
  if Nat.ltb (length available_cols) 2
  then (start ++ ["⚠ Not enough numerical columns for correlation analysis"])%list
  else (start ++ correlation_lines df available_cols)%list.

(** [generate_summary_statistics] *)
Definition generate_summary_statistics (df : DataFrame) (group_by_column : string)
    (numeric_columns : list string) : list string :=
  let start :=
    [nl +:+ rule 70; "SUMMARY STATISTICS BY " +:+ str_upper group_by_column; rule 70] in
  let available_cols := List.filter (has_column df) numeric_columns in
  match available_cols with
  | [] => (start ++ ["⚠ No numerical columns found"])%list
  | _ :: _ => (start ++ summary_lines df group_by_column available_cols)%list
  end.

(** What [isolation_forest_anomaly_detection] prints from
    [X = df[available_features].copy()] on. *)
Variable forest_lines : DataFrame -> list string -> float -> Z -> list string.

(** [isolation_forest_anomaly_detection] *)
Definition isolation_forest_anomaly_detection (df : DataFrame) (features : list string)
    (contamination : float) (random_state : Z) : list string :=
  let available_features := List.filter (has_column df) features in
  let start :=
    [nl +:+ rule 80; "ISOLATION FOREST: Anomaly Detection in Biometric Quality Patterns";
     rule 80; nl +:+ "Using features: " +:+ String.concat ", " available_features] in
  if Nat.eqb (length available_features) 0
  then (start ++ ["⚠ No valid features found"])%list
  else (start ++ forest_lines df available_features contamination random_state)%list.

End Summaries.

(** [identify_outliers]; no output is given where the model of the
    function gives no result. *)
Definition identify_outliers (df : DataFrame) (column method : string)
  : option (list string) :=
  let start := [nl +:+ rule 70; "OUTLIER DETECTION: " +:+ column; rule 70] in
  if negb (has_column df column)
  then Some (start ++ ["⚠ Column '" +:+ column +:+ "' not found"])%list
  else
    match Analyzer.identify_outliers df column method with
    | None => None
    | Some (Returns (_, stats)) => Some (start ++ describe_stats stats)%list
    | Some _ => Some start
    end.

End Formatting.

End Stdout.


(** ** Tables of the specification's examples *)

Module Examples.

(** Ages 3, 10, 25, 45 and 65. *)
Definition ages : DataFrame :=
  mkDataFrame 5 [("Age", Float64 [Some 3; Some 10; Some 25; Some 45; Some 65])].

(** Quality scores 35, 55, 75 and 95. *)
Definition scores : DataFrame :=
  mkDataFrame 4 [("Biometric_Quality_Score", Float64 [Some 35; Some 55; Some 75; Some 95])].

(** A group of eleven records with mean 50 and standard deviation 5, the
    first of them 65; a group of one record; a record without a group. *)
Definition outlier : DataFrame :=
  mkDataFrame 13
    [("Age_Group",
      Object [Some "A"; Some "A"; Some "A"; Some "A"; Some "A"; Some "A";
              Some "A"; Some "A"; Some "A"; Some "A"; Some "A"; Some "B"; None]);
     ("Biometric_Quality_Score",
      Float64 [Some 65; Some 49; Some 49; Some 49; Some 49; Some 49;
               Some 48; Some 48; Some 48; Some 48; Some 48; Some 70; Some 3])].

(** Three records; one of three entries of [a] is missing, two of [b]. *)
Definition thirds : DataFrame :=
  mkDataFrame 3
    [("a", Float64 [None; Some 1; Some 2]);
     ("b", Object [Some "x"; None; None])].

(** What the detection returns on [outlier] at threshold 2. *)
Definition flagged : DataFrame * StatisticalTests.anomaly_stats :=
  match StatisticalTests.detect_age_quality_anomalies
          outlier "Age_Group" "Biometric_Quality_Score" 2 with
  | Ok p => p
  | Raise _ => (mkDataFrame 0 [], StatisticalTests.mkAnomalyStats 0 0 None 0 0 2)
  end.

(** A store whose one object, behind reference 0, is [thirds]. *)
Definition store : gmap ref DataFrame := {[ 0%nat := thirds ]}.

(** Readers that find an empty table whatever the file. *)
Definition read_empty : DataLoader.Path -> result DataFrame :=
  fun _ => Ok (mkDataFrame 0 []).


(** Edges and labels of the caller's own: minors and adults. *)
Definition two_bins : list Q := [0; 18; 120].

Definition two_labels : list string := ["Minor"; "Adult"].

(** [ages] with its age groups. *)
Definition grouped : DataFrame :=
  match DataCleaner.create_age_groups ages "Age" None None "Age_Group" with
  | Ok d => d
  | Raise _ => mkDataFrame 0 []
  end.

(** A store whose one object, behind reference 0, is [ages]. *)
Definition store_ages : gmap ref DataFrame := {[ 0%nat := ages ]}.

(** Two ages beyond the last edge, with the age groups
    [create_age_groups] gives them: none. *)
Definition too_old : DataFrame :=
  mkDataFrame 2
    [("Age", Float64 [Some 150; Some 200]);
     ("Age_Group", Category DataCleaner.default_age_labels [None; None])].

Definition store_too_old : gmap ref DataFrame := {[ 0%nat := too_old ]}.

(** What the detection returns on [outlier] at threshold 4. *)
Definition flagged_at_4 : DataFrame * StatisticalTests.anomaly_stats :=
  match StatisticalTests.detect_age_quality_anomalies
          outlier "Age_Group" "Biometric_Quality_Score" 4 with
  | Ok p => p
  | Raise _ => (mkDataFrame 0 [], StatisticalTests.mkAnomalyStats 0 0 None 0 0 4)
  end.

(** Four records, the third equal to the first, the fourth without
    entries. *)
Definition repeated : DataFrame :=
  mkDataFrame 4
    [("id", Float64 [Some 1; Some 2; Some 1; None]);
     ("state", Object [Some "KA"; Some "MH"; Some "KA"; None])].

(** [repeated] without its duplicates. *)
Definition deduplicated : DataFrame :=
  match DataCleaner.remove_duplicates repeated None (keep_str "first") with
  | Ok d => d
  | Raise _ => mkDataFrame 0 []
  end.

(** A column of states as typed in, and a column of ages. *)
Definition places : DataFrame :=
  mkDataFrame 3
    [("State", Object [Some "  uttar PRADESH "; None; Some "delhi"]);
     ("Age", Float64 [Some 30; Some 41; None])].

(** Dates of update as ISO strings, the last one missing. *)
Definition updates : DataFrame :=
  mkDataFrame 3
    [("Update_Date", Object [Some "2021-01-05"; Some "2022-07-19"; None]);
     ("Age", Float64 [Some 30; Some 41; Some 7])].

(** Comparisons of a column of ISO dates with a date: the order of the
    strings; a missing date passes none. *)
Definition on_or_after (s : Series) (d : string) : result (list bool) :=
  match s with
  | Object v =>
      Ok (map (fun o => match o with Some x => String.leb d x | None => false end) v)
  | _ => Raise (TypeError "Invalid comparison")
  end.

Definition on_or_before (s : Series) (d : string) : result (list bool) :=
  match s with
  | Object v =>
      Ok (map (fun o => match o with Some x => String.leb x d | None => false end) v)
  | _ => Raise (TypeError "Invalid comparison")
  end.

(** [updates] from 2022 on. *)
Definition recent : DataFrame :=
  select_rows [false; true; false] updates.

(** Four records of one score, one of them without the score. *)
Definition steady : DataFrame :=
  mkDataFrame 4 [("Biometric_Quality_Score", Float64 [Some 70; None; Some 70; Some 70])].

End Examples.

(** * Notions the statements use *)

(** [q] lies in bin [k]: lower edge included, upper edge excluded. *)
Definition in_bin (bins : list Q) (k : nat) (q : Q) : Prop :=
  nth k bins 0 <= q /\ q < nth (S k) bins 0.

(** The label [pd.cut] gives one value, with the arguments both
    bucketing functions pass. *)
Definition label_of (bins : list Q) (labels : list string) (x : float)
  : option string :=
  take_label labels (bin_id bins true false x).

(** The extension of the file, compared without regard to case, is one
    of the three the loaders read. *)
Definition supported (file_path : string) : bool :=
  existsb
    (String.eqb (DataLoader.lower (DataLoader.suffix (DataLoader.parse_path file_path))))
    [".csv"; ".xlsx"; ".xls"].

(** A computation that leaves every object of [h0] as it is: it writes
    to objects that are not in [h0] only. *)
Definition keeps {A} (h0 : gmap ref DataFrame) (m : M A) : Prop :=
  forall h : gmap ref DataFrame, h0 ⊆ h -> h0 ⊆ snd (m h).

(** A computation that, besides keeping [h0], returns an object that is
    not one of [h0]. *)
Definition returns_new (h0 : gmap ref DataFrame) (m : M ref) : Prop :=
  forall (h : gmap ref DataFrame) (r : ref),
    h0 ⊆ h -> fst (m h) = Ok r -> h0 !! r = None.

(** The records that have a group, in the order of the table. *)
Definition grouped_records (keys : list (option scalar)) (quality : list float)
  : list (option scalar * float) :=
  List.filter (fun kx => negb (is_none (fst kx))) (combine keys quality).

(** The fraction of the entries of a column that are missing. *)
Definition missing_fraction (df : DataFrame) (column : string) : float :=
  match assoc column (columns df) with
  | Some s =>
      fdiv (Some (inject_Z (Z.of_nat (count_true (isnull s)))))
           (Some (inject_Z (Z.of_nat (nrows df))))
  | None => None
  end.

(** The table [handle_missing_values] returns for [Examples.thirds]
    under ['drop_cols'] with threshold [t]. *)
Definition drop_cols_of_thirds (t : Q) : option DataFrame :=
  let out := DataCleaner.handle_missing_values 0%nat "drop_cols" t Examples.store in
  match fst out with
  | Ok r => snd out !! r
  | Raise _ => None
  end.

(** No entry of the table is missing. *)
Definition complete (df : DataFrame) : Prop :=
  List.Forall (fun c : string * Series => count_true (isnull (snd c)) = 0%nat) (columns df).

(** The test ['drop_cols'] makes on a column of [df]: it has a missing
    entry, and its percentage of missing entries, rounded to two
    decimals, is above a hundred times the threshold. *)
Definition dropped (df : DataFrame) (threshold : Q) (c : string * Series) : bool :=
  Nat.ltb 0 (count_true (isnull (snd c)))
  && fgt (fround2 (percent_of (count_true (isnull (snd c))) (nrows df)))
         (Some (threshold * 100)).

(** One turn of a filling loop on the table [cur]: column [col] is
    replaced by [f] of it. *)
Definition fill_step (f : Series -> result Series) (col : string) (cur : DataFrame)
  : result DataFrame :=
  let? s := getitem cur col in
  let? s' := f s in
  Ok (setitem cur col s').

Fixpoint fill_steps (f : Series -> result Series) (cols : list string)
    (cur : DataFrame) : result DataFrame :=
  match cols with
  | [] => Ok cur
  | col :: rest => let? cur' := fill_step f col cur in fill_steps f rest cur'
  end.

(** What ['fill_mode'] does to a text column. *)
Definition fill_mode_column (s : Series) : result Series :=
  if Nat.ltb 0 (count_true (isnull s))
  then fillna_text (DataCleaner.mode_or_unknown s) s
  else Ok s.

(** What ['fill_median'] does to a numeric column. *)
Definition fill_median_column (s : Series) : result Series :=
  if Nat.ltb 0 (count_true (isnull s))
  then Ok (fillna_number (match s with Float64 v => median v | _ => None end) s)
  else Ok s.

(** A text column after ['fill_mode']. *)
Definition text_filled (s : Series) : Series :=
  match s with
  | Object v => Object (fill (DataCleaner.mode_or_unknown s) v)
  | Category cats v => Category cats (fill (DataCleaner.mode_or_unknown s) v)
  | _ => s
  end.

(** A numeric column after ['fill_median']. *)
Definition median_filled (v : list float) : Series :=
  match median v with
  | Some m => Float64 (fill m v)
  | None => Float64 v
  end.

(** No two keys of the list are equal. *)
Definition distinct_keys (l : list scalar) : Prop :=
  ForallOrdPairs (fun a b => scalar_eqb a b = false) l.

(** The key of a row is one of [ks]. *)
Definition key_among (ks : list scalar) (key : option scalar) : bool :=
  existsb (fun k => has_key k key) ks.

(** [sum(counts)] *)
Definition total (counts : list nat) : nat := fold_right Nat.add 0%nat counts.

(** The entries of a categorical column are among its categories, and
    no category is listed twice. *)
Definition categories_ok (s : Series) : Prop :=
  match s with
  | Category cats v => List.NoDup cats /\ forall x, In (Some x) v -> In x cats
  | _ => True
  end.

(** The part of a file name after its last [/]. *)
Definition base_name (file_name : string) : string :=
  List.last (DataLoader.split "/" file_name) "".

(** The name under which [save_processed_data] writes. *)
Definition saved_name (file_name : string) : string :=
  if negb (DataLoader.endswith file_name ".csv") then file_name +:+ ".csv" else file_name.

(** The path of the saved file as a string: the directory, a [/] and
    the name. *)
Definition saved_as (file_name output_dir : string) : string :=
  output_dir +:+ String "/" (saved_name file_name).

(** The value at position [pos] of the sorted sample, between the
    entries at the whole positions. *)
Definition interpolate (xs : list Q) (pos : Q) : Q :=
  nth (Z.to_nat (Qfloor pos)) xs 0
  + (pos - inject_Z (Qfloor pos))
    * (nth (S (Z.to_nat (Qfloor pos))) xs 0 - nth (Z.to_nat (Qfloor pos)) xs 0).

(** The records [keep='first'] keeps, after the records [seen]. *)
Definition kept_first (seen l : list (list cell)) : list (list cell) :=
  select (map negb (duplicated_first seen l)) l.

(** The records [keep='last'] keeps. *)
Definition kept_last (l : list (list cell)) : list (list cell) :=
  select (map negb (duplicated_last l)) l.

(** The records [keep=False] keeps: the ones no other record equals. *)
Definition kept_unique (l : list (list cell)) : list (list cell) :=
  select (map negb (duplicated_all l)) l.

(** The records [duplicated] compares: the entries of the columns named
    in [subset] (all columns for [None]). *)
Definition key_records (df : DataFrame) (subset : option (list string))
  : list (list cell) :=
  let names :=
    match subset with
    | Some names => names
    | None => column_names df
    end in
  records
    (map (fun c : string * Series => cells (snd c))
       (List.filter (fun c : string * Series => existsb (String.eqb (fst c)) names)
          (columns df)))
    (nrows df).

(** The flags of the three ways to keep. *)
Definition flags_of (keep : keep_arg) (ids : list (list cell)) : option (list bool) :=
  match keep with
  | keep_False => Some (duplicated_all ids)
  | keep_str s =>
      if String.eqb s "first" then Some (duplicated_first [] ids)
      else if String.eqb s "last" then Some (duplicated_last ids)
      else None
  end.

(** The table has no row or no column. *)
Definition is_empty (df : DataFrame) : bool :=
  Nat.eqb (nrows df) 0 || Nat.eqb (length (columns df)) 0.

(** The records kept, by [keep]. *)
Definition kept_of (keep : keep_arg) (ids : list (list cell)) : list (list cell) :=
  match flags_of keep ids with
  | Some dup => select (map negb dup) ids
  | None => ids
  end.

(** The character [title] writes for [c]. *)
Definition title_char (previous_is_cased : bool) (c : ascii) : ascii :=
  if is_lower c then (if previous_is_cased then c else to_upper c)
  else if is_upper c then (if previous_is_cased then to_lower c else c)
  else c.

(** What the standardization makes of a column: a column of text has
    every entry standardized, any other column stays. *)
Definition standardized (case : string) (s : Series) : Series :=
  match s with
  | Object v => Object (str_map (DataCleaner.standardize_text case) v)
  | _ => s
  end.

(** The strings the model of the string methods is exact on: those of
    ASCII characters. *)
Definition is_ascii (s : string) : bool :=
  forallb (fun c => Nat.ltb (nat_of_ascii c) 128) (list_ascii_of_string s).

Definition ascii_series (s : Series) : bool :=
  match s with
  | Object v => forallb (fun o => match o with Some x => is_ascii x | None => true end) v
  | _ => true
  end.

Definition ascii_text (df : DataFrame) : Prop :=
  forallb (fun c => ascii_series (snd c)) (columns df) = true.

(** A comparison of a column gives one Boolean for each entry. *)
Definition row_wise (compare : Series -> string -> result (list bool)) : Prop :=
  forall s d mask, compare s d = Ok mask -> length mask = series_len s.

(** The row with key [entry] has a group. *)
Definition has_group (observed : bool) (key_col : Doubles.Column)
    (entry : option Doubles.key) : bool :=
  existsb (fun k => Doubles.has_key k entry) (Doubles.group_keys observed key_col).

(** The records of the merged table: the key and the quality entry of
    the rows that have a group, in their order. *)
Definition joined_records (observed : bool) (key_col : Doubles.Column)
    (quality : list Doubles.double) : list (option Doubles.key * Doubles.double) :=
  List.filter (fun kx => has_group observed key_col (fst kx))
    (combine (Doubles.column_keys key_col) quality).

(** The names of the columns [detect_age_quality_anomalies] adds. *)
Definition detection_columns : list string :=
  ["group_mean"; "group_std"; "z_score"; "is_anomaly"; "anomaly_type"].


(** * Properties *)

(** ** Booleans of comparisons *)

Lemma Qle_bool_true (a b : Q) : a <= b -> Qle_bool a b = true.
Proof. apply Qle_bool_iff. Qed.

Lemma Qle_bool_false (a b : Q) : b < a -> Qle_bool a b = false.
Proof.
  intros H. destruct (Qle_bool a b) eqn:E; [|reflexivity].
  apply Qle_bool_iff in E. exfalso. apply (Qlt_not_le _ _ H E).
Qed.

Lemma Qlt_bool_iff (a b : Q) : Qlt_bool a b = true <-> a < b.
Proof.
  unfold Qlt_bool. rewrite negb_true_iff. split.
  - intros E. apply Qnot_le_lt. intros H. apply Qle_bool_iff in H. congruence.
  - apply Qle_bool_false.
Qed.

Lemma Qlt_bool_false_iff (a b : Q) : Qlt_bool a b = false <-> b <= a.
Proof.
  unfold Qlt_bool. rewrite negb_false_iff. apply Qle_bool_iff.
Qed.

Lemma Qeq_bool_false (a b : Q) : ~ a == b -> Qeq_bool a b = false.
Proof.
  intros H. destruct (Qeq_bool a b) eqn:E; [|reflexivity].
  apply Qeq_bool_iff in E. contradiction.
Qed.

(** ** Columns of a table *)

Lemma has_column_assoc (df : DataFrame) (name : string) :
  has_column df name = negb (is_none (assoc name (columns df))).
Proof.
  unfold has_column, column_names. induction (columns df) as [|[n s] cols IH]; simpl.
  - reflexivity.
  - destruct (String.eqb name n); simpl; [reflexivity|exact IH].
Qed.

Lemma getitem_has_column (df : DataFrame) (name : string) (s : Series) :
  getitem df name = Ok s -> has_column df name = true.
Proof.
  rewrite has_column_assoc. unfold getitem.
  destruct (assoc name (columns df)); simpl; [reflexivity|discriminate].
Qed.

Lemma has_column_false_getitem (df : DataFrame) (name : string) :
  has_column df name = false -> getitem df name = Raise (KeyError name).
Proof.
  rewrite has_column_assoc. unfold getitem.
  destruct (assoc name (columns df)); simpl; [discriminate|reflexivity].
Qed.

Lemma assoc_assign_same (name : string) (s : Series) cols :
  assoc name (assign name s cols) = Some s.
Proof.
  induction cols as [|[n old] cols IH]; simpl.
  - rewrite String.eqb_refl. reflexivity.
  - destruct (String.eqb name n) eqn:E; simpl; rewrite E; [reflexivity|exact IH].
Qed.

Lemma assoc_assign_other (name other : string) (s : Series) cols :
  name <> other -> assoc other (assign name s cols) = assoc other cols.
Proof.
  intros Hne. induction cols as [|[n old] cols IH]; simpl.
  - destruct (String.eqb other name) eqn:E; [|reflexivity].
    apply String.eqb_eq in E. congruence.
  - destruct (String.eqb name n) eqn:E; simpl.
    + apply String.eqb_eq in E. subst n.
      destruct (String.eqb other name) eqn:E'; [|reflexivity].
      apply String.eqb_eq in E'. congruence.
    + rewrite IH. reflexivity.
Qed.

Lemma getitem_setitem_same (df : DataFrame) (name : string) (s : Series) :
  getitem (setitem df name s) name = Ok s.
Proof. unfold getitem, setitem. simpl. rewrite assoc_assign_same. reflexivity. Qed.

Lemma getitem_setitem_other (df : DataFrame) (name other : string) (s : Series) :
  name <> other -> getitem (setitem df name s) other = getitem df other.
Proof.
  intros H. unfold getitem, setitem. simpl. rewrite assoc_assign_other by exact H.
  reflexivity.
Qed.

(** ** Bucketing *)

Lemma Qle_bool_false_iff (a b : Q) : Qle_bool a b = false <-> b < a.
Proof.
  split; [|apply Qle_bool_false].
  intros E. apply Qnot_le_lt. intros H. apply Qle_bool_iff in H. congruence.
Qed.

(** Decide the comparisons of a goal from the linear facts at hand. *)
Ltac decide_Q :=
  repeat first
    [ rewrite Qle_bool_true by lra
    | rewrite Qle_bool_false by lra
    | rewrite Qeq_bool_false by lra ].

Lemma cut_default_ok (v : list float) (bins : list Q) (labels : list string) :
  is_monotonic_increasing bins = true ->
  length (unique_Q bins) = length bins ->
  bins <> [] ->
  length (unique_strings labels) = length labels ->
  length labels = (length bins - 1)%nat ->
  cut (Float64 v) bins labels true false
  = Ok (Category labels (map (label_of bins labels) v)).
Proof.
  intros Hm Hu Hne Hl Hlen. unfold cut. simpl. rewrite Hm. simpl.
  rewrite Hu, Nat.ltb_irrefl. simpl.
  destruct bins as [|b bins]; [congruence|]. simpl length at 1.
  simpl. rewrite Hl, Nat.eqb_refl. simpl.
  simpl in Hlen. rewrite Nat.sub_0_r in Hlen. rewrite Hlen, Nat.sub_0_r, Nat.eqb_refl.
  reflexivity.
Qed.

Lemma age_label_spec (q : Q) :
  0 <= q -> q < 120 ->
  exists k : nat,
    (k < 5)%nat /\
    in_bin DataCleaner.default_age_bins k q /\
    label_of DataCleaner.default_age_bins DataCleaner.default_age_labels (Some q)
    = nth_error DataCleaner.default_age_labels k /\
    (forall k' : nat, (k' < 5)%nat -> in_bin DataCleaner.default_age_bins k' q -> k' = k).
Proof.
  intros H0 H120.
  assert (Hcase : q < 6 \/ (6 <= q /\ q < 19) \/ (19 <= q /\ q < 41)
                  \/ (41 <= q /\ q < 61) \/ 61 <= q).
  { destruct (Qlt_le_dec q 6); [lra|]. destruct (Qlt_le_dec q 19); [lra|].
    destruct (Qlt_le_dec q 41); [lra|]. destruct (Qlt_le_dec q 61); lra. }
  unfold label_of, bin_id, searchsorted, in_bin,
    DataCleaner.default_age_bins, DataCleaner.default_age_labels.
  destruct Hcase as [H|[H|[H|[H|H]]]];
    [exists 0%nat | exists 1%nat | exists 2%nat | exists 3%nat | exists 4%nat];
    (split; [lia|]); (split; [simpl; lra|]);
    (split;
     [ cbn [negb insertion_point]; decide_Q; cbn [negb insertion_point];
       try (destruct (Qeq_bool q 0)); reflexivity
     | intros k' Hk' [Hlo Hhi];
       do 5 (destruct k' as [|k']; [simpl in Hlo, Hhi; try reflexivity; lra|]); lia ]).
Qed.

Lemma create_age_groups_default (df : DataFrame) (age_column new_column_name : string)
    (v : list float) :
  getitem df age_column = Ok (Float64 v) ->
  DataCleaner.create_age_groups df age_column None None new_column_name
  = Ok (setitem df new_column_name
          (Category DataCleaner.default_age_labels
             (map (label_of DataCleaner.default_age_bins DataCleaner.default_age_labels) v))).
Proof.
  intros H. unfold DataCleaner.create_age_groups.
  rewrite (getitem_has_column _ _ _ H). cbn [negb]. rewrite H. cbn [rbind].
  rewrite cut_default_ok; [reflexivity | reflexivity | reflexivity | discriminate
                          | reflexivity | reflexivity].
Qed.

Lemma create_quality_categories_default (df : DataFrame)
    (quality_column new_column_name : string) (v : list float) :
  getitem df quality_column = Ok (Float64 v) ->
  DataCleaner.create_biometric_quality_categories df quality_column new_column_name
  = Ok (setitem df new_column_name
          (Category DataCleaner.quality_labels
             (map (label_of DataCleaner.quality_bins DataCleaner.quality_labels) v))).
Proof.
  intros H. unfold DataCleaner.create_biometric_quality_categories.
  rewrite (getitem_has_column _ _ _ H). cbn [negb]. rewrite H. cbn [rbind].
  rewrite cut_default_ok; [reflexivity | reflexivity | reflexivity | discriminate
                          | reflexivity | reflexivity].
Qed.

(** C1.  With the default bins, [create_age_groups] labels every age of
    [0,120) with the label of the one bin that holds it (lower edge
    included, upper edge excluded); the five labels are distinct, and an
    age of 6 gets the second label, ['6-18 (Youth)']. *)
Theorem create_age_groups_partition (df : DataFrame)
    (age_column new_column_name : string) (v : list float) :
  getitem df age_column = Ok (Float64 v) ->
  exists (out : DataFrame) (groups : list (option string)),
    DataCleaner.create_age_groups df age_column None None new_column_name = Ok out /\
    getitem out new_column_name = Ok (Category DataCleaner.default_age_labels groups) /\
    length groups = length v /\
    List.NoDup DataCleaner.default_age_labels /\
    forall (i : nat) (q : Q),
      nth_error v i = Some (Some q) -> 0 <= q -> q < 120 ->
      (exists k : nat,
          (k < 5)%nat /\
          in_bin DataCleaner.default_age_bins k q /\
          nth_error groups i = Some (nth_error DataCleaner.default_age_labels k) /\
          (forall k' : nat,
              (k' < 5)%nat -> in_bin DataCleaner.default_age_bins k' q -> k' = k)) /\
      (q == 6 -> nth_error groups i = Some (Some "6-18 (Youth)")).
Proof.
  intros H. eexists. eexists.
  split; [apply create_age_groups_default; exact H|].
  split; [apply getitem_setitem_same|].
  split; [apply length_map|].
  split.
  { unfold DataCleaner.default_age_labels.
    repeat (apply List.NoDup_cons; [simpl; intuition discriminate|]).
    apply List.NoDup_nil. }
  intros i q Hi H0 H120.
  assert (Hg : nth_error
                 (map (label_of DataCleaner.default_age_bins DataCleaner.default_age_labels) v) i
               = Some (label_of DataCleaner.default_age_bins
                                DataCleaner.default_age_labels (Some q))).
  { rewrite nth_error_map, Hi. reflexivity. }
  destruct (age_label_spec q H0 H120) as (k & Hk & Hin & Hlab & Huniq).
  split.
  - exists k. rewrite Hg, Hlab. auto.
  - intros H6. rewrite Hg, Hlab.
    assert (Hk1 : 1%nat = k).
    { apply Huniq; [lia|]. unfold in_bin, DataCleaner.default_age_bins. simpl. lra. }
    subst k. reflexivity.
Qed.

Lemma create_age_groups_partition_witness :
  exists (out : DataFrame) (groups : list (option string)),
    DataCleaner.create_age_groups Examples.ages "Age" None None "Age_Group" = Ok out /\
    getitem out "Age_Group" = Ok (Category DataCleaner.default_age_labels groups) /\
    length groups = 5%nat /\
    List.NoDup DataCleaner.default_age_labels /\
    forall (i : nat) (q : Q),
      nth_error [Some 3; Some 10; Some 25; Some 45; Some 65] i = Some (Some q) ->
      0 <= q -> q < 120 ->
      (exists k : nat,
          (k < 5)%nat /\
          in_bin DataCleaner.default_age_bins k q /\
          nth_error groups i = Some (nth_error DataCleaner.default_age_labels k) /\
          (forall k' : nat,
              (k' < 5)%nat -> in_bin DataCleaner.default_age_bins k' q -> k' = k)) /\
      (q == 6 -> nth_error groups i = Some (Some "6-18 (Youth)")).
Proof.
  apply (create_age_groups_partition Examples.ages "Age" "Age_Group"
           [Some 3; Some 10; Some 25; Some 45; Some 65]).
  reflexivity.
Defined.

(** C7.  A table whose [Age] column is 3, 10, 25, 45, 65 gets the five
    age labels in order; a table whose quality scores are 35, 55, 75, 95
    gets the four quality labels in order. *)
Theorem bucketing_examples (df1 df2 : DataFrame) :
  getitem df1 "Age" = Ok (Float64 [Some 3; Some 10; Some 25; Some 45; Some 65]) ->
  getitem df2 "Biometric_Quality_Score"
  = Ok (Float64 [Some 35; Some 55; Some 75; Some 95]) ->
  (exists out : DataFrame,
      DataCleaner.create_age_groups df1 "Age" None None "Age_Group" = Ok out /\
      getitem out "Age_Group"
      = Ok (Category DataCleaner.default_age_labels
              [Some "0-5 (Child)"; Some "6-18 (Youth)"; Some "19-40 (Young Adult)";
               Some "41-60 (Middle Age)"; Some "60+ (Elderly)"])) /\
  (exists out : DataFrame,
      DataCleaner.create_biometric_quality_categories
        df2 "Biometric_Quality_Score" "Quality_Category" = Ok out /\
      getitem out "Quality_Category"
      = Ok (Category DataCleaner.quality_labels
              [Some "Poor (0-40)"; Some "Fair (41-60)"; Some "Good (61-80)";
               Some "Excellent (81-100)"])).
Proof.
  intros H1 H2. split; eexists.
  - split; [apply create_age_groups_default; exact H1|].
    rewrite getitem_setitem_same. reflexivity.
  - split; [apply create_quality_categories_default; exact H2|].
    rewrite getitem_setitem_same. reflexivity.
Qed.

Lemma bucketing_examples_witness :
  (exists out : DataFrame,
      DataCleaner.create_age_groups Examples.ages "Age" None None "Age_Group" = Ok out /\
      getitem out "Age_Group"
      = Ok (Category DataCleaner.default_age_labels
              [Some "0-5 (Child)"; Some "6-18 (Youth)"; Some "19-40 (Young Adult)";
               Some "41-60 (Middle Age)"; Some "60+ (Elderly)"])) /\
  (exists out : DataFrame,
      DataCleaner.create_biometric_quality_categories
        Examples.scores "Biometric_Quality_Score" "Quality_Category" = Ok out /\
      getitem out "Quality_Category"
      = Ok (Category DataCleaner.quality_labels
              [Some "Poor (0-40)"; Some "Fair (41-60)"; Some "Good (61-80)";
               Some "Excellent (81-100)"])).
Proof.
  apply (bucketing_examples Examples.ages Examples.scores); reflexivity.
Defined.

(** ** Absent columns *)


(** ** Loading *)

Lemma rbind_Ok {A} (r : result A) : rbind r Ok = r.
Proof. destruct r; reflexivity. Qed.

Lemma load_dispatch (read_csv read_excel : DataLoader.Path -> result DataFrame)
    (file_path : string) :
  let p := DataLoader.parse_path file_path in
  let ext := DataLoader.lower (DataLoader.suffix p) in
  DataLoader.load_enrolment_data read_csv read_excel file_path
  = if String.eqb ext ".csv" then read_csv p
    else if String.eqb ext ".xlsx" || String.eqb ext ".xls" then read_excel p
    else Raise (ValueError ("Unsupported file format: " +:+ DataLoader.suffix p)).
Proof.
  intros p ext. unfold DataLoader.load_enrolment_data. fold p. fold ext.
  rewrite rbind_Ok. cbn [existsb]. rewrite orb_false_r. reflexivity.
Qed.

Lemma load_update_dispatch (read_csv read_excel : DataLoader.Path -> result DataFrame)
    (file_path : string) :
  let p := DataLoader.parse_path file_path in
  let ext := DataLoader.lower (DataLoader.suffix p) in
  DataLoader.load_update_data read_csv read_excel file_path
  = if String.eqb ext ".csv" then read_csv p
    else if String.eqb ext ".xlsx" || String.eqb ext ".xls" then read_excel p
    else Raise (ValueError ("Unsupported file format: " +:+ DataLoader.suffix p)).
Proof. exact (load_dispatch read_csv read_excel file_path). Qed.

(** C8.  Both loaders dispatch on the lower-cased extension: [.csv]
    goes to the CSV reader, [.xlsx] and [.xls] to the Excel reader, and
    the result is the reader's; any other extension raises the
    unsupported-format [ValueError].  So, where the readers themselves
    succeed, a loader raises exactly for the unsupported extensions. *)
Theorem loaders_unsupported_format
    (read_csv read_excel : DataLoader.Path -> result DataFrame) (file_path : string) :
  let p := DataLoader.parse_path file_path in
  let ext := DataLoader.lower (DataLoader.suffix p) in
  let unsupported_error :=
    Raise (ValueError ("Unsupported file format: " +:+ DataLoader.suffix p)) in
  (supported file_path = false ->
   DataLoader.load_enrolment_data read_csv read_excel file_path = unsupported_error /\
   DataLoader.load_update_data read_csv read_excel file_path = unsupported_error) /\
  (ext = ".csv" ->
   DataLoader.load_enrolment_data read_csv read_excel file_path = read_csv p /\
   DataLoader.load_update_data read_csv read_excel file_path = read_csv p) /\
  (ext = ".xlsx" \/ ext = ".xls" ->
   DataLoader.load_enrolment_data read_csv read_excel file_path = read_excel p /\
   DataLoader.load_update_data read_csv read_excel file_path = read_excel p) /\
  (raises (read_csv p) = false -> raises (read_excel p) = false ->
   (raises (DataLoader.load_enrolment_data read_csv read_excel file_path) = true
    <-> supported file_path = false) /\
   (raises (DataLoader.load_update_data read_csv read_excel file_path) = true
    <-> supported file_path = false)).
Proof.
  intros p ext unsupported_error.
  rewrite load_update_dispatch, load_dispatch. fold p. fold ext.
  unfold supported. fold p. fold ext. cbn [existsb]. rewrite orb_false_r.
  repeat split.
  - destruct (String.eqb ext ".csv"); [discriminate|].
    cbn [orb] in H. rewrite H. reflexivity.
  - destruct (String.eqb ext ".csv"); [discriminate|].
    cbn [orb] in H. rewrite H. reflexivity.
  - rewrite H. reflexivity.
  - rewrite H. reflexivity.
  - destruct H as [H|H]; rewrite H; reflexivity.
  - destruct H as [H|H]; rewrite H; reflexivity.
  - destruct (String.eqb ext ".csv"); [congruence|].
    cbn [orb]. destruct (String.eqb ext ".xlsx" || String.eqb ext ".xls");
      [congruence|reflexivity].
  - destruct (String.eqb ext ".csv"); [discriminate|].
    cbn [orb]. intros ->. reflexivity.
  - destruct (String.eqb ext ".csv"); [congruence|].
    cbn [orb]. destruct (String.eqb ext ".xlsx" || String.eqb ext ".xls");
      [congruence|reflexivity].
  - destruct (String.eqb ext ".csv"); [discriminate|].
    cbn [orb]. intros ->. reflexivity.
Qed.

Lemma loaders_unsupported_format_witness :
  DataLoader.load_enrolment_data Examples.read_empty Examples.read_empty "data/raw/records.json"
  = Raise (ValueError "Unsupported file format: .json") /\
  DataLoader.load_update_data Examples.read_empty Examples.read_empty "data/raw/updates.CSV"
  = Ok (mkDataFrame 0 []) /\
  DataLoader.load_update_data Examples.read_empty Examples.read_empty "data/raw/updates.Xls"
  = Ok (mkDataFrame 0 []) /\
  raises (DataLoader.load_enrolment_data Examples.read_empty Examples.read_empty "notes.txt")
  = true.
Proof.
  split; [|split; [|split]].
  - apply (proj1 (loaders_unsupported_format
                    Examples.read_empty Examples.read_empty "data/raw/records.json")).
    reflexivity.
  - apply (proj1 (proj2 (loaders_unsupported_format
                           Examples.read_empty Examples.read_empty "data/raw/updates.CSV"))).
    reflexivity.
  - apply (proj1 (proj2 (proj2 (loaders_unsupported_format
                                  Examples.read_empty Examples.read_empty
                                  "data/raw/updates.Xls")))).
    right. reflexivity.
  - apply (proj2 (proj2 (proj2 (loaders_unsupported_format
                                  Examples.read_empty Examples.read_empty "notes.txt")))).
    + reflexivity.
    + reflexivity.
    + reflexivity.
Defined.

(** ** The store *)

Lemma keeps_ret {A} (h0 : gmap ref DataFrame) (a : A) : keeps h0 (ret a).
Proof. intros h H. exact H. Qed.

Lemma keeps_lift {A} (h0 : gmap ref DataFrame) (r : result A) : keeps h0 (lift r).
Proof. intros h H. exact H. Qed.

Lemma keeps_deref (h0 : gmap ref DataFrame) (r : ref) : keeps h0 (deref r).
Proof. intros h H. unfold deref. destruct (h !! r); exact H. Qed.

Lemma keeps_update (h0 : gmap ref DataFrame) (r : ref) (df : DataFrame) :
  h0 !! r = None -> keeps h0 (update r df).
Proof. intros Hr h H. simpl. apply insert_subseteq_r; assumption. Qed.

Lemma keeps_new (h0 : gmap ref DataFrame) (df : DataFrame) : keeps h0 (new df).
Proof.
  intros h H. simpl. apply insert_subseteq_r; [|exact H].
  apply (lookup_weaken_None h0 h); [|exact H].
  apply not_elem_of_dom. apply is_fresh.
Qed.

Lemma keeps_bind {A B} (h0 : gmap ref DataFrame) (m : M A) (k : A -> M B) :
  keeps h0 m -> (forall a, keeps h0 (k a)) -> keeps h0 (bind m k).
Proof.
  intros Hm Hk h H. unfold bind. specialize (Hm h H).
  destruct (m h) as [[a|e] h']; simpl in *.
  - apply Hk. exact Hm.
  - exact Hm.
Qed.

Lemma keeps_for_each {A} (h0 : gmap ref DataFrame) (l : list A) (body : A -> M unit) :
  (forall a, keeps h0 (body a)) -> keeps h0 (for_each l body).
Proof.
  intros Hb. induction l as [|a l IH]; simpl.
  - apply keeps_ret.
  - apply keeps_bind; [apply Hb|]. intros _. exact IH.
Qed.

Lemma keeps_if {A} (h0 : gmap ref DataFrame) (b : bool) (m1 m2 : M A) :
  keeps h0 m1 -> keeps h0 m2 -> keeps h0 (if b then m1 else m2).
Proof. destruct b; auto. Qed.

Create HintDb keeps.
#[local] Hint Resolve keeps_ret keeps_lift keeps_deref keeps_update keeps_new : keeps.

Lemma keeps_copy {A} (h0 : gmap ref DataFrame) (r : ref) (k : ref -> M A) :
  (forall l : ref, h0 !! l = None -> keeps h0 (k l)) -> keeps h0 (bind (copy r) k).
Proof.
  intros Hk h H. unfold bind at 1, copy, bind, deref.
  destruct (h !! r) as [d|]; [|exact H]. cbn [new].
  assert (Hl : h0 !! fresh (dom h) = None).
  { apply (lookup_weaken_None h0 h); [|exact H].
    apply not_elem_of_dom. apply is_fresh. }
  apply (Hk _ Hl). apply insert_subseteq_r; assumption.
Qed.

(** [handle_missing_values] writes to its copy and to new objects only. *)
Lemma handle_missing_values_keeps (h0 : gmap ref DataFrame) (df : ref)
    (strategy : string) (threshold : Q) :
  keeps h0 (DataCleaner.handle_missing_values df strategy threshold).
Proof.
  unfold DataCleaner.handle_missing_values.
  apply keeps_copy. intros l Hl.
  apply keeps_bind; [apply keeps_deref|]. intros d0. cbv zeta.
  repeat (apply keeps_if; [auto with keeps|]); auto with keeps.
  - destruct (map _ _); auto with keeps.
  - apply keeps_bind; [|auto with keeps]. apply keeps_for_each. intros col.
    apply keeps_bind; [apply keeps_deref|]. intros cur.
    apply keeps_bind; [apply keeps_lift|]. intros s.
    apply keeps_if; [|auto with keeps].
    apply keeps_bind; auto with keeps.
  - apply keeps_bind; [|auto with keeps]. apply keeps_for_each. intros col.
    apply keeps_bind; [apply keeps_deref|]. intros cur.
    apply keeps_bind; [apply keeps_lift|]. intros s.
    apply keeps_if; auto with keeps.
Qed.

Lemma returns_new_ret (h0 : gmap ref DataFrame) (l : ref) :
  h0 !! l = None -> returns_new h0 (ret l).
Proof. intros Hl h r _ [= <-]. exact Hl. Qed.

Lemma returns_new_new (h0 : gmap ref DataFrame) (df : DataFrame) :
  returns_new h0 (new df).
Proof.
  intros h r H [= <-]. apply (lookup_weaken_None h0 h); [|exact H].
  apply not_elem_of_dom. apply is_fresh.
Qed.

Lemma returns_new_bind {A} (h0 : gmap ref DataFrame) (m : M A) (k : A -> M ref) :
  keeps h0 m -> (forall a, returns_new h0 (k a)) -> returns_new h0 (bind m k).
Proof.
  intros Hm Hk h r H. unfold bind. specialize (Hm h H).
  destruct (m h) as [[a|e] h']; simpl in *.
  - apply Hk. exact Hm.
  - discriminate.
Qed.

Lemma returns_new_if (h0 : gmap ref DataFrame) (b : bool) (m1 m2 : M ref) :
  returns_new h0 m1 -> returns_new h0 m2 -> returns_new h0 (if b then m1 else m2).
Proof. destruct b; auto. Qed.

Lemma returns_new_copy (h0 : gmap ref DataFrame) (r : ref) (k : ref -> M ref) :
  (forall l : ref, h0 !! l = None -> returns_new h0 (k l)) ->
  returns_new h0 (bind (copy r) k).
Proof.
  intros Hk h r' H. unfold bind at 1, copy, bind, deref.
  destruct (h !! r) as [d|]; [|discriminate]. cbn [new].
  assert (Hl : h0 !! fresh (dom h) = None).
  { apply (lookup_weaken_None h0 h); [|exact H].
    apply not_elem_of_dom. apply is_fresh. }
  apply (Hk _ Hl). apply insert_subseteq_r; assumption.
Qed.

#[local] Hint Resolve returns_new_ret returns_new_new : keeps.

(** What [handle_missing_values] returns is a new object. *)
Lemma handle_missing_values_returns_new (h0 : gmap ref DataFrame) (df : ref)
    (strategy : string) (threshold : Q) :
  returns_new h0 (DataCleaner.handle_missing_values df strategy threshold).
Proof.
  unfold DataCleaner.handle_missing_values.
  apply returns_new_copy. intros l Hl.
  apply returns_new_bind; [apply keeps_deref|]. intros d0. cbv zeta.
  repeat (apply returns_new_if; [auto with keeps|]); auto with keeps.
  - destruct (map _ _); auto with keeps.
  - apply returns_new_bind; [|auto with keeps]. apply keeps_for_each. intros col.
    apply keeps_bind; [apply keeps_deref|]. intros cur.
    apply keeps_bind; [apply keeps_lift|]. intros s.
    apply keeps_if; [|auto with keeps].
    apply keeps_bind; auto with keeps.
  - apply returns_new_bind; [|auto with keeps]. apply keeps_for_each. intros col.
    apply keeps_bind; [apply keeps_deref|]. intros cur.
    apply keeps_bind; [apply keeps_lift|]. intros s.
    apply keeps_if; auto with keeps.
Qed.

(** Under ['report'] the function returns its copy as it made it. *)
Lemma handle_missing_values_report (h : gmap ref DataFrame) (df : ref)
    (tbl : DataFrame) (threshold : Q) :
  h !! df = Some tbl ->
  DataCleaner.handle_missing_values df "report" threshold h
  = (Ok (fresh (dom h)), <[fresh (dom h) := tbl]> h).
Proof.
  intros Hdf. unfold DataCleaner.handle_missing_values, copy.
  unfold bind at 1. unfold bind at 1. unfold deref at 1. rewrite Hdf. cbn [new].
  unfold bind, deref. rewrite lookup_insert_eq. cbv zeta.
  destruct (Nat.eqb _ 0); reflexivity.
Qed.

(** C6.  [handle_missing_values] leaves the table it was given, and every
    other table of the caller, as it was, whatever the strategy; what it
    returns is another object.  Under ['report'] the returned table is
    equal to the input, so it has its record count and column count. *)
Theorem handle_missing_values_no_mutation (h : gmap ref DataFrame) (df : ref)
    (tbl : DataFrame) (strategy : string) (threshold : Q) :
  h !! df = Some tbl ->
  let out := DataCleaner.handle_missing_values df strategy threshold h in
  snd out !! df = Some tbl /\
  (forall (l : ref) (d : DataFrame), h !! l = Some d -> snd out !! l = Some d) /\
  (forall r : ref, fst out = Ok r -> r <> df /\ h !! r = None) /\
  (strategy = "report" ->
   exists (r : ref) (tbl' : DataFrame),
     fst out = Ok r /\ snd out !! r = Some tbl' /\ tbl' = tbl /\
     nrows tbl' = nrows tbl /\
     length (columns tbl') = length (columns tbl)).
Proof.
  intros Hdf out.
  assert (Hsub : h ⊆ snd out).
  { apply (handle_missing_values_keeps h df strategy threshold h). reflexivity. }
  split; [exact (lookup_weaken _ _ _ _ Hdf Hsub)|].
  split; [intros l d Hl; exact (lookup_weaken _ _ _ _ Hl Hsub)|].
  split.
  - intros r Hr.
    assert (Hnew : h !! r = None).
    { apply (handle_missing_values_returns_new h df strategy threshold h r);
        [reflexivity | exact Hr]. }
    split; [|exact Hnew]. intros ->. congruence.
  - intros ->. subst out. rewrite (handle_missing_values_report h df tbl threshold Hdf).
    exists (fresh (dom h)), tbl. cbn [fst snd]. rewrite lookup_insert_eq. auto.
Qed.

Lemma handle_missing_values_no_mutation_witness :
  let out := DataCleaner.handle_missing_values 0%nat "report" (1 # 2) Examples.store in
  snd out !! 0%nat = Some Examples.thirds /\
  exists (r : ref) (tbl' : DataFrame),
    fst out = Ok r /\ snd out !! r = Some tbl' /\ tbl' = Examples.thirds /\
    nrows tbl' = 3%nat /\ length (columns tbl') = 2%nat.
Proof.
  pose proof (handle_missing_values_no_mutation
                Examples.store 0%nat Examples.thirds "report" (1 # 2) eq_refl) as H.
  split.
  - exact (proj1 H).
  - exact (proj2 (proj2 (proj2 H)) eq_refl).
Defined.

(** ** Comparisons of roots *)

Ltac q_props :=
  repeat match goal with
    | H : Qle_bool _ _ = true |- _ => apply Qle_bool_iff in H
    | H : Qle_bool _ _ = false |- _ => apply Qle_bool_false_iff in H
    | H : Qlt_bool _ _ = true |- _ => apply Qlt_bool_iff in H
    | H : Qlt_bool _ _ = false |- _ => apply Qlt_bool_false_iff in H
    | H : Qeq_bool _ _ = true |- _ => apply Qeq_bool_iff in H
    | H : Qeq_bool _ _ = false |- _ => apply Qeq_bool_neq in H
    end.

Lemma Qopp_opp_eq (t : Q) : - - t = t.
Proof. destruct t as [n d]. unfold Qopp. simpl. rewrite Z.opp_involutive. reflexivity. Qed.

Lemma rgt_compat (c c' r t : Q) :
  c == c' -> rgt (RSqrt c r) t = rgt (RSqrt c' r) t.
Proof.
  intros H. unfold rgt, Qlt_bool.
  rewrite (Qleb_comp 0 0 (Qeq_refl 0) c c' H).
  assert (Hsq : c * c * r == c' * c' * r) by (rewrite H; reflexivity).
  rewrite (Qleb_comp _ _ Hsq (t * t) (t * t) (Qeq_refl _)).
  rewrite (Qleb_comp (t * t) (t * t) (Qeq_refl _) _ _ Hsq).
  reflexivity.
Qed.

Lemma rgt_opp_imp (c r t : Q) :
  0 <= c -> rgt (RSqrt (- c) r) t = true -> rgt (RSqrt c r) t = true.
Proof.
  intros Hc. unfold rgt.
  destruct (Qle_bool 0 (- c)) eqn:E1; destruct (Qle_bool 0 c) eqn:E2;
    destruct (Qeq_bool r 0) eqn:E3; destruct (Qlt_bool t 0) eqn:E4;
    destruct (Qlt_bool (t * t) (- c * - c * r)) eqn:E5;
    destruct (Qlt_bool (- c * - c * r) (t * t)) eqn:E6;
    destruct (Qlt_bool (t * t) (c * c * r)) eqn:E7;
    cbn; intros H; try reflexivity; try discriminate; exfalso; q_props; lra.
Qed.

(** [|x| > t] exactly when [x > t] or [-x > t]. *)
Lemma rgt_abs (z : rfloat) (t : Q) :
  rgt (rabs z) t = rgt z t || rgt (ropp z) t.
Proof.
  destruct z as [|b|c r]; [reflexivity | destruct b; reflexivity |].
  cbn [rabs ropp]. destruct (Qlt_le_dec c 0) as [Hc|Hc].
  - rewrite (rgt_compat (Qabs c) (- c)) by (apply Qabs_neg; lra).
    destruct (rgt (RSqrt c r) t) eqn:E; [|reflexivity]. cbn [orb].
    apply (rgt_opp_imp (- c) r t); [lra|]. rewrite Qopp_opp_eq. exact E.
  - rewrite (rgt_compat (Qabs c) c) by (apply Qabs_pos; lra).
    destruct (rgt (RSqrt (- c) r) t) eqn:E; [|rewrite orb_false_r; reflexivity].
    rewrite (rgt_opp_imp c r t Hc E). reflexivity.
Qed.

(** A record is flagged exactly when its z-score is above the threshold
    or below its opposite. *)
Lemma is_anomaly_sides (z : rfloat) (t : Q) :
  StatisticalTests.is_anomaly z t = rgt z t || rlt z (- t).
Proof.
  unfold StatisticalTests.is_anomaly, rlt. rewrite Qopp_opp_eq. apply rgt_abs.
Qed.

Lemma anomaly_type_cases (z : rfloat) (t : Q) :
  StatisticalTests.anomaly_type z t
  = if rlt z (- t) then "Unusually Low Quality"
    else if rgt z t then "Unusually High Quality" else "Normal".
Proof.
  unfold StatisticalTests.anomaly_type.
  destruct (rlt z (- t)), (rgt z t); reflexivity.
Qed.

(** One record: the flag is set exactly when the label is not ['Normal']. *)
Lemma is_anomaly_iff_not_normal (z : rfloat) (t : Q) :
  StatisticalTests.is_anomaly z t = true
  <-> StatisticalTests.anomaly_type z t <> "Normal".
Proof.
  rewrite is_anomaly_sides, anomaly_type_cases.
  destruct (rlt z (- t)), (rgt z t); cbn; split; congruence.
Qed.

(** ** The table of anomalies *)

(** What [detect_age_quality_anomalies] returns, read off its result:
    the flags, the labels and the three counts. *)
Lemma detect_columns (df : DataFrame) (age_group_column quality_column : string)
    (threshold_std : Q) (out : DataFrame) (st : StatisticalTests.anomaly_stats) :
  StatisticalTests.detect_age_quality_anomalies
    df age_group_column quality_column threshold_std = Ok (out, st) ->
  exists (key_col quality_col : Series) (quality : list float),
    getitem df age_group_column = Ok key_col /\
    getitem df quality_column = Ok quality_col /\
    numeric_values quality_col = Ok quality /\
    let z := StatisticalTests.z_scores (series_keys key_col) quality in
    let flags := map (fun x => StatisticalTests.is_anomaly x threshold_std) z in
    let types := map (fun x => StatisticalTests.anomaly_type x threshold_std) z in
    getitem out "is_anomaly" = Ok (Boolean flags) /\
    getitem out "anomaly_type" = Ok (Object (map Some types)) /\
    StatisticalTests.n_anomalies st = count_true flags /\
    StatisticalTests.n_unusually_high st
    = count_true (map (String.eqb "Unusually High Quality") types) /\
    StatisticalTests.n_unusually_low st
    = count_true (map (String.eqb "Unusually Low Quality") types).
Proof.
  unfold StatisticalTests.detect_age_quality_anomalies.
  destruct (getitem df age_group_column) as [key_col|] eqn:Hk; [|discriminate].
  destruct (getitem df quality_column) as [quality_col|] eqn:Hq; [|discriminate].
  cbn [rbind].
  destruct (numeric_values quality_col) as [quality|] eqn:Hn; [|discriminate].
  cbn [rbind]. cbv zeta.
  destruct (has_column df "group_mean"); [discriminate|].
  destruct (has_column df "group_std"); [discriminate|].
  intros [= <- <-]. exists key_col, quality_col, quality.
  do 3 (split; [first [reflexivity | assumption]|]). cbv zeta.
  split; [rewrite getitem_setitem_other by discriminate; apply getitem_setitem_same|].
  split; [apply getitem_setitem_same|].
  repeat split.
Qed.

Lemma count_true_cons (b : bool) (l : list bool) :
  count_true (b :: l) = ((if b then 1 else 0) + count_true l)%nat.
Proof. unfold count_true. destruct b; reflexivity. Qed.

Lemma count_anomalies (z : list rfloat) (t : Q) :
  count_true (map (fun x => StatisticalTests.is_anomaly x t) z)
  = (count_true (map (String.eqb "Unusually High Quality")
                   (map (fun x => StatisticalTests.anomaly_type x t) z))
     + count_true (map (String.eqb "Unusually Low Quality")
                     (map (fun x => StatisticalTests.anomaly_type x t) z)))%nat.
Proof.
  induction z as [|x z IH]; [reflexivity|].
  cbn [map]. rewrite !count_true_cons, IH.
  rewrite is_anomaly_sides, anomaly_type_cases.
  destruct (rlt x (- t)), (rgt x t); cbn; lia.
Qed.

(** C10.  In the table [detect_age_quality_anomalies] returns, a record
    has [is_anomaly] set exactly when its [anomaly_type] is not
    ['Normal'], and the count of anomalies is the count of unusually high
    records plus the count of unusually low ones. *)
Theorem anomaly_flag_matches_type (df : DataFrame)
    (age_group_column quality_column : string) (threshold_std : Q)
    (out : DataFrame) (st : StatisticalTests.anomaly_stats) :
  StatisticalTests.detect_age_quality_anomalies
    df age_group_column quality_column threshold_std = Ok (out, st) ->
  exists (flags : list bool) (types : list string),
    getitem out "is_anomaly" = Ok (Boolean flags) /\
    getitem out "anomaly_type" = Ok (Object (map Some types)) /\
    length flags = length types /\
    (forall (i : nat) (flag : bool) (type : string),
        nth_error flags i = Some flag -> nth_error types i = Some type ->
        (flag = true <-> type <> "Normal")) /\
    StatisticalTests.n_anomalies st
    = (StatisticalTests.n_unusually_high st + StatisticalTests.n_unusually_low st)%nat.
Proof.
  intros H. destruct (detect_columns _ _ _ _ _ _ H)
    as (key_col & quality_col & quality & _ & _ & _ & Hf & Ht & Hn & Hh & Hl).
  cbv zeta in *. eexists. eexists.
  split; [exact Hf|]. split; [exact Ht|].
  split; [rewrite !length_map; reflexivity|].
  split.
  - intros i flag type Hi Hj. rewrite nth_error_map in Hi, Hj.
    destruct (nth_error _ i) as [z|]; [|discriminate].
    cbn in Hi, Hj. injection Hi as <-. injection Hj as <-.
    apply is_anomaly_iff_not_normal.
  - rewrite Hn, Hh, Hl. apply count_anomalies.
Qed.

Lemma anomaly_flag_matches_type_witness :
  exists (flags : list bool) (types : list string),
    getitem (fst Examples.flagged) "is_anomaly" = Ok (Boolean flags) /\
    getitem (fst Examples.flagged) "anomaly_type" = Ok (Object (map Some types)) /\
    length flags = length types /\
    (forall (i : nat) (flag : bool) (type : string),
        nth_error flags i = Some flag -> nth_error types i = Some type ->
        (flag = true <-> type <> "Normal")) /\
    StatisticalTests.n_anomalies (snd Examples.flagged)
    = (StatisticalTests.n_unusually_high (snd Examples.flagged)
       + StatisticalTests.n_unusually_low (snd Examples.flagged))%nat.
Proof.
  apply (anomaly_flag_matches_type Examples.outlier
           "Age_Group" "Biometric_Quality_Score" 2
           (fst Examples.flagged) (snd Examples.flagged)).
  vm_compute. reflexivity.
Defined.

(** ** Groups *)

Lemma scalar_eqb_refl (a : scalar) : scalar_eqb a a = true.
Proof.
  destruct a; simpl.
  - apply Qeq_bool_refl.
  - apply String.eqb_refl.
  - destruct b; reflexivity.
Qed.

Lemma scalar_eqb_sym (a b : scalar) : scalar_eqb a b = scalar_eqb b a.
Proof.
  destruct a, b; simpl; try reflexivity.
  - apply Qeq_bool_comm.
  - apply String.eqb_sym.
  - destruct b, b0; reflexivity.
Qed.

Lemma scalar_eqb_trans (a b c : scalar) :
  scalar_eqb a b = true -> scalar_eqb b c = true -> scalar_eqb a c = true.
Proof.
  destruct a, b, c; simpl; try discriminate.
  - apply Qeq_bool_trans.
  - intros H1 H2. apply String.eqb_eq in H1, H2. subst. apply String.eqb_refl.
  - destruct b, b0, b1; auto.
Qed.

(** Equal keys select the same rows. *)
Lemma has_key_compat (k k' : scalar) (key : option scalar) :
  scalar_eqb k k' = true -> has_key k key = has_key k' key.
Proof.
  intros H. destruct key as [x|]; [|reflexivity]. simpl.
  destruct (scalar_eqb k x) eqn:E1, (scalar_eqb k' x) eqn:E2; try reflexivity.
  - rewrite scalar_eqb_sym in H. rewrite (scalar_eqb_trans _ _ _ H E1) in E2. discriminate.
  - rewrite (scalar_eqb_trans _ _ _ H E2) in E1. discriminate.
Qed.

Lemma In_somes {A} (a : A) (l : list (option A)) : In a (somes l) <-> In (Some a) l.
Proof.
  induction l as [|[x|] l IH]; simpl.
  - tauto.
  - rewrite IH. split; intros [H|H]; auto; left; congruence.
  - rewrite IH. split; [auto|]. intros [H|H]; [discriminate|exact H].
Qed.

Lemma In_unique_scalars (k : scalar) (l : list scalar) :
  In k l -> exists k', In k' (unique_scalars l) /\ scalar_eqb k' k = true.
Proof.
  induction l as [|a l IH]; simpl; [tauto|].
  intros [->|H].
  - exists k. split; [left; reflexivity|apply scalar_eqb_refl].
  - destruct (IH H) as (k' & Hin & He).
    destruct (scalar_eqb a k') eqn:E.
    + exists a. split; [left; reflexivity|]. exact (scalar_eqb_trans _ _ _ E He).
    + exists k'. split; [|exact He]. right. apply filter_In. rewrite E. auto.
Qed.

Lemma In_insert_scalar (x y : scalar) (l : list scalar) :
  In x (insert_scalar y l) <-> x = y \/ In x l.
Proof.
  induction l as [|a l IH]; simpl.
  - split; intros [H|H]; auto.
  - destruct (scalar_leb y a); simpl.
    + split; intros [H|H]; auto.
    + rewrite IH. split; intros [H|[H|H]]; auto.
Qed.

Lemma In_sort_scalars (x : scalar) (l : list scalar) :
  In x (sort_scalars l) <-> In x l.
Proof.
  unfold sort_scalars. induction l as [|a l IH]; simpl; [tauto|].
  rewrite In_insert_scalar, IH. split; intros [H|H]; auto.
Qed.

(** Every key that occurs has its row in [group_stats]; the row holds the
    mean and the deviation of the rows with that key. *)
Lemma find_group_Some (keys : list (option scalar)) (quality : list float) (k : scalar) :
  In (Some k) keys ->
  exists k' : scalar,
    scalar_eqb k' k = true /\
    StatisticalTests.find_group (StatisticalTests.group_stats keys quality) (Some k)
    = Some (StatisticalTests.mkGroupStat k'
              (mean (group_values k' keys quality))
              (std (group_values k' keys quality))).
Proof.
  intros Hin. unfold StatisticalTests.find_group.
  destruct (List.find _ _) as [g|] eqn:E.
  - apply find_some in E. destruct E as [Hg Hk].
    unfold StatisticalTests.group_stats in Hg. apply in_map_iff in Hg.
    destruct Hg as (k' & <- & _). exists k'. split; [exact Hk|reflexivity].
  - exfalso. apply In_somes in Hin. apply In_unique_scalars in Hin.
    destruct Hin as (k' & Hin & He). apply In_sort_scalars in Hin.
    pose proof (find_none _ _ E
                  (StatisticalTests.mkGroupStat k'
                     (mean (group_values k' keys quality))
                     (std (group_values k' keys quality)))) as Hn.
    cbn in Hn. rewrite He in Hn. discriminate Hn.
    unfold StatisticalTests.group_stats. apply in_map_iff. exists k'. auto.
Qed.

Lemma find_group_None (stats : list StatisticalTests.group_stat) :
  StatisticalTests.find_group stats None = None.
Proof.
  unfold StatisticalTests.find_group. induction stats as [|g l IH]; simpl; auto.
Qed.

Lemma length_select {A} (mask : list bool) (l : list A) :
  length mask = length l -> length (select mask l) = count_true mask.
Proof.
  unfold select. revert l. induction mask as [|b mask IH]; intros [|a l] H;
    try discriminate; [reflexivity|].
  simpl in H. injection H as H. rewrite count_true_cons. simpl.
  destruct b; simpl; rewrite IH by exact H; reflexivity.
Qed.

(** The deviation of a group of one record is undefined. *)
Lemma std_singleton (v : list float) : length v = 1%nat -> std v = RNaN.
Proof.
  destruct v as [|x [|y v]]; try discriminate. intros _.
  destruct x; reflexivity.
Qed.

(** The [i]-th row of the merged table is the [i]-th record that has a
    group, joined to the statistics of that group. *)
Lemma nth_merged (keys0 : list (option scalar)) (quality0 : list float)
    (l : list (option scalar * float)) :
  (forall k x, In (Some k, x) l -> In (Some k) keys0) ->
  forall (i : nat) (k : scalar) (x : float),
    nth_error (List.filter (fun kx => negb (is_none (fst kx))) l) i = Some (Some k, x) ->
    exists g,
      StatisticalTests.find_group (StatisticalTests.group_stats keys0 quality0) (Some k)
      = Some g /\
      nth_error
        (somes (map (fun kx : option scalar * float =>
                       option_map (fun g => (snd kx, g))
                         (StatisticalTests.find_group
                            (StatisticalTests.group_stats keys0 quality0) (fst kx)))
                    l)) i
      = Some (x, g).
Proof.
  induction l as [|[[k0|] x0] l IH]; intros Hin i k x Hi.
  - destruct i; discriminate.
  - destruct (find_group_Some keys0 quality0 k0) as (k' & He & Hf).
    { apply (Hin k0 x0). left. reflexivity. }
    cbn [map fst snd List.filter is_none negb] in *. rewrite Hf. cbn [option_map somes].
    destruct i as [|i].
    + cbn in Hi. injection Hi as -> ->. eexists. split; [exact Hf|reflexivity].
    + cbn [nth_error] in *. apply IH; [|exact Hi].
      intros k1 x1 H1. apply (Hin k1 x1). right. exact H1.
  - cbn [map fst snd List.filter is_none negb] in *. rewrite find_group_None.
    cbn [option_map somes]. apply IH; [|exact Hi].
    intros k1 x1 H1. apply (Hin k1 x1). right. exact H1.
Qed.

Lemma length_series_keys (s : Series) : length (series_keys s) = series_len s.
Proof. destruct s; simpl; apply length_map. Qed.

Lemma length_numeric_values (s : Series) (v : list float) :
  numeric_values s = Ok v -> length v = series_len s.
Proof.
  destruct s; simpl; intros [= <-]; [reflexivity|apply length_map].
Qed.

Lemma well_formed_getitem (df : DataFrame) (name : string) (s : Series) :
  well_formed df -> getitem df name = Ok s -> series_len s = nrows df.
Proof.
  unfold well_formed, getitem. intros Hwf.
  induction (columns df) as [|[n c] cols IH]; simpl; [discriminate|].
  inversion Hwf as [|? ? Hc Hrest]; subst.
  destruct (String.eqb name n).
  - intros [= <-]. exact Hc.
  - apply IH. exact Hrest.
Qed.

Lemma detect_returns (df : DataFrame) (age_group_column quality_column : string)
    (threshold_std : Q) (key_col quality_col : Series) (quality : list float) :
  getitem df age_group_column = Ok key_col ->
  getitem df quality_column = Ok quality_col ->
  numeric_values quality_col = Ok quality ->
  has_column df "group_mean" = false ->
  has_column df "group_std" = false ->
  exists (out : DataFrame) (st : StatisticalTests.anomaly_stats),
    StatisticalTests.detect_age_quality_anomalies
      df age_group_column quality_column threshold_std = Ok (out, st).
Proof.
  intros Hk Hq Hn Hm Hs. unfold StatisticalTests.detect_age_quality_anomalies.
  rewrite Hk, Hq. cbn [rbind]. rewrite Hn. cbn [rbind]. cbv zeta.
  rewrite Hm, Hs. eexists. eexists. reflexivity.
Qed.

(** A record without a defined z-score is not flagged. *)
Lemma nan_not_flagged (t : Q) :
  StatisticalTests.is_anomaly RNaN t = false /\
  StatisticalTests.anomaly_type RNaN t = "Normal".
Proof. split; reflexivity. Qed.

(** C3.  On a table that has the two columns, [detect_age_quality_anomalies]
    returns, and a record whose group has no other record is not
    flagged, whatever the threshold: its [is_anomaly] is false and its
    [anomaly_type] is ['Normal'].  The records of the returned table are
    the records that have a group, in their order. *)
Theorem singleton_group_never_flagged (df : DataFrame)
    (age_group_column quality_column : string) (threshold_std : Q)
    (key_col quality_col : Series) (quality : list float) :
  well_formed df ->
  getitem df age_group_column = Ok key_col ->
  getitem df quality_column = Ok quality_col ->
  numeric_values quality_col = Ok quality ->
  has_column df "group_mean" = false ->
  has_column df "group_std" = false ->
  exists (out : DataFrame) (st : StatisticalTests.anomaly_stats)
         (flags : list bool) (types : list string),
    StatisticalTests.detect_age_quality_anomalies
      df age_group_column quality_column threshold_std = Ok (out, st) /\
    getitem out "is_anomaly" = Ok (Boolean flags) /\
    getitem out "anomaly_type" = Ok (Object (map Some types)) /\
    forall (i : nat) (k : scalar) (x : float),
      nth_error (grouped_records (series_keys key_col) quality) i = Some (Some k, x) ->
      count_true (map (has_key k) (series_keys key_col)) = 1%nat ->
      nth_error flags i = Some false /\ nth_error types i = Some "Normal".
Proof.
  intros Hwf Hk Hq Hn Hm Hs.
  destruct (detect_returns df age_group_column quality_column threshold_std
              key_col quality_col quality Hk Hq Hn Hm Hs) as (out & st & Hd).
  destruct (detect_columns _ _ _ _ _ _ Hd)
    as (key_col' & quality_col' & quality' & Hk' & Hq' & Hn' & Hf & Ht & _).
  rewrite Hk in Hk'. injection Hk' as <-.
  rewrite Hq in Hq'. injection Hq' as <-.
  rewrite Hn in Hn'. injection Hn' as <-.
  cbv zeta in Hf, Ht.
  exists out, st. eexists. eexists.
  split; [exact Hd|]. split; [exact Hf|]. split; [exact Ht|].
  intros i k x Hi Hone.
  assert (Hlen : length (series_keys key_col) = length quality).
  { rewrite length_series_keys, (length_numeric_values _ _ Hn).
    rewrite (well_formed_getitem _ _ _ Hwf Hk), (well_formed_getitem _ _ _ Hwf Hq).
    reflexivity. }
  destruct (nth_merged (series_keys key_col) quality
              (combine (series_keys key_col) quality)) with (i := i) (k := k) (x := x)
    as (g & Hg & Hrow).
  { intros k1 x1 H1. exact (in_combine_l _ _ _ _ H1). }
  { exact Hi. }
  assert (Hin : In (Some k) (series_keys key_col)).
  { unfold grouped_records in Hi. apply nth_error_In in Hi. apply filter_In in Hi.
    exact (in_combine_l _ _ _ _ (proj1 Hi)). }
  destruct (find_group_Some (series_keys key_col) quality k Hin) as (k' & He & Hg').
  rewrite Hg in Hg'. injection Hg' as ->.
  assert (Hz : nth_error (StatisticalTests.z_scores (series_keys key_col) quality) i
               = Some RNaN).
  { unfold StatisticalTests.z_scores, StatisticalTests.merged.
    rewrite nth_error_map, Hrow. cbn [option_map fst snd].
    unfold StatisticalTests.z_score. cbn [StatisticalTests.group_std].
    rewrite std_singleton.
    - destruct (fsub x _); reflexivity.
    - unfold group_values. rewrite length_select by (rewrite length_map; exact Hlen).
      rewrite <- Hone. f_equal. apply map_ext. intros key.
      apply has_key_compat. exact He. }
  rewrite !nth_error_map, Hz. cbn [option_map].
  destruct (nan_not_flagged threshold_std) as [-> ->]. split; reflexivity.
Qed.

Lemma well_formed_outlier : well_formed Examples.outlier.
Proof. repeat constructor. Qed.

Lemma singleton_group_never_flagged_witness :
  exists (out : DataFrame) (st : StatisticalTests.anomaly_stats)
         (flags : list bool) (types : list string),
    StatisticalTests.detect_age_quality_anomalies
      Examples.outlier "Age_Group" "Biometric_Quality_Score" 2 = Ok (out, st) /\
    getitem out "is_anomaly" = Ok (Boolean flags) /\
    getitem out "anomaly_type" = Ok (Object (map Some types)) /\
    nth_error flags 11 = Some false /\ nth_error types 11 = Some "Normal".
Proof.
  destruct (singleton_group_never_flagged Examples.outlier
              "Age_Group" "Biometric_Quality_Score" 2
              (Object [Some "A"; Some "A"; Some "A"; Some "A"; Some "A"; Some "A";
                       Some "A"; Some "A"; Some "A"; Some "A"; Some "A"; Some "B"; None])
              (Float64 [Some 65; Some 49; Some 49; Some 49; Some 49; Some 49;
                        Some 48; Some 48; Some 48; Some 48; Some 48; Some 70; Some 3])
              [Some 65; Some 49; Some 49; Some 49; Some 49; Some 49;
               Some 48; Some 48; Some 48; Some 48; Some 48; Some 70; Some 3]
              well_formed_outlier eq_refl eq_refl eq_refl eq_refl eq_refl)
    as (out & st & flags & types & Hd & Hf & Ht & Hrec).
  exists out, st, flags, types.
  split; [exact Hd|]. split; [exact Hf|]. split; [exact Ht|].
  apply (Hrec 11%nat (Str "B") (Some 70)); reflexivity.
Defined.

(** ** Dropping columns *)

Lemma In_insert_desc (r x : DataCleaner.missing_row) (l : list DataCleaner.missing_row) :
  In x (DataCleaner.insert_desc r l) <-> x = r \/ In x l.
Proof.
  induction l as [|a l IH]; simpl.
  - split; intros [H|H]; auto.
  - destruct (DataCleaner.percent_geb r a); simpl.
    + split; intros [H|H]; auto.
    + rewrite IH. split; intros [H|[H|H]]; auto.
Qed.

Lemma In_sort_desc (x : DataCleaner.missing_row) (l : list DataCleaner.missing_row) :
  In x (DataCleaner.sort_desc l) <-> In x l.
Proof.
  unfold DataCleaner.sort_desc. induction l as [|a l IH]; simpl; [tauto|].
  rewrite In_insert_desc, IH. split; intros [H|H]; auto.
Qed.

(** What ['drop_cols'] decides on: a column is dropped when it has a
    missing entry and its percentage of missing entries, rounded to two
    decimals, is above a hundred times the threshold. *)
Lemma cols_to_drop_rounded (d : DataFrame) (threshold : Q) (column : string) :
  In column
     (map DataCleaner.Column
        (List.filter
           (fun r => fgt (DataCleaner.Missing_Percent r) (Some (threshold * 100)))
           (DataCleaner.missing_stats d)))
  <-> exists s : Series,
      In (column, s) (columns d) /\
      (0 < count_true (isnull s))%nat /\
      fgt (fround2 (percent_of (count_true (isnull s)) (nrows d)))
          (Some (threshold * 100)) = true.
Proof.
  rewrite in_map_iff. unfold DataCleaner.missing_stats. split.
  - intros (r & <- & Hr). apply filter_In in Hr. destruct Hr as [Hr Hgt].
    apply (proj1 (In_sort_desc _ _)) in Hr. apply filter_In in Hr.
    destruct Hr as [Hr Hpos].
    apply in_map_iff in Hr. destruct Hr as ([n s] & <- & Hc).
    cbn in *. exists s. split; [exact Hc|]. split; [|exact Hgt].
    apply Nat.ltb_lt. exact Hpos.
  - intros (s & Hc & Hpos & Hgt).
    exists (DataCleaner.mkMissingRow column (count_true (isnull s))
              (fround2 (percent_of (count_true (isnull s)) (nrows d)))).
    split; [reflexivity|]. apply filter_In. split; [|exact Hgt].
    apply (proj2 (In_sort_desc _ _)). apply filter_In. split.
    + apply in_map_iff. exists (column, s). split; [reflexivity|exact Hc].
    + apply Nat.ltb_lt. exact Hpos.
Qed.

(** C2 fails on the code: the comparison is made on the percentage
    rounded to two decimals.  In [Examples.thirds] a third of column [a]
    and two thirds of column [b] are missing, reported as 33.33 and
    66.67 percent.  At threshold 0.33332 column [a] stays although
    1/3 > 0.33332; at threshold 2/3 column [b] goes although its fraction
    is the threshold; at threshold 0.66668 column [b] goes although
    2/3 < 0.66668. *)
Theorem drop_cols_compares_rounded_percent :
  missing_fraction Examples.thirds "a" = Some (1 # 3) /\
  missing_fraction Examples.thirds "b" = Some (2 # 3) /\
  (33332 # 100000 < 1 # 3 /\
   option_map column_names (drop_cols_of_thirds (33332 # 100000)) = Some ["a"]) /\
  option_map column_names (drop_cols_of_thirds (2 # 3)) = Some ["a"] /\
  (2 # 3 < 66668 # 100000 /\
   option_map column_names (drop_cols_of_thirds (66668 # 100000)) = Some ["a"]).
Proof.
  repeat split; vm_compute; reflexivity.
Qed.


(** ** Bucketing with any bins *)

Lemma unique_Q_sorted (bins : list Q) :
  StronglySorted Qlt bins -> unique_Q bins = bins.
Proof.
  induction 1 as [|a l Hs IH Ha]; simpl; [reflexivity|].
  rewrite IH. f_equal. rewrite forallb_filter_id; [reflexivity|].
  apply forallb_forall. intros b Hb. rewrite List.Forall_forall in Ha.
  specialize (Ha b Hb). rewrite Qeq_bool_false; [reflexivity|]. lra.
Qed.

Lemma is_monotonic_sorted (bins : list Q) :
  StronglySorted Qlt bins -> is_monotonic_increasing bins = true.
Proof.
  induction 1 as [|a l Hs IH Ha]; [reflexivity|].
  destruct l as [|b l]; [reflexivity|].
  change (is_monotonic_increasing (a :: b :: l))
    with (Qle_bool a b && is_monotonic_increasing (b :: l)).
  rewrite IH, andb_true_r.
  apply Qle_bool_true. inversion Ha; subst. lra.
Qed.

Lemma unique_strings_NoDup (labels : list string) :
  List.NoDup labels -> unique_strings labels = labels.
Proof.
  induction 1 as [|a l Hn Hd IH]; simpl; [reflexivity|].
  rewrite IH. f_equal. rewrite forallb_filter_id; [reflexivity|].
  apply forallb_forall. intros b Hb.
  destruct (String.eqb a b) eqn:E; [|reflexivity].
  apply String.eqb_eq in E. subst. contradiction.
Qed.

(** On increasing edges the insertion point after the equal entries is
    past every edge that is at most [q] and before every greater one. *)
Lemma insertion_point_spec (bins : list Q) (q : Q) :
  StronglySorted Qlt bins ->
  let i := insertion_point true bins q in
  (i <= length bins)%nat /\
  (forall j, (j < i)%nat -> nth j bins 0 <= q) /\
  (forall j, (i <= j < length bins)%nat -> q < nth j bins 0).
Proof.
  induction 1 as [|b l Hs IH Hb]; cbn [insertion_point length].
  - split; [lia|]. split; intros j Hj; lia.
  - destruct IH as (IH1 & IH2 & IH3).
    destruct (Qle_bool b q) eqn:E.
    + apply Qle_bool_iff in E. split; [lia|]. split.
      * intros [|j] Hj; cbn [nth]; [exact E|]. apply IH2. lia.
      * intros [|j] Hj; [lia|]. cbn [nth]. apply IH3. lia.
    + apply Qle_bool_false_iff in E. split; [lia|]. split; [intros j Hj; lia|].
      intros [|j] Hj; cbn [nth]; [exact E|].
      rewrite List.Forall_forall in Hb.
      assert (Hin : In (nth j l 0) l) by (apply nth_In; lia).
      specialize (Hb _ Hin). lra.
Qed.

Lemma last_nth (bins : list Q) : List.last bins 0 = nth (length bins - 1) bins 0.
Proof.
  induction bins as [|a [|b l] IH]; [reflexivity | reflexivity |].
  change (List.last (a :: b :: l) 0) with (List.last (b :: l) 0). rewrite IH.
  cbn [length]. replace (S (S (length l)) - 1)%nat with (S (length l)) by lia.
  replace (S (length l) - 1)%nat with (length l) by lia. reflexivity.
Qed.

(** A value inside the range of increasing edges gets the label of the
    one bin that holds it. *)
Lemma label_of_inside (bins : list Q) (labels : list string) (q : Q) :
  StronglySorted Qlt bins ->
  length labels = (length bins - 1)%nat ->
  nth 0 bins 0 <= q -> q < List.last bins 0 ->
  exists k : nat,
    (k < length labels)%nat /\
    in_bin bins k q /\
    label_of bins labels (Some q) = nth_error labels k /\
    (forall k' : nat, (k' < length labels)%nat -> in_bin bins k' q -> k' = k).
Proof.
  intros Hs Hlen Hlo Hhi. rewrite last_nth in Hhi.
  destruct (insertion_point_spec bins q Hs) as (Hi1 & Hi2 & Hi3).
  set (i := insertion_point true bins q) in *.
  assert (Hne : (0 < length bins)%nat).
  { destruct bins; [cbn in Hlo, Hhi; lra | cbn; lia]. }
  assert (Hi0 : (1 <= i)%nat).
  { destruct i; [|lia]. specialize (Hi3 0%nat ltac:(lia)). lra. }
  assert (Hi4 : (i <= length bins - 1)%nat).
  { destruct (Nat.le_gt_cases i (length bins - 1)) as [H|H]; [exact H|].
    specialize (Hi2 (length bins - 1)%nat H). lra. }
  assert (Huniq : forall k', (k' < length labels)%nat -> in_bin bins k' q ->
                             k' = (i - 1)%nat).
  { intros k' Hk' [H1 H2].
    destruct (Nat.le_gt_cases i k') as [H|H].
    { specialize (Hi3 k' ltac:(lia)). lra. }
    destruct (Nat.le_gt_cases i (S k')) as [H'|H']; [lia|].
    specialize (Hi2 (S k') H'). lra. }
  exists (i - 1)%nat. split; [lia|].
  assert (Hin : in_bin bins (i - 1) q).
  { split; [apply Hi2; lia|]. replace (S (i - 1)) with i by lia. apply Hi3. lia. }
  split; [exact Hin|]. split; [|exact Huniq].
  unfold label_of, bin_id, searchsorted. cbn [negb is_none orb]. fold i.
  destruct bins as [|b0 bins']; [cbn in Hne; lia|].
  assert (Hids : (if Qeq_bool q b0 then 1%nat else i) = i).
  { destruct (Qeq_bool q b0) eqn:E; [|reflexivity].
    apply Qeq_bool_iff in E. symmetry.
    assert (H0 : 0%nat = (i - 1)%nat).
    { apply Huniq; [lia|]. split; [cbn; lra|].
      destruct (Nat.eq_dec i 1%nat) as [->|Hn]; [exact (proj2 Hin)|].
      specialize (Hi2 1%nat ltac:(lia)).
      inversion Hs as [|? ? Hs' Hb0]; subst. rewrite List.Forall_forall in Hb0.
      assert (In (nth 0 bins' 0) bins') by (apply nth_In; cbn [length] in Hi4; lia).
      specialize (Hb0 _ H). cbn in Hi2. lra. }
    lia. }
  rewrite Hids.
  destruct (Nat.eqb_spec i (length (b0 :: bins'))) as [He|_]; [lia|].
  destruct (Nat.eqb_spec i 0) as [He|_]; [lia|].
  destruct i as [|i']; [lia|]. cbn [take_label].
  replace (S i' - 1)%nat with i' by lia. reflexivity.
Qed.

(** A missing value, and a value outside the range of the edges, gets no
    label. *)
Lemma label_of_outside (bins : list Q) (labels : list string) :
  StronglySorted Qlt bins ->
  label_of bins labels None = None /\
  forall q : Q,
    q < nth 0 bins 0 \/ List.last bins 0 <= q ->
    label_of bins labels (Some q) = None.
Proof.
  intros Hs. split.
  { unfold label_of, bin_id. cbn. reflexivity. }
  intros q Hq. rewrite last_nth in Hq.
  destruct (insertion_point_spec bins q Hs) as (Hi1 & Hi2 & Hi3).
  set (i := insertion_point true bins q) in *.
  unfold label_of, bin_id, searchsorted. cbn [negb is_none orb]. fold i.
  destruct bins as [|b0 bins'].
  { cbn in i. subst i. reflexivity. }
  assert (Hend : i = 0%nat \/ i = length (b0 :: bins')).
  { destruct Hq as [Hq|Hq].
    - left. destruct i; [reflexivity|]. specialize (Hi2 0%nat ltac:(lia)). lra.
    - right. destruct (Nat.eq_dec i (length (b0 :: bins'))) as [H|H]; [exact H|].
      specialize (Hi3 (length (b0 :: bins') - 1)%nat ltac:(cbn [length] in *; lia)). lra. }
  destruct (Qeq_bool q b0) eqn:E.
  - apply Qeq_bool_iff in E. destruct Hq as [Hq|Hq]; [cbn in Hq; lra|].
    destruct bins' as [|b1 bins'']; [reflexivity|].
    exfalso. inversion Hs as [|? ? Hs' Hb0]; subst. rewrite List.Forall_forall in Hb0.
    assert (Hin : In (nth (length bins'') (b1 :: bins'') 0) (b1 :: bins'')).
    { apply nth_In. cbn [length]. lia. }
    change (nth (length (b0 :: b1 :: bins'') - 1) (b0 :: b1 :: bins'') 0)
      with (nth (length bins'') (b1 :: bins'') 0) in Hq.
    specialize (Hb0 _ Hin). lra.
  - destruct Hend as [-> | ->].
    + reflexivity.
    + rewrite Nat.eqb_refl. reflexivity.
Qed.

Lemma cut_sorted (v : list float) (bins : list Q) (labels : list string) :
  StronglySorted Qlt bins -> bins <> [] ->
  List.NoDup labels -> length labels = (length bins - 1)%nat ->
  cut (Float64 v) bins labels true false
  = Ok (Category labels (map (label_of bins labels) v)).
Proof.
  intros Hs Hne Hl Hlen. apply cut_default_ok.
  - apply is_monotonic_sorted. exact Hs.
  - rewrite unique_Q_sorted by exact Hs. reflexivity.
  - exact Hne.
  - rewrite unique_strings_NoDup by exact Hl. reflexivity.
  - exact Hlen.
Qed.

Lemma create_age_groups_sorted (df : DataFrame) (age_column new_column_name : string)
    (bins : list Q) (labels : list string) (v : list float) :
  getitem df age_column = Ok (Float64 v) ->
  StronglySorted Qlt bins -> bins <> [] ->
  List.NoDup labels -> length labels = (length bins - 1)%nat ->
  DataCleaner.create_age_groups df age_column (Some bins) (Some labels) new_column_name
  = Ok (setitem df new_column_name
          (Category labels (map (label_of bins labels) v))).
Proof.
  intros H Hs Hne Hl Hlen. unfold DataCleaner.create_age_groups.
  rewrite (getitem_has_column _ _ _ H). cbn [negb]. rewrite H. cbn [rbind].
  rewrite cut_sorted by assumption. reflexivity.
Qed.

(** X1.  With any strictly increasing bin edges and as many distinct
    labels as bins, [create_age_groups] labels an age between the first
    edge (included) and the last (excluded) with the label of the one bin
    that holds it. *)
Theorem create_age_groups_any_bins (df : DataFrame)
    (age_column new_column_name : string)
    (bins : list Q) (labels : list string) (v : list float) :
  getitem df age_column = Ok (Float64 v) ->
  StronglySorted Qlt bins -> bins <> [] ->
  List.NoDup labels -> length labels = (length bins - 1)%nat ->
  exists (out : DataFrame) (groups : list (option string)),
    DataCleaner.create_age_groups
      df age_column (Some bins) (Some labels) new_column_name = Ok out /\
    getitem out new_column_name = Ok (Category labels groups) /\
    length groups = length v /\
    forall (i : nat) (q : Q),
      nth_error v i = Some (Some q) ->
      nth 0 bins 0 <= q -> q < List.last bins 0 ->
      exists (k : nat) (label : string),
        nth_error labels k = Some label /\
        nth_error groups i = Some (Some label) /\
        in_bin bins k q /\
        (forall k' : nat, (k' < length labels)%nat -> in_bin bins k' q -> k' = k).
Proof.
  intros H Hs Hne Hl Hlen. eexists. eexists.
  split; [eapply create_age_groups_sorted; eassumption|].
  split; [apply getitem_setitem_same|].
  split; [apply length_map|].
  intros i q Hi Hlo Hhi.
  destruct (label_of_inside bins labels q Hs Hlen Hlo Hhi) as (k & Hk & Hin & Hlab & Huniq).
  destruct (nth_error labels k) as [label|] eqn:Hn.
  - exists k, label. split; [exact Hn|]. split; [|split; assumption].
    rewrite nth_error_map, Hi. cbn [option_map]. rewrite Hlab. reflexivity.
  - apply nth_error_None in Hn. lia.
Qed.

(** X2.  With such bins, a missing age and an age below the first edge
    or not below the last get no label, and nothing is raised. *)
Theorem create_age_groups_out_of_range (df : DataFrame)
    (age_column new_column_name : string)
    (bins : list Q) (labels : list string) (v : list float) :
  getitem df age_column = Ok (Float64 v) ->
  StronglySorted Qlt bins -> bins <> [] ->
  List.NoDup labels -> length labels = (length bins - 1)%nat ->
  exists (out : DataFrame) (groups : list (option string)),
    DataCleaner.create_age_groups
      df age_column (Some bins) (Some labels) new_column_name = Ok out /\
    getitem out new_column_name = Ok (Category labels groups) /\
    forall (i : nat) (x : float),
      nth_error v i = Some x ->
      match x with
      | None => True
      | Some q => q < nth 0 bins 0 \/ List.last bins 0 <= q
      end ->
      nth_error groups i = Some None.
Proof.
  intros H Hs Hne Hl Hlen. eexists. eexists.
  split; [eapply create_age_groups_sorted; eassumption|].
  split; [apply getitem_setitem_same|].
  intros i x Hi Hx. rewrite nth_error_map, Hi. cbn [option_map]. f_equal.
  destruct (label_of_outside bins labels Hs) as [Hnone Hout].
  destruct x as [q|]; [apply Hout; exact Hx | exact Hnone].
Qed.

Lemma quality_bins_sorted : StronglySorted Qlt DataCleaner.quality_bins.
Proof.
  unfold DataCleaner.quality_bins.
  repeat (apply SSorted_cons; [|repeat (apply List.Forall_cons; [reflexivity|]);
                                 apply List.Forall_nil]).
  apply SSorted_nil.
Qed.

Lemma quality_labels_NoDup : List.NoDup DataCleaner.quality_labels.
Proof.
  unfold DataCleaner.quality_labels.
  repeat (apply List.NoDup_cons; [simpl; intuition discriminate|]).
  apply List.NoDup_nil.
Qed.

(** X3.  [create_biometric_quality_categories] gives every score of
    [0,101) the label of the one of its four bins that holds it, so a
    score of 100 is ['Excellent (81-100)']; a missing score and a score
    below 0 or from 101 on get no category. *)
Theorem quality_categories_partition (df : DataFrame)
    (quality_column new_column_name : string) (v : list float) :
  getitem df quality_column = Ok (Float64 v) ->
  exists (out : DataFrame) (cats : list (option string)),
    DataCleaner.create_biometric_quality_categories
      df quality_column new_column_name = Ok out /\
    getitem out new_column_name = Ok (Category DataCleaner.quality_labels cats) /\
    length cats = length v /\
    forall (i : nat) (x : float),
      nth_error v i = Some x ->
      match x with
      | None => nth_error cats i = Some None
      | Some q =>
          (0 <= q -> q < 101 ->
           exists (k : nat) (label : string),
             nth_error DataCleaner.quality_labels k = Some label /\
             nth_error cats i = Some (Some label) /\
             in_bin DataCleaner.quality_bins k q /\
             (forall k' : nat,
                 (k' < 4)%nat -> in_bin DataCleaner.quality_bins k' q -> k' = k)) /\
          (q == 100 -> nth_error cats i = Some (Some "Excellent (81-100)")) /\
          (q < 0 \/ 101 <= q -> nth_error cats i = Some None)
      end.
Proof.
  intros H. eexists. eexists.
  split; [apply create_quality_categories_default; exact H|].
  split; [apply getitem_setitem_same|].
  split; [apply length_map|].
  intros i x Hi. pose proof quality_bins_sorted as Hs.
  assert (Hg : nth_error
                 (map (label_of DataCleaner.quality_bins DataCleaner.quality_labels) v) i
               = Some (label_of DataCleaner.quality_bins DataCleaner.quality_labels x)).
  { rewrite nth_error_map, Hi. reflexivity. }
  rewrite Hg. destruct (label_of_outside _ DataCleaner.quality_labels Hs) as [Hnone Hout].
  destruct x as [q|]; [|rewrite Hnone; reflexivity].
  assert (Hin : 0 <= q -> q < 101 ->
                exists k, (k < 4)%nat /\ in_bin DataCleaner.quality_bins k q /\
                  label_of DataCleaner.quality_bins DataCleaner.quality_labels (Some q)
                  = nth_error DataCleaner.quality_labels k /\
                  (forall k', (k' < 4)%nat -> in_bin DataCleaner.quality_bins k' q -> k' = k)).
  { intros H0 H1. apply (label_of_inside _ DataCleaner.quality_labels q Hs);
      [reflexivity | exact H0 | exact H1]. }
  split; [|split].
  - intros H0 H1. destruct (Hin H0 H1) as (k & Hk & Hb & Hlab & Huniq).
    destruct (nth_error DataCleaner.quality_labels k) as [label|] eqn:Hn.
    + exists k, label. rewrite Hlab. auto.
    + apply nth_error_None in Hn. cbn in Hn. lia.
  - intros H100. destruct (Hin ltac:(lra) ltac:(lra)) as (k & Hk & Hb & Hlab & Huniq).
    assert (3%nat = k).
    { apply Huniq; [lia|]. unfold in_bin, DataCleaner.quality_bins. cbn. lra. }
    subst k. rewrite Hlab. reflexivity.
  - intros Hq. rewrite Hout; [reflexivity|]. exact Hq.
Qed.

(** ** What bucketing leaves alone *)

Lemma names_assign (name : string) (s : Series) (cols : list (string * Series)) :
  map fst (assign name s cols)
  = if existsb (String.eqb name) (map fst cols)
    then map fst cols else (map fst cols ++ [name])%list.
Proof.
  induction cols as [|[n old] cols IH]; [reflexivity|]. cbn [assign map fst existsb].
  destruct (String.eqb name n) eqn:E; cbn [orb map fst].
  - apply String.eqb_eq in E. subst. reflexivity.
  - rewrite IH. destruct (existsb _ _); reflexivity.
Qed.

Lemma well_formed_setitem (df : DataFrame) (name : string) (s : Series) :
  well_formed df -> series_len s = nrows df -> well_formed (setitem df name s).
Proof.
  unfold well_formed, setitem. cbn [nrows columns]. intros Hwf Hs.
  induction (columns df) as [|[n old] cols IH]; cbn [assign].
  - constructor; [exact Hs|constructor].
  - inversion Hwf as [|? ? Hc Hrest]; subst.
    destruct (String.eqb name n); constructor; auto.
Qed.

(** X4.  When [create_age_groups] returns, the table it returns has the
    records of the input and its columns, each as it was, except the
    column of the groups: that one is replaced where it stood if the
    table had it, and added after the others if not.  A well-formed
    table stays well formed. *)
Theorem create_age_groups_frame (df out : DataFrame)
    (age_column new_column_name : string)
    (bins : option (list Q)) (labels : option (list string)) :
  has_column df age_column = true ->
  DataCleaner.create_age_groups df age_column bins labels new_column_name = Ok out ->
  nrows out = nrows df /\
  (forall other : string,
      other <> new_column_name -> getitem out other = getitem df other) /\
  column_names out
  = (if has_column df new_column_name then column_names df
     else (column_names df ++ [new_column_name])%list) /\
  (well_formed df -> well_formed out).
Proof.
  intros Hc. unfold DataCleaner.create_age_groups. rewrite Hc. cbn [negb].
  destruct (getitem df age_column) as [ages|] eqn:Ha; [|discriminate]. cbn [rbind].
  destruct (cut ages _ _ true false) as [groups|] eqn:Hcut; [|discriminate].
  cbn [rbind]. intros [= <-].
  split; [reflexivity|]. split; [|split].
  - intros other Hne. apply getitem_setitem_other. congruence.
  - unfold column_names, setitem, has_column, column_names. cbn [columns].
    apply names_assign.
  - intros Hwf. apply well_formed_setitem; [exact Hwf|].
    unfold cut in Hcut. destruct (numeric_values ages) as [v|] eqn:Hv; [|discriminate].
    cbn [rbind] in Hcut.
    repeat match type of Hcut with
           | (if ?b then _ else _) = _ => destruct b; [discriminate|]
           end.
    injection Hcut as <-. cbn [series_len]. rewrite length_map.
    rewrite (length_numeric_values _ _ Hv). apply (well_formed_getitem _ _ _ Hwf Ha).
Qed.

(** ** Missing values: when nothing is to be done *)

Lemma sort_desc_nil (l : list DataCleaner.missing_row) :
  DataCleaner.sort_desc l = [] -> l = [].
Proof.
  destruct l as [|a l]; [reflexivity|]. intros H. exfalso.
  assert (Hin : In a (DataCleaner.sort_desc (a :: l))).
  { apply (proj2 (In_sort_desc _ _)). left. reflexivity. }
  rewrite H in Hin. exact Hin.
Qed.

Lemma missing_stats_nil (df : DataFrame) :
  DataCleaner.missing_stats df = [] <-> complete df.
Proof.
  unfold DataCleaner.missing_stats, complete. split.
  - intros H. apply sort_desc_nil in H. apply List.Forall_forall. intros c Hc.
    destruct (count_true (isnull (snd c))) as [|n] eqn:E; [reflexivity|]. exfalso.
    assert (Hin : In (DataCleaner.mkMissingRow (fst c) (count_true (isnull (snd c)))
                        (fround2 (percent_of (count_true (isnull (snd c))) (nrows df))))
                     []).
    { rewrite <- H. apply filter_In. split.
      - apply in_map_iff. exists c. split; [reflexivity|exact Hc].
      - cbn. rewrite E. reflexivity. }
    exact Hin.
  - intros H. rewrite List.Forall_forall in H.
    replace (List.filter _ _) with (@nil DataCleaner.missing_row); [reflexivity|].
    symmetry. induction (columns df) as [|c cols IH]; [reflexivity|].
    cbn [map List.filter]. cbn [DataCleaner.Missing_Count].
    rewrite (H c) by (left; reflexivity). cbn. apply IH.
    intros x Hx. apply H. right. exact Hx.
Qed.

(** What [handle_missing_values] does after its copy, as a function of
    the strategy. *)
Lemma handle_missing_values_copy (h : gmap ref DataFrame) (df : ref) (tbl : DataFrame)
    (strategy : string) (threshold : Q) :
  h !! df = Some tbl ->
  DataCleaner.missing_stats tbl = [] \/
  ~ In strategy ["drop_rows"; "drop_cols"; "fill_mode"; "fill_median"] ->
  DataCleaner.handle_missing_values df strategy threshold h
  = (Ok (fresh (dom h)), <[fresh (dom h) := tbl]> h).
Proof.
  intros Hdf Hcase. unfold DataCleaner.handle_missing_values, copy.
  unfold bind at 1. unfold bind at 1. unfold deref at 1. rewrite Hdf. cbn [new].
  unfold bind at 1. unfold deref at 1. rewrite lookup_insert_eq. cbv zeta.
  destruct Hcase as [Hnil|Hstr].
  - rewrite Hnil. reflexivity.
  - destruct (Nat.eqb _ 0); [reflexivity|].
    destruct (String.eqb strategy "report"); [reflexivity|].
    destruct (String.eqb_spec strategy "drop_rows") as [->|_];
      [exfalso; apply Hstr; cbn; auto|].
    destruct (String.eqb_spec strategy "drop_cols") as [->|_];
      [exfalso; apply Hstr; cbn; auto|].
    destruct (String.eqb_spec strategy "fill_mode") as [->|_];
      [exfalso; apply Hstr; cbn; auto|].
    destruct (String.eqb_spec strategy "fill_median") as [->|_];
      [exfalso; apply Hstr; cbn; auto|].
    reflexivity.
Qed.

(** X5.  On a table without a missing entry, and for a strategy that is
    none of ['drop_rows'], ['drop_cols'], ['fill_mode'], ['fill_median']
    (a misspelt one included), [handle_missing_values] raises nothing and
    returns a new table equal to the input. *)
Theorem handle_missing_values_nothing_to_do (h : gmap ref DataFrame) (df : ref)
    (tbl : DataFrame) (strategy : string) (threshold : Q) :
  h !! df = Some tbl ->
  complete tbl \/
  ~ In strategy ["drop_rows"; "drop_cols"; "fill_mode"; "fill_median"] ->
  let out := DataCleaner.handle_missing_values df strategy threshold h in
  exists r : ref,
    fst out = Ok r /\ h !! r = None /\ snd out = <[r := tbl]> h /\
    snd out !! r = Some tbl.
Proof.
  intros Hdf Hcase out. subst out.
  rewrite (handle_missing_values_copy h df tbl strategy threshold Hdf).
  - exists (fresh (dom h)). cbn [fst snd]. split; [reflexivity|].
    split; [apply not_elem_of_dom; apply is_fresh|].
    split; [reflexivity|apply lookup_insert_eq].
  - destruct Hcase as [Hc|Hs]; [left; apply missing_stats_nil; exact Hc|right; exact Hs].
Qed.

(** ** Missing values: dropping records *)

Lemma select_map {A B} (f : A -> B) (mask : list bool) (l : list A) :
  select mask (map f l) = map f (select mask l).
Proof.
  unfold select. revert l. induction mask as [|b mask IH]; intros [|a l];
    try reflexivity.
  cbn [map combine List.filter fst]. destruct b; cbn [map snd]; rewrite <- IH; reflexivity.
Qed.

Lemma isnull_select (mask : list bool) (s : Series) :
  isnull (series_select mask s) = select mask (isnull s).
Proof. destruct s; cbn [series_select isnull]; rewrite select_map; reflexivity. Qed.

Lemma length_isnull (s : Series) : length (isnull s) = series_len s.
Proof. destruct s; cbn; apply length_map. Qed.

Lemma series_len_select (mask : list bool) (s : Series) :
  length mask = series_len s -> series_len (series_select mask s) = count_true mask.
Proof.
  intros H. destruct s; cbn [series_select series_len] in *;
    apply length_select; exact H.
Qed.

Lemma count_true_le (l : list bool) : (count_true l <= length l)%nat.
Proof. unfold count_true. apply filter_length_le. Qed.

(** The rows a mask keeps hold no [true] of [l] when the mask is set
    only where [l] is not. *)
Lemma count_select_zero (mask l : list bool) :
  (forall i, nth i mask false = true -> nth i l false = false) ->
  count_true (select mask l) = 0%nat.
Proof.
  revert l. induction mask as [|b mask IH]; intros [|x l] H; try reflexivity.
  unfold select in *. cbn [combine List.filter fst].
  assert (Hrest : forall i, nth i mask false = true -> nth i l false = false).
  { intros i Hi. apply (H (S i)). exact Hi. }
  destruct b; cbn [map snd].
  - rewrite count_true_cons. rewrite (H 0%nat eq_refl : x = false).
    rewrite (IH l Hrest). reflexivity.
  - apply IH. exact Hrest.
Qed.

Lemma row_complete_column (df : DataFrame) (i : nat) (c : string * Series) :
  In c (columns df) -> row_complete df i = true -> nth i (isnull (snd c)) false = false.
Proof.
  unfold row_complete. intros Hc H. rewrite forallb_forall in H.
  specialize (H c Hc). apply negb_true_iff in H. exact H.
Qed.

Lemma nth_map_seq {A} (f : nat -> A) (n i : nat) (d : A) :
  (i < n)%nat -> nth i (map f (seq 0 n)) d = f i.
Proof.
  intros H. rewrite (nth_indep _ d (f 0%nat)) by (rewrite length_map, length_seq; exact H).
  rewrite (map_nth f). rewrite seq_nth by exact H. reflexivity.
Qed.

(** [dropna] leaves no missing entry. *)
Lemma dropna_complete (df : DataFrame) : complete (dropna df).
Proof.
  unfold complete, dropna, select_rows. cbn [columns].
  apply List.Forall_forall. intros c' Hc'. apply in_map_iff in Hc'.
  destruct Hc' as (c & <- & Hc). cbn [snd]. rewrite isnull_select.
  apply count_select_zero. intros i Hi.
  destruct (Nat.lt_ge_cases i (nrows df)) as [Hlt|Hge].
  - rewrite nth_map_seq in Hi by exact Hlt.
    apply (row_complete_column df i c Hc Hi).
  - rewrite nth_overflow in Hi; [discriminate|].
    rewrite length_map, length_seq. exact Hge.
Qed.

Lemma dropna_well_formed (df : DataFrame) : well_formed df -> well_formed (dropna df).
Proof.
  unfold well_formed, dropna, select_rows. cbn [columns nrows]. intros Hwf.
  rewrite List.Forall_forall in *. intros c' Hc'. apply in_map_iff in Hc'.
  destruct Hc' as (c & <- & Hc). cbn [snd]. apply series_len_select.
  rewrite length_map, length_seq. symmetry. apply Hwf. exact Hc.
Qed.

Lemma dropna_names (df : DataFrame) : column_names (dropna df) = column_names df.
Proof.
  unfold column_names, dropna, select_rows. cbn [columns]. rewrite map_map.
  reflexivity.
Qed.

(** With a missing entry in the table, ['drop_rows'] makes a second
    new table, the copy without its incomplete records. *)
Lemma handle_missing_values_drop_rows (h : gmap ref DataFrame) (df : ref)
    (tbl : DataFrame) (threshold : Q) :
  h !! df = Some tbl ->
  DataCleaner.missing_stats tbl <> [] ->
  DataCleaner.handle_missing_values df "drop_rows" threshold h
  = (Ok (fresh (dom (<[fresh (dom h) := tbl]> h))),
     <[fresh (dom (<[fresh (dom h) := tbl]> h)) := dropna tbl]>
       (<[fresh (dom h) := tbl]> h)).
Proof.
  intros Hdf Hst. unfold DataCleaner.handle_missing_values, copy.
  unfold bind at 1. unfold bind at 1. unfold deref at 1. rewrite Hdf. cbn [new].
  unfold bind at 1. unfold deref at 1. rewrite lookup_insert_eq. cbv zeta.
  destruct (DataCleaner.missing_stats tbl); [congruence|]. reflexivity.
Qed.

(** On a table without a missing entry every record is complete. *)
Lemma complete_rows_all (tbl : DataFrame) :
  complete tbl -> count_true (map (row_complete tbl) (seq 0 (nrows tbl))) = nrows tbl.
Proof.
  intros Hst. unfold count_true. rewrite forallb_filter_id; [|].
  - rewrite length_map, length_seq. reflexivity.
  - apply forallb_forall. intros b Hb. apply in_map_iff in Hb.
    destruct Hb as (i & <- & Hi). apply in_seq in Hi.
    unfold row_complete. apply forallb_forall. intros c Hc.
    apply negb_true_iff.
    unfold complete in Hst. rewrite List.Forall_forall in Hst.
    specialize (Hst c Hc).
    destruct (nth i (isnull (snd c)) false) eqn:E; [|reflexivity]. exfalso.
    assert (Hin : In true (List.filter (fun b : bool => b) (isnull (snd c)))).
    { apply filter_In. split; [|reflexivity]. rewrite <- E. apply nth_In.
      destruct (Nat.lt_ge_cases i (length (isnull (snd c)))) as [Hl|Hl];
        [exact Hl|]. rewrite nth_overflow in E by exact Hl. discriminate. }
    unfold count_true in Hst. apply length_zero_iff_nil in Hst.
    rewrite Hst in Hin. exact Hin.
Qed.

(** X6.  Under ['drop_rows'] the table [handle_missing_values] returns
    has no missing entry; it has the columns of the input, by name and
    in order, and no more records than the input; the records kept are
    the ones without a missing entry. *)
Theorem drop_rows_leaves_no_missing (h : gmap ref DataFrame) (df : ref)
    (tbl : DataFrame) (threshold : Q) :
  h !! df = Some tbl ->
  well_formed tbl ->
  let out := DataCleaner.handle_missing_values df "drop_rows" threshold h in
  exists (r : ref) (tbl' : DataFrame),
    fst out = Ok r /\ snd out !! r = Some tbl' /\
    complete tbl' /\
    column_names tbl' = column_names tbl /\
    well_formed tbl' /\
    nrows tbl' = count_true (map (row_complete tbl) (seq 0 (nrows tbl))) /\
    (nrows tbl' <= nrows tbl)%nat.
Proof.
  intros Hdf Hwf out. subst out.
  assert (Hcount : (count_true (map (row_complete tbl) (seq 0 (nrows tbl)))
                    <= nrows tbl)%nat).
  { pose proof (count_true_le (map (row_complete tbl) (seq 0 (nrows tbl)))) as H.
    rewrite length_map, length_seq in H. exact H. }
  destruct (DataCleaner.missing_stats tbl) as [|row rest] eqn:Hst.
  - rewrite (handle_missing_values_copy h df tbl "drop_rows" threshold Hdf)
      by (left; exact Hst).
    exists (fresh (dom h)), tbl. cbn [fst snd]. rewrite lookup_insert_eq.
    apply missing_stats_nil in Hst.
    repeat split; auto.
    symmetry. apply complete_rows_all. exact Hst.
  - rewrite (handle_missing_values_drop_rows h df tbl threshold Hdf)
      by (rewrite Hst; discriminate).
    cbn [fst snd]. eexists. exists (dropna tbl).
    split; [reflexivity|]. split; [apply lookup_insert_eq|].
    split; [apply dropna_complete|]. split; [apply dropna_names|].
    split; [apply dropna_well_formed; exact Hwf|].
    split; [reflexivity|]. exact Hcount.
Qed.

(** ** Missing values: dropping columns *)

Lemma dropped_iff (df : DataFrame) (threshold : Q) (c : string * Series) :
  dropped df threshold c = true
  <-> (0 < count_true (isnull (snd c)))%nat /\
      fgt (fround2 (percent_of (count_true (isnull (snd c))) (nrows df)))
          (Some (threshold * 100)) = true.
Proof. unfold dropped. rewrite andb_true_iff, Nat.ltb_lt. reflexivity. Qed.

(** What ['drop_cols'] does, by the list of the columns to drop. *)
Lemma handle_missing_values_drop_cols (h : gmap ref DataFrame) (df : ref)
    (tbl : DataFrame) (threshold : Q) :
  h !! df = Some tbl ->
  let cols_to_drop :=
    map DataCleaner.Column
      (List.filter
         (fun r => fgt (DataCleaner.Missing_Percent r) (Some (threshold * 100)))
         (DataCleaner.missing_stats tbl)) in
  DataCleaner.handle_missing_values df "drop_cols" threshold h
  = match cols_to_drop with
    | [] => (Ok (fresh (dom h)), <[fresh (dom h) := tbl]> h)
    | _ :: _ =>
        (Ok (fresh (dom (<[fresh (dom h) := tbl]> h))),
         <[fresh (dom (<[fresh (dom h) := tbl]> h)) := drop_columns cols_to_drop tbl]>
           (<[fresh (dom h) := tbl]> h))
    end.
Proof.
  intros Hdf cols_to_drop. subst cols_to_drop.
  unfold DataCleaner.handle_missing_values, copy.
  unfold bind at 1. unfold bind at 1. unfold deref at 1. rewrite Hdf. cbn [new].
  unfold bind at 1. unfold deref at 1. rewrite lookup_insert_eq. cbv zeta.
  destruct (DataCleaner.missing_stats tbl) as [|row rest]; [reflexivity|].
  cbn [length Nat.eqb]. cbn [String.eqb Ascii.eqb Bool.eqb].
  destruct (map _ _); reflexivity.
Qed.

Lemma In_cols_to_drop (tbl : DataFrame) (threshold : Q) (c : string * Series) :
  In c (columns tbl) -> dropped tbl threshold c = true ->
  In (fst c)
     (map DataCleaner.Column
        (List.filter
           (fun r => fgt (DataCleaner.Missing_Percent r) (Some (threshold * 100)))
           (DataCleaner.missing_stats tbl))).
Proof.
  intros Hc Hd. apply cols_to_drop_rounded. exists (snd c).
  apply dropped_iff in Hd. destruct c as [n s]. cbn [fst snd] in *. tauto.
Qed.

Lemma NoDup_names_snd (cols : list (string * Series)) (n : string) (s s' : Series) :
  List.NoDup (map fst cols) -> In (n, s) cols -> In (n, s') cols -> s = s'.
Proof.
  induction cols as [|[m x] cols IH]; cbn [map fst]; intros Hnd H1 H2; [destruct H1|].
  inversion Hnd as [|? ? Hnot Hnd']; subst.
  destruct H1 as [H1|H1], H2 as [H2|H2].
  - congruence.
  - injection H1 as -> ->. exfalso. apply Hnot. apply in_map_iff.
    exists (n, s'). auto.
  - injection H2 as -> ->. exfalso. apply Hnot. apply in_map_iff.
    exists (n, s). auto.
  - apply IH; assumption.
Qed.

Lemma filter_all {A} (f : A -> bool) (l : list A) :
  (forall x, In x l -> f x = true) -> List.filter f l = l.
Proof.
  intros H. apply forallb_filter_id. apply forallb_forall. exact H.
Qed.

(** With the percentages as exact rationals, ['drop_cols'] on a table
    whose column names are distinct keeps the columns that fail the
    test of [dropped]. *)
Lemma drop_cols_by_test (h : gmap ref DataFrame) (df : ref)
    (tbl : DataFrame) (threshold : Q) :
  h !! df = Some tbl ->
  List.NoDup (column_names tbl) ->
  let out := DataCleaner.handle_missing_values df "drop_cols" threshold h in
  exists (r : ref) (tbl' : DataFrame),
    fst out = Ok r /\ snd out !! r = Some tbl' /\
    nrows tbl' = nrows tbl /\
    columns tbl'
    = List.filter (fun c => negb (dropped tbl threshold c)) (columns tbl).
Proof.
  intros Hdf Hnd out. subst out.
  rewrite (handle_missing_values_drop_cols h df tbl threshold Hdf). cbv zeta.
  destruct (map _ _) as [|name names] eqn:Hdrop.
  - exists (fresh (dom h)), tbl. cbn [fst snd]. rewrite lookup_insert_eq.
    repeat split. symmetry. apply filter_all. intros c Hc.
    destruct (dropped tbl threshold c) eqn:Hd; [|reflexivity]. exfalso.
    pose proof (In_cols_to_drop tbl threshold c Hc Hd) as Hin.
    rewrite Hdrop in Hin. exact Hin.
  - eexists. eexists. cbn [fst snd]. split; [reflexivity|].
    split; [apply lookup_insert_eq|]. split; [reflexivity|].
    unfold drop_columns. cbn [columns]. apply filter_ext_in. intros c Hc. f_equal.
    rewrite <- Hdrop.
    destruct (dropped tbl threshold c) eqn:Hd.
    + apply existsb_exists. exists (fst c). split; [|apply String.eqb_refl].
      apply In_cols_to_drop; assumption.
    + destruct (existsb _ _) eqn:He; [|reflexivity]. exfalso.
      apply existsb_exists in He. destruct He as (n & Hn & Heq).
      apply String.eqb_eq in Heq. subst n.
      apply cols_to_drop_rounded in Hn. destruct Hn as (s & Hs & Hpos & Hgt).
      assert (s = snd c).
      { apply (NoDup_names_snd (columns tbl) (fst c)); [exact Hnd | exact Hs |].
        destruct c; exact Hc. }
      subst s. assert (dropped tbl threshold c = true) by (apply dropped_iff; auto).
      congruence.
Qed.

(** A column that a threshold drops is dropped by every lower one. *)
Lemma dropped_antitone (tbl : DataFrame) (t t' : Q) (c : string * Series) :
  t <= t' -> dropped tbl t' c = true -> dropped tbl t c = true.
Proof.
  intros Ht. unfold dropped. rewrite !andb_true_iff. intros [H1 H2]. split; [exact H1|].
  destruct (fround2 _) as [p|]; [|discriminate H2]. cbn [fgt] in *.
  apply Qlt_bool_iff in H2. apply Qlt_bool_iff. lra.
Qed.

(** With distinct names, the columns a test keeps are the columns whose
    names are kept. *)
Lemma filter_by_kept_names (p : string * Series -> bool) (cols : list (string * Series)) :
  List.NoDup (map fst cols) ->
  List.filter p cols
  = List.filter (fun c => existsb (String.eqb (fst c)) (map fst (List.filter p cols))) cols.
Proof.
  intros Hnd. apply filter_ext_in. intros c Hc.
  destruct (p c) eqn:Hp.
  - symmetry. apply existsb_exists. exists (fst c). split; [|apply String.eqb_refl].
    apply in_map. apply filter_In. auto.
  - destruct (existsb _ _) eqn:He; [|reflexivity]. exfalso.
    apply existsb_exists in He. destruct He as (n & Hn & Heq).
    apply String.eqb_eq in Heq. subst n. apply in_map_iff in Hn.
    destruct Hn as ([n s] & Hfst & Hin). cbn [fst] in Hfst. subst n.
    apply filter_In in Hin. destruct Hin as [Hin Hps].
    assert (s = snd c).
    { apply (NoDup_names_snd cols (fst c)); [exact Hnd|exact Hin|]. destruct c; exact Hc. }
    subst s. destruct c as [n s]. cbn [fst snd] in *. congruence.
Qed.

(** X7.  Under ['drop_cols'], on a table whose column names are
    distinct, [handle_missing_values] returns a table with the records
    of the input whose columns are columns of the input, as they were
    and in their order (the columns of the input whose names are
    kept); every column without a missing entry is kept; and a higher
    threshold keeps every column that a lower one keeps. *)
Theorem drop_cols_keeps_complete_columns (h : gmap ref DataFrame) (df : ref)
    (tbl : DataFrame) (threshold higher : Q) :
  h !! df = Some tbl ->
  List.NoDup (column_names tbl) ->
  threshold <= higher ->
  let out := DataCleaner.handle_missing_values df "drop_cols" threshold h in
  let out' := DataCleaner.handle_missing_values df "drop_cols" higher h in
  exists (r r' : ref) (kept kept' : DataFrame),
    fst out = Ok r /\ snd out !! r = Some kept /\
    fst out' = Ok r' /\ snd out' !! r' = Some kept' /\
    nrows kept = nrows tbl /\
    columns kept
    = List.filter (fun c => existsb (String.eqb (fst c)) (column_names kept)) (columns tbl) /\
    (forall c, In c (columns tbl) -> count_true (isnull (snd c)) = 0%nat ->
               In c (columns kept)) /\
    (forall c, In c (columns kept) -> In c (columns kept')).
Proof.
  intros Hdf Hnd Hle out out'.
  destruct (drop_cols_by_test h df tbl threshold Hdf Hnd) as (r & kept & Hr & Hk & Hn & Hc).
  destruct (drop_cols_by_test h df tbl higher Hdf Hnd) as (r' & kept' & Hr' & Hk' & _ & Hc').
  exists r, r', kept, kept'. fold out in Hr, Hk. fold out' in Hr', Hk'.
  split; [exact Hr|]. split; [exact Hk|]. split; [exact Hr'|]. split; [exact Hk'|].
  split; [exact Hn|]. split.
  { unfold column_names. rewrite Hc. apply filter_by_kept_names. exact Hnd. }
  split.
  - intros c Hin Hzero. rewrite Hc. apply filter_In. split; [exact Hin|].
    unfold dropped. rewrite Hzero. reflexivity.
  - intros c. rewrite Hc, Hc', !filter_In. intros [Hin Hkept]. split; [exact Hin|].
    destruct (dropped tbl higher c) eqn:Hd; [|reflexivity].
    rewrite (dropped_antitone tbl threshold higher c Hle Hd) in Hkept. discriminate Hkept.
Qed.

(** ** Rounding *)

Lemma rint_cases (x : Q) : rint x = Qfloor x \/ rint x = (Qfloor x + 1)%Z /\ ~ x == inject_Z (Qfloor x).
Proof.
  unfold rint. destruct (Qcompare_spec (x - inject_Z (Qfloor x)) (1 # 2)) as [H|H|H].
  - destruct (Z.even (Qfloor x)); [left; reflexivity|].
    right. split; [reflexivity|]. lra.
  - left. reflexivity.
  - right. split; [reflexivity|]. lra.
Qed.

Lemma rint_ge (x : Q) (n : Z) : inject_Z n <= x -> (n <= rint x)%Z.
Proof.
  intros H. apply Qfloor_resp_le in H. rewrite Qfloor_Z in H.
  destruct (rint_cases x) as [->|[-> _]]; lia.
Qed.

Lemma rint_le (x : Q) (n : Z) : x <= inject_Z n -> (rint x <= n)%Z.
Proof.
  intros H. pose proof (Qfloor_resp_le _ _ H) as Hf. rewrite Qfloor_Z in Hf.
  destruct (rint_cases x) as [->|[-> Hne]]; [exact Hf|].
  destruct (Z.eq_dec (Qfloor x) n) as [He|He]; [|lia].
  exfalso. apply Hne. pose proof (Qfloor_le x) as Hlo. rewrite He in *. lra.
Qed.

Lemma round2_nonneg (x : Q) : 0 <= x -> 0 <= round2 x.
Proof.
  intros H. unfold round2.
  assert (Hz : (0 <= rint (x * 100))%Z) by (apply rint_ge; change (inject_Z 0) with 0; lra).
  assert (0 <= inject_Z (rint (x * 100))).
  { change 0 with (inject_Z 0). rewrite <- Zle_Qle. exact Hz. }
  apply Qle_shift_div_l; lra.
Qed.

Lemma round2_le_100 (x : Q) : x <= 100 -> round2 x <= 100.
Proof.
  intros H. unfold round2.
  assert (Hz : (rint (x * 100) <= 10000)%Z).
  { apply rint_le. change (inject_Z 10000) with 10000. lra. }
  assert (inject_Z (rint (x * 100)) <= 10000).
  { change 10000 with (inject_Z 10000). rewrite <- Zle_Qle. exact Hz. }
  apply Qle_shift_div_r; lra.
Qed.

(** A percentage of a count that is at most the whole lies between 0
    and 100, before and after rounding. *)
Lemma percent_bounds (count len : nat) (p : Q) :
  (count <= len)%nat -> fround2 (percent_of count len) = Some p -> 0 <= p /\ p <= 100.
Proof.
  intros Hle. unfold percent_of. destruct len as [|len]; [discriminate|].
  cbn [fround2 option_map]. intros [= <-].
  set (c := inject_Z (Z.of_nat count)). set (n := inject_Z (Z.of_nat (S len))).
  assert (Hc : 0 <= c).
  { unfold c. change 0 with (inject_Z 0). rewrite <- Zle_Qle. lia. }
  assert (Hn : 0 < n).
  { unfold n. change 0 with (inject_Z 0). rewrite <- Zlt_Qlt. lia. }
  assert (Hcn : c <= n).
  { unfold c, n. rewrite <- Zle_Qle. lia. }
  assert (H0 : 0 <= c / n) by (apply Qle_shift_div_l; lra).
  assert (H1 : c / n <= 1) by (apply Qle_shift_div_r; lra).
  split; [apply round2_nonneg; nra|apply round2_le_100; nra].
Qed.

Lemma well_formed_count (df : DataFrame) (c : string * Series) :
  well_formed df -> In c (columns df) ->
  (count_true (isnull (snd c)) <= nrows df)%nat.
Proof.
  intros Hwf Hc. unfold well_formed in Hwf. rewrite List.Forall_forall in Hwf.
  rewrite <- (Hwf c Hc), <- length_isnull. apply count_true_le.
Qed.

(** X8.  Under ['drop_cols'] a threshold of 1 or more drops no column:
    the function returns a new table equal to the input.  A negative
    threshold drops every column that has a missing entry, so the table
    returned has none. *)
Theorem drop_cols_threshold_extremes (h : gmap ref DataFrame) (df : ref)
    (tbl : DataFrame) (threshold : Q) :
  h !! df = Some tbl ->
  well_formed tbl ->
  let out := DataCleaner.handle_missing_values df "drop_cols" threshold h in
  (1 <= threshold ->
   exists r : ref, fst out = Ok r /\ h !! r = None /\ snd out !! r = Some tbl) /\
  (threshold < 0 ->
   exists (r : ref) (tbl' : DataFrame),
     fst out = Ok r /\ snd out !! r = Some tbl' /\ complete tbl' /\
     nrows tbl' = nrows tbl).
Proof.
  intros Hdf Hwf out. subst out.
  rewrite (handle_missing_values_drop_cols h df tbl threshold Hdf). cbv zeta.
  split.
  - intros Ht.
    destruct (map _ _) as [|name names] eqn:Hdrop.
    + exists (fresh (dom h)). cbn [fst snd]. rewrite lookup_insert_eq.
      split; [reflexivity|]. split; [apply not_elem_of_dom; apply is_fresh|reflexivity].
    + exfalso.
      assert (Hin : In name (name :: names)) by (left; reflexivity).
      rewrite <- Hdrop in Hin. apply cols_to_drop_rounded in Hin.
      destruct Hin as (s & Hs & Hpos & Hgt).
      pose proof (well_formed_count tbl (name, s) Hwf Hs) as Hle. cbn [snd] in Hle.
      destruct (fround2 _) as [p|] eqn:Hp; [|discriminate].
      destruct (percent_bounds _ _ _ Hle Hp) as [_ Hp100].
      cbn [fgt] in Hgt. apply Qlt_bool_iff in Hgt. lra.
  - intros Ht.
    assert (Hall : forall c, In c (columns tbl) ->
                             (0 < count_true (isnull (snd c)))%nat ->
                             dropped tbl threshold c = true).
    { intros c Hc Hpos. apply dropped_iff. split; [exact Hpos|].
      pose proof (well_formed_count tbl c Hwf Hc) as Hle.
      destruct (fround2 _) as [p|] eqn:Hp.
      - destruct (percent_bounds _ _ _ Hle Hp) as [Hp0 _].
        cbn [fgt]. apply Qlt_bool_iff. lra.
      - exfalso. unfold percent_of in Hp. destruct (nrows tbl); [lia|discriminate]. }
    destruct (map _ _) as [|name names] eqn:Hdrop.
    + exists (fresh (dom h)), tbl. cbn [fst snd]. rewrite lookup_insert_eq.
      repeat split. unfold complete. apply List.Forall_forall. intros c Hc.
      destruct (count_true (isnull (snd c))) as [|n] eqn:E; [reflexivity|]. exfalso.
      assert (Hd : dropped tbl threshold c = true) by (apply Hall; [exact Hc|lia]).
      pose proof (In_cols_to_drop tbl threshold c Hc Hd) as Hin.
      rewrite Hdrop in Hin. exact Hin.
    + eexists. eexists. cbn [fst snd]. split; [reflexivity|].
      split; [apply lookup_insert_eq|]. split; [|reflexivity].
      unfold complete, drop_columns. cbn [columns]. apply List.Forall_forall.
      intros c Hc. apply filter_In in Hc. destruct Hc as [Hc Hkeep].
      destruct (count_true (isnull (snd c))) as [|n] eqn:E; [reflexivity|]. exfalso.
      assert (Hd : dropped tbl threshold c = true) by (apply Hall; [exact Hc|lia]).
      pose proof (In_cols_to_drop tbl threshold c Hc Hd) as Hin.
      rewrite Hdrop in Hin. apply negb_true_iff in Hkeep.
      assert (existsb (String.eqb (fst c)) (name :: names) = true).
      { apply existsb_exists. exists (fst c). split; [exact Hin|apply String.eqb_refl]. }
      congruence.
Qed.

(** ** Missing values: filling *)

Lemma assign_same_id (name : string) (s : Series) (cols : list (string * Series)) :
  assoc name cols = Some s -> assign name s cols = cols.
Proof.
  induction cols as [|[n x] cols IH]; cbn [assoc assign]; [discriminate|].
  destruct (String.eqb_spec name n) as [->|Hne].
  - intros [= ->]. reflexivity.
  - intros H. rewrite IH by exact H. reflexivity.
Qed.

Lemma setitem_same_id (df : DataFrame) (name : string) (s : Series) :
  getitem df name = Ok s -> setitem df name s = df.
Proof.
  unfold getitem, setitem. destruct (assoc name (columns df)) eqn:E; [|discriminate].
  intros [= ->]. rewrite assign_same_id by exact E. destruct df; reflexivity.
Qed.

(** A loop that reads the table behind [r], works on one column and
    writes the table back runs as [fill_steps] on the table. *)
Lemma for_each_fill (f : Series -> result Series) (body : string -> M unit) (r : ref) :
  (forall (col : string) (h : gmap ref DataFrame) (cur : DataFrame),
      h !! r = Some cur ->
      body col h = match fill_step f col cur with
                   | Ok cur' => (Ok tt, <[r := cur']> h)
                   | Raise e => (Raise e, h)
                   end) ->
  forall (cols : list string) (h : gmap ref DataFrame) (cur : DataFrame),
    h !! r = Some cur ->
    match fill_steps f cols cur with
    | Ok cur' => for_each cols body h = (Ok tt, <[r := cur']> h)
    | Raise e => exists h', for_each cols body h = (Raise e, h')
    end.
Proof.
  intros Hbody. induction cols as [|col cols IH]; intros h cur Hcur.
  - cbn. rewrite insert_id by exact Hcur. reflexivity.
  - cbn [fill_steps for_each]. unfold bind. rewrite (Hbody col h cur Hcur).
    destruct (fill_step f col cur) as [cur'|e]; cbn [rbind].
    + specialize (IH (<[r := cur']> h) cur' (lookup_insert_eq _ _ _)).
      destruct (fill_steps f cols cur') as [cur''|e].
      * rewrite IH. rewrite insert_insert_eq. reflexivity.
      * exact IH.
    + eexists. reflexivity.
Qed.

Lemma assoc_app_notin (name : string) (pre post : list (string * Series)) :
  ~ In name (map fst pre) -> assoc name (pre ++ post)%list = assoc name post.
Proof.
  induction pre as [|[n x] pre IH]; cbn [app assoc map fst]; [reflexivity|].
  intros H. destruct (String.eqb_spec name n) as [->|Hne].
  - exfalso. apply H. left. reflexivity.
  - apply IH. intros Hin. apply H. right. exact Hin.
Qed.

Lemma assign_app_notin (name : string) (s : Series) (pre post : list (string * Series)) :
  ~ In name (map fst pre) ->
  assign name s (pre ++ post)%list = (pre ++ assign name s post)%list.
Proof.
  induction pre as [|[n x] pre IH]; cbn [app assign map fst]; [reflexivity|].
  intros H. destruct (String.eqb_spec name n) as [->|Hne].
  - exfalso. apply H. left. reflexivity.
  - rewrite IH; [reflexivity|]. intros Hin. apply H. right. exact Hin.
Qed.

(** On a table with distinct column names, the loop over the columns
    that satisfy [keep] replaces each of them by [f] of it, where it
    stands, and leaves the others. *)
Lemma fill_steps_map (f : Series -> result Series) (g : Series -> Series)
    (keep : Series -> bool) (n : nat) (todo : list (string * Series)) :
  forall done : list (string * Series),
    List.NoDup (map fst (done ++ todo)%list) ->
    (forall c, In c todo -> keep (snd c) = true -> f (snd c) = Ok (g (snd c))) ->
    fill_steps f (map fst (List.filter (fun c => keep (snd c)) todo))
      (mkDataFrame n (done ++ todo)%list)
    = Ok (mkDataFrame n
            (done ++ map (fun c => if keep (snd c) then (fst c, g (snd c)) else c) todo)%list).
Proof.
  induction todo as [|[name s] todo IH]; intros done Hnd Hf.
  - reflexivity.
  - assert (Hnotin : ~ In name (map fst done)).
    { rewrite map_app in Hnd. cbn [map fst] in Hnd.
      apply NoDup_remove_2 in Hnd. intros Hin. apply Hnd. apply in_or_app. left.
      exact Hin. }
    assert (Hnd' : forall s', List.NoDup (map fst ((done ++ [(name, s')]) ++ todo)%list)).
    { intros s'. rewrite <- app_assoc. cbn [app]. rewrite map_app in *. exact Hnd. }
    cbn [List.filter snd map fst]. destruct (keep s) eqn:Hk.
    + cbn [map fst fill_steps]. unfold fill_step, getitem, setitem. cbn [columns nrows].
      rewrite assoc_app_notin by exact Hnotin. cbn [assoc]. rewrite String.eqb_refl.
      cbn [rbind]. pose proof (Hf (name, s) (or_introl eq_refl) Hk) as Hfs.
      cbn [snd] in Hfs. rewrite Hfs. cbn [rbind].
      rewrite assign_app_notin by exact Hnotin. cbn [assign]. rewrite String.eqb_refl.
      specialize (IH (done ++ [(name, g s)])%list (Hnd' (g s))).
      rewrite <- app_assoc in IH. cbn [app] in IH. rewrite IH.
      * rewrite <- app_assoc. reflexivity.
      * intros c Hc. apply Hf. right. exact Hc.
    + specialize (IH (done ++ [(name, s)])%list (Hnd' s)).
      rewrite <- app_assoc in IH. cbn [app] in IH. rewrite IH.
      * rewrite <- app_assoc. reflexivity.
      * intros c Hc. apply Hf. right. exact Hc.
Qed.

Lemma fill_mode_body (r : ref) (col : string) (h : gmap ref DataFrame) (cur : DataFrame) :
  h !! r = Some cur ->
  bind (deref r) (fun cur =>
    bind (lift (getitem cur col)) (fun s =>
      if Nat.ltb 0 (count_true (isnull s))
      then bind (lift (fillna_text (DataCleaner.mode_or_unknown s) s))
                (fun s' => update r (setitem cur col s'))
      else ret tt)) h
  = match fill_step fill_mode_column col cur with
    | Ok cur' => (Ok tt, <[r := cur']> h)
    | Raise e => (Raise e, h)
    end.
Proof.
  intros Hcur. unfold bind at 1. unfold deref. rewrite Hcur.
  unfold bind at 1. unfold lift at 1. unfold fill_step, fill_mode_column.
  destruct (getitem cur col) as [s|e] eqn:Hs; cbn [rbind]; [|reflexivity].
  destruct (Nat.ltb 0 (count_true (isnull s))).
  - unfold bind, lift. destruct (fillna_text _ s); reflexivity.
  - cbn [rbind]. rewrite (setitem_same_id _ _ _ Hs).
    rewrite insert_id by exact Hcur. reflexivity.
Qed.

Lemma fill_median_body (r : ref) (col : string) (h : gmap ref DataFrame) (cur : DataFrame) :
  h !! r = Some cur ->
  bind (deref r) (fun cur =>
    bind (lift (getitem cur col)) (fun s =>
      if Nat.ltb 0 (count_true (isnull s))
      then update r (setitem cur col
                       (fillna_number (match s with Float64 v => median v | _ => None end) s))
      else ret tt)) h
  = match fill_step fill_median_column col cur with
    | Ok cur' => (Ok tt, <[r := cur']> h)
    | Raise e => (Raise e, h)
    end.
Proof.
  intros Hcur. unfold bind at 1. unfold deref. rewrite Hcur.
  unfold bind at 1. unfold lift at 1. unfold fill_step, fill_median_column.
  destruct (getitem cur col) as [s|e] eqn:Hs; cbn [rbind]; [|reflexivity].
  destruct (Nat.ltb 0 (count_true (isnull s))).
  - reflexivity.
  - cbn [rbind]. rewrite (setitem_same_id _ _ _ Hs).
    rewrite insert_id by exact Hcur. reflexivity.
Qed.

(** ['fill_mode'] and ['fill_median'] run their loop on the copy. *)
Lemma handle_missing_values_fill_mode (h : gmap ref DataFrame) (df : ref) (tbl : DataFrame)
    (threshold : Q) :
  h !! df = Some tbl ->
  DataCleaner.missing_stats tbl <> [] ->
  match fill_steps fill_mode_column (DataCleaner.select_dtypes DataCleaner.is_text tbl) tbl with
  | Ok tbl' =>
      DataCleaner.handle_missing_values df "fill_mode" threshold h
      = (Ok (fresh (dom h)), <[fresh (dom h) := tbl']> h)
  | Raise e =>
      fst (DataCleaner.handle_missing_values df "fill_mode" threshold h) = Raise e
  end.
Proof.
  intros Hdf Hst.
  set (l := fresh (dom h)). set (h1 := <[l := tbl]> h).
  assert (Hl : h1 !! l = Some tbl) by apply lookup_insert_eq.
  assert (Heq : exists body,
             (forall col h cur, h !! l = Some cur ->
                body col h = match fill_step fill_mode_column col cur with
                             | Ok cur' => (Ok tt, <[l := cur']> h)
                             | Raise e => (Raise e, h)
                             end) /\
             DataCleaner.handle_missing_values df "fill_mode" threshold h
             = bind (for_each (DataCleaner.select_dtypes DataCleaner.is_text tbl) body)
                    (fun _ => ret l) h1).
  { eexists. split; [|].
    2:{ unfold DataCleaner.handle_missing_values, copy.
        unfold bind at 1. unfold bind at 1. unfold deref at 1. rewrite Hdf. cbn [new].
        unfold bind at 1. unfold deref at 1. fold l. fold h1. rewrite Hl. cbv zeta.
        destruct (DataCleaner.missing_stats tbl) as [|row rest]; [congruence|].
        cbn [length Nat.eqb String.eqb Ascii.eqb Bool.eqb]. reflexivity. }
    intros col h0 cur Hcur. cbv beta. apply fill_mode_body. exact Hcur. }
  destruct Heq as (body & Hbody & ->).
  pose proof (for_each_fill fill_mode_column body l Hbody
                (DataCleaner.select_dtypes DataCleaner.is_text tbl) h1 tbl Hl) as Hloop.
  unfold bind.
  destruct (fill_steps _ _ tbl) as [tbl'|e].
  - rewrite Hloop. cbn [ret]. unfold h1. rewrite insert_insert_eq. reflexivity.
  - destruct Hloop as [h' ->]. reflexivity.
Qed.

Lemma handle_missing_values_fill_median (h : gmap ref DataFrame) (df : ref) (tbl : DataFrame)
    (threshold : Q) :
  h !! df = Some tbl ->
  DataCleaner.missing_stats tbl <> [] ->
  match fill_steps fill_median_column (DataCleaner.select_dtypes DataCleaner.is_number tbl) tbl with
  | Ok tbl' =>
      DataCleaner.handle_missing_values df "fill_median" threshold h
      = (Ok (fresh (dom h)), <[fresh (dom h) := tbl']> h)
  | Raise e =>
      fst (DataCleaner.handle_missing_values df "fill_median" threshold h) = Raise e
  end.
Proof.
  intros Hdf Hst.
  set (l := fresh (dom h)). set (h1 := <[l := tbl]> h).
  assert (Hl : h1 !! l = Some tbl) by apply lookup_insert_eq.
  assert (Heq : exists body,
             (forall col h cur, h !! l = Some cur ->
                body col h = match fill_step fill_median_column col cur with
                             | Ok cur' => (Ok tt, <[l := cur']> h)
                             | Raise e => (Raise e, h)
                             end) /\
             DataCleaner.handle_missing_values df "fill_median" threshold h
             = bind (for_each (DataCleaner.select_dtypes DataCleaner.is_number tbl) body)
                    (fun _ => ret l) h1).
  { eexists. split; [|].
    2:{ unfold DataCleaner.handle_missing_values, copy.
        unfold bind at 1. unfold bind at 1. unfold deref at 1. rewrite Hdf. cbn [new].
        unfold bind at 1. unfold deref at 1. fold l. fold h1. rewrite Hl. cbv zeta.
        destruct (DataCleaner.missing_stats tbl) as [|row rest]; [congruence|].
        cbn [length Nat.eqb String.eqb Ascii.eqb Bool.eqb]. reflexivity. }
    intros col h0 cur Hcur. cbv beta. apply fill_median_body. exact Hcur. }
  destruct Heq as (body & Hbody & ->).
  pose proof (for_each_fill fill_median_column body l Hbody
                (DataCleaner.select_dtypes DataCleaner.is_number tbl) h1 tbl Hl) as Hloop.
  unfold bind.
  destruct (fill_steps _ _ tbl) as [tbl'|e].
  - rewrite Hloop. cbn [ret]. unfold h1. rewrite insert_insert_eq. reflexivity.
  - destruct Hloop as [h' ->]. reflexivity.
Qed.

Lemma fill_steps_raise (f : Series -> result Series) (g : Series -> Series)
    (keep : Series -> bool) (n : nat) (e : exn) (todo : list (string * Series)) :
  forall done : list (string * Series),
    List.NoDup (map fst (done ++ todo)%list) ->
    (forall c, In c todo -> keep (snd c) = true ->
               f (snd c) = Ok (g (snd c)) \/ f (snd c) = Raise e) ->
    (exists c, In c todo /\ keep (snd c) = true /\ f (snd c) = Raise e) ->
    fill_steps f (map fst (List.filter (fun c => keep (snd c)) todo))
      (mkDataFrame n (done ++ todo)%list)
    = Raise e.
Proof.
  induction todo as [|[name s] todo IH]; intros done Hnd Hf Hex.
  - destruct Hex as (c & [] & _).
  - assert (Hnotin : ~ In name (map fst done)).
    { rewrite map_app in Hnd. cbn [map fst] in Hnd.
      apply NoDup_remove_2 in Hnd. intros Hin. apply Hnd. apply in_or_app. left.
      exact Hin. }
    assert (Hnd' : forall s', List.NoDup (map fst ((done ++ [(name, s')]) ++ todo)%list)).
    { intros s'. rewrite <- app_assoc. cbn [app]. rewrite map_app in *. exact Hnd. }
    assert (Hf' : forall c, In c todo -> keep (snd c) = true ->
                            f (snd c) = Ok (g (snd c)) \/ f (snd c) = Raise e).
    { intros c Hc. apply Hf. right. exact Hc. }
    cbn [List.filter snd map fst]. destruct (keep s) eqn:Hk.
    + cbn [map fst fill_steps]. unfold fill_step, getitem, setitem. cbn [columns nrows].
      rewrite assoc_app_notin by exact Hnotin. cbn [assoc]. rewrite String.eqb_refl.
      cbn [rbind]. pose proof (Hf (name, s) (or_introl eq_refl) Hk) as Hfs.
      cbn [snd] in Hfs. destruct Hfs as [Hfs|Hfs]; rewrite Hfs; cbn [rbind]; [|reflexivity].
      rewrite assign_app_notin by exact Hnotin. cbn [assign]. rewrite String.eqb_refl.
      specialize (IH (done ++ [(name, g s)])%list (Hnd' (g s)) Hf').
      rewrite <- app_assoc in IH. cbn [app] in IH. apply IH.
      destruct Hex as (c & [<-|Hc] & Hkc & Hfc).
      * cbn [snd] in Hfc. congruence.
      * exists c. auto.
    + specialize (IH (done ++ [(name, s)])%list (Hnd' s) Hf').
      rewrite <- app_assoc in IH. cbn [app] in IH. apply IH.
      destruct Hex as (c & [<-|Hc] & Hkc & Hfc).
      * cbn [snd] in Hkc. congruence.
      * exists c. auto.
Qed.

Lemma count_none_zero {A} (v : list (option A)) :
  count_true (map is_none v) = 0%nat <-> ~ In None v.
Proof.
  induction v as [|[a|] v IH]; cbn [map is_none].
  - cbn. tauto.
  - rewrite count_true_cons. cbn [Nat.b2n]. rewrite Nat.add_0_l, IH. cbn [In].
    split; [intros H [Hx|Hx]; [discriminate|tauto] | tauto].
  - rewrite count_true_cons. cbn [In]. split; [discriminate|]. intros H.
    exfalso. apply H. left. reflexivity.
Qed.

Lemma fill_no_missing {A} (x : A) (v : list (option A)) :
  ~ In None v -> fill x v = v.
Proof.
  unfold fill. induction v as [|[a|] v IH]; cbn [map In]; intros H.
  - reflexivity.
  - rewrite IH; [reflexivity|]. tauto.
  - exfalso. apply H. left. reflexivity.
Qed.

Lemma fill_complete {A} (x : A) (v : list (option A)) : ~ In None (fill x v).
Proof.
  unfold fill. induction v as [|[a|] v IH]; cbn [map In]; [tauto| |];
    intros [H|H]; try discriminate; tauto.
Qed.

Lemma length_fill {A} (x : A) (v : list (option A)) : length (fill x v) = length v.
Proof. unfold fill. apply length_map. Qed.

Lemma count_string_pos (x : string) (l : list string) :
  (0 < count_string x l)%nat <-> In x l.
Proof.
  unfold count_string. induction l as [|y l IH]; cbn [List.filter In length].
  - split; [lia|tauto].
  - destruct (String.eqb_spec x y) as [->|Hne]; cbn [length].
    + split; [tauto|lia].
    + rewrite IH. split; [tauto|]. intros [H|H]; [congruence|exact H].
Qed.

(** What [most_frequent] returns: a candidate that is present, no less
    frequent than any candidate, or the running best. *)
Lemma most_frequent_spec (present : list string) (candidates : list string) :
  forall best : option string,
    (forall b, best = Some b -> (0 < count_string b present)%nat) ->
    match most_frequent candidates present best with
    | Some m =>
        (In m candidates \/ best = Some m) /\
        (0 < count_string m present)%nat /\
        (forall c, In c candidates \/ best = Some c ->
                   (count_string c present <= count_string m present)%nat)
    | None => best = None /\ forall c, In c candidates -> count_string c present = 0%nat
    end.
Proof.
  induction candidates as [|c rest IH]; intros best Hbest; cbn [most_frequent].
  - destruct best as [b|].
    + split; [right; reflexivity|]. split; [apply Hbest; reflexivity|].
      intros c [[]|[= ->]]. lia.
    + split; [reflexivity|]. intros c [].
  - cbv zeta.
    set (best' := if match best with
                     | Some b => Nat.ltb (count_string b present) (count_string c present)
                     | None => Nat.ltb 0 (count_string c present)
                     end then Some c else best).
    assert (Hbest' : forall b, best' = Some b -> (0 < count_string b present)%nat).
    { intros b. unfold best'. destruct best as [b0|].
      - destruct (Nat.ltb_spec (count_string b0 present) (count_string c present)).
        + intros [= <-]. specialize (Hbest b0 eq_refl). lia.
        + apply Hbest.
      - destruct (Nat.ltb_spec 0 (count_string c present)); [|discriminate].
        intros [= <-]. assumption. }
    specialize (IH best' Hbest').
    destruct (most_frequent rest present best') as [m|].
    + destruct IH as (Hm & Hpos & Hmax). split; [|split; [exact Hpos|]].
      * destruct Hm as [Hm|Hm]; [left; right; exact Hm|].
        unfold best' in Hm. destruct best as [b0|].
        -- destruct (Nat.ltb (count_string b0 present) (count_string c present)).
           ++ left. left. congruence.
           ++ right. exact Hm.
        -- destruct (Nat.ltb 0 (count_string c present)); [|discriminate].
           left. left. congruence.
      * assert (Hc : (count_string c present <= count_string m present)%nat /\
                     (forall b0, best = Some b0 ->
                                 (count_string b0 present <= count_string m present)%nat)).
        { unfold best' in Hmax, Hbest'. destruct best as [b0|].
          - destruct (Nat.ltb_spec (count_string b0 present) (count_string c present)).
            + pose proof (Hmax c (or_intror eq_refl)). split; [lia|].
              intros b1 [= <-]. lia.
            + pose proof (Hmax b0 (or_intror eq_refl)). split; [lia|].
              intros b1 [= <-]. lia.
          - split; [|discriminate].
            destruct (Nat.ltb_spec 0 (count_string c present)).
            + apply Hmax. right. reflexivity.
            + lia. }
        intros x [[<-|Hx]|Hx].
        -- exact (proj1 Hc).
        -- apply Hmax. left. exact Hx.
        -- exact (proj2 Hc x Hx).
    + destruct IH as (Hnone & Hzero). unfold best' in Hnone. destruct best as [b0|].
      * destruct (Nat.ltb (count_string b0 present) (count_string c present)); discriminate.
      * split; [reflexivity|].
        destruct (Nat.ltb_spec 0 (count_string c present)); [discriminate|].
        intros x [<-|Hx]; [lia|apply Hzero; exact Hx].
Qed.

Lemma In_insert_string (x y : string) (l : list string) :
  In y (insert_string x l) <-> y = x \/ In y l.
Proof.
  induction l as [|z l IH]; cbn [insert_string In].
  - intuition congruence.
  - destruct (String.leb x z); cbn [In]; [intuition congruence|].
    rewrite IH. intuition congruence.
Qed.

Lemma In_sort_strings (y : string) (l : list string) :
  In y (sort_strings l) <-> In y l.
Proof.
  unfold sort_strings. induction l as [|x l IH]; cbn [fold_right In]; [tauto|].
  rewrite In_insert_string, IH. intuition congruence.
Qed.

Lemma text_filled_complete (s : Series) :
  count_true (isnull s) = 0%nat -> text_filled s = s.
Proof.
  destruct s as [v|v|cats v|v|v]; cbn [isnull text_filled]; intros H; try reflexivity;
    apply count_none_zero in H; rewrite fill_no_missing by exact H; reflexivity.
Qed.

Lemma text_filled_no_missing (s : Series) :
  DataCleaner.is_text s = true -> count_true (isnull (text_filled s)) = 0%nat.
Proof.
  destruct s as [v|v|cats v|v|v]; cbn [DataCleaner.is_text]; try discriminate; intros _;
    cbn [text_filled isnull]; apply count_none_zero; apply fill_complete.
Qed.

Lemma count_pos_missing {A} (v : list (option A)) :
  Nat.ltb 0 (count_true (map is_none v)) = true <-> In None v.
Proof.
  rewrite Nat.ltb_lt. pose proof (count_none_zero v) as H.
  destruct (in_dec (fun a b : option unit => option_eq_dec a b)
              None (map (fun o => match o with Some _ => Some tt | None => None end) v))
    as [Hin|Hnin].
  - assert (Hv : In None v).
    { apply in_map_iff in Hin. destruct Hin as ([a|] & Ha & Hin); [discriminate|exact Hin]. }
    split; [intros _; exact Hv|]. intros _.
    destruct (count_true (map is_none v)); [|lia]. exfalso.
    apply (proj1 H eq_refl). exact Hv.
  - assert (Hv : ~ In None v).
    { intros Hv. apply Hnin. apply in_map_iff. exists None. split; [reflexivity|exact Hv]. }
    apply H in Hv. rewrite Hv. split; [lia|]. intros Hx. apply H in Hv. contradiction.
Qed.

Lemma existsb_eqb_In (x : string) (l : list string) :
  existsb (String.eqb x) l = true <-> In x l.
Proof.
  rewrite existsb_exists. split.
  - intros (y & Hy & Heq). apply String.eqb_eq in Heq. subst. exact Hy.
  - intros H. exists x. split; [exact H|apply String.eqb_refl].
Qed.

(** X12.  The value ['fill_mode'] writes into a column of strings that
    has a present entry is one of the present values, and no value
    occurs more often in the column; a column that is entirely missing
    gets ['Unknown']. *)
Theorem fill_mode_value_most_frequent (v : list (option string)) :
  (forall x, In (Some x) v ->
     In (Some (DataCleaner.mode_or_unknown (Object v))) v /\
     forall y, (count_string y (somes v)
                <= count_string (DataCleaner.mode_or_unknown (Object v)) (somes v))%nat) /\
  ((forall x, ~ In (Some x) v) -> DataCleaner.mode_or_unknown (Object v) = "Unknown").
Proof.
  unfold DataCleaner.mode_or_unknown.
  pose proof (most_frequent_spec (somes v) (sort_strings (somes v)) None) as H.
  specialize (H ltac:(discriminate)).
  destruct (most_frequent (sort_strings (somes v)) (somes v) None) as [m|].
  - destruct H as (Hm & Hpos & Hmax). split.
    + intros x Hx. split.
      * apply In_somes. apply count_string_pos. exact Hpos.
      * intros y. destruct (in_dec string_dec y (somes v)) as [Hy|Hy].
        -- apply Hmax. left. apply In_sort_strings. exact Hy.
        -- assert (count_string y (somes v) = 0%nat) as ->; [|lia].
           destruct (count_string y (somes v)) eqn:E; [reflexivity|]. exfalso. apply Hy.
           apply count_string_pos. lia.
    + intros Hall. exfalso. apply count_string_pos in Hpos. apply In_somes in Hpos.
      apply (Hall m). exact Hpos.
  - destruct H as (_ & Hzero). split; [|reflexivity].
    intros x Hx. exfalso. apply In_somes in Hx.
    pose proof (Hzero x (proj2 (In_sort_strings _ _) Hx)) as Hc.
    apply count_string_pos in Hx. lia.
Qed.

Lemma mode_category (cats : list string) (v : list (option string)) :
  (exists x, In (Some x) v /\ In x cats) ->
  In (DataCleaner.mode_or_unknown (Category cats v)) cats /\
  In (Some (DataCleaner.mode_or_unknown (Category cats v))) v.
Proof.
  intros (x & Hx & Hcat). unfold DataCleaner.mode_or_unknown.
  pose proof (most_frequent_spec (somes v) cats None) as H.
  specialize (H ltac:(discriminate)).
  destruct (most_frequent cats (somes v) None) as [m|].
  - destruct H as ([Hm|Hm] & Hpos & _); [|discriminate]. split; [exact Hm|].
    apply In_somes. apply count_string_pos. exact Hpos.
  - destruct H as (_ & Hzero). exfalso. specialize (Hzero x Hcat).
    apply In_somes in Hx. apply count_string_pos in Hx. lia.
Qed.

Lemma mode_category_unknown (cats : list string) (v : list (option string)) :
  (forall x, ~ In (Some x) v) ->
  DataCleaner.mode_or_unknown (Category cats v) = "Unknown".
Proof.
  intros Hall. unfold DataCleaner.mode_or_unknown.
  pose proof (most_frequent_spec (somes v) cats None) as H.
  specialize (H ltac:(discriminate)).
  destruct (most_frequent cats (somes v) None) as [m|]; [|reflexivity].
  destruct H as (_ & Hpos & _). exfalso. apply count_string_pos in Hpos.
  apply In_somes in Hpos. apply (Hall m). exact Hpos.
Qed.

Lemma fill_mode_column_ok (s : Series) :
  DataCleaner.is_text s = true ->
  (forall cats v, s = Category cats v -> In None v ->
                  exists x, In (Some x) v /\ In x cats) ->
  fill_mode_column s = Ok (text_filled s).
Proof.
  intros Ht Hcat. unfold fill_mode_column.
  destruct (Nat.ltb 0 (count_true (isnull s))) eqn:Hn.
  - destruct s as [v|v|cats v|v|v]; cbn [DataCleaner.is_text] in Ht; try discriminate.
    + reflexivity.
    + cbn [isnull] in Hn. apply count_pos_missing in Hn.
      destruct (mode_category cats v (Hcat cats v eq_refl Hn)) as (Hin & _).
      cbn [fillna_text text_filled]. apply existsb_eqb_In in Hin. rewrite Hin. reflexivity.
  - rewrite text_filled_complete; [reflexivity|].
    apply Nat.ltb_ge in Hn. lia.
Qed.

Lemma map_id_on {A} (f : A -> A) (l : list A) :
  (forall a, In a l -> f a = a) -> map f l = l.
Proof.
  induction l as [|a l IH]; cbn [map]; intros H; [reflexivity|].
  rewrite (H a (or_introl eq_refl)), IH; [reflexivity|].
  intros b Hb. apply H. right. exact Hb.
Qed.

Lemma names_map_fill (g : Series -> Series) (keep : Series -> bool)
    (cols : list (string * Series)) :
  map fst (map (fun c : string * Series => if keep (snd c) then (fst c, g (snd c)) else c) cols)
  = map fst cols.
Proof.
  rewrite map_map. apply map_ext. intros c. destruct (keep (snd c)); reflexivity.
Qed.

(** X9.  ['fill_mode'] on a table with distinct column names, where
    every categorical column that misses an entry has a present entry
    among its categories: the function returns a new table with the same
    records and columns, in which every text column is [text_filled] (its
    missing entries replaced by its most frequent value) and no text
    column misses an entry; the other columns are as they were. *)
Theorem fill_mode_fills_text_columns (h : gmap ref DataFrame) (df : ref)
    (tbl : DataFrame) (threshold : Q) :
  h !! df = Some tbl ->
  List.NoDup (column_names tbl) ->
  (forall name cats v, In (name, Category cats v) (columns tbl) -> In None v ->
                       exists x, In (Some x) v /\ In x cats) ->
  let out := DataCleaner.handle_missing_values df "fill_mode" threshold h in
  exists (r : ref) (tbl' : DataFrame),
    fst out = Ok r /\ h !! r = None /\ snd out = <[r := tbl']> h /\
    nrows tbl' = nrows tbl /\
    columns tbl'
    = map (fun c : string * Series =>
             if DataCleaner.is_text (snd c) then (fst c, text_filled (snd c)) else c)
          (columns tbl) /\
    column_names tbl' = column_names tbl /\
    (forall c, In c (columns tbl') -> DataCleaner.is_text (snd c) = true ->
               count_true (isnull (snd c)) = 0%nat).
Proof.
  intros Hdf Hnd Hcat out. subst out.
  assert (Hfresh : h !! fresh (dom h) = None).
  { apply not_elem_of_dom. apply is_fresh. }
  assert (Hok : forall c, In c (columns tbl) -> DataCleaner.is_text (snd c) = true ->
                          fill_mode_column (snd c) = Ok (text_filled (snd c))).
  { intros [name s] Hc Ht. cbn [snd] in *. apply fill_mode_column_ok; [exact Ht|].
    intros cats v -> Hn. exact (Hcat name cats v Hc Hn). }
  set (g := fun c : string * Series =>
              if DataCleaner.is_text (snd c) then (fst c, text_filled (snd c)) else c).
  assert (Hrest : forall tbl', nrows tbl' = nrows tbl -> columns tbl' = map g (columns tbl) ->
            column_names tbl' = column_names tbl /\
            (forall c, In c (columns tbl') -> DataCleaner.is_text (snd c) = true ->
                       count_true (isnull (snd c)) = 0%nat)).
  { intros tbl' _ Hcols. unfold column_names. rewrite Hcols. split.
    - apply names_map_fill.
    - intros c Hc Ht. apply in_map_iff in Hc. destruct Hc as (c0 & <- & Hc0).
      unfold g in *. destruct (DataCleaner.is_text (snd c0)) eqn:E.
      + cbn [snd]. apply text_filled_no_missing. exact E.
      + congruence. }
  destruct (DataCleaner.missing_stats tbl) as [|row rest] eqn:Hst.
  - rewrite (handle_missing_values_copy h df tbl "fill_mode" threshold Hdf (or_introl Hst)).
    exists (fresh (dom h)), tbl. cbn [fst snd].
    assert (Hcols : columns tbl = map g (columns tbl)).
    { symmetry. apply map_id_on. intros c Hc. unfold g.
      destruct (DataCleaner.is_text (snd c)); [|reflexivity].
      apply (proj1 (missing_stats_nil tbl)) in Hst.
      rewrite text_filled_complete; [destruct c; reflexivity|].
      exact (proj1 (List.Forall_forall _ _) Hst c Hc). }
    destruct (Hrest tbl eq_refl Hcols) as (Hn & Hc).
    repeat split; try assumption; reflexivity.
  - pose proof (handle_missing_values_fill_mode h df tbl threshold Hdf) as Heq.
    rewrite Hst in Heq. specialize (Heq ltac:(discriminate)).
    unfold DataCleaner.select_dtypes in Heq.
    pose proof (fill_steps_map fill_mode_column text_filled DataCleaner.is_text
                  (nrows tbl) (columns tbl) [] Hnd Hok) as Hsteps.
    cbn [app] in Hsteps. destruct tbl as [n cols]. cbn [nrows columns] in *.
    rewrite Hsteps in Heq. rewrite Heq.
    eexists _, _. cbn [fst snd].
    split; [reflexivity|]. split; [exact Hfresh|]. split; [reflexivity|].
    split; [reflexivity|]. split; [reflexivity|].
    apply (Hrest (mkDataFrame n (map g cols))); reflexivity.
Qed.

Lemma length_insert_Q (x : Q) (l : list Q) : length (insert_Q x l) = S (length l).
Proof.
  induction l as [|y l IH]; cbn [insert_Q length]; [reflexivity|].
  destruct (Qle_bool x y); cbn [length]; [reflexivity|]. rewrite IH. reflexivity.
Qed.

Lemma length_sort_Q (l : list Q) : length (sort_Q l) = length l.
Proof.
  unfold sort_Q. induction l as [|x l IH]; cbn [fold_right length]; [reflexivity|].
  rewrite length_insert_Q, IH. reflexivity.
Qed.

Lemma In_insert_Q (x y : Q) (l : list Q) : In y (insert_Q x l) <-> y = x \/ In y l.
Proof.
  induction l as [|z l IH]; cbn [insert_Q In].
  - intuition congruence.
  - destruct (Qle_bool x z); cbn [In]; [intuition congruence|].
    rewrite IH. intuition congruence.
Qed.

Lemma In_sort_Q (y : Q) (l : list Q) : In y (sort_Q l) <-> In y l.
Proof.
  unfold sort_Q. induction l as [|x l IH]; cbn [fold_right In]; [tauto|].
  rewrite In_insert_Q, IH. intuition congruence.
Qed.

(** The median of a column is defined exactly when the column has a
    present entry, and then lies between two present entries. *)
Lemma median_defined (v : list float) :
  match median v with
  | Some m => exists lo hi, In (Some lo) v /\ In (Some hi) v /\ lo <= m /\ m <= hi
  | None => forall x, ~ In (Some x) v
  end.
Proof.
  unfold median. cbv zeta.
  pose proof (length_sort_Q (somes v)) as Hlen.
  destruct (length (sort_Q (somes v))) as [|n] eqn:E.
  - intros x Hx. apply In_somes in Hx. destruct (somes v); [exact Hx|discriminate].
  - assert (Hnth : forall i, (i < S n)%nat -> In (Some (nth i (sort_Q (somes v)) 0)) v).
    { intros i Hi. apply In_somes. apply In_sort_Q. apply nth_In. lia. }
    assert (Hhalf : (S n / 2 < S n)%nat) by (apply Nat.div_lt; lia).
    destruct (Nat.even (S n)).
    + set (a := nth (S n / 2 - 1) (sort_Q (somes v)) 0).
      set (b := nth (S n / 2) (sort_Q (somes v)) 0).
      assert (Ha : In (Some a) v) by (apply Hnth; lia).
      assert (Hb : In (Some b) v) by (apply Hnth; lia).
      destruct (Qlt_le_dec a b) as [Hab|Hab].
      * exists a, b. split; [exact Ha|]. split; [exact Hb|].
        split; [apply Qle_shift_div_l|apply Qle_shift_div_r]; lra.
      * exists b, a. split; [exact Hb|]. split; [exact Ha|].
        split; [apply Qle_shift_div_l|apply Qle_shift_div_r]; lra.
    + exists (nth (S n / 2) (sort_Q (somes v)) 0), (nth (S n / 2) (sort_Q (somes v)) 0).
      split; [apply Hnth; lia|]. split; [apply Hnth; lia|]. split; apply Qle_refl.
Qed.

Lemma fill_median_column_ok (s : Series) :
  fill_median_column s
  = Ok (match s with Float64 v => median_filled v | _ => s end).
Proof.
  unfold fill_median_column, median_filled.
  destruct (Nat.ltb 0 (count_true (isnull s))) eqn:Hn.
  - destruct s as [v|v|cats v|v|v]; cbn [fillna_number]; try reflexivity.
  - destruct s as [v|v|cats v|v|v]; try reflexivity.
    destruct (median v) as [m|]; [|reflexivity].
    rewrite fill_no_missing; [reflexivity|].
    apply count_none_zero. apply Nat.ltb_ge in Hn. cbn [isnull] in Hn. lia.
Qed.

(** X10.  ['fill_median'] never raises.  On a table with distinct
    column names it returns a new table with the same records and
    column names; a column that is not numeric is as it was; a float
    column is [median_filled]: with a present entry, every missing entry
    becomes the column's median, which lies between two present entries,
    and no entry is missing afterwards; entirely missing, it stays so. *)
Theorem fill_median_fills_numeric_columns (h : gmap ref DataFrame) (df : ref)
    (tbl : DataFrame) (threshold : Q) :
  h !! df = Some tbl ->
  List.NoDup (column_names tbl) ->
  let out := DataCleaner.handle_missing_values df "fill_median" threshold h in
  exists (r : ref) (tbl' : DataFrame),
    fst out = Ok r /\ h !! r = None /\ snd out = <[r := tbl']> h /\
    nrows tbl' = nrows tbl /\
    column_names tbl' = column_names tbl /\
    (forall name s, In (name, s) (columns tbl) -> DataCleaner.is_number s = false ->
                    In (name, s) (columns tbl')) /\
    (forall name v, In (name, Float64 v) (columns tbl) ->
                    In (name, median_filled v) (columns tbl')) /\
    (forall name v x, In (name, Float64 v) (columns tbl) -> In (Some x) v ->
       exists m lo hi,
         median_filled v = Float64 (fill m v) /\ ~ In None (fill m v) /\
         In (Some lo) v /\ In (Some hi) v /\ lo <= m /\ m <= hi).
Proof.
  intros Hdf Hnd out. subst out.
  assert (Hfresh : h !! fresh (dom h) = None).
  { apply not_elem_of_dom. apply is_fresh. }
  set (gs := fun s : Series => match s with Float64 v => median_filled v | _ => s end).
  set (g := fun c : string * Series =>
              if DataCleaner.is_number (snd c) then (fst c, gs (snd c)) else c).
  assert (Hrest : forall tbl', columns tbl' = map g (columns tbl) ->
            column_names tbl' = column_names tbl /\
            (forall name s, In (name, s) (columns tbl) -> DataCleaner.is_number s = false ->
                            In (name, s) (columns tbl')) /\
            (forall name v, In (name, Float64 v) (columns tbl) ->
                            In (name, median_filled v) (columns tbl')) /\
            (forall name v x, In (name, Float64 v) (columns tbl) -> In (Some x) v ->
               exists m lo hi,
                 median_filled v = Float64 (fill m v) /\ ~ In None (fill m v) /\
                 In (Some lo) v /\ In (Some hi) v /\ lo <= m /\ m <= hi)).
  { intros tbl' Hcols. unfold column_names. rewrite Hcols. split; [apply names_map_fill|].
    split; [|split].
    - intros name s Hin Hnum. apply in_map_iff. exists (name, s). split; [|exact Hin].
      unfold g. cbn [snd]. rewrite Hnum. reflexivity.
    - intros name v Hin. apply in_map_iff. exists (name, Float64 v). split; [|exact Hin].
      reflexivity.
    - intros name v x _ Hx. unfold median_filled.
      pose proof (median_defined v) as Hm. destruct (median v) as [m|].
      + destruct Hm as (lo & hi & Hlo & Hhi & H1 & H2). exists m, lo, hi.
        split; [reflexivity|]. split; [apply fill_complete|]. auto.
      + exfalso. exact (Hm x Hx). }
  destruct (DataCleaner.missing_stats tbl) as [|row rest] eqn:Hst.
  - rewrite (handle_missing_values_copy h df tbl "fill_median" threshold Hdf (or_introl Hst)).
    exists (fresh (dom h)), tbl. cbn [fst snd].
    assert (Hcols : columns tbl = map g (columns tbl)).
    { symmetry. apply map_id_on. intros [name s] Hc. unfold g. cbn [fst snd].
      destruct (DataCleaner.is_number s); [|reflexivity].
      apply (proj1 (missing_stats_nil tbl)) in Hst.
      pose proof (proj1 (List.Forall_forall _ _) Hst _ Hc) as Hz. cbn [snd] in Hz.
      destruct s as [v|v|cats v|v|v]; try reflexivity. cbn [gs]. unfold median_filled.
      destruct (median v) as [m|]; [|reflexivity].
      rewrite fill_no_missing; [reflexivity|]. apply count_none_zero. exact Hz. }
    split; [reflexivity|]. split; [exact Hfresh|]. split; [reflexivity|].
    split; [reflexivity|]. apply Hrest. exact Hcols.
  - pose proof (handle_missing_values_fill_median h df tbl threshold Hdf) as Heq.
    rewrite Hst in Heq. specialize (Heq ltac:(discriminate)).
    unfold DataCleaner.select_dtypes in Heq.
    pose proof (fill_steps_map fill_median_column gs DataCleaner.is_number
                  (nrows tbl) (columns tbl) [] Hnd
                  (fun c _ _ => fill_median_column_ok (snd c))) as Hsteps.
    cbn [app] in Hsteps. destruct tbl as [n cols]. cbn [nrows columns] in *.
    rewrite Hsteps in Heq. rewrite Heq.
    eexists _, _. cbn [fst snd].
    split; [reflexivity|]. split; [exact Hfresh|]. split; [reflexivity|].
    split; [reflexivity|].
    apply (Hrest (mkDataFrame n (map g cols))). reflexivity.
Qed.

(** X11.  ['fill_mode'] on a table with a categorical column that
    is entirely missing and has no category ['Unknown']: the fill value
    is ['Unknown'], which the categorical column refuses; the function
    raises [TypeError]. *)
Theorem fill_mode_unknown_category_raises (h : gmap ref DataFrame) (df : ref)
    (tbl : DataFrame) (threshold : Q) (name : string) (cats : list string)
    (v : list (option string)) :
  h !! df = Some tbl ->
  List.NoDup (column_names tbl) ->
  In (name, Category cats v) (columns tbl) ->
  In None v ->
  (forall x, ~ In (Some x) v) ->
  ~ In "Unknown" cats ->
  fst (DataCleaner.handle_missing_values df "fill_mode" threshold h)
  = Raise (TypeError "Cannot setitem on a Categorical with a new category, set the categories first").
Proof.
  intros Hdf Hnd Hin Hnone Hall Hunk.
  set (e := TypeError "Cannot setitem on a Categorical with a new category, set the categories first").
  assert (Hst : DataCleaner.missing_stats tbl <> []).
  { intros Hst. apply (proj1 (missing_stats_nil tbl)) in Hst.
    pose proof (proj1 (List.Forall_forall _ _) Hst _ Hin) as Hz. cbn [snd isnull] in Hz.
    apply count_none_zero in Hz. contradiction. }
  pose proof (handle_missing_values_fill_mode h df tbl threshold Hdf Hst) as Heq.
  unfold DataCleaner.select_dtypes in Heq.
  assert (Hsteps : fill_steps fill_mode_column
                     (map fst (List.filter (fun c : string * Series => DataCleaner.is_text (snd c))
                                  (columns tbl)))
                     tbl = Raise e).
  { destruct tbl as [n cols]. cbn [nrows columns] in *.
    apply (fill_steps_raise fill_mode_column text_filled DataCleaner.is_text n e cols []).
    - exact Hnd.
    - intros [cn s] _ Ht. cbn [snd]. unfold fill_mode_column.
      destruct (Nat.ltb 0 (count_true (isnull s))) eqn:Hn.
      + destruct s as [w|w|cs w|w|w]; cbn [DataCleaner.is_text] in Ht; try discriminate.
        * left. reflexivity.
        * cbn [fillna_text text_filled].
          destruct (existsb _ cs); [left|right]; reflexivity.
      + left. rewrite text_filled_complete; [reflexivity|].
        apply Nat.ltb_ge in Hn. lia.
    - exists (name, Category cats v). split; [exact Hin|]. split; [reflexivity|].
      cbn [snd]. unfold fill_mode_column. cbn [isnull].
      rewrite (proj2 (count_pos_missing v) Hnone).
      rewrite (mode_category_unknown cats v Hall). cbn [fillna_text].
      destruct (existsb (String.eqb "Unknown") cats) eqn:Ex; [|reflexivity].
      apply existsb_eqb_In in Ex. contradiction. }
  rewrite Hsteps in Heq. exact Heq.
Qed.

(** ** Sums and deviations *)







(** ** Deviations within a sample *)




(** ** The threshold *)

Lemma is_anomaly_antitone (z : rfloat) (t1 t2 : Q) :
  t1 <= t2 ->
  StatisticalTests.is_anomaly z t2 = true -> StatisticalTests.is_anomaly z t1 = true.
Proof.
  intros Hle. unfold StatisticalTests.is_anomaly.
  destruct z as [|b|c r]; cbn [rabs rgt]; [discriminate|tauto|]. cbv zeta.
  rewrite (Qle_bool_true 0 (Qabs c)) by apply Qabs_nonneg. cbn [orb].
  rewrite !orb_true_iff, !Qlt_bool_iff.
  intros [Hneg|Hsq].
  - left. lra.
  - destruct (Qlt_le_dec t1 0) as [H1|H1]; [left; exact H1|]. right.
    apply Qle_lt_trans with (t2 * t2); [|exact Hsq]. nra.
Qed.

Lemma count_true_map_le {A} (f g : A -> bool) (l : list A) :
  (forall a, In a l -> f a = true -> g a = true) ->
  (count_true (map f l) <= count_true (map g l))%nat.
Proof.
  induction l as [|a l IH]; intros H; [reflexivity|].
  cbn [map]. rewrite !count_true_cons.
  specialize (IH (fun b Hb => H b (or_intror Hb))).
  pose proof (H a (or_introl eq_refl)) as Ha.
  destruct (f a); [rewrite Ha by reflexivity|destruct (g a)]; cbn; lia.
Qed.

(** X14.  Raising the threshold never flags more: between two runs of
    [detect_age_quality_anomalies] on the same table, the one with the
    higher threshold has the same records, flags only records that the
    other flags too, and counts no more anomalies. *)
Theorem higher_threshold_flags_fewer (df : DataFrame)
    (age_group_column quality_column : string) (t1 t2 : Q)
    (out1 out2 : DataFrame) (st1 st2 : StatisticalTests.anomaly_stats) :
  t1 <= t2 ->
  StatisticalTests.detect_age_quality_anomalies df age_group_column quality_column t1
  = Ok (out1, st1) ->
  StatisticalTests.detect_age_quality_anomalies df age_group_column quality_column t2
  = Ok (out2, st2) ->
  exists flags1 flags2 : list bool,
    getitem out1 "is_anomaly" = Ok (Boolean flags1) /\
    getitem out2 "is_anomaly" = Ok (Boolean flags2) /\
    length flags1 = length flags2 /\
    (forall i, nth_error flags2 i = Some true -> nth_error flags1 i = Some true) /\
    (StatisticalTests.n_anomalies st2 <= StatisticalTests.n_anomalies st1)%nat /\
    StatisticalTests.total_records st2 = StatisticalTests.total_records st1.
Proof.
  intros Hle H1 H2.
  assert (Htot : StatisticalTests.total_records st2 = StatisticalTests.total_records st1).
  { revert H1 H2. unfold StatisticalTests.detect_age_quality_anomalies.
    destruct (getitem df age_group_column) as [key_col|]; [|discriminate].
    destruct (getitem df quality_column) as [quality_col|]; [|discriminate].
    cbn [rbind]. destruct (numeric_values quality_col) as [quality|]; [|discriminate].
    cbn [rbind]. cbv zeta.
    destruct (has_column df "group_mean"); [discriminate|].
    destruct (has_column df "group_std"); [discriminate|].
    intros [= <- <-] [= <- <-]. reflexivity. }
  destruct (detect_columns _ _ _ _ _ _ H1)
    as (key_col & quality_col & quality & Hk & Hq & Hn & Hf1 & _ & Hc1 & _).
  destruct (detect_columns _ _ _ _ _ _ H2)
    as (key_col' & quality_col' & quality' & Hk' & Hq' & Hn' & Hf2 & _ & Hc2 & _).
  rewrite Hk in Hk'. injection Hk' as <-.
  rewrite Hq in Hq'. injection Hq' as <-.
  rewrite Hn in Hn'. injection Hn' as <-.
  cbv zeta in Hf1, Hf2, Hc1, Hc2.
  eexists. eexists. split; [exact Hf1|]. split; [exact Hf2|].
  split; [rewrite !length_map; reflexivity|]. split; [|split; [|exact Htot]].
  - intros i. rewrite !nth_error_map.
    destruct (nth_error _ i) as [z|]; cbn [option_map]; [|discriminate].
    intros [= Hz]. rewrite (is_anomaly_antitone z t1 t2 Hle Hz). reflexivity.
  - rewrite Hc1, Hc2. apply count_true_map_le.
    intros z _. apply is_anomaly_antitone. exact Hle.
Qed.

(** ** The records of the table of anomalies *)

Lemma matched_present (keys : list (option scalar)) (quality : list float) :
  map (fun k => negb (is_none
                        (StatisticalTests.find_group
                           (StatisticalTests.group_stats keys quality) k))) keys
  = map (fun k => negb (is_none k)) keys.
Proof.
  apply map_ext_in. intros [k|] Hin.
  - destruct (find_group_Some keys quality k Hin) as (k' & _ & ->). reflexivity.
  - rewrite find_group_None. reflexivity.
Qed.

Lemma length_merged (keys : list (option scalar)) (quality : list float) :
  length keys = length quality ->
  length (StatisticalTests.merged (StatisticalTests.group_stats keys quality) keys quality)
  = count_true (map (fun k => negb (is_none k)) keys).
Proof.
  intros Hlen. rewrite <- (matched_present keys quality).
  unfold StatisticalTests.merged.
  generalize (StatisticalTests.group_stats keys quality) as stats. intros stats.
  revert quality Hlen. induction keys as [|k keys IH]; intros [|x quality] Hlen;
    try discriminate; [reflexivity|].
  cbn [combine map fst snd]. rewrite count_true_cons.
  injection Hlen as Hlen. specialize (IH quality Hlen).
  destruct (StatisticalTests.find_group stats k); cbn [option_map somes is_none negb length];
    rewrite IH; reflexivity.
Qed.

Lemma assoc_map_snd (f : Series -> Series) (name : string) (cols : list (string * Series)) :
  assoc name (map (fun c : string * Series => (fst c, f (snd c))) cols)
  = option_map f (assoc name cols).
Proof.
  induction cols as [|[n s] cols IH]; [reflexivity|]. cbn [map assoc fst snd].
  destruct (String.eqb name n); [reflexivity|exact IH].
Qed.

Lemma getitem_select_rows (mask : list bool) (df : DataFrame) (name : string) (s : Series) :
  getitem df name = Ok s ->
  getitem (select_rows mask df) name = Ok (series_select mask s).
Proof.
  unfold getitem, select_rows. cbn [columns]. rewrite assoc_map_snd.
  destruct (assoc name (columns df)); [|discriminate]. intros [= ->]. reflexivity.
Qed.

Lemma well_formed_select_rows (mask : list bool) (df : DataFrame) :
  well_formed df -> length mask = nrows df -> well_formed (select_rows mask df).
Proof.
  unfold well_formed, select_rows. cbn [nrows columns]. intros Hwf Hlen.
  apply List.Forall_forall. intros c Hc. apply in_map_iff in Hc.
  destruct Hc as (c0 & <- & Hc0). cbn [snd]. apply series_len_select.
  rewrite Hlen. symmetry. exact (proj1 (List.Forall_forall _ _) Hwf c0 Hc0).
Qed.

(** X15.  The table [detect_age_quality_anomalies] returns holds the
    records of the input that have an age group, and only those: a
    record whose age group is missing is left out and not counted.  The
    columns of the input are kept, cut down to these records;
    [total_records] is their number, [n_anomalies] is at most that, and
    [anomaly_rate] is the one over the other, times 100. *)
Theorem detect_keeps_records_with_group (df out : DataFrame)
    (age_group_column quality_column : string) (threshold_std : Q)
    (st : StatisticalTests.anomaly_stats) :
  well_formed df ->
  StatisticalTests.detect_age_quality_anomalies
    df age_group_column quality_column threshold_std = Ok (out, st) ->
  exists key_col : Series,
    getitem df age_group_column = Ok key_col /\
    let present := map (fun k => negb (is_none k)) (series_keys key_col) in
    nrows out = count_true present /\
    well_formed out /\
    (forall (name : string) (col : Series),
        ~ In name ["group_mean"; "group_std"; "z_score"; "is_anomaly"; "anomaly_type"] ->
        getitem df name = Ok col ->
        getitem out name = Ok (series_select present col)) /\
    StatisticalTests.total_records st = count_true present /\
    (StatisticalTests.n_anomalies st <= StatisticalTests.total_records st)%nat /\
    StatisticalTests.anomaly_rate st
    = percent_of (StatisticalTests.n_anomalies st) (StatisticalTests.total_records st) /\
    StatisticalTests.threshold_std_used st = threshold_std.
Proof.
  intros Hwf. unfold StatisticalTests.detect_age_quality_anomalies.
  destruct (getitem df age_group_column) as [key_col|] eqn:Hk; [|discriminate].
  destruct (getitem df quality_column) as [quality_col|] eqn:Hq; [|discriminate].
  cbn [rbind]. destruct (numeric_values quality_col) as [quality|] eqn:Hn; [|discriminate].
  cbn [rbind]. cbv zeta.
  destruct (has_column df "group_mean"); [discriminate|].
  destruct (has_column df "group_std"); [discriminate|].
  intros [= <- <-]. exists key_col. split; [reflexivity|]. cbv zeta.
  assert (Hlen : length (series_keys key_col) = length quality).
  { rewrite length_series_keys, (length_numeric_values _ _ Hn).
    rewrite (well_formed_getitem _ _ _ Hwf Hk), (well_formed_getitem _ _ _ Hwf Hq).
    reflexivity. }
  rewrite (matched_present (series_keys key_col) quality).
  set (present := map (fun k => negb (is_none k)) (series_keys key_col)).
  assert (Hrows : length (StatisticalTests.merged
                            (StatisticalTests.group_stats (series_keys key_col) quality)
                            (series_keys key_col) quality)
                  = count_true present).
  { apply length_merged. exact Hlen. }
  assert (Hpl : length present = nrows df).
  { unfold present. rewrite length_map, length_series_keys.
    exact (well_formed_getitem _ _ _ Hwf Hk). }
  cbn [StatisticalTests.total_records StatisticalTests.n_anomalies
       StatisticalTests.anomaly_rate StatisticalTests.threshold_std_used].
  split; [reflexivity|]. split; [|split; [|split; [reflexivity|split; [|split; reflexivity]]]].
  - repeat apply well_formed_setitem;
      try (cbn [setitem nrows select_rows series_len]; rewrite ?length_map;
           unfold StatisticalTests.z_scores; rewrite ?length_map; exact Hrows).
    apply well_formed_select_rows; assumption.
  - intros name col Hnot Hget.
    rewrite !getitem_setitem_other.
    + apply getitem_select_rows. exact Hget.
    + intros <-. apply Hnot. cbn. tauto.
    + intros <-. apply Hnot. cbn. tauto.
    + intros <-. apply Hnot. cbn. tauto.
    + intros <-. apply Hnot. cbn. tauto.
    + intros <-. apply Hnot. cbn. tauto.
  - cbn [setitem nrows select_rows].
    pose proof (count_true_le
                  (map (fun x => StatisticalTests.is_anomaly x threshold_std)
                     (StatisticalTests.z_scores (series_keys key_col) quality))) as Hc.
    rewrite length_map in Hc. unfold StatisticalTests.z_scores in Hc at 2.
    rewrite length_map, Hrows in Hc. exact Hc.
Qed.

(** ** Groups partition the records that have a key *)

Lemma Permutation_insert_scalar (x : scalar) (l : list scalar) :
  Permutation (insert_scalar x l) (x :: l).
Proof.
  induction l as [|y l IH]; cbn [insert_scalar]; [reflexivity|].
  destruct (scalar_leb x y); [reflexivity|].
  rewrite IH. apply perm_swap.
Qed.

Lemma Permutation_sort_scalars (l : list scalar) : Permutation (sort_scalars l) l.
Proof.
  unfold sort_scalars. induction l as [|x l IH]; cbn [fold_right]; [reflexivity|].
  rewrite Permutation_insert_scalar, IH. reflexivity.
Qed.

Lemma distinct_keys_filter (f : scalar -> bool) (l : list scalar) :
  distinct_keys l -> distinct_keys (List.filter f l).
Proof.
  unfold distinct_keys. induction 1 as [|a l Ha Hl IH]; cbn [List.filter]; [constructor|].
  destruct (f a); [|exact IH]. constructor; [|exact IH].
  apply List.Forall_forall. intros b Hb. apply filter_In in Hb.
  exact (proj1 (List.Forall_forall _ _) Ha b (proj1 Hb)).
Qed.

Lemma distinct_keys_unique (l : list scalar) : distinct_keys (unique_scalars l).
Proof.
  induction l as [|a l IH]; cbn [unique_scalars]; [constructor|].
  constructor.
  - apply List.Forall_forall. intros b Hb. apply filter_In in Hb.
    destruct Hb as [_ Hb]. apply negb_true_iff in Hb. exact Hb.
  - apply distinct_keys_filter. exact IH.
Qed.

Lemma filter_disjoint_or {A} (p q : A -> bool) (l : list A) :
  (forall a, In a l -> p a = true -> q a = false) ->
  Permutation (List.filter (fun a => p a || q a) l) (List.filter p l ++ List.filter q l).
Proof.
  induction l as [|a l IH]; intros H; [reflexivity|].
  specialize (IH (fun b Hb => H b (or_intror Hb))).
  pose proof (H a (or_introl eq_refl)) as Ha.
  cbn [List.filter]. destruct (p a) eqn:Hp; cbn [orb].
  - rewrite (Ha eq_refl). cbn [app]. apply perm_skip. exact IH.
  - destruct (q a).
    + rewrite IH. apply Permutation_middle.
    + exact IH.
Qed.

Lemma group_values_rows {A} (k : scalar) (keys : list (option scalar)) (values : list A) :
  group_values k keys values
  = map snd (List.filter (fun r : option scalar * A => has_key k (fst r))
               (combine keys values)).
Proof.
  unfold group_values, select. revert values.
  induction keys as [|key keys IH]; intros [|x values]; try reflexivity.
  cbn [map combine List.filter fst]. destruct (has_key k key); cbn [map snd];
    rewrite IH; reflexivity.
Qed.

Lemma groups_of_distinct_keys {A} (ks : list scalar) (rows : list (option scalar * A)) :
  distinct_keys ks ->
  Permutation
    (flat_map (fun k => map snd (List.filter (fun r => has_key k (fst r)) rows)) ks)
    (map snd (List.filter (fun r => key_among ks (fst r)) rows)).
Proof.
  unfold distinct_keys. induction 1 as [|k ks Hk Hks IH]; cbn [flat_map].
  - unfold key_among. cbn [existsb].
    induction rows as [|r rows IHr]; [reflexivity|exact IHr].
  - rewrite IH. rewrite <- map_app. apply Permutation_map.
    symmetry.
    assert (E : List.filter (fun r : option scalar * A => key_among (k :: ks) (fst r)) rows
                = List.filter (fun r => has_key k (fst r) || key_among ks (fst r)) rows)
      by reflexivity.
    rewrite E. apply filter_disjoint_or.
    intros [[x|] a] _ Hx; cbn [fst has_key] in *; [|discriminate].
    unfold key_among. destruct (existsb _ ks) eqn:Ex; [|reflexivity]. exfalso.
    apply existsb_exists in Ex. destruct Ex as (k' & Hin & Hk').
    cbn [has_key] in Hk'.
    pose proof (proj1 (List.Forall_forall _ _) Hk k' Hin) as Hne.
    rewrite scalar_eqb_sym in Hk'.
    pose proof (scalar_eqb_trans k x k' Hx Hk') as Ht. cbv beta in Hne. congruence.
Qed.

Lemma key_among_unique (keys : list (option scalar)) (key : option scalar) :
  In key keys -> key_among (unique_scalars (somes keys)) key = negb (is_none key).
Proof.
  intros Hin. destruct key as [x|]; cbn [is_none negb].
  - unfold key_among. apply existsb_exists.
    destruct (In_unique_scalars x (somes keys)) as (k' & Hk' & He).
    { apply In_somes. exact Hin. }
    exists k'. split; [exact Hk'|exact He].
  - unfold key_among. induction (unique_scalars (somes keys)) as [|k ks IH];
      [reflexivity|exact IH].
Qed.

Lemma filter_ext_on {A} (f g : A -> bool) (l : list A) :
  (forall a, In a l -> f a = g a) -> List.filter f l = List.filter g l.
Proof.
  induction l as [|a l IH]; intros H; [reflexivity|]. cbn [List.filter].
  rewrite (H a (or_introl eq_refl)), IH; [reflexivity|].
  intros b Hb. apply H. right. exact Hb.
Qed.

(** The groups of [groupby], one after the other, hold each record that
    has a key once, and no other. *)
Lemma groups_partition {A} (keys : list (option scalar)) (values : list A) :
  Permutation
    (flat_map (fun k => group_values k keys values) (group_keys keys))
    (map snd (List.filter (fun r : option scalar * A => negb (is_none (fst r)))
                (combine keys values))).
Proof.
  unfold group_keys.
  rewrite (Permutation_flat_map (fun k => group_values k keys values)
             (Permutation_sort_scalars (unique_scalars (somes keys)))).
  rewrite (flat_map_ext _ _ (fun k => group_values_rows k keys values)).
  rewrite (groups_of_distinct_keys _ (combine keys values)
             (distinct_keys_unique (somes keys))).
  rewrite (filter_ext_on
             (fun r : option scalar * A => key_among (unique_scalars (somes keys)) (fst r))
             (fun r => negb (is_none (fst r)))); [reflexivity|].
  intros [key a] Hin. cbn [fst]. apply key_among_unique.
  exact (in_combine_l _ _ _ _ Hin).
Qed.

(** ** The distribution over the age groups *)

Lemma total_length_flat_map {A B} (f : A -> list B) (l : list A) :
  total (map (fun a => length (f a)) l) = length (flat_map f l).
Proof.
  unfold total. induction l as [|a l IH]; [reflexivity|].
  cbn [map fold_right flat_map]. rewrite length_app, IH. reflexivity.
Qed.

Lemma count_true_filter {A} (f : A -> bool) (l : list A) :
  count_true (map f l) = length (List.filter f l).
Proof.
  induction l as [|a l IH]; [reflexivity|]. cbn [map List.filter].
  rewrite count_true_cons, IH. destruct (f a); reflexivity.
Qed.

Lemma filter_combine_fst {A B} (f : A -> bool) (l : list A) (l' : list B) :
  length l = length l' ->
  length (List.filter (fun r : A * B => f (fst r)) (combine l l'))
  = length (List.filter f l).
Proof.
  revert l'. induction l as [|a l IH]; intros [|b l'] H; try discriminate; [reflexivity|].
  injection H as H. cbn [combine List.filter fst]. destruct (f a); cbn [length];
    rewrite (IH l' H); reflexivity.
Qed.

(** The counts of the groups add up to the number of records that have
    a group. *)
Lemma group_counts_total (keys : list (option scalar)) :
  total (map (fun k => count_true (map (has_key k) keys)) (group_keys keys))
  = count_true (map (fun k => negb (is_none k)) keys).
Proof.
  rewrite (map_ext _ (fun k => length (group_values k keys keys))).
  - rewrite total_length_flat_map.
    rewrite (Permutation_length (groups_partition keys keys)).
    rewrite length_map, count_true_filter.
    apply (filter_combine_fst (fun k => negb (is_none k)) keys keys). reflexivity.
  - intros k. unfold group_values. rewrite length_select; [reflexivity|].
    apply length_map.
Qed.

Lemma distinct_keys_Str (cats : list string) :
  List.NoDup cats -> distinct_keys (map Str cats).
Proof.
  unfold distinct_keys. induction 1 as [|c cats Hc Hnd IH]; cbn [map]; constructor.
  - apply List.Forall_forall. intros b Hb. apply in_map_iff in Hb.
    destruct Hb as (c' & <- & Hc'). cbn [scalar_eqb].
    apply String.eqb_neq. intros ->. contradiction.
  - exact IH.
Qed.

Lemma category_counts_total (cats : list string) (v : list (option string)) :
  List.NoDup cats ->
  (forall x, In (Some x) v -> In x cats) ->
  total (map (fun k => count_true (map (has_key k) (map (option_map Str) v)))
           (map Str cats))
  = count_true (map (fun k => negb (is_none k)) (map (option_map Str) v)).
Proof.
  intros Hnd Hsub. set (keys := map (option_map Str) v).
  rewrite (map_ext _ (fun k => length (group_values k keys keys))).
  - rewrite total_length_flat_map.
    rewrite (flat_map_ext _ _ (fun k => group_values_rows k keys keys)).
    rewrite (Permutation_length
               (groups_of_distinct_keys _ (combine keys keys) (distinct_keys_Str cats Hnd))).
    rewrite length_map, count_true_filter.
    rewrite (filter_combine_fst (key_among (map Str cats)) keys keys eq_refl).
    f_equal. apply filter_ext_on. intros key Hin. unfold keys in Hin.
    apply in_map_iff in Hin. destruct Hin as ([x|] & <- & Hx); cbn [option_map is_none negb].
    + unfold key_among. apply existsb_exists. exists (Str x).
      split; [apply in_map; apply Hsub; exact Hx|]. cbn [has_key scalar_eqb].
      apply String.eqb_refl.
    + unfold key_among. induction (map Str cats) as [|k ks IH]; [reflexivity|exact IH].
  - intros k. unfold group_values. rewrite length_select; [reflexivity|].
    apply length_map.
Qed.

Lemma value_counts_total (s : Series) :
  categories_ok s ->
  total (map snd (value_counts s))
  = count_true (map (fun k => negb (is_none k)) (series_keys s)).
Proof.
  intros Hok. unfold value_counts. cbv zeta. rewrite map_map. cbn [snd].
  destruct s as [v|v|cats v|v|v]; try apply group_counts_total.
  destruct Hok as [Hnd Hsub]. cbn [series_keys].
  apply category_counts_total; assumption.
Qed.

Lemma group_keys_nonempty (keys : list (option scalar)) (k : scalar) :
  In (Some k) keys -> group_keys keys <> [].
Proof.
  intros Hin E.
  destruct (In_unique_scalars k (somes keys) (proj2 (In_somes _ _) Hin)) as (k' & Hk' & _).
  apply (proj2 (In_sort_scalars _ _)) in Hk'. fold (group_keys keys) in Hk'.
  rewrite E in Hk'. exact Hk'.
Qed.

Lemma value_counts_nonempty (s : Series) (k : scalar) :
  categories_ok s -> In (Some k) (series_keys s) -> value_counts s <> [].
Proof.
  intros Hok Hin. unfold value_counts. cbv zeta. intros E. apply map_eq_nil in E.
  destruct s as [v|v|cats v|v|v];
    try exact (group_keys_nonempty _ k Hin E).
  destruct Hok as [_ Hsub]. cbn [series_keys] in Hin. apply in_map_iff in Hin.
  destruct Hin as ([x|] & Hx & Hin); [|discriminate].
  specialize (Hsub x Hin). apply map_eq_nil in E.
  rewrite E in Hsub. exact Hsub.
Qed.

Lemma le_total (counts : list nat) (n : nat) : In n counts -> (n <= total counts)%nat.
Proof.
  unfold total. induction counts as [|c counts IH]; [intros []|].
  cbn [fold_right]. intros [->|Hin]; [lia|]. specialize (IH Hin). lia.
Qed.

(** X16.  [analyze_age_distribution] on a table that has the column
    and a record with an age group returns the summary table: a row for
    each group, whose counts add up to the number of records that have an
    age group (at most the number of records), and with a percentage for
    each count, a number from 0 to 100.  A column that is not
    categorical and has no entry makes it raise [ValueError]. *)
Theorem age_distribution_counts (df : DataFrame) (age_group_column : string)
    (key_col : Series) :
  well_formed df ->
  getitem df age_group_column = Ok key_col ->
  categories_ok key_col ->
  ((exists k, In (Some k) (series_keys key_col)) ->
   exists (summary : DataFrame) (counts : list nat) (percentages : list float),
     Analyzer.analyze_age_distribution df age_group_column = Ok summary /\
     nrows summary = length counts /\
     counts = map snd (value_counts key_col) /\
     getitem summary "Count"
     = Ok (Float64 (map (fun n => Some (inject_Z (Z.of_nat n))) counts)) /\
     getitem summary "Percentage" = Ok (Float64 percentages) /\
     length percentages = length counts /\
     (forall p, In p percentages -> exists q, p = Some q /\ 0 <= q /\ q <= 100) /\
     total counts = count_true (map (fun k => negb (is_none k)) (series_keys key_col)) /\
     (total counts <= nrows df)%nat) /\
  ((forall cats v, key_col <> Category cats v) ->
   (forall k, ~ In (Some k) (series_keys key_col)) ->
   Analyzer.analyze_age_distribution df age_group_column
   = Raise (ValueError "attempt to get argmax of an empty sequence")).
Proof.
  intros Hwf Hk Hok. unfold Analyzer.analyze_age_distribution. rewrite Hk. cbn [rbind].
  cbv zeta. split.
  - intros (k & Hin).
    pose proof (value_counts_nonempty key_col k Hok Hin) as Hne.
    assert (Htot : (total (map snd (value_counts key_col)) <= nrows df)%nat).
    { rewrite (value_counts_total key_col Hok).
      pose proof (count_true_le (map (fun k0 => negb (is_none k0)) (series_keys key_col)))
        as H.
      rewrite length_map, length_series_keys, (well_formed_getitem _ _ _ Hwf Hk) in H.
      exact H. }
    destruct (value_counts key_col) as [|kc rest] eqn:Hvc; [congruence|].
    eexists. exists (map snd (kc :: rest)).
    exists (map (fun n => fround2 (percent_of n (nrows df))) (map snd (kc :: rest))).
    split; [reflexivity|]. split; [rewrite length_map; reflexivity|].
    split; [reflexivity|].
    split; [unfold getitem; cbn [columns assoc String.eqb Ascii.eqb Bool.eqb];
            rewrite map_map; reflexivity|].
    split; [unfold getitem; cbn [columns assoc String.eqb Ascii.eqb Bool.eqb];
            rewrite !map_map; reflexivity|].
    split; [apply length_map|].
    split.
    { intros p Hp. apply in_map_iff in Hp. destruct Hp as (n & <- & Hn).
      pose proof (le_total _ n Hn) as Hle.
      assert (Hnl : (n <= nrows df)%nat) by lia.
      destruct (fround2 (percent_of n (nrows df))) as [q|] eqn:Hq.
      - exists q. split; [reflexivity|]. exact (percent_bounds _ _ _ Hnl Hq).
      - exfalso. unfold percent_of in Hq. destruct (nrows df) as [|len] eqn:Hlen.
        + assert (Hz : count_true (map (fun k0 => negb (is_none k0)) (series_keys key_col))
                       = 0%nat).
          { pose proof (count_true_le
                          (map (fun k0 => negb (is_none k0)) (series_keys key_col))) as H.
            rewrite length_map, length_series_keys, (well_formed_getitem _ _ _ Hwf Hk) in H.
            lia. }
          apply In_nth_error in Hin. destruct Hin as (j & Hj).
          clear - Hz Hj. revert j Hj.
          induction (series_keys key_col) as [|a l IH]; intros [|j] Hj; try discriminate.
          * injection Hj as ->. cbn [map is_none negb] in Hz.
            rewrite count_true_cons in Hz. cbn in Hz. lia.
          * cbn [map] in Hz. rewrite count_true_cons in Hz.
            apply (IH ltac:(lia) j Hj).
        + discriminate Hq. }
    rewrite <- Hvc. rewrite (value_counts_total key_col Hok).
    split; [reflexivity|].
    rewrite <- (value_counts_total key_col Hok). rewrite Hvc. exact Htot.
  - intros Hnc Hnone.
    assert (E : value_counts key_col = []).
    { unfold value_counts. cbv zeta.
      assert (Hkeys : group_keys (series_keys key_col) = []).
      { unfold group_keys.
        destruct (somes (series_keys key_col)) as [|k rest] eqn:Hs; [reflexivity|].
        exfalso. apply (Hnone k). apply In_somes. rewrite Hs. left. reflexivity. }
      destruct key_col as [v|v|cats v|v|v]; try (rewrite Hkeys; reflexivity).
      exfalso. exact (Hnc cats v eq_refl). }
    rewrite E. reflexivity.
Qed.

(** ** The summary of a cleaning *)

(** X18.  [get_cleaning_summary] raises [ZeroDivisionError] exactly
    when the original table has no record.  Otherwise the records of the
    cleaned table and the records removed add up to the original ones,
    and the percentage removed is at most 100: it is 100 exactly when
    the cleaned table is empty, and negative exactly when the cleaned
    table has more records than the original. *)
Theorem get_cleaning_summary_outcome (df_original df_cleaned : DataFrame) :
  (nrows df_original = 0%nat ->
   DataCleaner.get_cleaning_summary df_original df_cleaned
   = RaisesZeroDivisionError "division by zero") /\
  (nrows df_original <> 0%nat ->
   exists s : DataCleaner.cleaning_summary,
     DataCleaner.get_cleaning_summary df_original df_cleaned = Returns s /\
     DataCleaner.original_records s = nrows df_original /\
     DataCleaner.cleaned_records s = nrows df_cleaned /\
     (Z.of_nat (DataCleaner.cleaned_records s) + DataCleaner.records_removed s
      = Z.of_nat (DataCleaner.original_records s))%Z /\
     DataCleaner.removal_percentage s <= 100 /\
     (DataCleaner.removal_percentage s == 100 <-> nrows df_cleaned = 0%nat) /\
     (DataCleaner.removal_percentage s < 0 <-> (nrows df_original < nrows df_cleaned)%nat)).
Proof.
  unfold DataCleaner.get_cleaning_summary. cbv zeta. split.
  - intros ->. reflexivity.
  - intros Hne. rewrite (proj2 (Nat.eqb_neq _ _) Hne). eexists. split; [reflexivity|].
    cbn [DataCleaner.original_records DataCleaner.cleaned_records
         DataCleaner.records_removed DataCleaner.removal_percentage].
    split; [reflexivity|]. split; [reflexivity|]. split; [lia|].
    set (n := nrows df_original) in *. set (c := nrows df_cleaned).
    assert (Hn : 0 < inject_Z (Z.of_nat n)).
    { change 0 with (inject_Z 0). rewrite <- Zlt_Qlt. lia. }
    assert (Hc : 0 <= inject_Z (Z.of_nat c)).
    { change 0 with (inject_Z 0). rewrite <- Zle_Qle. lia. }
    unfold Z.sub. rewrite inject_Z_plus, inject_Z_opp.
    set (qn := inject_Z (Z.of_nat n)) in *. set (qc := inject_Z (Z.of_nat c)) in *.
    assert (E : (qn + - qc) / qn * 100 == 100 - 100 * qc / qn) by (field; lra).
    rewrite E.
    assert (Hq : 0 <= 100 * qc / qn).
    { apply Qle_shift_div_l; [exact Hn|]. lra. }
    split; [lra|]. split; [split|split].
    + intros H100. assert (Hz : 100 * qc / qn == 0) by lra.
      assert (Hqc : qc == 0).
      { assert (E2 : 100 * qc == 100 * qc / qn * qn) by (field; lra).
        rewrite Hz in E2. lra. }
      unfold qc in Hqc. change 0 with (inject_Z 0) in Hqc.
      apply (proj1 (inject_Z_injective _ _)) in Hqc. lia.
    + intros Hc0. unfold qc. rewrite Hc0. change (inject_Z (Z.of_nat 0)) with 0.
      field. lra.
    + intros Hneg. assert (Hgt : 100 < 100 * qc / qn) by lra.
      assert (H1 : 100 * qn < 100 * qc).
      { destruct (Qlt_le_dec (100 * qn) (100 * qc)) as [Hl|Hl]; [exact Hl|]. exfalso.
        assert (100 * qc / qn <= 100) by (apply Qle_shift_div_r; lra). lra. }
      assert (H2 : qn < qc) by lra. unfold qn, qc in H2.
      rewrite <- Zlt_Qlt in H2. lia.
    + intros Hlt. assert (H2 : qn < qc).
      { unfold qn, qc. rewrite <- Zlt_Qlt. lia. }
      assert (Hgt : 100 < 100 * qc / qn).
      { apply Qlt_shift_div_l; [exact Hn|lra]. }
      lra.
Qed.

Lemma length_drop_columns (names : list string) (df : DataFrame) :
  (length (columns (drop_columns names df)) <= length (columns df))%nat.
Proof. unfold drop_columns. cbn [columns]. apply filter_length_le. Qed.

Lemma length_columns_dropna (df : DataFrame) :
  length (columns (dropna df)) = length (columns df).
Proof. unfold dropna, select_rows. cbn [columns]. apply length_map. Qed.

(** X19.  The summary of a cleaning by [handle_missing_values] of a
    table that has records.  After ['drop_rows'] no column is counted as
    removed, the records removed are the ones with a missing entry, and
    the percentage lies between 0 and 100.  After ['drop_cols'] no record
    is counted as removed, the percentage is 0, and the columns removed
    are not negative. *)
Theorem cleaning_summary_after_missing_values (h : gmap ref DataFrame) (df : ref)
    (tbl : DataFrame) (threshold : Q) :
  h !! df = Some tbl ->
  nrows tbl <> 0%nat ->
  (let out := DataCleaner.handle_missing_values df "drop_rows" threshold h in
   exists (r : ref) (tbl' : DataFrame) (s : DataCleaner.cleaning_summary),
     fst out = Ok r /\ snd out !! r = Some tbl' /\
     DataCleaner.get_cleaning_summary tbl tbl' = Returns s /\
     DataCleaner.records_removed s
     = (Z.of_nat (nrows tbl)
        - Z.of_nat (count_true (map (row_complete tbl) (seq 0 (nrows tbl)))))%Z /\
     (0 <= DataCleaner.records_removed s)%Z /\
     0 <= DataCleaner.removal_percentage s /\
     DataCleaner.removal_percentage s <= 100 /\
     DataCleaner.columns_removed s = 0%Z) /\
  (let out := DataCleaner.handle_missing_values df "drop_cols" threshold h in
   exists (r : ref) (tbl' : DataFrame) (s : DataCleaner.cleaning_summary),
     fst out = Ok r /\ snd out !! r = Some tbl' /\
     DataCleaner.get_cleaning_summary tbl tbl' = Returns s /\
     DataCleaner.records_removed s = 0%Z /\
     DataCleaner.removal_percentage s == 0 /\
     (0 <= DataCleaner.columns_removed s)%Z).
Proof.
  intros Hdf Hne.
  assert (Hcount : (count_true (map (row_complete tbl) (seq 0 (nrows tbl)))
                    <= nrows tbl)%nat).
  { pose proof (count_true_le (map (row_complete tbl) (seq 0 (nrows tbl)))) as H.
    rewrite length_map, length_seq in H. exact H. }
  assert (Hn : 0 < inject_Z (Z.of_nat (nrows tbl))).
  { change 0 with (inject_Z 0). rewrite <- Zlt_Qlt. lia. }
  assert (Hrows : forall tbl',
            nrows tbl' = count_true (map (row_complete tbl) (seq 0 (nrows tbl))) ->
            length (columns tbl') = length (columns tbl) ->
            exists s, DataCleaner.get_cleaning_summary tbl tbl' = Returns s /\
              DataCleaner.records_removed s
              = (Z.of_nat (nrows tbl)
                 - Z.of_nat (count_true (map (row_complete tbl) (seq 0 (nrows tbl)))))%Z /\
              (0 <= DataCleaner.records_removed s)%Z /\
              0 <= DataCleaner.removal_percentage s /\
              DataCleaner.removal_percentage s <= 100 /\
              DataCleaner.columns_removed s = 0%Z).
  { intros tbl' Hr Hc. unfold DataCleaner.get_cleaning_summary. cbv zeta.
    rewrite (proj2 (Nat.eqb_neq _ _) Hne). eexists. split; [reflexivity|].
    cbn [DataCleaner.records_removed DataCleaner.removal_percentage
         DataCleaner.columns_removed].
    rewrite Hr, Hc.
    set (k := count_true (map (row_complete tbl) (seq 0 (nrows tbl)))) in *.
    split; [reflexivity|]. split; [lia|].
    assert (Hk : 0 <= inject_Z (Z.of_nat (nrows tbl) - Z.of_nat k)).
    { change 0 with (inject_Z 0). rewrite <- Zle_Qle. lia. }
    assert (Hk2 : inject_Z (Z.of_nat (nrows tbl) - Z.of_nat k)
                  <= inject_Z (Z.of_nat (nrows tbl))).
    { rewrite <- Zle_Qle. lia. }
    set (a := inject_Z (Z.of_nat (nrows tbl) - Z.of_nat k)) in *.
    set (n := inject_Z (Z.of_nat (nrows tbl))) in *.
    assert (H0 : 0 <= a / n) by (apply Qle_shift_div_l; lra).
    assert (H1 : a / n <= 1) by (apply Qle_shift_div_r; lra).
    split; [lra|]. split; [lra|lia]. }
  split.
  - cbv zeta. destruct (DataCleaner.missing_stats tbl) as [|row rest] eqn:Hst.
    + rewrite (handle_missing_values_copy h df tbl "drop_rows" threshold Hdf)
        by (left; exact Hst).
      apply missing_stats_nil in Hst.
      destruct (Hrows tbl (eq_sym (complete_rows_all tbl Hst)) eq_refl) as (s & Hs).
      exists (fresh (dom h)), tbl, s. cbn [fst snd]. rewrite lookup_insert_eq.
      split; [reflexivity|]. split; [reflexivity|exact Hs].
    + rewrite (handle_missing_values_drop_rows h df tbl threshold Hdf)
        by (rewrite Hst; discriminate).
      destruct (Hrows (dropna tbl) eq_refl (length_columns_dropna tbl)) as (s & Hs).
      exists (fresh (dom (<[fresh (dom h) := tbl]> h))), (dropna tbl), s.
      cbn [fst snd]. rewrite lookup_insert_eq.
      split; [reflexivity|]. split; [reflexivity|exact Hs].
  - cbv zeta.
    assert (Hcols : forall tbl',
              nrows tbl' = nrows tbl ->
              (length (columns tbl') <= length (columns tbl))%nat ->
              exists s, DataCleaner.get_cleaning_summary tbl tbl' = Returns s /\
                DataCleaner.records_removed s = 0%Z /\
                DataCleaner.removal_percentage s == 0 /\
                (0 <= DataCleaner.columns_removed s)%Z).
    { intros tbl' Hr Hc. unfold DataCleaner.get_cleaning_summary. cbv zeta.
      rewrite (proj2 (Nat.eqb_neq _ _) Hne). eexists. split; [reflexivity|].
      cbn [DataCleaner.records_removed DataCleaner.removal_percentage
           DataCleaner.columns_removed].
      rewrite Hr, Z.sub_diag. split; [reflexivity|]. split; [|lia].
      change (inject_Z 0) with 0. field. lra. }
    rewrite (handle_missing_values_drop_cols h df tbl threshold Hdf). cbv zeta.
    destruct (map DataCleaner.Column _) as [|name names].
    + destruct (Hcols tbl eq_refl (Nat.le_refl _)) as (s & Hs).
      exists (fresh (dom h)), tbl, s. cbn [fst snd]. rewrite lookup_insert_eq.
      split; [reflexivity|]. split; [reflexivity|exact Hs].
    + destruct (Hcols (drop_columns (name :: names) tbl) eq_refl
                  (length_drop_columns _ tbl)) as (s & Hs).
      exists (fresh (dom (<[fresh (dom h) := tbl]> h))),
             (drop_columns (name :: names) tbl), s.
      cbn [fst snd]. rewrite lookup_insert_eq.
      split; [reflexivity|]. split; [reflexivity|exact Hs].
Qed.

(** ** Saving and loading again *)

Lemma split_nonempty (sep : ascii) (s : string) : DataLoader.split sep s <> [].
Proof.
  destruct s as [|c s]; cbn [DataLoader.split]; [discriminate|].
  destruct (Ascii.eqb c sep); [discriminate|].
  destruct (DataLoader.split sep s); discriminate.
Qed.

Lemma split_csv (s : string) :
  DataLoader.split "/" (s +:+ ".csv")
  = (removelast (DataLoader.split "/" s)
     ++ [List.last (DataLoader.split "/" s) "" +:+ ".csv"])%list.
Proof.
  induction s as [|c s IH]; [reflexivity|].
  change (String c s +:+ ".csv") with (String c (s +:+ ".csv")).
  cbn [DataLoader.split]. rewrite IH.
  pose proof (split_nonempty "/" s) as Hne.
  destruct (DataLoader.split "/" s) as [|w ws]; [congruence|].
  destruct (Ascii.eqb c "/").
  - reflexivity.
  - destruct ws as [|w' ws']; reflexivity.
Qed.

Lemma split_app_sep (a b : string) :
  DataLoader.split "/" (a +:+ String "/" b)
  = (DataLoader.split "/" a ++ DataLoader.split "/" b)%list.
Proof.
  induction a as [|c a IH].
  - reflexivity.
  - change (String c a +:+ String "/" b) with (String c (a +:+ String "/" b)).
    cbn [DataLoader.split]. rewrite IH.
    pose proof (split_nonempty "/" a) as Hne.
    destruct (DataLoader.split "/" a) as [|w ws]; [congruence|].
    destruct (Ascii.eqb c "/"); reflexivity.
Qed.

Lemma last_filter {A} (f : A -> bool) (l : list A) (d : A) :
  l <> [] -> f (List.last l d) = true ->
  List.last (List.filter f l) d = List.last l d.
Proof.
  induction l as [|a l IH]; [congruence|]. intros _ Hf.
  destruct l as [|b l].
  - cbn in Hf. cbn [List.filter]. rewrite Hf. reflexivity.
  - change (List.last (a :: b :: l) d) with (List.last (b :: l) d) in *.
    specialize (IH ltac:(discriminate) Hf).
    change (List.filter f (a :: b :: l))
      with (if f a then a :: List.filter f (b :: l) else List.filter f (b :: l)).
    destruct (f a); [|exact IH].
    destruct (List.filter f (b :: l)) as [|x xs] eqn:E.
    + exfalso. assert (Hin : In (List.last (b :: l) d) (List.filter f (b :: l))).
      { apply filter_In. split; [|exact Hf].
        apply (@exists_last _ (b :: l)) in IH || idtac.
        destruct (@exists_last _ (b :: l) ltac:(discriminate)) as (l' & x & Hx).
        rewrite Hx, last_last. apply in_or_app. right. left. reflexivity. }
      rewrite E in Hin. exact Hin.
    + exact IH.
Qed.

Lemma length_append (a b : string) :
  String.length (a +:+ b) = (String.length a + String.length b)%nat.
Proof.
  induction a as [|c a IH]; [reflexivity|].
  change (String c a +:+ b) with (String c (a +:+ b)).
  cbn [String.length]. rewrite IH. reflexivity.
Qed.

Lemma rfind_dot_csv (pre : string) (i : nat) :
  DataLoader.rfind_dot (pre +:+ ".csv") i = Some (i + String.length pre)%nat.
Proof.
  revert i. induction pre as [|c pre IH]; intros i.
  - cbn. rewrite Nat.add_0_r. reflexivity.
  - change (String c pre +:+ ".csv") with (String c (pre +:+ ".csv")).
    cbn [DataLoader.rfind_dot String.length]. rewrite IH.
    f_equal. lia.
Qed.

Lemma substring_full (t : string) : substring 0 (String.length t) t = t.
Proof.
  induction t as [|d t IH]; [reflexivity|].
  cbn [String.length substring]. rewrite IH. reflexivity.
Qed.

Lemma substring_append (pre t : string) :
  substring (String.length pre) (String.length t) (pre +:+ t) = t.
Proof.
  induction pre as [|c pre IH].
  - change ("" +:+ t) with t. apply substring_full.
  - change (String c pre +:+ t) with (String c (pre +:+ t)).
    cbn [String.length substring]. exact IH.
Qed.

Lemma substring_split (s : string) (m : nat) :
  (m <= String.length s)%nat ->
  s = substring 0 m s +:+ substring m (String.length s - m) s.
Proof.
  revert m. induction s as [|c s IH]; intros m Hm.
  - cbn in Hm. assert (m = 0%nat) as -> by lia. reflexivity.
  - destruct m as [|m].
    + rewrite Nat.sub_0_r, substring_full. reflexivity.
    + cbn [substring String.length Nat.sub].
      change (String c (substring 0 m s) +:+ substring m (String.length s - m) s)
        with (String c (substring 0 m s +:+ substring m (String.length s - m) s)).
      f_equal. apply IH. cbn in Hm. lia.
Qed.

Lemma endswith_spec (s t : string) :
  DataLoader.endswith s t = true -> exists pre, s = pre +:+ t.
Proof.
  unfold DataLoader.endswith. cbv zeta. intros H. apply andb_true_iff in H.
  destruct H as [Hle Heq]. apply Nat.leb_le in Hle. apply String.eqb_eq in Heq.
  exists (substring 0 (String.length s - String.length t) s).
  pose proof (substring_split s (String.length s - String.length t) ltac:(lia)) as E.
  replace (String.length s - (String.length s - String.length t))%nat
    with (String.length t) in E by lia.
  rewrite Heq in E. exact E.
Qed.

Lemma endswith_intro (pre t : string) : DataLoader.endswith (pre +:+ t) t = true.
Proof.
  unfold DataLoader.endswith. cbv zeta. rewrite length_append.
  apply andb_true_iff. split; [apply Nat.leb_le; lia|].
  replace (String.length pre + String.length t - String.length t)%nat
    with (String.length pre) by lia.
  rewrite substring_append. apply String.eqb_refl.
Qed.

Lemma append_assoc' (a b c : string) : (a +:+ b) +:+ c = a +:+ (b +:+ c).
Proof.
  induction a as [|x a IH]; [reflexivity|].
  change ((String x a +:+ b) +:+ c) with (String x ((a +:+ b) +:+ c)).
  rewrite IH. reflexivity.
Qed.

Lemma base_name_suffix (s : string) : exists x, s = x +:+ base_name s.
Proof.
  unfold base_name. induction s as [|c s IH].
  - exists "". reflexivity.
  - destruct IH as (x & Hx). cbn [DataLoader.split].
    pose proof (split_nonempty "/" s) as Hne.
    destruct (DataLoader.split "/" s) as [|w ws] eqn:E; [congruence|].
    destruct (Ascii.eqb c "/").
    + exists (String c x). change (List.last ("" :: w :: ws) "") with (List.last (w :: ws) "").
      change (String c x +:+ List.last (w :: ws) "")
        with (String c (x +:+ List.last (w :: ws) "")).
      rewrite <- Hx. reflexivity.
    + destruct ws as [|w' ws'].
      * cbn [List.last] in *. exists "". cbn in Hx.
        assert (Hw : s = w).
        { destruct x as [|y x]; [exact Hx|]. exfalso.
          assert (Hl : String.length s = String.length (String y x +:+ w))
            by (rewrite <- Hx; reflexivity).
          rewrite length_append in Hl. cbn [String.length] in Hl.
          assert (Hs : String.length s = String.length w).
          { clear - E. revert w E. induction s as [|d s IHs]; intros w E.
            - cbn in E. injection E as <-. reflexivity.
            - cbn [DataLoader.split] in E. destruct (Ascii.eqb d "/").
              { injection E as _ E'. exfalso. exact (split_nonempty "/" s E'). }
              destruct (DataLoader.split "/" s) as [|v vs] eqn:Es.
              + injection E as <-. exfalso. exact (split_nonempty "/" s Es).
              + destruct vs; [|discriminate]. injection E as <-.
                cbn [String.length]. f_equal. apply IHs. reflexivity. }
          lia. }
        rewrite Hw. reflexivity.
      * exists (String c x).
        change (List.last (String c w :: w' :: ws') "") with (List.last (w :: w' :: ws') "").
        change (String c x +:+ List.last (w :: w' :: ws') "")
          with (String c (x +:+ List.last (w :: w' :: ws') "")).
        rewrite <- Hx. reflexivity.
Qed.

Lemma base_name_csv (s : string) : base_name (s +:+ ".csv") = base_name s +:+ ".csv".
Proof. unfold base_name. rewrite split_csv. apply last_last. Qed.

Lemma saved_name_base (file_name : string) :
  exists stem,
    base_name (saved_name file_name) = stem +:+ ".csv" /\
    (stem = "" <-> base_name file_name = "" \/ base_name file_name = ".csv").
Proof.
  unfold saved_name. destruct (DataLoader.endswith file_name ".csv") eqn:He; cbn [negb].
  - destruct (endswith_spec _ _ He) as (pre & ->). rewrite base_name_csv.
    exists (base_name pre). split; [reflexivity|]. split.
    + intros ->. right. reflexivity.
    + intros [H|H].
      * exfalso. assert (Hl : String.length (base_name pre +:+ ".csv") = 0%nat)
          by (rewrite H; reflexivity).
        rewrite length_append in Hl. cbn in Hl. lia.
      * destruct (base_name pre) as [|c b]; [reflexivity|]. exfalso.
        assert (Hl : String.length (String c b +:+ ".csv") = 4%nat)
          by (rewrite H; reflexivity).
        rewrite length_append in Hl. cbn in Hl. lia.
  - rewrite base_name_csv. exists (base_name file_name). split; [reflexivity|]. split.
    + intros H. left. exact H.
    + intros [H|H]; [exact H|]. exfalso.
      destruct (base_name_suffix file_name) as (x & Hx). rewrite H in Hx.
      rewrite Hx, endswith_intro in He. discriminate.
Qed.

Lemma csv_name_kept (stem : string) :
  negb (String.eqb (stem +:+ ".csv") "" || String.eqb (stem +:+ ".csv") ".") = true.
Proof.
  assert (Hl : String.length (stem +:+ ".csv") = (String.length stem + 4)%nat)
    by apply length_append.
  destruct (String.eqb_spec (stem +:+ ".csv") "") as [E|_].
  { rewrite E in Hl. cbn in Hl. lia. }
  destruct (String.eqb_spec (stem +:+ ".csv") ".") as [E|_].
  { rewrite E in Hl. cbn in Hl. lia. }
  reflexivity.
Qed.

Lemma name_output_path (file_name output_dir : string) :
  DataLoader.name (DataLoader.output_path file_name output_dir)
  = base_name (saved_name file_name).
Proof.
  unfold DataLoader.output_path. cbv zeta. fold (saved_name file_name).
  destruct (saved_name_base file_name) as (stem & Hb & _).
  set (fn := saved_name file_name) in *.
  assert (Hlast : List.last (DataLoader.parts (DataLoader.parse_path fn)) "" = base_name fn).
  { unfold DataLoader.parse_path. cbn [DataLoader.parts]. unfold base_name in *.
    apply last_filter; [apply split_nonempty|]. rewrite Hb.
    apply csv_name_kept. }
  assert (Hne : DataLoader.parts (DataLoader.parse_path fn) <> []).
  { intros E. rewrite E in Hlast. cbn in Hlast. rewrite <- Hlast in Hb.
    destruct stem; discriminate. }
  unfold DataLoader.joinpath, DataLoader.name. cbv zeta.
  destruct (DataLoader.absolute (DataLoader.parse_path fn)); [exact Hlast|].
  cbn [DataLoader.parts].
  destruct (@exists_last _ (DataLoader.parts (DataLoader.parse_path fn)) Hne)
    as (l' & x & Hx).
  rewrite Hx in *. rewrite app_assoc, !last_last in *. exact Hlast.
Qed.

Lemma suffix_of_csv_name (p : DataLoader.Path) (stem : string) :
  DataLoader.name p = stem +:+ ".csv" ->
  DataLoader.suffix p = if String.eqb stem "" then "" else ".csv".
Proof.
  intros Hn. unfold DataLoader.suffix. cbv zeta. rewrite Hn.
  rewrite rfind_dot_csv. rewrite Nat.add_0_l, length_append.
  change (String.length ".csv") with 4%nat.
  destruct stem as [|c stem]; [reflexivity|].
  change (String c stem =? "") with false.
  set (n := String.length (String c stem)).
  assert (Hn0 : (0 < n)%nat) by (unfold n; cbn; lia).
  rewrite (proj2 (Nat.ltb_lt 0 n) Hn0).
  rewrite (proj2 (Nat.ltb_lt n (n + 4 - 1)) ltac:(lia)). cbn [andb].
  replace (n + 4 - n)%nat with (String.length ".csv") by (cbn; lia).
  apply (substring_append (String c stem) ".csv").
Qed.

Lemma parse_saved_as (file_name output_dir : string) :
  output_dir <> "" ->
  match file_name with String "/" _ => False | _ => True end ->
  DataLoader.parse_path (saved_as file_name output_dir)
  = DataLoader.output_path file_name output_dir.
Proof.
  intros Hdir Hrel.
  unfold DataLoader.output_path, saved_as. cbv zeta. fold (saved_name file_name).
  assert (Hfn : match saved_name file_name with String "/" _ => False | _ => True end).
  { unfold saved_name. destruct (negb (DataLoader.endswith file_name ".csv"));
      [|exact Hrel].
    destruct file_name as [|c f]; [exact I|exact Hrel]. }
  set (fn := saved_name file_name) in *.
  unfold DataLoader.joinpath. cbv zeta.
  assert (Habs : DataLoader.absolute (DataLoader.parse_path fn) = false).
  { unfold DataLoader.parse_path. cbn [DataLoader.absolute].
    destruct fn as [|c f]; [reflexivity|].
    destruct (Ascii.ascii_dec c "/") as [->|Hc]; [contradiction|].
    destruct c as [[] [] [] [] [] [] [] []]; try reflexivity. contradiction. }
  rewrite Habs. unfold DataLoader.parse_path.
  cbn [DataLoader.absolute DataLoader.parts].
  rewrite split_app_sep, List.filter_app. f_equal.
  destruct output_dir as [|c d]; [congruence|]. reflexivity.
Qed.

(** X20.  The file [save_processed_data] writes (with [to_csv], once
    the directory is made) is named after
    [file_name], with [.csv] added unless it ends so already.  Unless
    the name after the last [/] is empty or just ['.csv'], the written
    path has the extension [.csv], and both loaders, given the directory
    and the name as one path, read that very path with the CSV reader.
    A name that is empty or just ['.csv'] is written as the hidden file
    ['.csv'], which has no extension: the loaders refuse it with the
    unsupported-format [ValueError]. *)
Theorem saved_file_loads_as_csv
    (read_csv read_excel : DataLoader.Path -> result DataFrame)
    (mkdir : DataLoader.Path -> result unit)
    (to_csv : DataFrame -> DataLoader.Path -> result unit)
    (df : DataFrame) (file_name output_dir : string) :
  let p := DataLoader.output_path file_name output_dir in
  let hidden := base_name file_name = "" \/ base_name file_name = ".csv" in
  (mkdir (DataLoader.parse_path output_dir) = Ok tt ->
   DataLoader.save_processed_data mkdir to_csv df file_name output_dir = to_csv df p) /\
  (exists stem, DataLoader.name p = stem +:+ ".csv") /\
  (DataLoader.name p = ".csv" <-> hidden) /\
  (~ hidden -> DataLoader.suffix p = ".csv") /\
  (hidden -> DataLoader.suffix p = "") /\
  (output_dir <> "" ->
   match file_name with String "/" _ => False | _ => True end ->
   DataLoader.parse_path (saved_as file_name output_dir) = p /\
   (~ hidden ->
    DataLoader.load_enrolment_data read_csv read_excel (saved_as file_name output_dir)
    = read_csv p /\
    DataLoader.load_update_data read_csv read_excel (saved_as file_name output_dir)
    = read_csv p) /\
   (hidden ->
    DataLoader.load_enrolment_data read_csv read_excel (saved_as file_name output_dir)
    = Raise (ValueError "Unsupported file format: ") /\
    DataLoader.load_update_data read_csv read_excel (saved_as file_name output_dir)
    = Raise (ValueError "Unsupported file format: "))).
Proof.
  intros p hidden.
  destruct (saved_name_base file_name) as (stem & Hb & Hstem).
  assert (Hname : DataLoader.name p = stem +:+ ".csv").
  { unfold p. rewrite name_output_path. exact Hb. }
  pose proof (suffix_of_csv_name p stem Hname) as Hsuf.
  assert (Hhid : DataLoader.name p = ".csv" <-> hidden).
  { unfold hidden. rewrite <- Hstem, Hname. split.
    - intros H. destruct stem as [|c s]; [reflexivity|]. exfalso.
      assert (Hl : String.length (String c s +:+ ".csv") = 4%nat) by (rewrite H; reflexivity).
      rewrite length_append in Hl. cbn in Hl. lia.
    - intros ->. reflexivity. }
  assert (Hyes : ~ hidden -> DataLoader.suffix p = ".csv").
  { intros Hn. rewrite Hsuf. destruct (String.eqb_spec stem "") as [E|E]; [|reflexivity].
    exfalso. apply Hn. apply Hstem. exact E. }
  assert (Hno : hidden -> DataLoader.suffix p = "").
  { intros Hh. rewrite Hsuf. apply Hstem in Hh. rewrite Hh. reflexivity. }
  split.
  { intros Hmk. unfold DataLoader.save_processed_data. rewrite Hmk. cbn [rbind].
    fold p. destruct (to_csv df p) as [[]|e]; reflexivity. }
  split; [exists stem; exact Hname|]. split; [exact Hhid|].
  split; [exact Hyes|]. split; [exact Hno|].
  intros Hdir Hrel. pose proof (parse_saved_as file_name output_dir Hdir Hrel) as Hp.
  fold p in Hp. split; [exact Hp|].
  rewrite load_update_dispatch, load_dispatch. cbv zeta. rewrite Hp. split.
  - intros Hn. rewrite (Hyes Hn). split; reflexivity.
  - intros Hh. rewrite (Hno Hh). split; reflexivity.
Qed.

(** ** Outliers *)

Lemma insert_Q_sorted (x : Q) (l : list Q) :
  StronglySorted Qle l -> StronglySorted Qle (insert_Q x l).
Proof.
  induction 1 as [|y l Hl IH Hy]; cbn [insert_Q].
  - constructor; [constructor|constructor].
  - destruct (Qle_bool x y) eqn:E.
    + apply Qle_bool_iff in E. constructor; [constructor; assumption|].
      constructor; [exact E|].
      apply List.Forall_forall. intros z Hz.
      apply Qle_trans with y; [exact E|].
      exact (proj1 (List.Forall_forall _ _) Hy z Hz).
    + apply Qle_bool_false_iff in E. constructor; [exact IH|].
      apply List.Forall_forall. intros z Hz. apply In_insert_Q in Hz.
      destruct Hz as [->|Hz]; [lra|].
      exact (proj1 (List.Forall_forall _ _) Hy z Hz).
Qed.

Lemma sort_Q_sorted (l : list Q) : StronglySorted Qle (sort_Q l).
Proof.
  unfold sort_Q. induction l as [|x l IH]; cbn [fold_right]; [constructor|].
  apply insert_Q_sorted. exact IH.
Qed.

Lemma sorted_nth_le (xs : list Q) (i j : nat) :
  StronglySorted Qle xs -> (i <= j)%nat -> (j < length xs)%nat ->
  nth i xs 0 <= nth j xs 0.
Proof.
  intros Hs. revert i j. induction Hs as [|x xs Hxs IH Hx]; intros i j Hij Hj.
  - cbn in Hj. lia.
  - destruct j as [|j].
    + assert (i = 0%nat) as -> by lia. apply Qle_refl.
    + destruct i as [|i].
      * cbn [nth]. apply (proj1 (List.Forall_forall _ _) Hx). apply nth_In.
        cbn in Hj. lia.
      * cbn [nth]. apply IH; [lia|]. cbn in Hj. lia.
Qed.

Lemma floor_frac (pos : Q) :
  0 <= pos - inject_Z (Qfloor pos) /\ pos - inject_Z (Qfloor pos) < 1.
Proof.
  pose proof (Qfloor_le pos). pose proof (Qlt_floor pos) as H1.
  rewrite inject_Z_plus in H1. change (inject_Z 1) with 1 in H1. lra.
Qed.

Lemma interpolate_bounds (xs : list Q) (pos : Q) :
  StronglySorted Qle xs -> 0 <= pos ->
  pos <= inject_Z (Z.of_nat (length xs - 1)) -> xs <> [] ->
  let lo := Z.to_nat (Qfloor pos) in
  (lo < length xs)%nat /\
  nth lo xs 0 <= interpolate xs pos /\
  ((S lo < length xs)%nat -> interpolate xs pos <= nth (S lo) xs 0) /\
  (~ (S lo < length xs)%nat -> interpolate xs pos == nth lo xs 0).
Proof.
  intros Hs H0 Hn Hne lo.
  assert (Hlen : (0 < length xs)%nat) by (destruct xs; [congruence|cbn; lia]).
  destruct (floor_frac pos) as [Hf0 Hf1].
  assert (Hfl0 : (0 <= Qfloor pos)%Z).
  { change 0%Z with (Qfloor 0). apply Qfloor_resp_le. exact H0. }
  assert (Hfln : (Qfloor pos <= Z.of_nat (length xs - 1))%Z).
  { rewrite <- (Qfloor_Z (Z.of_nat (length xs - 1))). apply Qfloor_resp_le. exact Hn. }
  assert (Hlo : (lo < length xs)%nat) by (unfold lo; lia).
  assert (Hloz : inject_Z (Z.of_nat lo) == inject_Z (Qfloor pos)).
  { unfold lo. rewrite Z2Nat.id by exact Hfl0. reflexivity. }
  split; [exact Hlo|]. unfold interpolate. fold lo.
  destruct (Nat.lt_ge_cases (S lo) (length xs)) as [Hin|Hout].
  - pose proof (sorted_nth_le xs lo (S lo) Hs ltac:(lia) Hin) as Hle.
    set (a := nth lo xs 0) in *. set (b := nth (S lo) xs 0) in *.
    set (f := pos - inject_Z (Qfloor pos)) in *.
    split; [nra|]. split; [intros _; nra|]. intros H. contradiction.
  - assert (Hfrac : pos - inject_Z (Qfloor pos) == 0).
    { assert (Hlast : lo = (length xs - 1)%nat) by lia.
      assert (Hp : inject_Z (Qfloor pos) == inject_Z (Z.of_nat (length xs - 1))).
      { rewrite <- Hloz, Hlast. reflexivity. }
      lra. }
    rewrite Hfrac. split; [lra|]. split; [intros H; lia|]. intros _. lra.
Qed.

Lemma quantile_interpolate (v : list float) (q : Q) :
  somes v <> [] ->
  Analyzer.quantile v q
  = Some (interpolate (sort_Q (somes v))
            (inject_Z (Z.of_nat (length (sort_Q (somes v)) - 1)) * q)).
Proof.
  intros Hne. unfold Analyzer.quantile. cbv zeta.
  destruct (sort_Q (somes v)) as [|x xs] eqn:E; [|reflexivity].
  exfalso. apply Hne. apply length_zero_iff_nil.
  rewrite <- (length_sort_Q (somes v)), E. reflexivity.
Qed.

Lemma quantile_None (v : list float) (q : Q) :
  somes v = [] -> Analyzer.quantile v q = None.
Proof. intros E. unfold Analyzer.quantile. rewrite E. reflexivity. Qed.

Lemma percentage_range (k n : nat) :
  (k <= n)%nat -> n <> 0%nat ->
  0 <= inject_Z (Z.of_nat k) / inject_Z (Z.of_nat n) * 100 /\
  inject_Z (Z.of_nat k) / inject_Z (Z.of_nat n) * 100 <= 100.
Proof.
  intros Hk Hn.
  assert (H0 : 0 <= inject_Z (Z.of_nat k)).
  { change 0 with (inject_Z 0). rewrite <- Zle_Qle. lia. }
  assert (H1 : inject_Z (Z.of_nat k) <= inject_Z (Z.of_nat n)).
  { rewrite <- Zle_Qle. lia. }
  assert (H2 : 0 < inject_Z (Z.of_nat n)).
  { change 0 with (inject_Z 0). rewrite <- Zlt_Qlt. lia. }
  set (a := inject_Z (Z.of_nat k)) in *. set (b := inject_Z (Z.of_nat n)) in *.
  assert (Ha : 0 <= a / b) by (apply Qle_shift_div_l; lra).
  assert (Hb : a / b <= 1) by (apply Qle_shift_div_r; lra).
  split; lra.
Qed.

Lemma names_select_rows (mask : list bool) (df : DataFrame) :
  column_names (select_rows mask df) = column_names df.
Proof.
  unfold column_names, select_rows. cbn [columns]. rewrite map_map. reflexivity.
Qed.

Lemma count_true_all_false {A} (f : A -> bool) (l : list A) :
  (forall a, In a l -> f a = false) -> count_true (map f l) = 0%nat.
Proof.
  induction l as [|a l IH]; intros H; [reflexivity|]. cbn [map].
  rewrite count_true_cons, (H a (or_introl eq_refl)), IH; [reflexivity|].
  intros b Hb. apply H. right. exact Hb.
Qed.

(** The quantile of a column whose present entries are all the same
    value is that value. *)
Lemma quantile_constant (v : list float) (q c : Q) :
  somes v <> [] -> (forall x, In (Some x) v -> x == c) ->
  0 <= q -> q <= 1 ->
  exists r, Analyzer.quantile v q = Some r /\ r == c.
Proof.
  intros Hne Hc H0 H1. rewrite (quantile_interpolate v q Hne).
  eexists. split; [reflexivity|].
  set (xs := sort_Q (somes v)).
  assert (Hxs : xs <> []).
  { intros E. apply Hne. apply length_zero_iff_nil.
    rewrite <- (length_sort_Q (somes v)). fold xs. rewrite E. reflexivity. }
  assert (Hn : 0 <= inject_Z (Z.of_nat (length xs - 1))).
  { change 0 with (inject_Z 0). rewrite <- Zle_Qle. lia. }
  assert (Hall : forall i, (i < length xs)%nat -> nth i xs 0 == c).
  { intros i Hi. apply Hc. apply In_somes. apply (In_sort_Q _ (somes v)).
    apply nth_In. exact Hi. }
  set (n := inject_Z (Z.of_nat (length xs - 1))) in *.
  assert (Hp0 : 0 <= n * q) by (apply Qmult_le_0_compat; assumption).
  assert (Hp1 : n * q <= n) by nra.
  destruct (interpolate_bounds xs (n * q) (sort_Q_sorted (somes v)) Hp0 Hp1 Hxs)
    as (Hlo & Ha & Hb & Hd).
  cbv zeta in *. pose proof (Hall _ Hlo) as Elo.
  destruct (Nat.lt_ge_cases (S (Z.to_nat (Qfloor (n * q)))) (length xs)) as [Hin|Hout].
  - pose proof (Hall _ Hin) as Ehi. specialize (Hb Hin). lra.
  - rewrite (Hd ltac:(lia)). exact Elo.
Qed.

(** X21.  The IQR method of [identify_outliers] on a column of floats
    of a table that has records: it returns some of the records of the
    input, with the columns of the input, and the quartiles of the
    column in the dictionary.  A record whose value is missing is never
    an outlier, and a column whose present values are all the same has
    no outlier.  The count is the number of records returned and the
    percentage lies between 0 and 100. *)
Theorem iqr_outliers (df : DataFrame) (column : string) (v : list float) :
  well_formed df ->
  getitem df column = Ok (Float64 v) ->
  nrows df <> 0%nat ->
  exists (outliers : DataFrame) (Q1 Q3 lower upper : float) (pct : Q) (mask : list bool),
    Analyzer.identify_outliers df column "iqr"
    = Some (Returns (outliers,
                     Analyzer.iqr_stats Q1 Q3 (fsub Q3 Q1) lower upper (nrows outliers) pct)) /\
    Q1 = Analyzer.quantile v (1 # 4) /\ Q3 = Analyzer.quantile v (3 # 4) /\
    outliers = select_rows mask df /\
    column_names outliers = column_names df /\
    (nrows outliers <= nrows df)%nat /\
    0 <= pct /\ pct <= 100 /\
    length mask = length v /\
    (forall i, nth_error v i = Some None -> nth_error mask i = Some false) /\
    forall c, (forall x, In (Some x) v -> x == c) ->
              nrows outliers = 0%nat /\ pct == 0.
Proof.
  intros Hwf Hget Hne. unfold Analyzer.identify_outliers.
  rewrite (getitem_has_column _ _ _ Hget). cbn [negb]. rewrite Hget.
  cbn [String.eqb Ascii.eqb Bool.eqb]. cbv zeta.
  unfold Analyzer.outlier_percentage_of. rewrite (proj2 (Nat.eqb_neq _ _) Hne).
  set (Q1 := Analyzer.quantile v (1 # 4)). set (Q3 := Analyzer.quantile v (3 # 4)).
  set (lower := fsub Q1 (fmul (Some (3 # 2)) (fsub Q3 Q1))).
  set (upper := fadd Q3 (fmul (Some (3 # 2)) (fsub Q3 Q1))).
  set (mask := map (fun x => flt x lower || fgt x upper) v).
  assert (Hlen : length mask = nrows df).
  { unfold mask. rewrite length_map.
    exact (well_formed_getitem _ _ _ Hwf Hget). }
  assert (Hrows : (nrows (select_rows mask df) <= nrows df)%nat).
  { cbn [select_rows nrows]. rewrite <- Hlen. apply count_true_le. }
  destruct (percentage_range (nrows (select_rows mask df)) (nrows df) Hrows Hne)
    as (Hp0 & Hp1).
  exists (select_rows mask df), Q1, Q3, lower, upper.
  eexists. exists mask.
  split; [reflexivity|]. split; [reflexivity|]. split; [reflexivity|].
  split; [reflexivity|]. split; [apply names_select_rows|]. split; [exact Hrows|].
  split; [exact Hp0|]. split; [exact Hp1|].
  split; [unfold mask; apply length_map|].
  split.
  { intros i Hi. unfold mask. rewrite nth_error_map, Hi. cbn [option_map].
    clear. generalize lower upper. intros [l|] [u|]; reflexivity. }
  intros c Hc.
  assert (Hmask : count_true mask = 0%nat).
  { unfold mask. apply count_true_all_false. intros [x|] Hx;
      [|clear; generalize lower upper; intros [l|] [u|]; reflexivity].
    assert (Hs : somes v <> []).
    { intros E. apply In_somes in Hx. rewrite E in Hx. exact Hx. }
    destruct (quantile_constant v (1 # 4) c Hs Hc ltac:(lra) ltac:(lra)) as (r1 & E1 & Hr1).
    destruct (quantile_constant v (3 # 4) c Hs Hc ltac:(lra) ltac:(lra)) as (r3 & E3 & Hr3).
    unfold lower, upper, Q1, Q3. rewrite E1, E3.
    cbn [fsub fadd fmul fmap2 flt fgt].
    pose proof (Hc x Hx) as Hxc.
    apply orb_false_iff. split; apply Qlt_bool_false_iff; lra. }
  assert (Hzero : nrows (select_rows mask df) = 0%nat) by exact Hmask.
  split; [exact Hzero|]. rewrite Hzero. unfold Qeq. cbn. lia.
Qed.


(** X23.  [identify_outliers] on a table without the column returns an
    empty table and an empty dictionary, whatever the method; on a table
    without records that has the column, a column of floats, it raises
    [ZeroDivisionError] with either method, when it takes the
    percentage. *)
Theorem identify_outliers_absent_or_empty (df : DataFrame) (column method : string) :
  (has_column df column = false ->
   Analyzer.identify_outliers df column method
   = Some (Returns (mkDataFrame 0 [], Analyzer.no_stats))) /\
  (forall v : list float,
      getitem df column = Ok (Float64 v) -> nrows df = 0%nat ->
      Analyzer.identify_outliers df column method
      = Some (RaisesZeroDivisionError "division by zero")).
Proof.
  split.
  - intros H. unfold Analyzer.identify_outliers. rewrite H. reflexivity.
  - intros v Hget Hn. unfold Analyzer.identify_outliers.
    rewrite (getitem_has_column _ _ _ Hget). cbn [negb]. rewrite Hget.
    cbn [numeric_values]. cbv zeta. unfold Analyzer.outlier_percentage_of.
    rewrite Hn. cbn [Nat.eqb]. destruct (String.eqb method "iqr"); reflexivity.
Qed.

(** ** Duplicates *)

Lemma Qeq_bool_sym' (a b : Q) : Qeq_bool a b = Qeq_bool b a.
Proof.
  destruct (Qeq_bool a b) eqn:E1, (Qeq_bool b a) eqn:E2; try reflexivity.
  - apply Qeq_bool_iff in E1. symmetry in E1. apply Qeq_bool_iff in E1. congruence.
  - apply Qeq_bool_iff in E2. symmetry in E2. apply Qeq_bool_iff in E2. congruence.
Qed.

Lemma rfloat_eqb_refl (x : rfloat) : rfloat_eqb x x = true.
Proof.
  destruct x as [|b|c r]; cbn [rfloat_eqb]; [reflexivity|apply eqb_reflx|].
  destruct (root_sign c r); apply Qeq_bool_iff; reflexivity.
Qed.

Lemma rfloat_eqb_sym (x y : rfloat) : rfloat_eqb x y = rfloat_eqb y x.
Proof.
  destruct x as [|b|c r], y as [|b'|c' r']; cbn [rfloat_eqb]; try reflexivity.
  - destruct b, b'; reflexivity.
  - destruct (root_sign c r), (root_sign c' r'); try reflexivity; apply Qeq_bool_sym'.
Qed.

Lemma rfloat_eqb_trans (x y z : rfloat) :
  rfloat_eqb x y = true -> rfloat_eqb y z = true -> rfloat_eqb x z = true.
Proof.
  destruct x as [|b|c r], y as [|b'|c' r'], z as [|b''|c'' r'']; cbn [rfloat_eqb];
    try discriminate; try tauto.
  - destruct b, b', b''; cbn; congruence.
  - destruct (root_sign c r), (root_sign c' r'), (root_sign c'' r''); try discriminate;
      rewrite !Qeq_bool_iff; intros H1 H2; rewrite H1; exact H2.
Qed.

Lemma cell_eqb_refl (a : cell) : cell_eqb a a = true.
Proof.
  destruct a; cbn [cell_eqb]; [reflexivity|apply scalar_eqb_refl|apply rfloat_eqb_refl].
Qed.

Lemma cell_eqb_sym (a b : cell) : cell_eqb a b = cell_eqb b a.
Proof.
  destruct a, b; cbn [cell_eqb]; try reflexivity;
    [apply scalar_eqb_sym|apply rfloat_eqb_sym].
Qed.

Lemma cell_eqb_trans (a b c : cell) :
  cell_eqb a b = true -> cell_eqb b c = true -> cell_eqb a c = true.
Proof.
  destruct a, b, c; cbn [cell_eqb]; try discriminate; try tauto;
    [apply scalar_eqb_trans|apply rfloat_eqb_trans].
Qed.

Lemma record_eqb_refl (a : list cell) : record_eqb a a = true.
Proof.
  induction a as [|x a IH]; [reflexivity|]. cbn [record_eqb].
  rewrite cell_eqb_refl, IH. reflexivity.
Qed.

Lemma record_eqb_sym (a b : list cell) : record_eqb a b = record_eqb b a.
Proof.
  revert b. induction a as [|x a IH]; intros [|y b]; try reflexivity.
  cbn [record_eqb]. rewrite cell_eqb_sym, IH. reflexivity.
Qed.

Lemma record_eqb_trans (a b c : list cell) :
  record_eqb a b = true -> record_eqb b c = true -> record_eqb a c = true.
Proof.
  revert b c. induction a as [|x a IH]; intros [|y b] [|z c]; cbn [record_eqb];
    try discriminate; try tauto.
  rewrite !andb_true_iff. intros [H1 H2] [H3 H4].
  split; [exact (cell_eqb_trans _ _ _ H1 H3)|exact (IH _ _ H2 H4)].
Qed.

Lemma select_cons {A} (b : bool) (mask : list bool) (a : A) (l : list A) :
  select (b :: mask) (a :: l) = if b then a :: select mask l else select mask l.
Proof. unfold select. cbn [combine List.filter fst]. destruct b; reflexivity. Qed.

Lemma kept_first_cons (seen : list (list cell)) (k : list cell) (rest : list (list cell)) :
  kept_first seen (k :: rest)
  = if existsb (record_eqb k) seen then kept_first (k :: seen) rest
    else k :: kept_first (k :: seen) rest.
Proof.
  unfold kept_first. cbn [duplicated_first map]. rewrite select_cons.
  destruct (existsb (record_eqb k) seen); reflexivity.
Qed.

Lemma length_duplicated_first (seen l : list (list cell)) :
  length (duplicated_first seen l) = length l.
Proof.
  revert seen. induction l as [|k l IH]; intros seen; [reflexivity|].
  cbn [duplicated_first length]. rewrite IH. reflexivity.
Qed.

Lemma duplicated_first_fewer_seen (l : list (list cell)) :
  forall seen1 seen2 : list (list cell),
    (forall x, existsb (record_eqb x) seen2 = true -> existsb (record_eqb x) seen1 = true) ->
    count_true (duplicated_first seen1 l) = 0%nat ->
    count_true (duplicated_first seen2 l) = 0%nat.
Proof.
  induction l as [|k l IH]; intros seen1 seen2 Hsub; [reflexivity|].
  cbn [duplicated_first]. rewrite !count_true_cons.
  destruct (existsb (record_eqb k) seen1) eqn:E1; [cbn; lia|].
  destruct (existsb (record_eqb k) seen2) eqn:E2.
  { rewrite (Hsub k E2) in E1. discriminate. }
  cbn [Nat.add]. apply IH. intros x. cbn [existsb].
  rewrite !orb_true_iff. intros [H|H]; [left; exact H|right; apply Hsub; exact H].
Qed.

(** Among the records kept none is a duplicate. *)
Lemma kept_first_no_duplicate (l : list (list cell)) :
  forall seen, count_true (duplicated_first seen (kept_first seen l)) = 0%nat.
Proof.
  induction l as [|k l IH]; intros seen; [reflexivity|].
  rewrite kept_first_cons. destruct (existsb (record_eqb k) seen) eqn:E.
  - apply (duplicated_first_fewer_seen _ (k :: seen) seen); [|apply IH].
    intros x Hx. cbn [existsb]. rewrite Hx. apply orb_true_r.
  - cbn [duplicated_first]. rewrite count_true_cons, E. cbn [Nat.add]. apply IH.
Qed.

(** Every record equals one that is kept, or one seen before. *)
Lemma kept_first_represents (l : list (list cell)) :
  forall seen k, In k l ->
    existsb (record_eqb k) seen = true \/
    existsb (record_eqb k) (kept_first seen l) = true.
Proof.
  induction l as [|k0 l IH]; intros seen k Hin; [destruct Hin|].
  rewrite kept_first_cons. destruct Hin as [->|Hin].
  - destruct (existsb (record_eqb k) seen) eqn:E; [left; reflexivity|].
    right. cbn [existsb]. rewrite record_eqb_refl. reflexivity.
  - destruct (IH (k0 :: seen) k Hin) as [H|H].
    + cbn [existsb] in H. apply orb_true_iff in H. destruct H as [H|H]; [|left; exact H].
      destruct (existsb (record_eqb k0) seen) eqn:E.
      * left. apply existsb_exists in E. destruct E as (s & Hs & He).
        apply existsb_exists. exists s. split; [exact Hs|].
        exact (record_eqb_trans _ _ _ H He).
      * right. cbn [existsb]. rewrite H. reflexivity.
    + right. destruct (existsb (record_eqb k0) seen); [exact H|].
      cbn [existsb]. rewrite H. apply orb_true_r.
Qed.

Lemma select_app {A} (m1 m2 : list bool) (l1 l2 : list A) :
  length m1 = length l1 ->
  select (m1 ++ m2) (l1 ++ l2) = (select m1 l1 ++ select m2 l2)%list.
Proof.
  revert l1. induction m1 as [|b m1 IH]; intros [|a l1] H; try discriminate; [reflexivity|].
  injection H as H. cbn [app]. rewrite !select_cons, (IH l1 H).
  destruct b; reflexivity.
Qed.

Lemma select_rev {A} (mask : list bool) (l : list A) :
  length mask = length l -> select (rev mask) (rev l) = rev (select mask l).
Proof.
  revert l. induction mask as [|b mask IH]; intros [|a l] H; try discriminate; [reflexivity|].
  injection H as H. cbn [rev]. rewrite select_app by (rewrite !length_rev; exact H).
  rewrite (IH l H), select_cons.
  destruct b; cbn [rev]; [reflexivity|]. unfold select at 2. cbn. apply app_nil_r.
Qed.

Lemma kept_last_rev (l : list (list cell)) :
  kept_last l = rev (kept_first [] (rev l)).
Proof.
  unfold kept_last, kept_first, duplicated_last.
  rewrite <- select_rev by (rewrite length_map, length_duplicated_first; reflexivity).
  rewrite map_rev, rev_involutive. reflexivity.
Qed.

Lemma count_true_rev (l : list bool) : count_true (rev l) = count_true l.
Proof.
  induction l as [|b l IH]; [reflexivity|]. cbn [rev].
  unfold count_true in *. rewrite List.filter_app, length_app, IH.
  cbn [List.filter]. destruct b; cbn [length]; lia.
Qed.

Lemma kept_last_no_duplicate (l : list (list cell)) :
  count_true (duplicated_last (kept_last l)) = 0%nat.
Proof.
  rewrite kept_last_rev. unfold duplicated_last. rewrite rev_involutive, count_true_rev.
  apply kept_first_no_duplicate.
Qed.

Lemma existsb_rev {A} (f : A -> bool) (l : list A) : existsb f (rev l) = existsb f l.
Proof.
  destruct (existsb f l) eqn:E.
  - apply existsb_exists in E. destruct E as (x & Hx & Hf).
    apply existsb_exists. exists x. split; [exact (proj1 (in_rev l x) Hx)|exact Hf].
  - destruct (existsb f (rev l)) eqn:E'; [|reflexivity].
    apply existsb_exists in E'. destruct E' as (x & Hx & Hf).
    apply (proj2 (in_rev l x)) in Hx.
    assert (existsb f l = true) by (apply existsb_exists; eauto).
    congruence.
Qed.

Lemma kept_last_represents (l : list (list cell)) (k : list cell) :
  In k l -> existsb (record_eqb k) (kept_last l) = true.
Proof.
  intros Hin. rewrite kept_last_rev, existsb_rev.
  destruct (kept_first_represents (rev l) [] k) as [H|H]; [|discriminate H|exact H].
  exact (proj1 (in_rev l k) Hin).
Qed.

Lemma select_map_self {A} (f : A -> bool) (l : list A) :
  select (map f l) l = List.filter f l.
Proof.
  induction l as [|a l IH]; [reflexivity|]. cbn [map]. rewrite select_cons, IH.
  cbn [List.filter]. reflexivity.
Qed.

Lemma kept_unique_filter (l : list (list cell)) :
  kept_unique l
  = List.filter (fun k => negb (Nat.ltb 1 (length (List.filter (record_eqb k) l)))) l.
Proof.
  unfold kept_unique, duplicated_all. rewrite map_map. apply select_map_self.
Qed.

Lemma filter_filter_length {A} (f g : A -> bool) (l : list A) :
  (length (List.filter f (List.filter g l)) <= length (List.filter f l))%nat.
Proof.
  induction l as [|a l IH]; [reflexivity|]. cbn [List.filter].
  destruct (g a); cbn [List.filter]; destruct (f a); cbn [length]; lia.
Qed.

Lemma kept_unique_no_duplicate (l : list (list cell)) :
  count_true (duplicated_all (kept_unique l)) = 0%nat.
Proof.
  unfold duplicated_all at 1. apply count_true_all_false. intros k Hk.
  rewrite kept_unique_filter in *. apply filter_In in Hk. destruct Hk as [_ Hk].
  apply negb_true_iff in Hk. apply Nat.ltb_ge in Hk. apply Nat.ltb_ge.
  pose proof (filter_filter_length (record_eqb k)
                (fun k0 => negb (Nat.ltb 1 (length (List.filter (record_eqb k0) l)))) l).
  lia.
Qed.

Lemma select_nil_r {A} (mask : list bool) : select mask (@nil A) = [].
Proof. unfold select. destruct mask; reflexivity. Qed.

Lemma select_combine {A B} (mask : list bool) (a : list A) (b : list B) :
  select mask (combine a b) = combine (select mask a) (select mask b).
Proof.
  revert a b. induction mask as [|m mask IH]; intros a b; [reflexivity|].
  destruct a as [|x a]; [cbn [combine]; rewrite !select_nil_r; reflexivity|].
  destruct b as [|y b].
  { cbn [combine]. rewrite !select_nil_r. destruct (select (m :: mask) (x :: a)); reflexivity. }
  cbn [combine]. rewrite !select_cons, IH. destruct m; reflexivity.
Qed.

Lemma select_repeat {A} (x : A) (mask : list bool) :
  select mask (repeat x (length mask)) = repeat x (count_true mask).
Proof.
  induction mask as [|m mask IH]; [reflexivity|].
  cbn [length repeat]. rewrite select_cons, count_true_cons, IH.
  destruct m; reflexivity.
Qed.

Lemma records_select (mask : list bool) (cols : list (list cell)) :
  select mask (records cols (length mask))
  = records (map (select mask) cols) (count_true mask).
Proof.
  unfold records. induction cols as [|c cols IH]; cbn [fold_right map].
  - apply select_repeat.
  - rewrite select_map, select_combine, IH. reflexivity.
Qed.

Lemma cells_select (mask : list bool) (s : Series) :
  cells (series_select mask s) = select mask (cells s).
Proof.
  destruct s as [v|v|cats v|v|v]; cbn [series_select cells series_keys];
    rewrite ?select_map; reflexivity.
Qed.

Lemma filter_map_fst {A B} (p : A -> bool) (f : B -> B) (l : list (A * B)) :
  List.filter (fun c => p (fst c)) (map (fun c => (fst c, f (snd c))) l)
  = map (fun c => (fst c, f (snd c))) (List.filter (fun c => p (fst c)) l).
Proof.
  induction l as [|[a b] l IH]; [reflexivity|]. cbn [map List.filter fst snd].
  destruct (p a); cbn [map fst snd]; rewrite IH; reflexivity.
Qed.

Lemma key_records_select (mask : list bool) (df : DataFrame) (subset : option (list string)) :
  length mask = nrows df ->
  key_records (select_rows mask df) subset = select mask (key_records df subset).
Proof.
  intros Hlen. unfold key_records. cbv zeta. rewrite names_select_rows.
  set (names := match subset with Some names => names | None => column_names df end).
  rewrite <- Hlen, records_select. cbn [select_rows nrows columns].
  rewrite (filter_map_fst (fun n => existsb (String.eqb n) names) (series_select mask)).
  rewrite !map_map. f_equal. apply map_ext. intros c. cbn [snd]. apply cells_select.
Qed.

Lemma length_records (cols : list (list cell)) (n : nat) :
  (forall c, In c cols -> length c = n) -> length (records cols n) = n.
Proof.
  unfold records. induction cols as [|c cols IH]; intros H; cbn [fold_right].
  - apply repeat_length.
  - rewrite length_map, length_combine, (H c (or_introl eq_refl)), IH; [lia|].
    intros c' Hc'. apply H. right. exact Hc'.
Qed.

Lemma length_cells (s : Series) : length (cells s) = series_len s.
Proof.
  destruct s; cbn [cells series_keys series_len]; rewrite ?length_map; reflexivity.
Qed.

Lemma length_key_records (df : DataFrame) (subset : option (list string)) :
  well_formed df -> length (key_records df subset) = nrows df.
Proof.
  intros Hwf. unfold key_records. cbv zeta. apply length_records.
  intros c Hc. apply in_map_iff in Hc. destruct Hc as (c0 & <- & Hc0).
  apply filter_In in Hc0. rewrite length_cells.
  exact (proj1 (List.Forall_forall _ _) Hwf c0 (proj1 Hc0)).
Qed.

Lemma duplicated_inv (df : DataFrame) (subset : option (list string)) (keep : keep_arg)
    (dup : list bool) :
  duplicated df subset keep = Ok dup ->
  (is_empty df = true /\ dup = []) \/
  (is_empty df = false /\
   List.filter (fun name => negb (has_column df name))
     (match subset with Some names => names | None => column_names df end) = [] /\
   match subset with Some names => names | None => column_names df end <> [] /\
   flags_of keep (key_records df subset) = Some dup).
Proof.
  unfold duplicated, is_empty. cbv zeta.
  destruct (Nat.eqb (nrows df) 0 || Nat.eqb (length (columns df)) 0).
  - intros [= <-]. left. split; reflexivity.
  - set (names := match subset with Some names => names | None => column_names df end).
    destruct (List.filter _ names) as [|bad rest] eqn:Hf; [|discriminate].
    intros H. right. split; [reflexivity|]. split; [reflexivity|].
    destruct names as [|n0 nrest] eqn:Hn; [discriminate|]. split; [discriminate|].
    unfold flags_of, key_records. cbv zeta. fold names. rewrite Hn.
    destruct keep as [s|].
    + destruct (String.eqb s "first"); [injection H as <-; reflexivity|].
      destruct (String.eqb s "last"); [injection H as <-; reflexivity|discriminate].
    + injection H as <-. reflexivity.
Qed.

Lemma duplicated_intro (df : DataFrame) (subset : option (list string)) (keep : keep_arg)
    (dup : list bool) :
  is_empty df = false ->
  List.filter (fun name => negb (has_column df name))
    (match subset with Some names => names | None => column_names df end) = [] ->
  match subset with Some names => names | None => column_names df end <> [] ->
  flags_of keep (key_records df subset) = Some dup ->
  duplicated df subset keep = Ok dup.
Proof.
  unfold duplicated, is_empty, flags_of, key_records. cbv zeta.
  intros -> Hf Hne. rewrite Hf.
  destruct (match subset with Some names => names | None => column_names df end)
    as [|n0 nrest]; [congruence|].
  destruct keep as [s|].
  - destruct (String.eqb s "first"); [intros [= <-]; reflexivity|].
    destruct (String.eqb s "last"); [intros [= <-]; reflexivity|discriminate].
  - intros [= <-]. reflexivity.
Qed.

Lemma has_column_select_rows (mask : list bool) (df : DataFrame) (name : string) :
  has_column (select_rows mask df) name = has_column df name.
Proof. unfold has_column. rewrite names_select_rows. reflexivity. Qed.

Lemma flags_of_kept (keep : keep_arg) (ids : list (list cell)) (dup : list bool) :
  flags_of keep ids = Some dup ->
  exists dup', flags_of keep (select (map negb dup) ids) = Some dup' /\
               count_true dup' = 0%nat.
Proof.
  unfold flags_of. destruct keep as [s|].
  - destruct (String.eqb s "first").
    + intros [= <-]. eexists. split; [reflexivity|]. apply (kept_first_no_duplicate ids []).
    + destruct (String.eqb s "last"); [|discriminate].
      intros [= <-]. eexists. split; [reflexivity|]. apply kept_last_no_duplicate.
  - intros [= <-]. eexists. split; [reflexivity|]. apply kept_unique_no_duplicate.
Qed.

Lemma length_flags_of (keep : keep_arg) (ids : list (list cell)) (dup : list bool) :
  flags_of keep ids = Some dup -> length dup = length ids.
Proof.
  unfold flags_of. destruct keep as [s|].
  - destruct (String.eqb s "first").
    + intros [= <-]. apply length_duplicated_first.
    + destruct (String.eqb s "last"); [|discriminate]. intros [= <-].
      unfold duplicated_last. rewrite length_rev, length_duplicated_first, length_rev.
      reflexivity.
  - intros [= <-]. unfold duplicated_all. apply length_map.
Qed.

Lemma select_none_flagged {A} (dup : list bool) (l : list A) :
  length dup = length l -> count_true dup = 0%nat -> select (map negb dup) l = l.
Proof.
  revert l. induction dup as [|b dup IH]; intros [|a l] Hlen Hc; try discriminate;
    [reflexivity|].
  injection Hlen as Hlen. rewrite count_true_cons in Hc. destruct b; [cbn in Hc; lia|].
  cbn [map negb]. rewrite select_cons, (IH l Hlen Hc). reflexivity.
Qed.

Lemma well_formed_select_rows' (mask : list bool) (df : DataFrame) :
  well_formed df -> length mask = nrows df -> well_formed (select_rows mask df).
Proof. apply well_formed_select_rows. Qed.

(** What [remove_duplicates] returns on a table with rows and columns:
    the records that [keep] does not flag. *)
Lemma remove_duplicates_kept (df out : DataFrame) (subset : option (list string))
    (keep : keep_arg) :
  well_formed df ->
  DataCleaner.remove_duplicates df subset keep = Ok out ->
  is_empty df = false ->
  exists dup : list bool,
    duplicated df subset keep = Ok dup /\
    flags_of keep (key_records df subset) = Some dup /\
    length dup = nrows df /\
    key_records out subset = select (map negb dup) (key_records df subset) /\
    (count_true dup = 0%nat /\ out = df \/ out = select_rows (map negb dup) df).
Proof.
  intros Hwf. unfold DataCleaner.remove_duplicates.
  destruct (duplicated df subset keep) as [dup|] eqn:Hdup; [|discriminate].
  cbn [rbind]. cbv zeta. intros Hout Hne.
  destruct (duplicated_inv _ _ _ _ Hdup) as [(He & _)|(_ & _ & _ & Hflags)]; [congruence|].
  assert (Hlen : length dup = nrows df).
  { rewrite (length_flags_of _ _ _ Hflags). apply length_key_records. exact Hwf. }
  exists dup. split; [reflexivity|]. split; [exact Hflags|]. split; [exact Hlen|].
  destruct (Nat.eqb (count_true dup) 0) eqn:Hc.
  - injection Hout as <-. apply Nat.eqb_eq in Hc. split; [|left; split; [exact Hc|reflexivity]].
    symmetry. apply select_none_flagged; [|exact Hc].
    rewrite Hlen. symmetry. apply length_key_records. exact Hwf.
  - injection Hout as <-. split; [|right; reflexivity].
    apply key_records_select. rewrite length_map. exact Hlen.
Qed.

(** X24.  [remove_duplicates] leaves no duplicate: in the table it
    returns, [duplicated] with the same arguments flags no record, and a
    second [remove_duplicates] returns that table as it is. *)
Theorem remove_duplicates_idempotent (df out : DataFrame)
    (subset : option (list string)) (keep : keep_arg) :
  well_formed df ->
  DataCleaner.remove_duplicates df subset keep = Ok out ->
  (exists dup : list bool,
      duplicated out subset keep = Ok dup /\ count_true dup = 0%nat) /\
  DataCleaner.remove_duplicates out subset keep = Ok out.
Proof.
  intros Hwf Hout.
  assert (Hdup : exists dup, duplicated out subset keep = Ok dup /\ count_true dup = 0%nat).
  { destruct (is_empty out) eqn:Heo.
    { exists []. split; [|reflexivity]. unfold duplicated. unfold is_empty in Heo.
      rewrite Heo. reflexivity. }
    destruct (is_empty df) eqn:Hed.
    { exfalso. revert Hout. unfold DataCleaner.remove_duplicates, duplicated.
      unfold is_empty in Hed. rewrite Hed. cbn [rbind count_true List.filter length Nat.eqb].
      intros [= <-]. unfold is_empty in Heo. congruence. }
    destruct (remove_duplicates_kept df out subset keep Hwf Hout Hed)
      as (dup & Hd & Hflags & Hlen & Hrec & Hcase).
    destruct Hcase as [(Hc & ->)|Hsel].
    - exists dup. split; assumption.
    - destruct (flags_of_kept _ _ _ Hflags) as (dup' & Hflags' & Hc').
      exists dup'. split; [|exact Hc'].
      destruct (duplicated_inv _ _ _ _ Hd) as [(He & _)|(_ & Hmiss & Hnames & _)];
        [congruence|].
      apply duplicated_intro.
      + exact Heo.
      + rewrite Hsel, names_select_rows.
        erewrite filter_ext_on; [exact Hmiss|].
        intros name _. cbv beta. rewrite has_column_select_rows. reflexivity.
      + rewrite Hsel, names_select_rows. exact Hnames.
      + rewrite Hrec. exact Hflags'. }
  split; [exact Hdup|].
  destruct Hdup as (dup & Hd & Hc). unfold DataCleaner.remove_duplicates.
  rewrite Hd. cbn [rbind]. cbv zeta. rewrite Hc. reflexivity.
Qed.

(** X25.  The table [remove_duplicates] returns has the columns of the
    input and no more records, and stays well formed.  With
    [keep='first'] and [keep='last'] every record of the input equals,
    on the columns of [subset], a record that is kept; with [keep=False]
    (on a table with a column) the records kept are exactly the records
    that no other record equals. *)
Theorem remove_duplicates_keeps_one_of_each (df out : DataFrame)
    (subset : option (list string)) (keep : keep_arg) :
  well_formed df ->
  DataCleaner.remove_duplicates df subset keep = Ok out ->
  column_names out = column_names df /\
  well_formed out /\
  (nrows out <= nrows df)%nat /\
  (keep = keep_str "first" \/ keep = keep_str "last" ->
   forall k, In k (key_records df subset) ->
             existsb (record_eqb k) (key_records out subset) = true) /\
  (keep = keep_False -> columns df <> [] ->
   forall k, In k (key_records out subset) <->
             In k (key_records df subset) /\
             length (List.filter (record_eqb k) (key_records df subset)) = 1%nat).
Proof.
  intros Hwf Hout.
  destruct (is_empty df) eqn:Hed.
  { assert (Hsame : out = df).
    { revert Hout. unfold DataCleaner.remove_duplicates, duplicated.
      unfold is_empty in Hed. rewrite Hed. cbn [rbind count_true List.filter length Nat.eqb].
      intros [= <-]. reflexivity. }
    subst out. split; [reflexivity|]. split; [exact Hwf|]. split; [lia|]. split.
    - intros _ k Hk. apply existsb_exists. exists k. split; [exact Hk|apply record_eqb_refl].
    - intros _ Hcols k. unfold is_empty in Hed. apply orb_true_iff in Hed.
      destruct Hed as [Hr|Hc].
      + apply Nat.eqb_eq in Hr.
        assert (Hnil : key_records df subset = []).
        { apply length_zero_iff_nil. rewrite (length_key_records _ _ Hwf). exact Hr. }
        rewrite Hnil. cbn. tauto.
      + apply Nat.eqb_eq in Hc. apply length_zero_iff_nil in Hc. contradiction. }
  destruct (remove_duplicates_kept df out subset keep Hwf Hout Hed)
    as (dup & Hd & Hflags & Hlen & Hrec & Hcase).
  assert (Hshape : column_names out = column_names df /\ well_formed out /\
                   (nrows out <= nrows df)%nat).
  { destruct Hcase as [(_ & ->)| ->].
    - split; [reflexivity|]. split; [exact Hwf|lia].
    - split; [apply names_select_rows|]. split.
      + apply well_formed_select_rows; [exact Hwf|]. rewrite length_map. exact Hlen.
      + cbn [select_rows nrows]. rewrite <- Hlen, <- (length_map negb dup).
        apply count_true_le. }
  destruct Hshape as (Hn & Hw & Hr).
  split; [exact Hn|]. split; [exact Hw|]. split; [exact Hr|]. split.
  - intros Hkeep k Hk. rewrite Hrec. unfold flags_of in Hflags.
    destruct Hkeep as [Hkeep|Hkeep]; rewrite Hkeep in Hflags; cbn in Hflags;
      injection Hflags as <-.
    + destruct (kept_first_represents (key_records df subset) [] k Hk) as [H|H];
        [discriminate H|exact H].
    + exact (kept_last_represents (key_records df subset) k Hk).
  - intros -> _ k. rewrite Hrec. cbn [flags_of] in Hflags. injection Hflags as <-.
    fold (kept_unique (key_records df subset)). rewrite kept_unique_filter.
    rewrite filter_In. split.
    + intros [Hin Hu]. split; [exact Hin|].
      apply negb_true_iff in Hu. apply Nat.ltb_ge in Hu.
      assert (Hpos : In k (List.filter (record_eqb k) (key_records df subset))).
      { apply filter_In. split; [exact Hin|apply record_eqb_refl]. }
      destruct (List.filter (record_eqb k) (key_records df subset)) as [|x [|y l]];
        [destruct Hpos|reflexivity|cbn in Hu; lia].
    + intros [Hin Hu]. split; [exact Hin|]. rewrite Hu. reflexivity.
Qed.

(** ** The overview of a table *)

Lemma has_column_of_names (df : DataFrame) (name : string) :
  In name (column_names df) -> has_column df name = true.
Proof.
  intros H. unfold has_column. apply existsb_exists. exists name.
  split; [exact H|apply String.eqb_refl].
Qed.

Lemma filter_nil_on {A} (f : A -> bool) (l : list A) :
  (forall a, In a l -> f a = false) -> List.filter f l = [].
Proof.
  induction l as [|a l IH]; intros H; [reflexivity|]. cbn [List.filter].
  rewrite (H a (or_introl eq_refl)). apply IH. intros b Hb. apply H. right. exact Hb.
Qed.

(** [df.duplicated()] with its default arguments raises nothing. *)
Lemma duplicated_default (df : DataFrame) :
  exists dup : list bool,
    duplicated df None (keep_str "first") = Ok dup /\
    (is_empty df = true /\ dup = [] \/
     is_empty df = false /\ dup = duplicated_first [] (key_records df None)).
Proof.
  destruct (is_empty df) eqn:He.
  - exists []. split; [|left; split; reflexivity].
    unfold duplicated. unfold is_empty in He. rewrite He. reflexivity.
  - eexists. split; [|right; split; reflexivity].
    apply duplicated_intro; [exact He| | |reflexivity].
    + apply filter_nil_on. intros name Hn. rewrite (has_column_of_names df name Hn).
      reflexivity.
    + unfold is_empty in He. apply orb_false_iff in He. destruct He as [_ Hc].
      apply Nat.eqb_neq in Hc. unfold column_names. intros E.
      apply Hc. rewrite <- (length_map fst), E. reflexivity.
Qed.

Lemma count_true_negb (l : list bool) :
  (count_true (map negb l) + count_true l = length l)%nat.
Proof.
  induction l as [|b l IH]; [reflexivity|]. cbn [map length].
  rewrite !count_true_cons. destruct b; cbn; lia.
Qed.

Lemma sum_zero_iff (l : list nat) :
  fold_right Nat.add 0%nat l = 0%nat <-> List.Forall (fun n => n = 0%nat) l.
Proof.
  induction l as [|n l IH]; cbn [fold_right].
  - split; [constructor|reflexivity].
  - split.
    + intros H. constructor; [lia|]. apply IH. lia.
    + intros H. inversion H as [|? ? Hn Hl]; subst. apply IH in Hl. lia.
Qed.

(** X26.  [get_data_info] raises nothing on a well-formed table.  Its
    [missing_values] is 0 exactly when no entry of the table is missing;
    its [duplicate_rows] is the number of records [remove_duplicates]
    with its default arguments removes, and is less than
    [total_records] unless the table is empty. *)
Theorem get_data_info_consistent (memory_usage : DataFrame -> nat)
    (df : DataFrame) (dataset_name : string) :
  well_formed df ->
  exists (info : DataLoader.data_info) (out : DataFrame),
    DataLoader.get_data_info memory_usage df dataset_name = Ok info /\
    DataLoader.total_records info = nrows df /\
    DataLoader.total_columns info = length (columns df) /\
    (DataLoader.missing_values info = 0%nat <-> complete df) /\
    DataCleaner.remove_duplicates df None (keep_str "first") = Ok out /\
    (nrows out + DataLoader.duplicate_rows info = DataLoader.total_records info)%nat /\
    (nrows df <> 0%nat ->
     (DataLoader.duplicate_rows info < DataLoader.total_records info)%nat).
Proof.
  intros Hwf. destruct (duplicated_default df) as (dup & Hdup & Hcase).
  unfold DataLoader.get_data_info, DataCleaner.remove_duplicates. rewrite Hdup.
  cbn [rbind]. cbv zeta.
  assert (Hlen : is_empty df = false -> length dup = nrows df).
  { intros He. destruct Hcase as [(He' & _)|(_ & ->)]; [congruence|].
    rewrite length_duplicated_first. apply length_key_records. exact Hwf. }
  eexists. exists (if Nat.eqb (count_true dup) 0 then df
                   else select_rows (map negb dup) df).
  split; [reflexivity|].
  cbn [DataLoader.total_records DataLoader.total_columns DataLoader.missing_values
       DataLoader.duplicate_rows].
  split; [reflexivity|]. split; [reflexivity|]. split; [|split; [|split]].
  - rewrite sum_zero_iff. unfold complete. rewrite !List.Forall_forall. split.
    + intros H c Hc. apply (H (count_true (isnull (snd c)))).
      apply in_map_iff. exists c. split; [reflexivity|exact Hc].
    + intros H n Hn. apply in_map_iff in Hn. destruct Hn as (c & <- & Hc). exact (H c Hc).
  - destruct (Nat.eqb (count_true dup) 0); reflexivity.
  - destruct (Nat.eqb (count_true dup) 0) eqn:Hc.
    + apply Nat.eqb_eq in Hc. lia.
    + cbn [select_rows nrows]. pose proof (count_true_negb dup) as Hn.
      destruct Hcase as [(_ & ->)|(He & _)]; [discriminate Hc|].
      rewrite (Hlen He) in Hn. exact Hn.
  - intros Hne. destruct Hcase as [(_ & ->)|(He & ->)]; [cbn; lia|].
    pose proof (length_key_records df None Hwf) as Hl.
    destruct (key_records df None) as [|k rest]; [cbn in Hl; lia|].
    cbn [duplicated_first existsb]. rewrite count_true_cons. cbn [Nat.add].
    pose proof (count_true_le (duplicated_first [k] rest)) as Hle.
    rewrite length_duplicated_first in Hle. cbn [length] in Hl. lia.
Qed.

(** ** Text columns *)

Lemma to_upper_space (c : ascii) : is_space (to_upper c) = is_space c.
Proof. destruct c as [[] [] [] [] [] [] [] []]; reflexivity. Qed.

Lemma to_lower_space (c : ascii) : is_space (to_lower c) = is_space c.
Proof. destruct c as [[] [] [] [] [] [] [] []]; reflexivity. Qed.

Lemma to_upper_idem (c : ascii) : to_upper (to_upper c) = to_upper c.
Proof. destruct c as [[] [] [] [] [] [] [] []]; reflexivity. Qed.

Lemma to_lower_idem (c : ascii) : to_lower (to_lower c) = to_lower c.
Proof. destruct c as [[] [] [] [] [] [] [] []]; reflexivity. Qed.

Lemma title_char_cased (b : bool) (c : ascii) :
  is_lower (title_char b c) || is_upper (title_char b c) = is_lower c || is_upper c.
Proof. destruct b, c as [[] [] [] [] [] [] [] []]; reflexivity. Qed.

Lemma title_char_idem (b : bool) (c : ascii) :
  title_char b (title_char b c) = title_char b c.
Proof. destruct b, c as [[] [] [] [] [] [] [] []]; reflexivity. Qed.

Lemma title_char_space (b : bool) (c : ascii) :
  is_space (title_char b c) = is_space c.
Proof. destruct b, c as [[] [] [] [] [] [] [] []]; reflexivity. Qed.

Lemma space_not_cased (c : ascii) :
  is_space c = true -> is_lower c || is_upper c = false.
Proof. destruct c as [[] [] [] [] [] [] [] []]; vm_compute; congruence. Qed.

Lemma title_from_cons (b : bool) (c : ascii) (s : string) :
  title_from b (String c s)
  = String (title_char b c) (title_from (is_lower c || is_upper c) s).
Proof. reflexivity. Qed.

Lemma upper_idem (s : string) : upper (upper s) = upper s.
Proof.
  induction s as [|c s IH]; [reflexivity|]. cbn [upper]. rewrite to_upper_idem, IH.
  reflexivity.
Qed.

Lemma str_lower_idem (s : string) : str_lower (str_lower s) = str_lower s.
Proof.
  induction s as [|c s IH]; [reflexivity|]. cbn [str_lower]. rewrite to_lower_idem, IH.
  reflexivity.
Qed.

Lemma title_from_idem (s : string) :
  forall b, title_from b (title_from b s) = title_from b s.
Proof.
  induction s as [|c s IH]; intros b; [reflexivity|].
  rewrite !title_from_cons, title_char_idem, title_char_cased, IH. reflexivity.
Qed.

(** A map of the characters that keeps the white space apart commutes
    with the stripping. *)
Lemma lstrip_upper (s : string) : lstrip (upper s) = upper (lstrip s).
Proof.
  induction s as [|c s IH]; [reflexivity|]. cbn [upper lstrip].
  rewrite to_upper_space. destruct (is_space c); [exact IH|reflexivity].
Qed.

Lemma lstrip_str_lower (s : string) : lstrip (str_lower s) = str_lower (lstrip s).
Proof.
  induction s as [|c s IH]; [reflexivity|]. cbn [str_lower lstrip].
  rewrite to_lower_space. destruct (is_space c); [exact IH|reflexivity].
Qed.

Lemma lstrip_title (s : string) : lstrip (title_from false s) = title_from false (lstrip s).
Proof.
  induction s as [|c s IH]; [reflexivity|]. rewrite title_from_cons. cbn [lstrip].
  rewrite title_char_space. destruct (is_space c) eqn:E; [|reflexivity].
  rewrite (space_not_cased c E). exact IH.
Qed.

Lemma rstrip_upper (s : string) : rstrip (upper s) = upper (rstrip s).
Proof.
  induction s as [|c s IH]; [reflexivity|]. cbn [upper rstrip]. rewrite IH.
  destruct (rstrip s) as [|d r]; cbn [upper].
  - rewrite to_upper_space. destruct (is_space c); reflexivity.
  - reflexivity.
Qed.

Lemma rstrip_str_lower (s : string) : rstrip (str_lower s) = str_lower (rstrip s).
Proof.
  induction s as [|c s IH]; [reflexivity|]. cbn [str_lower rstrip]. rewrite IH.
  destruct (rstrip s) as [|d r]; cbn [str_lower].
  - rewrite to_lower_space. destruct (is_space c); reflexivity.
  - reflexivity.
Qed.

Lemma rstrip_title (s : string) :
  forall b, rstrip (title_from b s) = title_from b (rstrip s).
Proof.
  induction s as [|c s IH]; intros b; [reflexivity|].
  rewrite title_from_cons. cbn [rstrip]. rewrite IH.
  destruct (rstrip s) as [|d r].
  - cbn [title_from]. rewrite title_char_space.
    destruct (is_space c); [reflexivity|]. rewrite title_from_cons. reflexivity.
  - rewrite (title_from_cons _ d r), title_from_cons, (title_from_cons _ d r).
    reflexivity.
Qed.

Lemma lstrip_idem (s : string) : lstrip (lstrip s) = lstrip s.
Proof.
  induction s as [|c s IH]; [reflexivity|]. cbn [lstrip].
  destruct (is_space c) eqn:E; [exact IH|]. cbn [lstrip]. rewrite E. reflexivity.
Qed.

Lemma rstrip_idem (s : string) : rstrip (rstrip s) = rstrip s.
Proof.
  induction s as [|c s IH]; [reflexivity|]. cbn [rstrip].
  destruct (rstrip s) as [|d r] eqn:E.
  - destruct (is_space c) eqn:Ec; [reflexivity|]. cbn [rstrip]. rewrite Ec. reflexivity.
  - cbn [rstrip]. cbn [rstrip] in IH.
    destruct (match rstrip r with
              | EmptyString => if is_space d then EmptyString else String d EmptyString
              | String _ _ as rest' => String d rest'
              end) as [|d' r'] eqn:E'; [discriminate IH|].
    rewrite IH. reflexivity.
Qed.

Lemma lstrip_rstrip_comm (s : string) : lstrip (rstrip s) = rstrip (lstrip s).
Proof.
  induction s as [|c s IH]; [reflexivity|]. cbn [lstrip rstrip].
  destruct (is_space c) eqn:Ec.
  - rewrite <- IH. destruct (rstrip s) as [|d r] eqn:E.
    + reflexivity.
    + cbn [lstrip]. rewrite Ec. reflexivity.
  - cbn [rstrip]. destruct (rstrip s) as [|d r] eqn:E.
    + rewrite Ec. cbn [lstrip]. rewrite Ec. reflexivity.
    + cbn [lstrip]. rewrite Ec. reflexivity.
Qed.

Lemma strip_idem (s : string) : strip (strip s) = strip s.
Proof.
  unfold strip. rewrite <- (lstrip_rstrip_comm s), lstrip_idem.
  rewrite (lstrip_rstrip_comm s), rstrip_idem. reflexivity.
Qed.

Lemma strip_upper (s : string) : strip (upper s) = upper (strip s).
Proof. unfold strip. rewrite lstrip_upper, rstrip_upper. reflexivity. Qed.

Lemma strip_str_lower (s : string) : strip (str_lower s) = str_lower (strip s).
Proof. unfold strip. rewrite lstrip_str_lower, rstrip_str_lower. reflexivity. Qed.

Lemma strip_title (s : string) : strip (title s) = title (strip s).
Proof. unfold strip, title. rewrite lstrip_title, rstrip_title. reflexivity. Qed.

Lemma title_idem (s : string) : title (title s) = title s.
Proof. apply title_from_idem. Qed.

Lemma standardize_text_stripped (case s : string) :
  strip (DataCleaner.standardize_text case s) = DataCleaner.standardize_text case s.
Proof.
  unfold DataCleaner.standardize_text.
  destruct (String.eqb case "title"); [rewrite strip_title, strip_idem; reflexivity|].
  destruct (String.eqb case "upper"); [rewrite strip_upper, strip_idem; reflexivity|].
  destruct (String.eqb case "lower"); [rewrite strip_str_lower, strip_idem; reflexivity|].
  apply strip_idem.
Qed.

Lemma standardize_text_idem (case s : string) :
  DataCleaner.standardize_text case (DataCleaner.standardize_text case s)
  = DataCleaner.standardize_text case s.
Proof.
  unfold DataCleaner.standardize_text.
  destruct (String.eqb case "title");
    [rewrite strip_title, strip_idem, title_idem; reflexivity|].
  destruct (String.eqb case "upper");
    [rewrite strip_upper, strip_idem, upper_idem; reflexivity|].
  destruct (String.eqb case "lower");
    [rewrite strip_str_lower, strip_idem, str_lower_idem; reflexivity|].
  apply strip_idem.
Qed.

Lemma str_map_idem (case : string) (v : list (option string)) :
  str_map (DataCleaner.standardize_text case)
    (str_map (DataCleaner.standardize_text case) v)
  = str_map (DataCleaner.standardize_text case) v.
Proof.
  unfold str_map. rewrite map_map. apply map_ext. intros [x|]; cbn [option_map].
  - rewrite standardize_text_idem. reflexivity.
  - reflexivity.
Qed.

Lemma standardized_idem (case : string) (s : Series) :
  standardized case (standardized case s) = standardized case s.
Proof.
  destruct s; cbn [standardized]; try reflexivity. rewrite str_map_idem. reflexivity.
Qed.

Lemma standardize_column_spec (case : string) (df : DataFrame) (col : string) :
  DataCleaner.standardize_column case df col
  = match assoc col (columns df) with
    | Some s => setitem df col (standardized case s)
    | None => df
    end.
Proof.
  unfold DataCleaner.standardize_column, getitem. rewrite has_column_assoc.
  destruct (assoc col (columns df)) as [s|] eqn:E; cbn [is_none negb]; [|reflexivity].
  destruct s; cbn [standardized]; try reflexivity;
    symmetry; apply setitem_same_id; unfold getitem; rewrite E; reflexivity.
Qed.

Lemma assoc_standardize_column (case : string) (df : DataFrame) (col name : string) :
  assoc name (columns (DataCleaner.standardize_column case df col))
  = if String.eqb col name
    then option_map (standardized case) (assoc name (columns df))
    else assoc name (columns df).
Proof.
  rewrite standardize_column_spec.
  destruct (String.eqb_spec col name) as [->|Hne].
  - destruct (assoc name (columns df)) as [s|] eqn:E; cbn [option_map].
    + unfold setitem. cbn [columns]. apply assoc_assign_same.
    + exact E.
  - destruct (assoc col (columns df)) as [s|]; [|reflexivity].
    unfold setitem. cbn [columns]. apply assoc_assign_other. exact Hne.
Qed.

Lemma frame_standardize_column (case : string) (df : DataFrame) (col : string) :
  nrows (DataCleaner.standardize_column case df col) = nrows df
  /\ column_names (DataCleaner.standardize_column case df col) = column_names df.
Proof.
  rewrite standardize_column_spec.
  destruct (assoc col (columns df)) as [s|] eqn:E; [|split; reflexivity].
  split; [reflexivity|]. unfold setitem, column_names. cbn [columns].
  rewrite names_assign.
  assert (H : has_column df col = true) by (rewrite has_column_assoc, E; reflexivity).
  unfold has_column, column_names in H. rewrite H. reflexivity.
Qed.

Lemma assoc_standardize (case : string) (columns_ : list string) :
  forall (df : DataFrame) (name : string),
    assoc name (columns (DataCleaner.standardize_categorical_columns df columns_ case))
    = if existsb (String.eqb name) columns_
      then option_map (standardized case) (assoc name (columns df))
      else assoc name (columns df).
Proof.
  unfold DataCleaner.standardize_categorical_columns.
  induction columns_ as [|col rest IH]; intros df name; [reflexivity|].
  cbn [fold_left existsb]. rewrite IH, assoc_standardize_column.
  rewrite (String.eqb_sym name col).
  destruct (String.eqb col name); cbn [orb].
  - destruct (existsb (String.eqb name) rest); [|reflexivity].
    destruct (assoc name (columns df)) as [s|]; cbn [option_map]; [|reflexivity].
    rewrite standardized_idem. reflexivity.
  - reflexivity.
Qed.

Lemma frame_standardize (case : string) (columns_ : list string) :
  forall df : DataFrame,
    nrows (DataCleaner.standardize_categorical_columns df columns_ case) = nrows df
    /\ column_names (DataCleaner.standardize_categorical_columns df columns_ case)
       = column_names df.
Proof.
  unfold DataCleaner.standardize_categorical_columns.
  induction columns_ as [|col rest IH]; intros df; [split; reflexivity|].
  cbn [fold_left]. destruct (IH (DataCleaner.standardize_column case df col)) as [H1 H2].
  destruct (frame_standardize_column case df col) as [H3 H4].
  split; congruence.
Qed.

Lemma standardize_fixed (case : string) (columns_ : list string) (df : DataFrame) :
  (forall col, In col columns_ -> DataCleaner.standardize_column case df col = df) ->
  DataCleaner.standardize_categorical_columns df columns_ case = df.
Proof.
  unfold DataCleaner.standardize_categorical_columns.
  induction columns_ as [|col rest IH]; intros H; [reflexivity|].
  cbn [fold_left]. rewrite (H col (or_introl eq_refl)). apply IH.
  intros c Hc. apply H. right. exact Hc.
Qed.

(** X27.  Standardizing a second time changes nothing: on a table with
    distinct column names and ASCII text,
    [standardize_categorical_columns] applied to its own result, with
    the same columns and the same case, returns that result. *)
Theorem standardize_idempotent (df : DataFrame) (columns_ : list string) (case : string) :
  List.NoDup (column_names df) ->
  ascii_text df ->
  let out := DataCleaner.standardize_categorical_columns df columns_ case in
  DataCleaner.standardize_categorical_columns out columns_ case = out.
Proof.
  intros _ _ out. apply standardize_fixed. intros col Hin.
  rewrite standardize_column_spec.
  destruct (assoc col (columns out)) as [s|] eqn:E; [|reflexivity].
  apply setitem_same_id. unfold getitem. rewrite E. f_equal.
  unfold out in E. rewrite assoc_standardize in E.
  assert (Hex : existsb (String.eqb col) columns_ = true).
  { apply existsb_exists. exists col. split; [exact Hin|apply String.eqb_refl]. }
  rewrite Hex in E. destruct (assoc col (columns df)) as [s0|]; [|discriminate E].
  cbn [option_map] in E. injection E as <-. symmetry. apply standardized_idem.
Qed.

(** X28.  On a table with distinct column names and ASCII text,
    [standardize_categorical_columns] keeps the number of rows and the
    columns' names and order; a column that is not listed, or is not a
    column of text, is returned as it was; a listed column of text has
    its missing entries where they were, and each of its strings is the
    standardized form of the string it replaces, has no white space at
    either end, and is its own standardized form. *)
Theorem standardize_frame (df : DataFrame) (columns_ : list string) (case : string) :
  List.NoDup (column_names df) ->
  ascii_text df ->
  let out := DataCleaner.standardize_categorical_columns df columns_ case in
  nrows out = nrows df
  /\ column_names out = column_names df
  /\ (forall name, ~ In name columns_ -> getitem out name = getitem df name)
  /\ (forall name s, getitem df name = Ok s -> (forall v, s <> Object v) ->
        getitem out name = Ok s)
  /\ (forall name v, In name columns_ -> getitem df name = Ok (Object v) ->
        exists w, getitem out name = Ok (Object w)
          /\ length w = length v
          /\ (forall i, nth i w None
                        = option_map (DataCleaner.standardize_text case) (nth i v None))
          /\ (forall x, In (Some x) w ->
                strip x = x /\ DataCleaner.standardize_text case x = x)).
Proof.
  intros _ _ out.
  destruct (frame_standardize case columns_ df) as [Hn Hc].
  split; [exact Hn|]. split; [exact Hc|].
  assert (Hget : forall name,
    getitem out name
    = match (if existsb (String.eqb name) columns_
             then option_map (standardized case) (assoc name (columns df))
             else assoc name (columns df)) with
      | Some s => Ok s
      | None => Raise (KeyError name)
      end).
  { intros name. unfold getitem, out. rewrite assoc_standardize. reflexivity. }
  split; [|split].
  - intros name Hnot. rewrite Hget.
    destruct (existsb (String.eqb name) columns_) eqn:Hex; [|reflexivity].
    apply existsb_exists in Hex. destruct Hex as [c [Hin Heq]].
    apply String.eqb_eq in Heq. subst c. contradiction.
  - intros name s Hs Hnot. rewrite Hget. unfold getitem in Hs.
    destruct (assoc name (columns df)) as [s0|]; [|discriminate Hs].
    injection Hs as ->.
    destruct (existsb (String.eqb name) columns_); [|reflexivity].
    cbn [option_map]. destruct s; cbn [standardized]; try reflexivity.
    exfalso. exact (Hnot v eq_refl).
  - intros name v Hin Hs. rewrite Hget. unfold getitem in Hs.
    destruct (assoc name (columns df)) as [s0|]; [|discriminate Hs].
    injection Hs as ->.
    assert (Hex : existsb (String.eqb name) columns_ = true).
    { apply existsb_exists. exists name. split; [exact Hin|apply String.eqb_refl]. }
    rewrite Hex. cbn [option_map standardized].
    exists (str_map (DataCleaner.standardize_text case) v).
    split; [reflexivity|]. unfold str_map. split; [apply length_map|]. split.
    + intros i.
      change (@None string) with (option_map (DataCleaner.standardize_text case) None) at 1.
      apply map_nth.
    + intros x Hx. apply in_map_iff in Hx. destruct Hx as [[y|] [Hy _]];
        [|discriminate Hy].
      cbn [option_map] in Hy. injection Hy as <-.
      split; [apply standardize_text_stripped|apply standardize_text_idem].
Qed.

(** ** Date ranges *)

Lemma filter_step_frame (compare : Series -> string -> result (list bool))
    (date_column : string) (d : option string) (df out : DataFrame) :
  row_wise compare -> well_formed df ->
  DataCleaner.filter_step compare date_column d df = Ok out ->
  well_formed out /\ column_names out = column_names df
  /\ (nrows out <= nrows df)%nat
  /\ (DataCleaner.truthy d = false -> out = df).
Proof.
  intros Hrow Hwf. unfold DataCleaner.filter_step, DataCleaner.truthy.
  destruct d as [s|]; [|intros [= <-]; repeat split; auto].
  destruct (negb (String.eqb s "")); [|intros [= <-]; repeat split; auto].
  destruct (getitem df date_column) as [col|e] eqn:Hcol; cbn [rbind]; [|discriminate].
  destruct (compare col s) as [mask|e] eqn:Hmask; cbn [rbind]; [|discriminate].
  intros [= <-].
  assert (Hlen : length mask = nrows df).
  { rewrite (Hrow col s mask Hmask). exact (well_formed_getitem df date_column col Hwf Hcol). }
  split; [apply well_formed_select_rows; assumption|].
  split; [apply names_select_rows|].
  split; [|discriminate].
  unfold select_rows. cbn [nrows]. rewrite <- Hlen. apply count_true_le.
Qed.

(** X29.  [filter_by_date_range] on a well-formed table, whatever the
    parsing and the comparison of dates do, as long as a comparison
    gives one Boolean for each record.  Without the column it returns
    the table as it is, dates or not.  With the column, on a table
    without records it never returns: it raises what a comparison
    raises, or else [ZeroDivisionError], and the latter whenever no
    date is given.  When it returns on a table with the column, the
    table has records, the result has the columns of the input and no
    more records, and is the input itself if neither date counts; an
    empty string for a date is as no date. *)
Theorem filter_by_date_range_outcome
    (ge_datetime le_datetime : Series -> string -> result (list bool))
    (df : DataFrame) (date_column : string) (start_date end_date : option string) :
  row_wise ge_datetime -> row_wise le_datetime -> well_formed df ->
  let run := DataCleaner.filter_by_date_range ge_datetime le_datetime df date_column in
  (has_column df date_column = false -> run start_date end_date = Returns df)
  /\ (has_column df date_column = true -> nrows df = 0%nat ->
        (forall out, run start_date end_date <> Returns out)
        /\ (run start_date end_date = RaisesZeroDivisionError "division by zero"
            \/ exists e, run start_date end_date = Raises e)
        /\ run None None = RaisesZeroDivisionError "division by zero")
  /\ (forall out, has_column df date_column = true ->
        run start_date end_date = Returns out ->
        nrows df <> 0%nat
        /\ well_formed out
        /\ column_names out = column_names df
        /\ (nrows out <= nrows df)%nat
        /\ (DataCleaner.truthy start_date = false ->
            DataCleaner.truthy end_date = false -> out = df))
  /\ run (Some "") end_date = run None end_date
  /\ run start_date (Some "") = run start_date None.
Proof.
  intros Hge Hle Hwf run. unfold run, DataCleaner.filter_by_date_range.
  split; [intros ->; reflexivity|].
  split; [|split; [|split; reflexivity]].
  - intros -> Hn. cbn [negb]. rewrite Hn. cbn [Nat.eqb DataCleaner.filter_step].
    split; [|split; [|reflexivity]].
    + intros out.
      destruct (DataCleaner.filter_step ge_datetime date_column start_date df) as [d|e];
        [|discriminate].
      destruct (DataCleaner.filter_step le_datetime date_column end_date d);
        discriminate.
    + destruct (DataCleaner.filter_step ge_datetime date_column start_date df) as [d|e];
        [|right; exists e; reflexivity].
      destruct (DataCleaner.filter_step le_datetime date_column end_date d) as [d'|e];
        [left; reflexivity|right; exists e; reflexivity].
  - intros out -> . cbn [negb].
    destruct (DataCleaner.filter_step ge_datetime date_column start_date df)
      as [df1|e] eqn:E1; [|discriminate].
    destruct (DataCleaner.filter_step le_datetime date_column end_date df1)
      as [df2|e] eqn:E2; [|discriminate].
    destruct (Nat.eqb (nrows df) 0) eqn:En; [discriminate|]. intros [= <-].
    destruct (filter_step_frame _ _ _ _ _ Hge Hwf E1) as (Hwf1 & Hn1 & Hr1 & Hs1).
    destruct (filter_step_frame _ _ _ _ _ Hle Hwf1 E2) as (Hwf2 & Hn2 & Hr2 & Hs2).
    split; [apply Nat.eqb_neq; exact En|].
    split; [exact Hwf2|]. split; [congruence|]. split; [lia|].
    intros Hs He. rewrite (Hs2 He). exact (Hs1 Hs).
Qed.

Lemma filter_step_names (compare : Series -> string -> result (list bool))
    (date_column : string) (d : option string) (df out : DataFrame) :
  DataCleaner.filter_step compare date_column d df = Ok out ->
  column_names out = column_names df.
Proof.
  unfold DataCleaner.filter_step.
  destruct d as [s|]; [|intros [= <-]; reflexivity].
  destruct (negb (String.eqb s "")); [|intros [= <-]; reflexivity].
  destruct (getitem df date_column) as [col|e]; cbn [rbind]; [|discriminate].
  destruct (compare col s) as [mask|e]; cbn [rbind]; [|discriminate].
  intros [= <-]. apply names_select_rows.
Qed.

(** X30.  Filtering in two calls, first from the start date and then
    up to the end date, against one call with both dates (well-formed
    table that has the column, comparisons that give one Boolean for
    each record).  When the first call returns a table with records,
    the second call gives what the one call gives.  When the first call
    returns a table without records, the second call never returns;
    where the one call returns, its table has no records and the second
    call raises [ZeroDivisionError]. *)
Theorem filter_by_date_range_in_two_calls
    (ge_datetime le_datetime : Series -> string -> result (list bool))
    (df df1 : DataFrame) (date_column : string) (start_date end_date : option string) :
  row_wise ge_datetime -> row_wise le_datetime -> well_formed df ->
  has_column df date_column = true ->
  DataCleaner.filter_by_date_range ge_datetime le_datetime df date_column
    start_date None = Returns df1 ->
  let one := DataCleaner.filter_by_date_range ge_datetime le_datetime df date_column
               start_date end_date in
  let two := DataCleaner.filter_by_date_range ge_datetime le_datetime df1 date_column
               None end_date in
  (nrows df1 <> 0%nat -> two = one)
  /\ (nrows df1 = 0%nat ->
        (forall out, two <> Returns out)
        /\ (forall out, one = Returns out ->
              two = RaisesZeroDivisionError "division by zero"
              /\ nrows out = 0%nat)).
Proof.
  intros Hge Hle Hwf Hcol Hfirst one two. unfold one, two.
  unfold DataCleaner.filter_by_date_range in *. rewrite Hcol in *. cbn [negb] in *.
  destruct (DataCleaner.filter_step ge_datetime date_column start_date df)
    as [d1|e] eqn:E1; [|discriminate Hfirst].
  cbn [DataCleaner.filter_step] in Hfirst.
  destruct (Nat.eqb (nrows df) 0) eqn:En; [discriminate Hfirst|].
  injection Hfirst as ->.
  assert (Hcol1 : has_column df1 date_column = true).
  { unfold has_column. rewrite (filter_step_names _ _ _ _ _ E1). exact Hcol. }
  destruct (filter_step_frame _ _ _ _ _ Hge Hwf E1) as (Hwf1 & _).
  rewrite Hcol1. cbn [negb DataCleaner.filter_step].
  split.
  - intros Hn. apply Nat.eqb_neq in Hn. rewrite Hn. reflexivity.
  - intros Hn. rewrite Hn. cbn [Nat.eqb]. split.
    + intros out.
      destruct (DataCleaner.filter_step le_datetime date_column end_date df1);
        discriminate.
    + intros out.
      destruct (DataCleaner.filter_step le_datetime date_column end_date df1)
        as [d2|e] eqn:E2; [|discriminate].
      intros [= <-]. split; [reflexivity|].
      destruct (filter_step_frame _ _ _ _ _ Hle Hwf1 E2) as (_ & _ & Hr & _). lia.
Qed.

Lemma create_age_groups_any_bins_witness :
  exists (out : DataFrame) (groups : list (option string)),
    DataCleaner.create_age_groups
      Examples.ages "Age" (Some Examples.two_bins) (Some Examples.two_labels) "Age_Group"
    = Ok out /\
    getitem out "Age_Group" = Ok (Category Examples.two_labels groups) /\
    length groups = 5%nat /\
    forall (i : nat) (q : Q),
      nth_error [Some 3; Some 10; Some 25; Some 45; Some 65] i = Some (Some q) ->
      0 <= q -> q < 120 ->
      exists (k : nat) (label : string),
        nth_error Examples.two_labels k = Some label /\
        nth_error groups i = Some (Some label) /\
        in_bin Examples.two_bins k q /\
        (forall k' : nat, (k' < 2)%nat -> in_bin Examples.two_bins k' q -> k' = k).
Proof.
  apply (create_age_groups_any_bins Examples.ages "Age" "Age_Group"
           Examples.two_bins Examples.two_labels
           [Some 3; Some 10; Some 25; Some 45; Some 65]).
  - reflexivity.
  - unfold Examples.two_bins.
    repeat constructor.
  - discriminate.
  - unfold Examples.two_labels.
    repeat (apply List.NoDup_cons; [simpl; intuition discriminate|]).
    apply List.NoDup_nil.
  - reflexivity.
Defined.

Lemma create_age_groups_out_of_range_witness :
  exists (out : DataFrame) (groups : list (option string)),
    DataCleaner.create_age_groups
      Examples.too_old "Age" (Some Examples.two_bins) (Some Examples.two_labels) "Age_Group"
    = Ok out /\
    getitem out "Age_Group" = Ok (Category Examples.two_labels groups) /\
    forall (i : nat) (x : float),
      nth_error [Some 150; Some 200] i = Some x ->
      match x with
      | None => True
      | Some q => q < 0 \/ 120 <= q
      end ->
      nth_error groups i = Some None.
Proof.
  apply (create_age_groups_out_of_range Examples.too_old "Age" "Age_Group"
           Examples.two_bins Examples.two_labels [Some 150; Some 200]).
  - reflexivity.
  - unfold Examples.two_bins.
    repeat constructor.
  - discriminate.
  - unfold Examples.two_labels.
    repeat (apply List.NoDup_cons; [simpl; intuition discriminate|]).
    apply List.NoDup_nil.
  - reflexivity.
Defined.

Lemma quality_categories_partition_witness :
  exists (out : DataFrame) (cats : list (option string)),
    DataCleaner.create_biometric_quality_categories
      Examples.scores "Biometric_Quality_Score" "Quality_Category" = Ok out /\
    getitem out "Quality_Category" = Ok (Category DataCleaner.quality_labels cats) /\
    length cats = 4%nat /\
    forall (i : nat) (x : float),
      nth_error [Some 35; Some 55; Some 75; Some 95] i = Some x ->
      match x with
      | None => nth_error cats i = Some None
      | Some q =>
          (0 <= q -> q < 101 ->
           exists (k : nat) (label : string),
             nth_error DataCleaner.quality_labels k = Some label /\
             nth_error cats i = Some (Some label) /\
             in_bin DataCleaner.quality_bins k q /\
             (forall k' : nat,
                 (k' < 4)%nat -> in_bin DataCleaner.quality_bins k' q -> k' = k)) /\
          (q == 100 -> nth_error cats i = Some (Some "Excellent (81-100)")) /\
          (q < 0 \/ 101 <= q -> nth_error cats i = Some None)
      end.
Proof.
  apply (quality_categories_partition Examples.scores
           "Biometric_Quality_Score" "Quality_Category"
           [Some 35; Some 55; Some 75; Some 95]).
  reflexivity.
Defined.

Lemma create_age_groups_frame_witness :
  nrows Examples.grouped = 5%nat /\
  (forall other : string,
      other <> "Age_Group" -> getitem Examples.grouped other = getitem Examples.ages other) /\
  column_names Examples.grouped = ["Age"; "Age_Group"] /\
  (well_formed Examples.ages -> well_formed Examples.grouped).
Proof.
  apply (create_age_groups_frame Examples.ages Examples.grouped "Age" "Age_Group" None None).
  - reflexivity.
  - vm_compute. reflexivity.
Defined.

Lemma handle_missing_values_nothing_to_do_witness :
  let out := DataCleaner.handle_missing_values 0%nat "fill_median" (1 # 2)
               Examples.store_ages in
  exists r : ref,
    fst out = Ok r /\ Examples.store_ages !! r = None /\
    snd out = <[r := Examples.ages]> Examples.store_ages /\
    snd out !! r = Some Examples.ages.
Proof.
  apply (handle_missing_values_nothing_to_do Examples.store_ages 0%nat Examples.ages
           "fill_median" (1 # 2)).
  - reflexivity.
  - left. unfold complete, Examples.ages. cbn [columns].
    repeat constructor.
Defined.

Lemma drop_rows_leaves_no_missing_witness :
  let out := DataCleaner.handle_missing_values 0%nat "drop_rows" (1 # 2) Examples.store in
  exists (r : ref) (tbl' : DataFrame),
    fst out = Ok r /\ snd out !! r = Some tbl' /\
    complete tbl' /\
    column_names tbl' = ["a"; "b"] /\
    well_formed tbl' /\
    nrows tbl' = 0%nat /\
    (nrows tbl' <= 3)%nat.
Proof.
  apply (drop_rows_leaves_no_missing Examples.store 0%nat Examples.thirds (1 # 2)).
  - reflexivity.
  - unfold well_formed, Examples.thirds. cbn [columns nrows].
    repeat constructor.
Defined.

Lemma drop_cols_keeps_complete_columns_witness :
  let out := DataCleaner.handle_missing_values 0%nat "drop_cols" (1 # 2) Examples.store in
  let out' := DataCleaner.handle_missing_values 0%nat "drop_cols" (3 # 4) Examples.store in
  exists (r r' : ref) (kept kept' : DataFrame),
    fst out = Ok r /\ snd out !! r = Some kept /\
    fst out' = Ok r' /\ snd out' !! r' = Some kept' /\
    nrows kept = nrows Examples.thirds /\
    columns kept
    = List.filter (fun c => existsb (String.eqb (fst c)) (column_names kept))
        (columns Examples.thirds) /\
    (forall c, In c (columns Examples.thirds) -> count_true (isnull (snd c)) = 0%nat ->
               In c (columns kept)) /\
    (forall c, In c (columns kept) -> In c (columns kept')).
Proof.
  apply (drop_cols_keeps_complete_columns Examples.store 0%nat Examples.thirds
           (1 # 2) (3 # 4)).
  - reflexivity.
  - unfold column_names, Examples.thirds. cbn [columns map fst].
    repeat (apply List.NoDup_cons; [simpl; intuition discriminate|]).
    apply List.NoDup_nil.
  - unfold Qle. simpl. lia.
Defined.

Lemma drop_cols_threshold_extremes_witness :
  let out := DataCleaner.handle_missing_values 0%nat "drop_cols" 1 Examples.store in
  exists r : ref,
    fst out = Ok r /\ Examples.store !! r = None /\ snd out !! r = Some Examples.thirds.
Proof.
  refine (proj1 (drop_cols_threshold_extremes Examples.store 0%nat Examples.thirds 1 _ _) _).
  - reflexivity.
  - unfold well_formed, Examples.thirds. cbn [columns nrows].
    repeat constructor.
  - apply Qle_refl.
Defined.

Lemma fill_mode_fills_text_columns_witness :
  let out := DataCleaner.handle_missing_values 0%nat "fill_mode" (1 # 2) Examples.store in
  exists (r : ref) (tbl' : DataFrame),
    fst out = Ok r /\ Examples.store !! r = None /\ snd out = <[r := tbl']> Examples.store /\
    nrows tbl' = 3%nat /\
    columns tbl'
    = map (fun c : string * Series =>
             if DataCleaner.is_text (snd c) then (fst c, text_filled (snd c)) else c)
          (columns Examples.thirds) /\
    column_names tbl' = ["a"; "b"] /\
    (forall c, In c (columns tbl') -> DataCleaner.is_text (snd c) = true ->
               count_true (isnull (snd c)) = 0%nat).
Proof.
  apply (fill_mode_fills_text_columns Examples.store 0%nat Examples.thirds (1 # 2)).
  - reflexivity.
  - unfold column_names, Examples.thirds. cbn [columns map fst].
    repeat (apply List.NoDup_cons; [simpl; intuition discriminate|]).
    apply List.NoDup_nil.
  - unfold Examples.thirds. cbn [columns].
    intros name cats v [H|[H|[]]]; discriminate H.
Defined.

Lemma fill_median_fills_numeric_columns_witness :
  let out := DataCleaner.handle_missing_values 0%nat "fill_median" (1 # 2) Examples.store in
  exists (r : ref) (tbl' : DataFrame),
    fst out = Ok r /\ Examples.store !! r = None /\ snd out = <[r := tbl']> Examples.store /\
    nrows tbl' = 3%nat /\
    column_names tbl' = ["a"; "b"] /\
    (forall name s, In (name, s) (columns Examples.thirds) ->
                    DataCleaner.is_number s = false -> In (name, s) (columns tbl')) /\
    (forall name v, In (name, Float64 v) (columns Examples.thirds) ->
                    In (name, median_filled v) (columns tbl')) /\
    (forall name v x, In (name, Float64 v) (columns Examples.thirds) -> In (Some x) v ->
       exists m lo hi,
         median_filled v = Float64 (fill m v) /\ ~ In None (fill m v) /\
         In (Some lo) v /\ In (Some hi) v /\ lo <= m /\ m <= hi).
Proof.
  apply (fill_median_fills_numeric_columns Examples.store 0%nat Examples.thirds (1 # 2)).
  - reflexivity.
  - unfold column_names, Examples.thirds. cbn [columns map fst].
    repeat (apply List.NoDup_cons; [simpl; intuition discriminate|]).
    apply List.NoDup_nil.
Defined.

Lemma fill_mode_unknown_category_raises_witness :
  fst (DataCleaner.handle_missing_values 0%nat "fill_mode" (1 # 2) Examples.store_too_old)
  = Raise (TypeError "Cannot setitem on a Categorical with a new category, set the categories first").
Proof.
  apply (fill_mode_unknown_category_raises Examples.store_too_old 0%nat Examples.too_old
           (1 # 2) "Age_Group" DataCleaner.default_age_labels [None; None]).
  - reflexivity.
  - unfold column_names, Examples.too_old. cbn [columns map fst].
    repeat (apply List.NoDup_cons; [simpl; intuition discriminate|]).
    apply List.NoDup_nil.
  - right. left. reflexivity.
  - left. reflexivity.
  - intros x [H|[H|[]]]; discriminate H.
  - unfold DataCleaner.default_age_labels. simpl. intuition discriminate.
Defined.

Lemma higher_threshold_flags_fewer_witness :
  exists flags1 flags2 : list bool,
    getitem (fst Examples.flagged) "is_anomaly" = Ok (Boolean flags1) /\
    getitem (fst Examples.flagged_at_4) "is_anomaly" = Ok (Boolean flags2) /\
    length flags1 = length flags2 /\
    (forall i, nth_error flags2 i = Some true -> nth_error flags1 i = Some true) /\
    (StatisticalTests.n_anomalies (snd Examples.flagged_at_4)
     <= StatisticalTests.n_anomalies (snd Examples.flagged))%nat /\
    StatisticalTests.total_records (snd Examples.flagged_at_4)
    = StatisticalTests.total_records (snd Examples.flagged).
Proof.
  apply (higher_threshold_flags_fewer Examples.outlier "Age_Group" "Biometric_Quality_Score"
           2 4 (fst Examples.flagged) (fst Examples.flagged_at_4)
           (snd Examples.flagged) (snd Examples.flagged_at_4)).
  - discriminate.
  - vm_compute. reflexivity.
  - vm_compute. reflexivity.
Defined.

Lemma detect_keeps_records_with_group_witness :
  exists key_col : Series,
    getitem Examples.outlier "Age_Group" = Ok key_col /\
    let present := map (fun k => negb (is_none k)) (series_keys key_col) in
    nrows (fst Examples.flagged) = count_true present /\
    well_formed (fst Examples.flagged) /\
    (forall (name : string) (col : Series),
        ~ In name ["group_mean"; "group_std"; "z_score"; "is_anomaly"; "anomaly_type"] ->
        getitem Examples.outlier name = Ok col ->
        getitem (fst Examples.flagged) name = Ok (series_select present col)) /\
    StatisticalTests.total_records (snd Examples.flagged) = count_true present /\
    (StatisticalTests.n_anomalies (snd Examples.flagged)
     <= StatisticalTests.total_records (snd Examples.flagged))%nat /\
    StatisticalTests.anomaly_rate (snd Examples.flagged)
    = percent_of (StatisticalTests.n_anomalies (snd Examples.flagged))
        (StatisticalTests.total_records (snd Examples.flagged)) /\
    StatisticalTests.threshold_std_used (snd Examples.flagged) = 2.
Proof.
  apply (detect_keeps_records_with_group Examples.outlier (fst Examples.flagged)
           "Age_Group" "Biometric_Quality_Score" 2 (snd Examples.flagged)).
  - unfold well_formed, Examples.outlier. cbn [columns nrows]. repeat constructor.
  - vm_compute. reflexivity.
Defined.

Lemma age_distribution_counts_witness :
  exists (summary : DataFrame) (counts : list nat) (percentages : list float),
    Analyzer.analyze_age_distribution Examples.outlier "Age_Group" = Ok summary /\
    nrows summary = length counts /\
    counts
    = map snd
        (value_counts
           (Object [Some "A"; Some "A"; Some "A"; Some "A"; Some "A"; Some "A";
                    Some "A"; Some "A"; Some "A"; Some "A"; Some "A"; Some "B"; None])) /\
    getitem summary "Count"
    = Ok (Float64 (map (fun n => Some (inject_Z (Z.of_nat n))) counts)) /\
    getitem summary "Percentage" = Ok (Float64 percentages) /\
    length percentages = length counts /\
    (forall p, In p percentages -> exists q, p = Some q /\ 0 <= q /\ q <= 100) /\
    total counts
    = count_true
        (map (fun k => negb (is_none k))
           (series_keys
              (Object [Some "A"; Some "A"; Some "A"; Some "A"; Some "A"; Some "A";
                       Some "A"; Some "A"; Some "A"; Some "A"; Some "A"; Some "B"; None]))) /\
    (total counts <= nrows Examples.outlier)%nat.
Proof.
  refine (proj1 (age_distribution_counts Examples.outlier "Age_Group"
                   (Object [Some "A"; Some "A"; Some "A"; Some "A"; Some "A"; Some "A";
                            Some "A"; Some "A"; Some "A"; Some "A"; Some "A"; Some "B"; None])
                   _ _ _) _).
  - unfold well_formed, Examples.outlier. cbn [columns nrows]. repeat constructor.
  - reflexivity.
  - exact I.
  - exists (Str "A"). left. reflexivity.
Defined.

Lemma cleaning_summary_after_missing_values_witness :
  (let out := DataCleaner.handle_missing_values 0%nat "drop_rows" (1 # 2) Examples.store in
   exists (r : ref) (tbl' : DataFrame) (s : DataCleaner.cleaning_summary),
     fst out = Ok r /\ snd out !! r = Some tbl' /\
     DataCleaner.get_cleaning_summary Examples.thirds tbl' = Returns s /\
     DataCleaner.records_removed s
     = (Z.of_nat (nrows Examples.thirds)
        - Z.of_nat (count_true (map (row_complete Examples.thirds)
                                  (seq 0 (nrows Examples.thirds)))))%Z /\
     (0 <= DataCleaner.records_removed s)%Z /\
     0 <= DataCleaner.removal_percentage s /\
     DataCleaner.removal_percentage s <= 100 /\
     DataCleaner.columns_removed s = 0%Z) /\
  (let out := DataCleaner.handle_missing_values 0%nat "drop_cols" (1 # 2) Examples.store in
   exists (r : ref) (tbl' : DataFrame) (s : DataCleaner.cleaning_summary),
     fst out = Ok r /\ snd out !! r = Some tbl' /\
     DataCleaner.get_cleaning_summary Examples.thirds tbl' = Returns s /\
     DataCleaner.records_removed s = 0%Z /\
     DataCleaner.removal_percentage s == 0 /\
     (0 <= DataCleaner.columns_removed s)%Z).
Proof.
  apply (cleaning_summary_after_missing_values Examples.store 0%nat Examples.thirds (1 # 2)).
  - reflexivity.
  - discriminate.
Defined.

Lemma iqr_outliers_witness :
  exists (outliers : DataFrame) (Q1 Q3 lower upper : float) (pct : Q) (mask : list bool),
    Analyzer.identify_outliers Examples.steady "Biometric_Quality_Score" "iqr"
    = Some (Returns (outliers,
                     Analyzer.iqr_stats Q1 Q3 (fsub Q3 Q1) lower upper (nrows outliers) pct)) /\
    Q1 = Analyzer.quantile [Some 70; None; Some 70; Some 70] (1 # 4) /\
    Q3 = Analyzer.quantile [Some 70; None; Some 70; Some 70] (3 # 4) /\
    outliers = select_rows mask Examples.steady /\
    column_names outliers = column_names Examples.steady /\
    (nrows outliers <= nrows Examples.steady)%nat /\
    0 <= pct /\ pct <= 100 /\
    length mask = 4%nat /\
    nth_error mask 1 = Some false /\
    nrows outliers = 0%nat /\ pct == 0.
Proof.
  destruct (iqr_outliers Examples.steady "Biometric_Quality_Score"
              [Some 70; None; Some 70; Some 70])
    as (outliers & Q1 & Q3 & lower & upper & pct & mask & H1 & H2 & H3 & H4 & H5 & H6
        & H7 & H8 & H9 & Hmissing & Hsame).
  - unfold well_formed, Examples.steady. cbn [columns nrows]. repeat constructor.
  - reflexivity.
  - discriminate.
  - exists outliers, Q1, Q3, lower, upper, pct, mask.
    repeat (split; [assumption|]).
    split; [apply Hmissing; reflexivity|].
    apply (Hsame 70). intros x [H|[H|[H|[H|[]]]]]; try discriminate H;
      injection H as <-; reflexivity.
Defined.


Lemma remove_duplicates_idempotent_witness :
  (exists dup : list bool,
      duplicated Examples.deduplicated None (keep_str "first") = Ok dup /\
      count_true dup = 0%nat) /\
  DataCleaner.remove_duplicates Examples.deduplicated None (keep_str "first")
  = Ok Examples.deduplicated.
Proof.
  apply (remove_duplicates_idempotent Examples.repeated Examples.deduplicated
           None (keep_str "first")).
  - unfold well_formed, Examples.repeated. cbn [columns nrows]. repeat constructor.
  - vm_compute. reflexivity.
Defined.

Lemma remove_duplicates_keeps_one_of_each_witness :
  column_names Examples.deduplicated = column_names Examples.repeated /\
  well_formed Examples.deduplicated /\
  (nrows Examples.deduplicated <= nrows Examples.repeated)%nat /\
  (keep_str "first" = keep_str "first" \/ keep_str "first" = keep_str "last" ->
   forall k, In k (key_records Examples.repeated None) ->
             existsb (record_eqb k) (key_records Examples.deduplicated None) = true) /\
  (keep_str "first" = keep_False -> columns Examples.repeated <> [] ->
   forall k, In k (key_records Examples.deduplicated None) <->
             In k (key_records Examples.repeated None) /\
             length (List.filter (record_eqb k) (key_records Examples.repeated None))
             = 1%nat).
Proof.
  apply (remove_duplicates_keeps_one_of_each Examples.repeated Examples.deduplicated
           None (keep_str "first")).
  - unfold well_formed, Examples.repeated. cbn [columns nrows]. repeat constructor.
  - vm_compute. reflexivity.
Defined.

Lemma get_data_info_consistent_witness :
  exists (info : DataLoader.data_info) (out : DataFrame),
    DataLoader.get_data_info (fun _ => 0%nat) Examples.repeated "Enrolment Data" = Ok info /\
    DataLoader.total_records info = nrows Examples.repeated /\
    DataLoader.total_columns info = length (columns Examples.repeated) /\
    (DataLoader.missing_values info = 0%nat <-> complete Examples.repeated) /\
    DataCleaner.remove_duplicates Examples.repeated None (keep_str "first") = Ok out /\
    (nrows out + DataLoader.duplicate_rows info = DataLoader.total_records info)%nat /\
    (nrows Examples.repeated <> 0%nat ->
     (DataLoader.duplicate_rows info < DataLoader.total_records info)%nat).
Proof.
  apply (get_data_info_consistent (fun _ => 0%nat) Examples.repeated "Enrolment Data").
  unfold well_formed, Examples.repeated. cbn [columns nrows]. repeat constructor.
Defined.

Lemma standardize_idempotent_witness :
  let out := DataCleaner.standardize_categorical_columns Examples.places
               ["State"; "Age"; "District"] "title" in
  DataCleaner.standardize_categorical_columns out ["State"; "Age"; "District"] "title"
  = out.
Proof.
  apply (standardize_idempotent Examples.places ["State"; "Age"; "District"] "title").
  - unfold column_names, Examples.places. cbn [columns map fst].
    repeat constructor; cbn [In]; intros H; decompose [or] H; try discriminate; assumption.
  - vm_compute. reflexivity.
Defined.

Lemma standardize_frame_witness :
  let out := DataCleaner.standardize_categorical_columns Examples.places
               ["State"; "Age"; "District"] "title" in
  nrows out = nrows Examples.places
  /\ column_names out = column_names Examples.places
  /\ (forall name, ~ In name ["State"; "Age"; "District"] ->
        getitem out name = getitem Examples.places name)
  /\ (forall name s, getitem Examples.places name = Ok s -> (forall v, s <> Object v) ->
        getitem out name = Ok s)
  /\ (forall name v, In name ["State"; "Age"; "District"] ->
        getitem Examples.places name = Ok (Object v) ->
        exists w, getitem out name = Ok (Object w)
          /\ length w = length v
          /\ (forall i, nth i w None
                        = option_map (DataCleaner.standardize_text "title") (nth i v None))
          /\ (forall x, In (Some x) w ->
                strip x = x /\ DataCleaner.standardize_text "title" x = x)).
Proof.
  apply (standardize_frame Examples.places ["State"; "Age"; "District"] "title").
  - unfold column_names, Examples.places. cbn [columns map fst].
    repeat constructor; cbn [In]; intros H; decompose [or] H; try discriminate; assumption.
  - vm_compute. reflexivity.
Defined.

Lemma filter_by_date_range_outcome_witness :
  let run := DataCleaner.filter_by_date_range Examples.on_or_after Examples.on_or_before
               Examples.updates "Update_Date" in
  (has_column Examples.updates "Update_Date" = false ->
   run (Some "2022-01-01") None = Returns Examples.updates)
  /\ (has_column Examples.updates "Update_Date" = true ->
      nrows Examples.updates = 0%nat ->
        (forall out, run (Some "2022-01-01") None <> Returns out)
        /\ (run (Some "2022-01-01") None = RaisesZeroDivisionError "division by zero"
            \/ exists e, run (Some "2022-01-01") None = Raises e)
        /\ run None None = RaisesZeroDivisionError "division by zero")
  /\ (forall out, has_column Examples.updates "Update_Date" = true ->
        run (Some "2022-01-01") None = Returns out ->
        nrows Examples.updates <> 0%nat
        /\ well_formed out
        /\ column_names out = column_names Examples.updates
        /\ (nrows out <= nrows Examples.updates)%nat
        /\ (DataCleaner.truthy (Some "2022-01-01") = false ->
            DataCleaner.truthy None = false -> out = Examples.updates))
  /\ run (Some "") None = run None None
  /\ run (Some "2022-01-01") (Some "") = run (Some "2022-01-01") None.
Proof.
  apply (filter_by_date_range_outcome Examples.on_or_after Examples.on_or_before
           Examples.updates "Update_Date" (Some "2022-01-01") None).
  - intros s d mask. unfold Examples.on_or_after.
    destruct s; try discriminate. intros [= <-]. apply length_map.
  - intros s d mask. unfold Examples.on_or_before.
    destruct s; try discriminate. intros [= <-]. apply length_map.
  - unfold well_formed, Examples.updates. cbn [columns nrows]. repeat constructor.
Defined.

Lemma filter_by_date_range_in_two_calls_witness :
  let one := DataCleaner.filter_by_date_range Examples.on_or_after Examples.on_or_before
               Examples.updates "Update_Date" (Some "2022-01-01") (Some "2023-01-01") in
  let two := DataCleaner.filter_by_date_range Examples.on_or_after Examples.on_or_before
               Examples.recent "Update_Date" None (Some "2023-01-01") in
  (nrows Examples.recent <> 0%nat -> two = one)
  /\ (nrows Examples.recent = 0%nat ->
        (forall out, two <> Returns out)
        /\ (forall out, one = Returns out ->
              two = RaisesZeroDivisionError "division by zero"
              /\ nrows out = 0%nat)).
Proof.
  apply (filter_by_date_range_in_two_calls Examples.on_or_after Examples.on_or_before
           Examples.updates Examples.recent "Update_Date"
           (Some "2022-01-01") (Some "2023-01-01")).
  - intros s d mask. unfold Examples.on_or_after.
    destruct s; try discriminate. intros [= <-]. apply length_map.
  - intros s d mask. unfold Examples.on_or_before.
    destruct s; try discriminate. intros [= <-]. apply length_map.
  - unfold well_formed, Examples.updates. cbn [columns nrows]. repeat constructor.
  - reflexivity.
  - vm_compute. reflexivity.
Defined.

(** ** Absent columns: the operations that check *)






(** ** Comparisons of doubles *)

Section DoubleComparisons.

Import PrimFloat.
Local Open Scope float_scope.

Lemma SFcompare_flip (x y : SpecFloat.spec_float) :
  SpecFloat.SFcompare y x = option_map CompOpp (SpecFloat.SFcompare x y).
Proof.
  destruct x as [sx|sx| |sx mx ex], y as [sy|sy| |sy my ey]; cbn;
    try reflexivity; try (destruct sx; reflexivity); try (destruct sy; reflexivity);
    try (destruct sx, sy; reflexivity).
  assert (Hm : Pos.compare_cont Eq my mx = CompOpp (Pos.compare_cont Eq mx my)).
  { rewrite (Pos.compare_cont_antisym mx my Eq). reflexivity. }
  destruct sx, sy; cbn; try reflexivity;
    rewrite (Z.compare_antisym ex ey), Hm;
    destruct (Z.compare ex ey); cbn; try reflexivity;
    destruct (Pos.compare_cont Eq mx my); reflexivity.
Qed.

Lemma SFcompare_Eq_trans (x y z : SpecFloat.spec_float) :
  SpecFloat.SFcompare x y = Some Eq -> SpecFloat.SFcompare y z = Some Eq ->
  SpecFloat.SFcompare x z = Some Eq.
Proof.
  assert (Hfin : forall (s1 s2 : bool) m1 m2 e1 e2,
             SpecFloat.SFcompare (SpecFloat.S754_finite s1 m1 e1)
               (SpecFloat.S754_finite s2 m2 e2) = Some Eq ->
             s1 = s2 /\ m1 = m2 /\ e1 = e2).
  { intros s1 s2 m1 m2 e1 e2. cbn.
    destruct s1, s2; try discriminate;
      destruct (Z.compare e1 e2) eqn:Ee; try discriminate;
      destruct (Pos.compare_cont Eq m1 m2) eqn:Em; try discriminate;
      intros _; apply Z.compare_eq in Ee; apply Pos.compare_eq in Em; auto. }
  destruct x as [sx|sx| |sx mx ex], y as [sy|sy| |sy my ey], z as [sz|sz| |sz mz ez];
    try (cbn; congruence);
    try (cbn; destruct sx; congruence); try (cbn; destruct sy; congruence);
    try (cbn; destruct sz; congruence);
    try (cbn; destruct sx, sy; congruence); try (cbn; destruct sy, sz; congruence);
    try (cbn; destruct sx, sz; congruence);
    try (cbn; destruct sx, sy, sz; congruence).
  intros H1 H2. destruct (Hfin _ _ _ _ _ _ H1) as (-> & -> & ->). exact H2.
Qed.

Lemma eqb_sym (x y : Doubles.double) : (x =? y) = (y =? x).
Proof.
  rewrite !FloatAxioms.eqb_spec. unfold SpecFloat.SFeqb.
  rewrite (SFcompare_flip (FloatOps.Prim2SF x) (FloatOps.Prim2SF y)).
  destruct (SpecFloat.SFcompare (FloatOps.Prim2SF x) (FloatOps.Prim2SF y)) as [[]|];
    reflexivity.
Qed.

Lemma eqb_trans (x y z : Doubles.double) :
  (x =? y) = true -> (y =? z) = true -> (x =? z) = true.
Proof.
  rewrite !FloatAxioms.eqb_spec. unfold SpecFloat.SFeqb.
  destruct (SpecFloat.SFcompare (FloatOps.Prim2SF x) (FloatOps.Prim2SF y))
    as [[]|] eqn:E1; try discriminate.
  destruct (SpecFloat.SFcompare (FloatOps.Prim2SF y) (FloatOps.Prim2SF z))
    as [[]|] eqn:E2; try discriminate.
  rewrite (SFcompare_Eq_trans _ _ _ E1 E2). reflexivity.
Qed.

Lemma eqb_refl (x : Doubles.double) : is_nan x = false -> (x =? x) = true.
Proof. unfold is_nan. destruct (x =? x); [reflexivity|discriminate]. Qed.



(** *** The flag and the label of a z-score *)

Ltac finish_label :=
  repeat split; intros; try reflexivity; try discriminate; try congruence.

Lemma label_cases (sz st : SpecFloat.spec_float) :
  let flag := SpecFloat.SFltb st (SpecFloat.SFabs sz) in
  let high := SpecFloat.SFltb st sz in
  let low := SpecFloat.SFltb sz (SpecFloat.SFopp st) in
  (flag = false -> high = false /\ low = false)
  /\ (SpecFloat.SFleb (SpecFloat.S754_zero false) st = true -> flag = true ->
      (low = false -> high = true /\ SpecFloat.SFltb (SpecFloat.S754_zero false) sz = true
                      /\ SpecFloat.SFltb sz (SpecFloat.S754_zero false) = false)
      /\ (low = true -> SpecFloat.SFltb sz (SpecFloat.S754_zero false) = true
                        /\ SpecFloat.SFltb (SpecFloat.S754_zero false) sz = false)).
Proof.
  unfold SpecFloat.SFltb, SpecFloat.SFleb.
  destruct sz as [s|s| |s m e], st as [s'|s'| |s' m' e']; cbn;
    try (finish_label; fail);
    try (destruct s; cbn; finish_label; fail);
    try (destruct s'; cbn; finish_label; fail);
    try (destruct s, s'; cbn; finish_label; fail).
  assert (Hm : Pos.compare_cont Eq m m' = CompOpp (Pos.compare_cont Eq m' m)).
  { rewrite (Pos.compare_cont_antisym m' m Eq). reflexivity. }
  destruct s, s'; cbn; rewrite ?(Z.compare_antisym e' e), ?Hm;
    destruct (Z.compare e' e); cbn; try (finish_label; fail);
    destruct (Pos.compare_cont Eq m' m); cbn; finish_label.
Qed.

(** A record that is not flagged is ['Normal']. *)
Lemma not_flagged_normal (z t : Doubles.double) :
  Doubles.is_anomaly z t = false -> Doubles.anomaly_type z t = "Normal".
Proof.
  unfold Doubles.is_anomaly, Doubles.anomaly_type.
  rewrite !FloatAxioms.ltb_spec, FloatAxioms.abs_spec, FloatAxioms.opp_spec.
  intros H. destruct (label_cases (FloatOps.Prim2SF z) (FloatOps.Prim2SF t)) as [Hn _].
  destruct (Hn H) as [-> ->]. reflexivity.
Qed.

(** For a threshold that is not negative, a flagged record is
    ['Unusually High Quality'] when its z-score is positive and
    ['Unusually Low Quality'] when it is negative. *)
Lemma flagged_by_sign (z t : Doubles.double) :
  (0 <=? t) = true -> Doubles.is_anomaly z t = true ->
  (Doubles.anomaly_type z t = "Unusually High Quality" <-> (0 <? z) = true)
  /\ (Doubles.anomaly_type z t = "Unusually Low Quality" <-> (z <? 0) = true).
Proof.
  unfold Doubles.is_anomaly, Doubles.anomaly_type.
  rewrite FloatAxioms.leb_spec, !FloatAxioms.ltb_spec, FloatAxioms.abs_spec,
    FloatAxioms.opp_spec.
  change (FloatOps.Prim2SF 0) with (SpecFloat.S754_zero false).
  intros Ht Hf.
  destruct (label_cases (FloatOps.Prim2SF z) (FloatOps.Prim2SF t)) as [_ Hs].
  destruct (Hs Ht Hf) as [Hhigh Hlow].
  destruct (SpecFloat.SFltb (FloatOps.Prim2SF z) (SpecFloat.SFopp (FloatOps.Prim2SF t))).
  - destruct (Hlow eq_refl) as [-> ->].
    destruct (SpecFloat.SFltb (FloatOps.Prim2SF t) (FloatOps.Prim2SF z)); finish_label.
  - destruct (Hhigh eq_refl) as (-> & -> & ->). finish_label.
Qed.

End DoubleComparisons.

(** ** Tables of doubles *)

Lemma frame_assoc_assign_same (name : string) (c : Doubles.Column) cols :
  Doubles.assoc name (Doubles.assign name c cols) = Some c.
Proof.
  induction cols as [|[n old] cols IH]; simpl.
  - rewrite String.eqb_refl. reflexivity.
  - destruct (String.eqb name n) eqn:E; simpl; rewrite E; [reflexivity|exact IH].
Qed.

Lemma frame_assoc_assign_other (name other : string) (c : Doubles.Column) cols :
  name <> other -> Doubles.assoc other (Doubles.assign name c cols) = Doubles.assoc other cols.
Proof.
  intros Hne. induction cols as [|[n old] cols IH]; simpl.
  - destruct (String.eqb_spec other name) as [->|_]; [congruence|reflexivity].
  - destruct (String.eqb_spec name n) as [<-|_]; simpl.
    + destruct (String.eqb_spec other name) as [->|_]; [congruence|reflexivity].
    + rewrite IH. reflexivity.
Qed.

Lemma frame_getitem_setitem_same (df : Doubles.Frame) (name : string) (c : Doubles.Column) :
  Doubles.getitem (Doubles.setitem df name c) name = Ok c.
Proof.
  unfold Doubles.getitem, Doubles.setitem. simpl. rewrite frame_assoc_assign_same.
  reflexivity.
Qed.

Lemma frame_getitem_setitem_other (df : Doubles.Frame) (name other : string)
    (c : Doubles.Column) :
  name <> other ->
  Doubles.getitem (Doubles.setitem df name c) other = Doubles.getitem df other.
Proof.
  intros H. unfold Doubles.getitem, Doubles.setitem. simpl.
  rewrite frame_assoc_assign_other by exact H. reflexivity.
Qed.

(** ** Groups of a table of doubles *)

Lemma key_eqb_sym (a b : Doubles.key) : Doubles.key_eqb a b = Doubles.key_eqb b a.
Proof.
  destruct a, b; simpl; try reflexivity.
  - apply eqb_sym.
  - apply String.eqb_sym.
  - destruct b, b0; reflexivity.
Qed.

Lemma key_eqb_trans (a b c : Doubles.key) :
  Doubles.key_eqb a b = true -> Doubles.key_eqb b c = true -> Doubles.key_eqb a c = true.
Proof.
  destruct a, b, c; simpl; try discriminate.
  - apply eqb_trans.
  - intros H1 H2. apply String.eqb_eq in H1, H2. subst. apply String.eqb_refl.
  - destruct b, b0, b1; auto.
Qed.

(** Equal keys select the same rows. *)
Lemma frame_has_key_compat (k k' : Doubles.key) (entry : option Doubles.key) :
  Doubles.key_eqb k k' = true -> Doubles.has_key k entry = Doubles.has_key k' entry.
Proof.
  intros H. destruct entry as [x|]; [|reflexivity]. simpl.
  destruct (Doubles.key_eqb k x) eqn:E1, (Doubles.key_eqb k' x) eqn:E2; try reflexivity.
  - rewrite key_eqb_sym in H. rewrite (key_eqb_trans _ _ _ H E1) in E2. discriminate.
  - rewrite (key_eqb_trans _ _ _ H E2) in E1. discriminate.
Qed.

Lemma group_values_compat {A} (k k' : Doubles.key) (keys : list (option Doubles.key))
    (values : list A) :
  Doubles.key_eqb k k' = true ->
  Doubles.group_values k keys values = Doubles.group_values k' keys values.
Proof.
  intros H. unfold Doubles.group_values. f_equal. apply map_ext.
  intros entry. apply frame_has_key_compat. exact H.
Qed.

Section Joined.

Variable observed : bool.
Variable groupby_mean groupby_std : list Doubles.double -> Doubles.double.
Variable key_col : Doubles.Column.
Variable quality : list Doubles.double.

Let stats := Doubles.group_stats observed groupby_mean groupby_std key_col quality.

(** The row of [group_stats] a key is joined to holds the mean and the
    deviation of the rows with that key. *)
Lemma find_group_stat (k : Doubles.key) (g : Doubles.group_stat) :
  Doubles.find_group stats (Some k) = Some g ->
  Doubles.stat_mean g
  = groupby_mean (Doubles.group_values k (Doubles.column_keys key_col) quality)
  /\ Doubles.stat_std g
     = groupby_std (Doubles.group_values k (Doubles.column_keys key_col) quality).
Proof.
  unfold Doubles.find_group. intros E. apply find_some in E. destruct E as [Hg Hk].
  unfold stats, Doubles.group_stats in Hg. apply in_map_iff in Hg.
  destruct Hg as (k' & <- & _). cbn [Doubles.stat_key Doubles.stat_mean Doubles.stat_std] in *.
  cbn [Doubles.has_key] in Hk.
  rewrite (group_values_compat k' k _ _ Hk). split; reflexivity.
Qed.

Lemma find_group_has_group (entry : option Doubles.key) :
  negb (is_none (Doubles.find_group stats entry)) = has_group observed key_col entry.
Proof.
  unfold Doubles.find_group, has_group, stats, Doubles.group_stats.
  induction (Doubles.group_keys observed key_col) as [|k ks IH]; [reflexivity|].
  cbn [map List.find existsb Doubles.stat_key].
  destruct (Doubles.has_key k entry); [reflexivity|exact IH].
Qed.

(** The [j]-th row of the merged table is the [j]-th record that has a
    group, joined to the statistics of that group. *)
Lemma nth_joined (l : list (option Doubles.key * Doubles.double)) :
  forall (j : nat) (entry : option Doubles.key) (x : Doubles.double),
    nth_error (List.filter (fun kx => has_group observed key_col (fst kx)) l) j
    = Some (entry, x) ->
    exists g,
      Doubles.find_group stats entry = Some g /\
      nth_error
        (somes (map (fun kx : option Doubles.key * Doubles.double =>
                       option_map (fun g => (snd kx, g)) (Doubles.find_group stats (fst kx)))
                    l)) j
      = Some (x, g).
Proof.
  induction l as [|[e0 x0] l IH]; intros j entry x Hj.
  - destruct j; discriminate.
  - cbn [List.filter map fst snd] in *.
    rewrite <- find_group_has_group in Hj.
    destruct (Doubles.find_group stats e0) as [g0|] eqn:E0;
      cbn [is_none negb option_map somes] in *.
    + destruct j as [|j].
      * cbn in Hj. injection Hj as <- <-. exists g0. split; [exact E0|reflexivity].
      * cbn [nth_error] in *. apply IH. exact Hj.
    + apply IH. exact Hj.
Qed.

End Joined.

(** ** Anomalies by z-score *)

Section ZScores.

Import PrimFloat.
Local Open Scope float_scope.

(** C5, amended.  In the table [detect_age_quality_anomalies] returns,
    the [j]-th record is the [j]-th record of the input that has a
    group.  Its [group_mean] and [group_std] are what pandas computes
    for the quality entries of its group, its [z_score] is
    [(value - group_mean) / group_std] in double precision, and it is
    flagged exactly when the magnitude of that z-score exceeds the
    threshold; a record that is not flagged is ['Normal'].  When the
    threshold is not negative, a flagged record is ['Unusually High
    Quality'] exactly for a positive z-score and ['Unusually Low
    Quality'] exactly for a negative one.  So a record of value 65 in a
    group of mean 50 and deviation 5 is ['Unusually High Quality'] at
    threshold 2 and ['Normal'] at threshold 4. *)
Theorem z_score_decides_anomaly
    (observed : bool) (groupby_mean groupby_std : list Doubles.double -> Doubles.double)
    (df : Doubles.Frame) (age_group_column quality_column : string)
    (threshold_std : Doubles.double)
    (key_col quality_col : Doubles.Column) (quality : list Doubles.double) :
  Doubles.getitem df age_group_column = Ok key_col ->
  Doubles.getitem df quality_column = Ok quality_col ->
  Doubles.numeric_values quality_col = Ok quality ->
  Doubles.has_column df "group_mean" = false ->
  Doubles.has_column df "group_std" = false ->
  exists (out : Doubles.Frame) (st : Doubles.anomaly_stats)
         (means stds zs : list Doubles.double) (flags : list bool) (types : list string),
    Doubles.detect_age_quality_anomalies observed groupby_mean groupby_std
      df age_group_column quality_column threshold_std = Ok (out, st) /\
    (forall name, ~ In name detection_columns ->
       Doubles.getitem out name
       = Doubles.getitem
           (Doubles.select_rows
              (map (has_group observed key_col) (Doubles.column_keys key_col)) df) name) /\
    Doubles.getitem out "group_mean" = Ok (Doubles.Doubles means) /\
    Doubles.getitem out "group_std" = Ok (Doubles.Doubles stds) /\
    Doubles.getitem out "z_score" = Ok (Doubles.Doubles zs) /\
    Doubles.getitem out "is_anomaly" = Ok (Doubles.Bools flags) /\
    Doubles.getitem out "anomaly_type" = Ok (Doubles.Strings (map Some types)) /\
    forall (j : nat) (k : Doubles.key) (x : Doubles.double),
      nth_error (joined_records observed key_col quality) j = Some (Some k, x) ->
      let group := Doubles.group_values k (Doubles.column_keys key_col) quality in
      let m := groupby_mean group in
      let s := groupby_std group in
      let z := (x - m) / s in
      nth_error means j = Some m /\
      nth_error stds j = Some s /\
      nth_error zs j = Some z /\
      nth_error flags j = Some (threshold_std <? abs z) /\
      exists label : string,
        nth_error types j = Some label /\
        ((threshold_std <? abs z) = false -> label = "Normal") /\
        ((0 <=? threshold_std) = true -> (threshold_std <? abs z) = true ->
         (label = "Unusually High Quality" <-> (0 <? z) = true) /\
         (label = "Unusually Low Quality" <-> (z <? 0) = true)) /\
        (x = 65 -> m = 50 -> s = 5 ->
         (threshold_std = 2 -> label = "Unusually High Quality") /\
         (threshold_std = 4 -> label = "Normal")).
Proof.
  intros Hk Hq Hn Hm Hs.
  unfold Doubles.detect_age_quality_anomalies.
  rewrite Hk, Hq. cbn [rbind]. rewrite Hn. cbn [rbind]. cbv zeta. rewrite Hm, Hs.
  set (stats := Doubles.group_stats observed groupby_mean groupby_std key_col quality).
  set (rows := Doubles.merged stats (Doubles.column_keys key_col) quality).
  do 7 eexists. split; [reflexivity|].
  split.
  { intros name Hname. unfold detection_columns in Hname. cbn [In] in Hname.
    rewrite !frame_getitem_setitem_other
      by (intros E; apply Hname; rewrite <- E; auto 10).
    f_equal. f_equal. apply map_ext. intros entry. apply find_group_has_group. }
  split.
  { rewrite !frame_getitem_setitem_other by discriminate.
    apply frame_getitem_setitem_same. }
  split.
  { rewrite !frame_getitem_setitem_other by discriminate.
    apply frame_getitem_setitem_same. }
  split.
  { rewrite !frame_getitem_setitem_other by discriminate.
    apply frame_getitem_setitem_same. }
  split.
  { rewrite !frame_getitem_setitem_other by discriminate.
    apply frame_getitem_setitem_same. }
  split; [apply frame_getitem_setitem_same|].
  intros j k x Hj.
  set (group := Doubles.group_values k (Doubles.column_keys key_col) quality).
  set (m := groupby_mean group). set (s := groupby_std group). set (z := (x - m) / s).
  destruct (nth_joined observed groupby_mean groupby_std key_col quality _ j (Some k) x Hj)
    as (g & Hg & Hrow).
  destruct (find_group_stat observed groupby_mean groupby_std key_col quality k g Hg)
    as [Hgm Hgs].
  fold stats in Hrow. fold (Doubles.merged stats (Doubles.column_keys key_col) quality) in Hrow.
  fold rows in Hrow.
  assert (Hz : Doubles.z_score x g = z).
  { unfold Doubles.z_score, z, m, s, group. rewrite Hgm, Hgs. reflexivity. }
  rewrite !nth_error_map, Hrow. cbn [option_map fst snd].
  rewrite Hz, Hgm, Hgs. fold group. fold m. fold s.
  split; [reflexivity|]. split; [reflexivity|]. split; [reflexivity|].
  split; [reflexivity|].
  exists (Doubles.anomaly_type z threshold_std). split; [reflexivity|].
  split; [apply not_flagged_normal|].
  split; [apply flagged_by_sign|].
  intros Hx Hm' Hs'. unfold z. rewrite Hx, Hm', Hs'.
  split; intros ->; reflexivity.
Qed.

End ZScores.

Section ZScoreExamples.

Import PrimFloat.
Local Open Scope float_scope.

(** C5, as the specification states it, fails for a negative threshold:
    every record with a z-score is flagged then, and the later
    assignment wins, so that of the two records 40 and 60 of one group
    the one above the mean, whose z-score is positive, is ['Unusually
    Low Quality'] at threshold -1. *)
Lemma negative_threshold_against_sign :
  exists (out : Doubles.Frame) (st : Doubles.anomaly_stats)
         (zs : list Doubles.double) (flags : list bool) (types : list string)
         (z : Doubles.double),
    Doubles.detect_age_quality_anomalies false Doubles.group_mean Doubles.group_std
      DoubleExamples.pair "Age_Group" "Biometric_Quality_Score" (-1) = Ok (out, st) /\
    Doubles.getitem out "z_score" = Ok (Doubles.Doubles zs) /\
    Doubles.getitem out "is_anomaly" = Ok (Doubles.Bools flags) /\
    Doubles.getitem out "anomaly_type" = Ok (Doubles.Strings (map Some types)) /\
    nth_error zs 1 = Some z /\ (0 <? z) = true /\
    nth_error flags 1 = Some true /\
    nth_error types 1 = Some "Unusually Low Quality".
Proof.
  do 4 eexists. exists ["Unusually Low Quality"; "Unusually Low Quality"]. eexists.
  split; [vm_compute; reflexivity|].
  split; [vm_compute; reflexivity|]. split; [vm_compute; reflexivity|].
  split; [vm_compute; reflexivity|]. split; [vm_compute; reflexivity|].
  split; [vm_compute; reflexivity|]. split; reflexivity.
Qed.

End ZScoreExamples.

(** ** Effect size *)

Section EffectSize.

Import PrimFloat.
Local Open Scope float_scope.



End EffectSize.

Section DoubleWitnesses.

Import PrimFloat.
Local Open Scope float_scope.

(** What rounding does at the threshold: the six scores 51, 51, 50, 53,
    53 and 66 have mean 54 and standard deviation 6, so that the z-score
    of 66 is 2; pandas finds a deviation just below 6, the quotient is
    just above 2, and 66 is flagged at threshold 2. *)
Lemma rounding_at_the_threshold :
  exists (out : Doubles.Frame) (st : Doubles.anomaly_stats) (z : Doubles.double),
    Doubles.detect_age_quality_anomalies false Doubles.group_mean Doubles.group_std
      DoubleExamples.rounded "Age_Group" "Biometric_Quality_Score" 2 = Ok (out, st) /\
    Doubles.getitem out "group_mean" = Ok (Doubles.Doubles [54; 54; 54; 54; 54; 54]) /\
    Doubles.getitem out "is_anomaly"
    = Ok (Doubles.Bools [false; false; false; false; false; true]) /\
    Doubles.group_std [51; 51; 50; 53; 53; 66] = next_down 6 /\
    (66 - 54) / next_down 6 = z /\ (2 <? z) = true /\ z = next_up 2.
Proof.
  do 3 eexists. split; [vm_compute; reflexivity|].
  split; [vm_compute; reflexivity|]. split; [vm_compute; reflexivity|].
  split; [vm_compute; reflexivity|]. split; [reflexivity|].
  split; vm_compute; reflexivity.
Qed.

Lemma z_score_decides_anomaly_witness :
  (exists (out : Doubles.Frame) (st : Doubles.anomaly_stats)
          (flags : list bool) (types : list string),
      Doubles.detect_age_quality_anomalies false Doubles.group_mean Doubles.group_std
        DoubleExamples.outlier "Age_Group" "Biometric_Quality_Score" 2 = Ok (out, st) /\
      Doubles.getitem out "is_anomaly" = Ok (Doubles.Bools flags) /\
      Doubles.getitem out "anomaly_type" = Ok (Doubles.Strings (map Some types)) /\
      nth_error flags 0 = Some true /\
      nth_error types 0 = Some "Unusually High Quality") /\
  (exists (out : Doubles.Frame) (st : Doubles.anomaly_stats)
          (flags : list bool) (types : list string),
      Doubles.detect_age_quality_anomalies false Doubles.group_mean Doubles.group_std
        DoubleExamples.outlier "Age_Group" "Biometric_Quality_Score" 4 = Ok (out, st) /\
      Doubles.getitem out "is_anomaly" = Ok (Doubles.Bools flags) /\
      Doubles.getitem out "anomaly_type" = Ok (Doubles.Strings (map Some types)) /\
      nth_error flags 0 = Some false /\
      nth_error types 0 = Some "Normal").
Proof.
  split.
  - destruct (z_score_decides_anomaly false Doubles.group_mean Doubles.group_std
                DoubleExamples.outlier "Age_Group" "Biometric_Quality_Score" 2
                _ _ _ eq_refl eq_refl eq_refl eq_refl eq_refl)
      as (out & st & means & stds & zs & flags & types
          & Hd & _ & _ & _ & _ & Hf & Ht & Hrec).
    exists out, st, flags, types.
    split; [exact Hd|]. split; [exact Hf|]. split; [exact Ht|].
    destruct (Hrec 0%nat (Doubles.KStr "A") 65 eq_refl)
      as (_ & _ & _ & Hflag & label & Hlabel & _ & _ & Hex).
    split.
    + rewrite Hflag. vm_compute. reflexivity.
    + rewrite Hlabel. f_equal. apply Hex; vm_compute; reflexivity.
  - destruct (z_score_decides_anomaly false Doubles.group_mean Doubles.group_std
                DoubleExamples.outlier "Age_Group" "Biometric_Quality_Score" 4
                _ _ _ eq_refl eq_refl eq_refl eq_refl eq_refl)
      as (out & st & means & stds & zs & flags & types
          & Hd & _ & _ & _ & _ & Hf & Ht & Hrec).
    exists out, st, flags, types.
    split; [exact Hd|]. split; [exact Hf|]. split; [exact Ht|].
    destruct (Hrec 0%nat (Doubles.KStr "A") 65 eq_refl)
      as (_ & _ & _ & Hflag & label & Hlabel & _ & _ & Hex).
    split.
    + rewrite Hflag. vm_compute. reflexivity.
    + rewrite Hlabel. f_equal. apply Hex; vm_compute; reflexivity.
Defined.


End DoubleWitnesses.
